(** * App Store Optimization toolkit: scoring and keyword clustering

    A shallow embedding of [aso_scorer.py], [keyword_analyzer.py] and
    [metadata_optimizer.py], with the properties the specification states
    about them and further properties of the recommendations, the keyword
    tools, the metadata optimizer, the Custom Product Pages and the
    screenshot captions.

    Numbers.  Python's [int] and [float] metrics are modelled as exact
    rationals ([Q]); [round(x, 1)] is rounding to one decimal with ties to
    the even digit.  Python rounds the binary float it has computed, so
    where the exact value lies halfway between two decimals its result can
    be either neighbour; where the two can differ, the statements on
    rounded values are made as ranges, as relations or as nearness to the
    exact value.  Floats that overflow to an infinity are outside this
    model.

    Overflow.  An [int] too large for a float raises [OverflowError] when
    it meets float arithmetic or is divided with a quotient beyond the
    range of a float.  The model has this exception where the dimension
    scorers divide or convert a metric of the keyword, conversion,
    technical and metadata bundles; an [int] [description_quality] beyond
    that range, which Python may refuse to add to a float, is summed
    exactly.  Elsewhere division is exact division, which is what Python
    performs as long as no conversion fails, in particular on metrics of
    a magnitude up to 10^100.

    Exceptions.  Operations that can raise in Python (true division,
    subscripting a dict, an explicit [raise]) return a [result]; everything
    built from them lives in the [result] monad.

    Dictionaries.  Metric bundles read with [.get(key, default)] are records
    of optional fields; dicts whose iteration order matters
    ([INTENT_CATEGORIES], [clusters], the weight tables) are association
    lists in insertion order.  Strings are ASCII; the one character of
    the source outside ASCII, the bullet of the feature lines, is a
    parameter of the functions that write it. *)

From Stdlib Require Import QArith Qround Qminmax Lqa Lia ZArith Bool.
From Stdlib Require Import Ascii String List Permutation Sorted DecimalString.
Import ListNotations.

Open Scope string_scope.
Open Scope Q_scope.

(* ================================================================== *)
(** * Python primitives *)
(* ================================================================== *)

Module Py.

Inductive exn : Type :=
| ZeroDivisionError
| KeyError (key : string)
| ValueError (msg : string)
| OverflowError.

Inductive result (A : Type) : Type :=
| Ok (a : A)
| Raise (e : exn).
Arguments Ok {A} a.
Arguments Raise {A} e.

Definition ret {A} (a : A) : result A := Ok a.

Definition bind {A B} (m : result A) (k : A -> result B) : result B :=
  match m with
  | Ok a => k a
  | Raise e => Raise e
  end.

(** [d.get(key, default)] on a bundle field. *)
Definition get {A} (field : option A) (default : A) : A :=
  match field with
  | Some v => v
  | None => default
  end.

(** Comparisons, as the booleans Python computes. *)
Definition geb (a b : Q) : bool := Qle_bool b a.
Definition leb (a b : Q) : bool := Qle_bool a b.
Definition gtb (a b : Q) : bool := negb (Qle_bool a b).
Definition ltb (a b : Q) : bool := negb (Qle_bool b a).
Definition eqb (a b : Q) : bool := Qeq_bool a b.

(** [min(a, b)] and [max(a, b)]: the first argument unless the second is
    strictly better. *)
Definition min (a b : Q) : Q := if ltb b a then b else a.
Definition max (a b : Q) : Q := if gtb b a then b else a.

(** [a / b]. *)
Definition truediv (a b : Q) : result Q :=
  if eqb b 0 then Raise ZeroDivisionError else Ok (a / b).

(** The least magnitude that has no float: from [2^1024 - 2^970] on, a
    number rounds beyond the largest float. *)
Definition float_overflow : Q := inject_Z (2 ^ 1024 - 2 ^ 970).

Definition overflows (x : Q) : bool :=
  geb x float_overflow || leb x (- float_overflow).

(** [a / b] for an [int] divisor [b]: the quotient of two [int]s is
    computed exactly and rounded, and [OverflowError] is raised when it
    has no float.  A float [a] has a float quotient by a non-zero
    [int]. *)
Definition truediv_by_int (a b : Q) : result Q :=
  if eqb b 0 then Raise ZeroDivisionError
  else if overflows (a / b) then Raise OverflowError
  else Ok (a / b).

(** The float that [a] becomes in arithmetic with a float:
    [OverflowError] is raised for an [int] that has none. *)
Definition as_float (a : Q) : result Q :=
  if overflows a then Raise OverflowError else Ok a.

(** [a - b] for a float [b]. *)
Definition sub_float (a b : Q) : result Q :=
  bind (as_float a) (fun x => Ok (x - b)).

(** [a / b] for a float [b]. *)
Definition truediv_by_float (a b : Q) : result Q :=
  bind (as_float a) (fun x => truediv x b).

(** [sum(xs)]. *)
Definition sum (xs : list Q) : Q := fold_left Qplus xs 0.

(** Nearest integer, ties to even. *)
Definition round_half_even (x : Q) : Z :=
  let f := Qfloor x in
  match Qcompare (x - inject_Z f) (1 # 2) with
  | Lt => f
  | Gt => (f + 1)%Z
  | Eq => if Z.even f then f else (f + 1)%Z
  end.

(** [round(x, 1)]. *)
Definition round1 (x : Q) : Q := round_half_even (x * 10) # 10.

(** [d[key]] on an insertion-ordered dict. *)
Fixpoint getitem {A} (d : list (string * A)) (key : string) : result A :=
  match d with
  | [] => Raise (KeyError key)
  | (k, v) :: d' => if String.eqb k key then Ok v else getitem d' key
  end.

(** [d.get(key)]. *)
Fixpoint lookup {A} (d : list (string * A)) (key : string) : option A :=
  match d with
  | [] => None
  | (k, v) :: d' => if String.eqb k key then Some v else lookup d' key
  end.

(** [xs.append(x)]. *)
Definition append {A} (xs : list A) (x : A) : list A := (xs ++ [x])%list.

(** [x in xs] for strings. *)
Definition contains (xs : list string) (x : string) : bool :=
  existsb (String.eqb x) xs.

(** ** Characters and strings *)

Definition in_range (lo hi c : ascii) : bool :=
  (nat_of_ascii lo <=? nat_of_ascii c)%nat &&
  (nat_of_ascii c <=? nat_of_ascii hi)%nat.

Definition is_upper (c : ascii) : bool := in_range "A" "Z" c.
Definition is_lower (c : ascii) : bool := in_range "a" "z" c.
Definition is_digit (c : ascii) : bool := in_range "0" "9" c.

(** The class [\w]. *)
Definition is_word (c : ascii) : bool :=
  is_upper c || is_lower c || is_digit c || Ascii.eqb c "_".

(** The characters [str.split()] splits on. *)
Definition is_space (c : ascii) : bool :=
  in_range "009" "013" c || in_range "028" "032" c.

Definition lower_char (c : ascii) : ascii :=
  if is_upper c then ascii_of_nat (nat_of_ascii c + 32) else c.
Definition upper_char (c : ascii) : ascii :=
  if is_lower c then ascii_of_nat (nat_of_ascii c - 32) else c.

(** [s.lower()]. *)
Fixpoint lower (s : string) : string :=
  match s with
  | EmptyString => EmptyString
  | String c s' => String (lower_char c) (lower s')
  end.

(** [s.title()]: a cased character is upper-cased when it follows an
    uncased one and lower-cased otherwise. *)
Fixpoint title_from (prev_cased : bool) (s : string) : string :=
  match s with
  | EmptyString => EmptyString
  | String c s' =>
      let cased := is_upper c || is_lower c in
      String (if prev_cased then lower_char c else upper_char c)
             (title_from cased s')
  end.
Definition title (s : string) : string := title_from false s.

Definition flush (cur : string) : list string :=
  match cur with
  | EmptyString => []
  | _ => [cur]
  end.

(** Maximal runs of characters satisfying [keep], left to right; [cur] is
    the run being read. *)
Fixpoint runs (keep : ascii -> bool) (s cur : string) : list string :=
  match s with
  | EmptyString => flush cur
  | String c s' =>
      if keep c then runs keep s' (cur ++ String c EmptyString)
      else (flush cur ++ runs keep s' EmptyString)%list
  end.

(** [re.findall(r'\w+', s)]. *)
Definition findall_word (s : string) : list string :=
  runs is_word s EmptyString.

(** [s.split()]. *)
Definition split (s : string) : list string :=
  runs (fun c => negb (is_space c)) s EmptyString.

(** [' '.join(ws)]. *)
Definition join_space (ws : list string) : string := String.concat " " ws.

(** [template.format(obj=obj)] for a template whose only replacement
    field is [{obj}]; [skip] counts the characters of a field still to be
    dropped. *)
Fixpoint format_obj (skip : nat) (template obj : string) : string :=
  match template with
  | EmptyString => EmptyString
  | String c rest =>
      match skip with
      | S k => format_obj k rest obj
      | O =>
          if String.prefix "{obj}" template
          then obj ++ format_obj 4 rest obj
          else String c (format_obj 0 rest obj)
      end
  end.

(** Sets of strings, kept as duplicate-free lists in insertion order.
    The order in which Python iterates over a set is not part of this
    representation. *)
Definition set_add (s : list string) (x : string) : list string :=
  if contains s x then s else append s x.

(** [set(xs)]. *)
Definition set_of (xs : list string) : list string :=
  fold_left set_add xs [].

(** [a.intersection(b)]. *)
Definition intersection (a b : list string) : list string :=
  filter (contains b) a.

(** [d[key] = v] on an insertion-ordered dict: an existing key keeps its
    position. *)
Fixpoint setitem {A} (d : list (string * A)) (key : string) (v : A)
  : list (string * A) :=
  match d with
  | [] => [(key, v)]
  | (k, w) :: d' =>
      if String.eqb k key then (k, v) :: d' else (k, w) :: setitem d' key v
  end.

(** [s or default] for an optional string. *)
Definition str_or (s : option string) (default : string) : string :=
  match s with
  | Some EmptyString | None => default
  | Some v => v
  end.

(** [xs[:n]] for any integer [n]; a negative [n] counts from the end. *)
Definition slice_to {A} (n : Z) (xs : list A) : list A :=
  if (0 <=? n)%Z then firstn (Z.to_nat n) xs
  else firstn (List.length xs - Z.to_nat (- n)) xs.

End Py.

Notation "x <- m ;; k" := (Py.bind m (fun x => k))
  (at level 61, m at next level, right associativity).

Notation "a >=? b" := (Py.geb a b) (at level 70) : Q_scope.
Notation "a >? b" := (Py.gtb a b) (at level 70) : Q_scope.
Notation "a <? b" := (Py.ltb a b) (at level 70) : Q_scope.
Notation "a <=? b" := (Py.leb a b) (at level 70) : Q_scope.
Notation "a =? b" := (Py.eqb a b) (at level 70) : Q_scope.

(* ================================================================== *)
(** * aso_scorer.py *)
(* ================================================================== *)

Module ASOScorer.

(** ** Class constants *)

(** Default score weights for different components (total = 100). *)
Definition WEIGHTS : list (string * Z) :=
  [ ("metadata_quality", 20%Z);
    ("ratings_reviews", 20%Z);
    ("keyword_performance", 20%Z);
    ("conversion_metrics", 20%Z);
    ("technical_performance", 15%Z);
    ("visual_optimization", 5%Z) ].

(** Google Play Store weights. *)
Definition GOOGLE_WEIGHTS : list (string * Z) :=
  [ ("metadata_quality", 20%Z);
    ("ratings_reviews", 20%Z);
    ("keyword_performance", 20%Z);
    ("conversion_metrics", 15%Z);
    ("technical_performance", 20%Z);
    ("visual_optimization", 5%Z) ].

(** Apple App Store weights. *)
Definition APPLE_WEIGHTS : list (string * Z) :=
  [ ("metadata_quality", 20%Z);
    ("ratings_reviews", 20%Z);
    ("keyword_performance", 20%Z);
    ("conversion_metrics", 20%Z);
    ("technical_performance", 10%Z);
    ("visual_optimization", 10%Z) ].

(** [sum(weights.values())]. *)
Definition sum_values (weights : list (string * Z)) : Z :=
  fold_left Z.add (map snd weights) 0%Z.

(** [BENCHMARKS[metric][threshold]], one constant per entry. *)
Module BENCHMARKS.
Definition title_keyword_usage_min : Q := 1.
Definition title_keyword_usage_target : Q := 2.
Definition description_length_min : Q := 500.
Definition description_length_target : Q := 2000.
Definition keyword_density_min : Q := 2.
Definition keyword_density_optimal : Q := 5.
Definition keyword_density_max : Q := 8.
Definition average_rating_min : Q := 3.5.
Definition average_rating_target : Q := 4.5.
Definition ratings_count_min : Q := 100.
Definition ratings_count_target : Q := 5000.
Definition keywords_top_10_min : Q := 2.
Definition keywords_top_10_target : Q := 10.
Definition keywords_top_50_min : Q := 5.
Definition keywords_top_50_target : Q := 20.
Definition conversion_rate_min : Q := 0.02.
Definition conversion_rate_target : Q := 0.10.
End BENCHMARKS.

(** [TECHNICAL_BENCHMARKS[metric][threshold]]. *)
Module TECHNICAL_BENCHMARKS.
Definition crash_rate_good : Q := 1.0.
Definition crash_rate_acceptable : Q := 2.0.
Definition anr_rate_good : Q := 0.5.
Definition anr_rate_acceptable : Q := 1.0.
Definition battery_impact_good : Q := 5.0.
Definition battery_impact_acceptable : Q := 10.0.
End TECHNICAL_BENCHMARKS.

(** ** Input bundles: every key is optional *)

Record Metadata : Type := {
  title_keyword_count : option Q;
  title_length : option Q;
  description_length : option Q;
  description_quality : option Q;
  keyword_density : option Q
}.

Record Ratings : Type := {
  average_rating : option Q;
  total_ratings : option Q;
  recent_ratings_30d : option Q
}.

Record KeywordPerformance : Type := {
  top_10 : option Q;
  top_50 : option Q;
  top_100 : option Q;
  improving_keywords : option Q
}.

Record Conversion : Type := {
  impression_to_install : option Q;
  downloads_last_30_days : option Q;
  downloads_trend : option string
}.

(** The keyword arguments of [score_technical_performance]. *)
Record TechnicalData : Type := {
  crash_rate : option Q;
  anr_rate : option Q;
  battery_impact : option Q
}.

(** The keyword arguments of [score_visual_optimization]. *)
Record VisualData : Type := {
  has_captions : option bool;
  cpp_count : option Q;
  has_video : option bool
}.

(** ** Dimension scorers

    Each block of a scorer that assigns one partial score is a function
    named after the variable it assigns. *)

(** Title score (0-35 points), before the cap. *)
Definition title_score (title_keywords title_length : Q) : Q :=
  let title_score :=
    if title_keywords >=? BENCHMARKS.title_keyword_usage_target then 35
    else if title_keywords >=? BENCHMARKS.title_keyword_usage_min then 25
    else 10 in
  (* Adjust for title length usage *)
  if title_length >? 25 then title_score + 0 else title_score - 5.

(** Description score (0-35 points), before the cap. *)
Definition desc_score (desc_length desc_quality : Q) : Q :=
  let desc_score :=
    if desc_length >=? BENCHMARKS.description_length_target then 25
    else if desc_length >=? BENCHMARKS.description_length_min then 15
    else 5 in
  (* Add quality bonus *)
  desc_score + desc_quality * 10.

(** Keyword density score (0-30 points). *)
Definition density_score (keyword_density : Q) : Py.result Q :=
  if (BENCHMARKS.keyword_density_min <=? keyword_density)
     && (keyword_density <=? BENCHMARKS.keyword_density_optimal)
  then Py.ret 30
  else if keyword_density <? BENCHMARKS.keyword_density_min then
    (* Too low - proportional scoring *)
    q <- Py.truediv_by_int keyword_density BENCHMARKS.keyword_density_min ;;
    Py.ret (q * 20)
  else
    (* Too high (keyword stuffing) - penalty *)
    let excess := keyword_density - BENCHMARKS.keyword_density_optimal in
    Py.ret (Py.max (30 - excess * 5) 0).

Definition score_metadata_quality (metadata : Metadata) : Py.result Q :=
  let scores := [] in
  let title_keywords := Py.get metadata.(title_keyword_count) 0 in
  let title_length := Py.get metadata.(title_length) 0 in
  let title_score := title_score title_keywords title_length in
  let scores := Py.append scores (Py.min title_score 35) in
  let desc_length := Py.get metadata.(description_length) 0 in
  let desc_quality := Py.get metadata.(description_quality) 0.0 in
  let desc_score := desc_score desc_length desc_quality in
  let scores := Py.append scores (Py.min desc_score 35) in
  let keyword_density := Py.get metadata.(keyword_density) 0.0 in
  density_score <- density_score keyword_density ;;
  let scores := Py.append scores density_score in
  Py.ret (Py.round1 (Py.sum scores)).

(** Rating quality score (0-50 points). *)
Definition rating_quality_score (average_rating : Q) : Py.result Q :=
  if average_rating >=? BENCHMARKS.average_rating_target then Py.ret 50
  else if average_rating >=? BENCHMARKS.average_rating_min then
    (* Proportional scoring between min and target *)
    proportion <-
      Py.truediv (average_rating - BENCHMARKS.average_rating_min)
                 (BENCHMARKS.average_rating_target
                  - BENCHMARKS.average_rating_min) ;;
    Py.ret (30 + proportion * 20)
  else if average_rating >=? 3.0 then Py.ret 20
  else Py.ret 10.

(** Rating volume score (0-30 points). *)
Definition rating_volume_score (total_ratings : Q) : Py.result Q :=
  if total_ratings >=? BENCHMARKS.ratings_count_target then Py.ret 30
  else if total_ratings >=? BENCHMARKS.ratings_count_min then
    (* Proportional scoring *)
    proportion <-
      Py.truediv (total_ratings - BENCHMARKS.ratings_count_min)
                 (BENCHMARKS.ratings_count_target
                  - BENCHMARKS.ratings_count_min) ;;
    Py.ret (15 + proportion * 15)
  else
    (* Very low volume *)
    q <- Py.truediv total_ratings BENCHMARKS.ratings_count_min ;;
    Py.ret (q * 15).

(** Rating velocity score (0-20 points). *)
Definition rating_velocity_score (recent_ratings : Q) : Q :=
  if recent_ratings >? 100 then 20
  else if recent_ratings >? 50 then 15
  else if recent_ratings >? 10 then 10
  else 5.

Definition score_ratings_reviews (ratings : Ratings) : Py.result Q :=
  let average_rating := Py.get ratings.(average_rating) 0.0 in
  let total_ratings := Py.get ratings.(total_ratings) 0 in
  let recent_ratings := Py.get ratings.(recent_ratings_30d) 0 in
  rating_quality_score <- rating_quality_score average_rating ;;
  rating_volume_score <- rating_volume_score total_ratings ;;
  let velocity_score := rating_velocity_score recent_ratings in
  let total_score :=
    rating_quality_score + rating_volume_score + velocity_score in
  Py.ret (Py.round1 (Py.min total_score 100)).

(** Top 10 score (0-50 points) - most valuable rankings. *)
Definition top_10_score (top_10_count : Q) : Py.result Q :=
  if top_10_count >=? BENCHMARKS.keywords_top_10_target then Py.ret 50
  else if top_10_count >=? BENCHMARKS.keywords_top_10_min then
    proportion <-
      Py.truediv_by_int (top_10_count - BENCHMARKS.keywords_top_10_min)
                        (BENCHMARKS.keywords_top_10_target
                         - BENCHMARKS.keywords_top_10_min) ;;
    Py.ret (25 + proportion * 25)
  else
    q <- Py.truediv_by_int top_10_count BENCHMARKS.keywords_top_10_min ;;
    Py.ret (q * 25).

(** Top 50 score (0-30 points). *)
Definition top_50_score (top_50_count : Q) : Py.result Q :=
  if top_50_count >=? BENCHMARKS.keywords_top_50_target then Py.ret 30
  else if top_50_count >=? BENCHMARKS.keywords_top_50_min then
    proportion <-
      Py.truediv_by_int (top_50_count - BENCHMARKS.keywords_top_50_min)
                        (BENCHMARKS.keywords_top_50_target
                         - BENCHMARKS.keywords_top_50_min) ;;
    Py.ret (15 + proportion * 15)
  else
    q <- Py.truediv_by_int top_50_count BENCHMARKS.keywords_top_50_min ;;
    Py.ret (q * 15).

(** Coverage score (0-10 points) - based on top 100. *)
Definition coverage_score (top_100_count : Q) : Py.result Q :=
  q <- Py.truediv_by_int top_100_count 30 ;;
  Py.ret (Py.min (q * 10) 10).

(** Trend score (0-10 points) - are rankings improving? *)
Definition keyword_trend_score (improving_keywords : Q) : Q :=
  if improving_keywords >? 5 then 10
  else if improving_keywords >? 0 then 5
  else 0.

Definition score_keyword_performance
           (keyword_performance : KeywordPerformance) : Py.result Q :=
  let top_10_count := Py.get keyword_performance.(top_10) 0 in
  let top_50_count := Py.get keyword_performance.(top_50) 0 in
  let top_100_count := Py.get keyword_performance.(top_100) 0 in
  let improving_keywords :=
    Py.get keyword_performance.(improving_keywords) 0 in
  top_10_score <- top_10_score top_10_count ;;
  top_50_score <- top_50_score top_50_count ;;
  coverage_score <- coverage_score top_100_count ;;
  let trend_score := keyword_trend_score improving_keywords in
  let total_score :=
    top_10_score + top_50_score + coverage_score + trend_score in
  Py.ret (Py.round1 (Py.min total_score 100)).

(** Conversion rate score (0-70 points). *)
Definition conversion_score (conversion_rate : Q) : Py.result Q :=
  if conversion_rate >=? BENCHMARKS.conversion_rate_target then Py.ret 70
  else if conversion_rate >=? BENCHMARKS.conversion_rate_min then
    above_min <-
      Py.sub_float conversion_rate BENCHMARKS.conversion_rate_min ;;
    proportion <-
      Py.truediv above_min
                 (BENCHMARKS.conversion_rate_target
                  - BENCHMARKS.conversion_rate_min) ;;
    Py.ret (35 + proportion * 35)
  else
    q <- Py.truediv_by_float conversion_rate BENCHMARKS.conversion_rate_min ;;
    Py.ret (q * 35).

(** Download velocity score (0-20 points). *)
Definition download_velocity_score (downloads_30d : Q) : Q :=
  if downloads_30d >? 10000 then 20
  else if downloads_30d >? 1000 then 15
  else if downloads_30d >? 100 then 10
  else 5.

(** Trend bonus (0-10 points). *)
Definition download_trend_score (downloads_trend : string) : Q :=
  if String.eqb downloads_trend "up" then 10
  else if String.eqb downloads_trend "stable" then 5
  else 0.

Definition score_conversion_metrics (conversion : Conversion)
  : Py.result Q :=
  let conversion_rate := Py.get conversion.(impression_to_install) 0.0 in
  let downloads_30d := Py.get conversion.(downloads_last_30_days) 0 in
  let downloads_trend := Py.get conversion.(downloads_trend) "stable" in
  conversion_score <- conversion_score conversion_rate ;;
  let velocity_score := download_velocity_score downloads_30d in
  let trend_score := download_trend_score downloads_trend in
  let total_score := conversion_score + velocity_score + trend_score in
  Py.ret (Py.round1 (Py.min total_score 100)).

(** Crash rate score (0-40 points) - most impactful metric. *)
Definition crash_score (crash_rate : Q) : Py.result Q :=
  if crash_rate <=? TECHNICAL_BENCHMARKS.crash_rate_good then Py.ret 40.0
  else if crash_rate <=? TECHNICAL_BENCHMARKS.crash_rate_acceptable then
    (* Linear interpolation between good and acceptable *)
    above_good <-
      Py.sub_float crash_rate TECHNICAL_BENCHMARKS.crash_rate_good ;;
    proportion <-
      Py.truediv above_good
                 (TECHNICAL_BENCHMARKS.crash_rate_acceptable
                  - TECHNICAL_BENCHMARKS.crash_rate_good) ;;
    Py.ret (40.0 - proportion * 20.0)
  else
    (* Above acceptable threshold - steep penalty *)
    excess <-
      Py.sub_float crash_rate TECHNICAL_BENCHMARKS.crash_rate_acceptable ;;
    Py.ret (Py.max (20.0 - excess * 10.0) 0.0).

(** ANR rate score (0-35 points) - critical for Google Play ranking. *)
Definition anr_score (anr_rate : Q) : Py.result Q :=
  if anr_rate <=? TECHNICAL_BENCHMARKS.anr_rate_good then Py.ret 35.0
  else if anr_rate <=? TECHNICAL_BENCHMARKS.anr_rate_acceptable then
    above_good <-
      Py.sub_float anr_rate TECHNICAL_BENCHMARKS.anr_rate_good ;;
    proportion <-
      Py.truediv above_good
                 (TECHNICAL_BENCHMARKS.anr_rate_acceptable
                  - TECHNICAL_BENCHMARKS.anr_rate_good) ;;
    Py.ret (35.0 - proportion * 17.5)
  else
    excess <-
      Py.sub_float anr_rate TECHNICAL_BENCHMARKS.anr_rate_acceptable ;;
    Py.ret (Py.max (17.5 - excess * 8.75) 0.0).

(** Battery impact score (0-25 points). *)
Definition battery_score (battery_impact : Q) : Py.result Q :=
  if battery_impact <=? TECHNICAL_BENCHMARKS.battery_impact_good
  then Py.ret 25.0
  else if battery_impact <=? TECHNICAL_BENCHMARKS.battery_impact_acceptable
  then
    above_good <-
      Py.sub_float battery_impact TECHNICAL_BENCHMARKS.battery_impact_good ;;
    proportion <-
      Py.truediv above_good
                 (TECHNICAL_BENCHMARKS.battery_impact_acceptable
                  - TECHNICAL_BENCHMARKS.battery_impact_good) ;;
    Py.ret (25.0 - proportion * 12.5)
  else
    excess <-
      Py.sub_float battery_impact
                   TECHNICAL_BENCHMARKS.battery_impact_acceptable ;;
    Py.ret (Py.max (12.5 - excess * 2.5) 0.0).

Definition score_technical_performance (technical_data : TechnicalData)
  : Py.result Q :=
  let crash_rate := Py.get technical_data.(crash_rate) 0.0 in
  let anr_rate := Py.get technical_data.(anr_rate) 0.0 in
  let battery_impact := Py.get technical_data.(battery_impact) 0.0 in
  crash_score <- crash_score crash_rate ;;
  anr_score <- anr_score anr_rate ;;
  battery_score <- battery_score battery_impact ;;
  let total_score := crash_score + anr_score + battery_score in
  Py.ret (Py.round1 (Py.min total_score 100.0)).

(** The points of the 5-point visual checklist. *)
Definition visual_points (has_captions : bool) (cpp_count : Q)
           (has_video : bool) : Q :=
  let points := 0 in
  (* Screenshot captions (3 points) - highest impact visual element *)
  let points := if has_captions then points + 3 else points in
  (* Custom Product Pages / custom listings (1 point) *)
  let points := if cpp_count >? 0 then points + 1 else points in
  (* Video preview (1 point) *)
  if has_video then points + 1 else points.

Definition score_visual_optimization (visual_data : VisualData)
  : Py.result Q :=
  let has_captions := Py.get visual_data.(has_captions) false in
  let cpp_count := Py.get visual_data.(cpp_count) 0 in
  let has_video := Py.get visual_data.(has_video) false in
  let points := visual_points has_captions cpp_count has_video in
  (* Map 0-5 points to 0-100 scale *)
  q <- Py.truediv points 5.0 ;;
  let score := q * 100.0 in
  Py.ret (Py.round1 score).

(** ** Aggregation *)

Definition _assess_health_status (overall_score : Q) : string :=
  if overall_score >=? 80 then "Excellent - Top-tier ASO performance"
  else if overall_score >=? 65
  then "Good - Competitive ASO with room for improvement"
  else if overall_score >=? 50 then "Fair - Needs strategic improvements"
  else "Poor - Requires immediate ASO overhaul".

(** One entry of [score_breakdown]; [data_provided] exists only for the
    two optional dimensions. *)
Record DimensionResult : Type := {
  score : Q;
  weight : Z;
  weighted_contribution : Q;
  data_provided : option bool
}.

(** The scorer object. *)
Record t : Type := {
  score_breakdown : list (string * DimensionResult);
  platform : option string;
  _active_weights : list (string * Z)
}.

Definition _resolve_weights (self_platform : option string)
  : list (string * Z) :=
  match self_platform with
  | Some p =>
      if String.eqb p "google" then GOOGLE_WEIGHTS
      else if String.eqb p "apple" then APPLE_WEIGHTS
      else WEIGHTS
  | None => WEIGHTS
  end.

(** [ASOScorer(platform)]: an absent or empty platform is [None]. *)
Definition __init__ (platform : option string) : t :=
  let self_platform :=
    match platform with
    | Some p => if String.eqb p EmptyString then None else Some (Py.lower p)
    | None => None
    end in
  {| score_breakdown := [];
     platform := self_platform;
     _active_weights := _resolve_weights self_platform |}.

(** The report of [calculate_overall_score].  The recommendation lists
    ([recommendations], [priority_actions], [strengths], [weaknesses]) are
    computed from the sub-scores after the fields below and are left
    out. *)
Record ScoreReport : Type := {
  overall_score : Q;
  health_status : string;
  report_platform : string;
  weights_used : list (string * Z);
  report_breakdown : list (string * DimensionResult)
}.

(** [score * (weights[name] / 100)], the term of one dimension. *)
Definition weighted (weights : list (string * Z)) (name : string)
           (dimension_score : Q) : Py.result Q :=
  w <- Py.getitem weights name ;;
  f <- Py.truediv (inject_Z w) 100 ;;
  Py.ret (dimension_score * f).

Definition breakdown_entry (weights : list (string * Z)) (name : string)
           (dimension_score : Q) (provided : option bool)
  : Py.result (string * DimensionResult) :=
  w <- Py.getitem weights name ;;
  c <- weighted weights name dimension_score ;;
  Py.ret (name, {| score := dimension_score;
                   weight := w;
                   weighted_contribution := Py.round1 c;
                   data_provided := provided |}).

Definition is_some {A} (o : option A) : bool :=
  match o with Some _ => true | None => false end.

(** Returns the report and the scorer with its [score_breakdown]
    replaced. *)
Definition calculate_overall_score (self : t)
           (metadata : Metadata) (ratings : Ratings)
           (keyword_performance : KeywordPerformance)
           (conversion : Conversion)
           (technical_data : option TechnicalData)
           (visual_data : option VisualData)
  : Py.result (ScoreReport * t) :=
  let weights := self.(_active_weights) in
  (* Calculate component scores *)
  metadata_score <- score_metadata_quality metadata ;;
  ratings_score <- score_ratings_reviews ratings ;;
  keyword_score <- score_keyword_performance keyword_performance ;;
  conversion_score <- score_conversion_metrics conversion ;;
  (* Technical and visual scores default to neutral (50) *)
  technical_score <-
    match technical_data with
    | Some d => score_technical_performance d
    | None => Py.ret 50.0
    end ;;
  visual_score <-
    match visual_data with
    | Some d => score_visual_optimization d
    | None => Py.ret 50.0
    end ;;
  (* Calculate weighted overall score *)
  m <- weighted weights "metadata_quality" metadata_score ;;
  r <- weighted weights "ratings_reviews" ratings_score ;;
  k <- weighted weights "keyword_performance" keyword_score ;;
  c <- weighted weights "conversion_metrics" conversion_score ;;
  t <- weighted weights "technical_performance" technical_score ;;
  v <- weighted weights "visual_optimization" visual_score ;;
  let overall_score := m + r + k + c + t + v in
  (* Store breakdown *)
  bm <- breakdown_entry weights "metadata_quality" metadata_score None ;;
  br <- breakdown_entry weights "ratings_reviews" ratings_score None ;;
  bk <- breakdown_entry weights "keyword_performance" keyword_score None ;;
  bc <- breakdown_entry weights "conversion_metrics" conversion_score None ;;
  bt <- breakdown_entry weights "technical_performance" technical_score
                        (Some (is_some technical_data)) ;;
  bv <- breakdown_entry weights "visual_optimization" visual_score
                        (Some (is_some visual_data)) ;;
  let breakdown := [bm; br; bk; bc; bt; bv] in
  (* Assess overall health *)
  let health_status := _assess_health_status overall_score in
  Py.ret ({| overall_score := Py.round1 overall_score;
             health_status := health_status;
             report_platform := Py.str_or self.(platform) "default";
             weights_used := weights;
             report_breakdown := breakdown |},
          {| score_breakdown := breakdown;
             platform := self.(platform);
             _active_weights := self.(_active_weights) |}).

(** The module-level convenience function. *)
Definition calculate_aso_score
           (metadata : Metadata) (ratings : Ratings)
           (keyword_performance : KeywordPerformance)
           (conversion : Conversion)
           (technical_data : option TechnicalData)
           (visual_data : option VisualData)
           (platform : option string) : Py.result ScoreReport :=
  let scorer := __init__ platform in
  res <- calculate_overall_score scorer metadata ratings keyword_performance
                                 conversion technical_data visual_data ;;
  Py.ret (fst res).

End ASOScorer.

(* ================================================================== *)
(** * keyword_analyzer.py *)
(* ================================================================== *)

Module KeywordAnalyzer.

(** ** Class constants *)

Module COMPETITION_THRESHOLDS.
Definition low : Q := 1000.
Definition medium : Q := 5000.
Definition high : Q := 10000.
End COMPETITION_THRESHOLDS.

Module VOLUME_CATEGORIES.
Definition very_low : Q := 1000.
Definition low : Q := 5000.
Definition medium : Q := 20000.
Definition high : Q := 100000.
Definition very_high : Q := 500000.
End VOLUME_CATEGORIES.

(** Intent categories for semantic clustering, in the order of the
    dict literal. *)
Definition INTENT_CATEGORIES : list (string * list string) :=
  [ ("track", ["track"; "tracking"; "monitor"; "log"; "record"; "measure";
               "count"; "diary"]);
    ("manage", ["manage"; "management"; "organize"; "organizer"; "control";
                "handle"; "coordinate"]);
    ("plan", ["plan"; "planner"; "planning"; "schedule"; "scheduler";
              "calendar"; "agenda"; "timeline"]);
    ("create", ["create"; "creator"; "make"; "maker"; "build"; "builder";
                "design"; "designer"; "edit"; "editor"]);
    ("learn", ["learn"; "learning"; "study"; "education"; "course";
               "tutorial"; "teach"; "training"]);
    ("find", ["find"; "finder"; "search"; "discover"; "locate"; "lookup";
              "browse"; "explore"]);
    ("compare", ["compare"; "comparison"; "versus"; "review"; "rate";
                 "rating"; "rank"; "ranking"]);
    ("share", ["share"; "sharing"; "social"; "connect"; "collaborate";
               "collaboration"; "team"; "group"]);
    ("save", ["save"; "saving"; "budget"; "budgeting"; "money"; "finance";
              "financial"; "expense"; "cost"]);
    ("health", ["health"; "healthy"; "fitness"; "workout"; "exercise";
                "diet"; "nutrition"; "wellness"; "meditation"]);
    ("communicate", ["chat"; "message"; "messaging"; "call"; "calling";
                     "video"; "voice"; "talk"]);
    ("automate", ["automate"; "automation"; "automatic"; "auto"; "smart";
                  "ai"; "intelligent"; "reminder"]) ].

(** ** Keyword evaluation *)

Definition _calculate_competition_level (competing_apps : Q) : string :=
  if competing_apps <? COMPETITION_THRESHOLDS.low then "low"
  else if competing_apps <? COMPETITION_THRESHOLDS.medium then "medium"
  else if competing_apps <? COMPETITION_THRESHOLDS.high then "high"
  else "very_high".

Definition _categorize_search_volume (search_volume : Q) : string :=
  if search_volume <? VOLUME_CATEGORIES.very_low then "very_low"
  else if search_volume <? VOLUME_CATEGORIES.low then "low"
  else if search_volume <? VOLUME_CATEGORIES.medium then "medium"
  else if search_volume <? VOLUME_CATEGORIES.high then "high"
  else "very_high".

Definition _calculate_keyword_difficulty (search_volume competing_apps : Q)
  : Py.result Q :=
  if competing_apps =? 0 then Py.ret 0.0
  else
    (* Competition factor (0-1) *)
    q <- Py.truediv competing_apps 50000 ;;
    let competition_factor := Py.min q 1.0 in
    (* Volume factor (0-1) - higher volume = more difficulty *)
    q <- Py.truediv search_volume 1000000 ;;
    let volume_factor := Py.min q 1.0 in
    (* Difficulty score (weighted average) *)
    let difficulty := (competition_factor * 0.7 + volume_factor * 0.3) * 100 in
    Py.ret (Py.round1 difficulty).

Definition _calculate_potential_score
           (search_volume competing_apps relevance_score : Q)
  : Py.result Q :=
  (* Volume score (0-40 points) *)
  q <- Py.truediv search_volume 100000 ;;
  let volume_score := Py.min (q * 40) 40 in
  (* Competition score (0-30 points) - inverse relationship *)
  competition_score <-
    (if competing_apps >? 0 then
       q <- Py.truediv competing_apps 500 ;;
       Py.ret (Py.max (30 - q) 0)
     else Py.ret 30) ;;
  (* Relevance score (0-30 points) *)
  let relevance_points := relevance_score * 30 in
  let total_score := volume_score + competition_score + relevance_points in
  Py.ret (Py.round1 (Py.min total_score 100)).

Definition _generate_recommendation
           (potential_score difficulty_score relevance_score : Q) : string :=
  if relevance_score <? 0.5 then "Low relevance - avoid targeting"
  else if potential_score >=? 70 then "High priority - target immediately"
  else if potential_score >=? 50 then
    if difficulty_score <? 50 then "Good opportunity - include in metadata"
    else "Competitive - use in description, not title"
  else if potential_score >=? 30
  then "Secondary keyword - use for long-tail variations"
  else "Low potential - deprioritize".

(** The analysis dict of one keyword. *)
Record KeywordRecord : Type := {
  keyword : string;
  search_volume : Q;
  volume_category : string;
  competing_apps : Q;
  competition_level : string;
  relevance_score : Q;
  difficulty_score : Q;
  potential_score : Q;
  recommendation : string;
  keyword_length : nat;
  is_long_tail : bool
}.

(** The analyzer object: its cache of analyses. *)
Record t : Type := {
  analyzed_keywords : list (string * KeywordRecord)
}.

Definition __init__ : t := {| analyzed_keywords := [] |}.

(** Returns the analysis and the analyzer with the analysis cached. *)
Definition analyze_keyword (self : t) (keyword : string)
           (search_volume competing_apps relevance_score : Q)
  : Py.result (KeywordRecord * t) :=
  let competition_level := _calculate_competition_level competing_apps in
  let volume_category := _categorize_search_volume search_volume in
  difficulty_score <-
    _calculate_keyword_difficulty search_volume competing_apps ;;
  (* Calculate potential score (0-100) *)
  potential_score <-
    _calculate_potential_score search_volume competing_apps relevance_score ;;
  let analysis :=
    {| keyword := keyword;
       search_volume := search_volume;
       volume_category := volume_category;
       competing_apps := competing_apps;
       competition_level := competition_level;
       relevance_score := relevance_score;
       difficulty_score := difficulty_score;
       potential_score := potential_score;
       recommendation :=
         _generate_recommendation potential_score difficulty_score
                                  relevance_score;
       keyword_length := List.length (Py.split keyword);
       is_long_tail := (3 <=? List.length (Py.split keyword))%nat |} in
  Py.ret (analysis,
          {| analyzed_keywords :=
               Py.setitem self.(analyzed_keywords) keyword analysis |}).

(** ** Cluster scoring *)

(** The per-keyword data dict read by [score_cluster]; every key is
    optional. *)
Module Data.
Record t : Type := {
  search_volume : option Q;
  competing_apps : option Q;
  relevance_score : option Q
}.
(** [{}]. *)
Definition empty : t :=
  {| search_volume := None; competing_apps := None;
     relevance_score := None |}.
End Data.

(** The running totals of the loop of [score_cluster]. *)
Record Totals : Type := {
  total_volume : Q;
  total_relevance : Q;
  total_opportunity : Q;
  count : Q
}.

(** One iteration of the loop of [score_cluster]. *)
Definition score_cluster_step (keyword_data : list (string * Data.t))
           (acc : Totals) (keyword : string) : Py.result Totals :=
  let data := Py.get (Py.lookup keyword_data keyword) Data.empty in
  let volume := Py.get data.(Data.search_volume) 0 in
  let competition := Py.get data.(Data.competing_apps) 5000 in
  let relevance := Py.get data.(Data.relevance_score) 0.5 in
  (* Opportunity = high volume + low competition *)
  opportunity <-
    (if competition >? 0 then
       q <- Py.truediv volume competition ;;
       Py.ret (q * relevance)
     else Py.ret (volume * relevance)) ;;
  Py.ret {| total_volume := acc.(total_volume) + volume;
            total_relevance := acc.(total_relevance) + relevance;
            total_opportunity := acc.(total_opportunity) + opportunity;
            count := acc.(count) + 1 |}.

Fixpoint score_cluster_loop (keyword_data : list (string * Data.t))
         (acc : Totals) (keywords : list string) : Py.result Totals :=
  match keywords with
  | [] => Py.ret acc
  | keyword :: rest =>
      acc' <- score_cluster_step keyword_data acc keyword ;;
      score_cluster_loop keyword_data acc' rest
  end.

(** [not keyword_data]: absent or empty. *)
Definition no_data (keyword_data : option (list (string * Data.t))) : bool :=
  match keyword_data with
  | None | Some [] => true
  | Some (_ :: _) => false
  end.

Definition score_cluster (keywords : list string)
           (keyword_data : option (list (string * Data.t)))
  : Py.result Q :=
  match keywords with
  | [] => Py.ret 0.0
  | _ :: _ =>
      if no_data keyword_data then
        (* Without data, score based on keyword count and diversity *)
        Py.ret (Py.min (inject_Z (Z.of_nat (List.length keywords)) * 10.0)
                       50.0)
      else
        totals <-
          score_cluster_loop (Py.get keyword_data [])
            {| total_volume := 0; total_relevance := 0.0;
               total_opportunity := 0.0; count := 0 |}
            keywords ;;
        if totals.(count) =? 0 then Py.ret 0.0
        else
          (* Normalize scores *)
          q <- Py.truediv totals.(total_volume) 10000 ;;
          let volume_score := Py.min q 30.0 in
          q <- Py.truediv totals.(total_relevance) totals.(count) ;;
          let relevance_score := q * 30.0 in
          let opportunity_score :=
            Py.min (totals.(total_opportunity) * 10) 30.0 in
          let diversity_score := Py.min (totals.(count) * 2.0) 10.0 in
          Py.ret (Py.round1 (volume_score + relevance_score
                             + opportunity_score + diversity_score))
  end.

(** ** Natural-language queries *)

(** The [templates] dict of [generate_natural_queries]. *)
Definition templates : list (string * list string) :=
  [ ("track", ["apps to help me track {obj}";
               "best {obj} tracking app";
               "how to track my {obj} on my phone"]);
    ("manage", ["apps to help me manage {obj}";
                "best {obj} management app";
                "how to organize my {obj}"]);
    ("plan", ["apps to help me plan {obj}";
              "best {obj} planner app";
              "how to schedule my {obj}"]);
    ("create", ["apps to create {obj}";
                "best {obj} creator app";
                "easy way to make {obj}"]);
    ("learn", ["apps to learn {obj}";
               "best {obj} learning app";
               "how to study {obj} on my phone"]);
    ("find", ["apps to find {obj}";
              "best app for finding {obj}";
              "where to find {obj}"]);
    ("compare", ["apps to compare {obj}";
                 "best {obj} comparison app";
                 "how to compare {obj}"]);
    ("share", ["apps to share {obj}";
               "best {obj} sharing app";
               "how to collaborate on {obj}"]);
    ("save", ["apps to save {obj}";
              "best {obj} budgeting app";
              "how to manage my {obj}"]);
    ("health", ["apps for {obj}";
                "best {obj} app";
                "how to improve my {obj}"]);
    ("communicate", ["apps for {obj}";
                     "best {obj} app";
                     "how to {obj} for free"]);
    ("automate", ["apps to automate {obj}";
                  "best smart {obj} app";
                  "how to automate {obj}"]) ].

(** The default of [templates.get(intent, ...)]. *)
Definition fallback_templates : list string :=
  ["apps for {obj}"; "best {obj} app"].

(** The object phrase of one keyword: its words that are not intent
    words and are longer than two characters. *)
Definition obj_words (intent_words : list string) (kw : string)
  : list string :=
  filter (fun w => negb (Py.contains intent_words w)
                   && (2 <? String.length w)%nat)
         (Py.findall_word (Py.lower kw)).

(** The first loop of [generate_natural_queries]. *)
Fixpoint collect_objects (intent_words : list string)
         (objects : list string) (keywords : list string) : list string :=
  match keywords with
  | [] => objects
  | kw :: rest =>
      let ws := obj_words intent_words kw in
      let objects :=
        match ws with
        | [] => objects
        | _ :: _ => Py.set_add objects (Py.join_space ws)
        end in
      collect_objects intent_words objects rest
  end.

(** The inner loop over the templates; the boolean tells that the
    function returned from inside the loop. *)
Fixpoint template_loop (max_queries : Z) (obj : string)
         (queries : list string) (intent_templates : list string)
  : list string * bool :=
  match intent_templates with
  | [] => (queries, false)
  | template :: rest =>
      let query := Py.format_obj 0 template obj in
      if Py.contains queries query
      then template_loop max_queries obj queries rest
      else
        let queries := Py.append queries query in
        if (max_queries <=? Z.of_nat (List.length queries))%Z
        then (queries, true)
        else template_loop max_queries obj queries rest
  end.

(** The outer loop over the objects. *)
Fixpoint object_loop (max_queries : Z) (intent_templates : list string)
         (queries : list string) (objects : list string) : list string :=
  match objects with
  | [] => queries
  | obj :: rest =>
      let '(queries, returned) :=
        template_loop max_queries obj queries intent_templates in
      if returned then queries
      else object_loop max_queries intent_templates queries rest
  end.

Section SetOrder.

(** The order in which [list(objects)] enumerates a set of strings; in
    Python it depends on the hashes of the strings. *)
Variable set_order : list string -> list string.

Definition generate_natural_queries (intent : string)
           (keywords : list string) (max_queries : Z) : list string :=
  let queries := [] in
  let intent_templates :=
    Py.get (Py.lookup templates intent) fallback_templates in
  (* Extract object nouns from keywords (remove intent words) *)
  let intent_words :=
    Py.set_of (Py.get (Py.lookup INTENT_CATEGORIES intent) []) in
  let objects := collect_objects intent_words [] keywords in
  (* Generate queries from templates *)
  object_loop max_queries intent_templates queries
              (Py.slice_to max_queries (set_order objects)).

(** ** Intent clustering *)

(** [len(words.intersection(set(intent_words)))]. *)
Definition overlap (words intent_words : list string) : nat :=
  List.length (Py.intersection words (Py.set_of intent_words)).

(** The loop over [INTENT_CATEGORIES.items()], from the state
    [(matched_intent, best_overlap)]. *)
Fixpoint match_intent (words : list string)
         (categories : list (string * list string))
         (matched_intent : option string) (best_overlap : nat)
  : option string * nat :=
  match categories with
  | [] => (matched_intent, best_overlap)
  | (intent, intent_words) :: rest =>
      let overlap := overlap words intent_words in
      if (best_overlap <? overlap)%nat
      then match_intent words rest (Some intent) overlap
      else match_intent words rest matched_intent best_overlap
  end.

(** The bucket a keyword is put in: [Some intent], or [None] for
    [unclustered]. *)
Definition assign (keyword : string) : option string :=
  let words := Py.set_of (Py.findall_word (Py.lower keyword)) in
  let '(matched_intent, best_overlap) :=
    match_intent words INTENT_CATEGORIES None 0 in
  match matched_intent with
  | Some intent =>
      if negb (String.eqb intent EmptyString) && (0 <? best_overlap)%nat
      then Some intent else None
  | None => None
  end.

(** [clusters[intent].append(keyword)], creating the list first when
    the key is new. *)
Definition add_to_cluster (clusters : list (string * list string))
           (intent keyword : string) : list (string * list string) :=
  let clusters :=
    match Py.lookup clusters intent with
    | Some _ => clusters
    | None => Py.setitem clusters intent []
    end in
  Py.setitem clusters intent
    (Py.append (Py.get (Py.lookup clusters intent) []) keyword).

(** The first loop of [cluster_by_intent], from the state
    [(clusters, unclustered)]. *)
Fixpoint bucket (keywords : list string)
         (clusters : list (string * list string))
         (unclustered : list string)
  : list (string * list string) * list string :=
  match keywords with
  | [] => (clusters, unclustered)
  | keyword :: rest =>
      match assign keyword with
      | Some matched_intent =>
          bucket rest (add_to_cluster clusters matched_intent keyword)
                 unclustered
      | None => bucket rest clusters (Py.append unclustered keyword)
      end
  end.

Record Cluster : Type := {
  name : string;
  intent : string;
  keywords : list string;
  keyword_count : nat;
  natural_queries : list string;
  combined_score : Q
}.

(** The loop that builds one cluster per entry of [clusters]. *)
Fixpoint build_clusters (keyword_data : option (list (string * Data.t)))
         (clusters : list (string * list string))
  : Py.result (list Cluster) :=
  match clusters with
  | [] => Py.ret []
  | (intent, cluster_keywords) :: rest =>
      s <- score_cluster cluster_keywords keyword_data ;;
      let cluster :=
        {| name := Py.title intent ++ " Intent";
           intent := intent;
           keywords := cluster_keywords;
           keyword_count := List.length cluster_keywords;
           natural_queries :=
             generate_natural_queries intent cluster_keywords 5;
           combined_score := s |} in
      result <- build_clusters keyword_data rest ;;
      Py.ret (cluster :: result)
  end.

(** [result.sort(key=combined_score, reverse=True)]: a stable sort,
    larger scores first. *)
Fixpoint insert_cluster (c : Cluster) (sorted : list Cluster)
  : list Cluster :=
  match sorted with
  | [] => [c]
  | d :: rest =>
      if c.(combined_score) >=? d.(combined_score)
      then c :: d :: rest
      else d :: insert_cluster c rest
  end.

Definition sort_clusters (result : list Cluster) : list Cluster :=
  fold_right insert_cluster [] result.

Definition cluster_by_intent (keywords : list string)
           (keyword_data : option (list (string * Data.t)))
  : Py.result (list Cluster) :=
  let '(clusters, unclustered) := bucket keywords [] [] in
  (* Build cluster results *)
  result <- build_clusters keyword_data clusters ;;
  (* Add unclustered keywords as "General" cluster *)
  result <-
    match unclustered with
    | [] => Py.ret result
    | _ :: _ =>
        s <- score_cluster unclustered keyword_data ;;
        Py.ret (Py.append result
                  {| name := "General";
                     intent := "general";
                     keywords := unclustered;
                     keyword_count := List.length unclustered;
                     natural_queries := [];
                     combined_score := s |})
    end ;;
  (* Sort by combined score descending *)
  Py.ret (sort_clusters result).

End SetOrder.

End KeywordAnalyzer.

(* ================================================================== *)
(** * metadata_optimizer.py: the constructor *)
(* ================================================================== *)

Module MetadataOptimizer.

(** One entry of [CHAR_LIMITS]: field name to character limit. *)
Definition CHAR_LIMITS : list (string * list (string * Z)) :=
  [ ("apple", [ ("title", 30%Z); ("subtitle", 30%Z);
                ("promotional_text", 170%Z); ("description", 4000%Z);
                ("keywords", 100%Z); ("whats_new", 4000%Z) ]);
    ("google", [ ("title", 50%Z); ("short_description", 80%Z);
                 ("full_description", 4000%Z) ]) ].

Record t : Type := {
  platform : string;
  limits : list (string * Z)
}.

Definition __init__ (platform : string) : Py.result t :=
  if negb (Py.contains ["apple"; "google"] platform)
  then Py.Raise (Py.ValueError "Platform must be 'apple' or 'google'")
  else
    limits <- Py.getitem CHAR_LIMITS platform ;;
    Py.ret {| platform := platform; limits := limits |}.

End MetadataOptimizer.

(* ================================================================== *)
(** * More Python primitives: text, integers, sorting *)
(* ================================================================== *)

Module PyText.

(** [str(n)] for an integer. *)
Definition str_of_int (n : Z) : string := NilZero.string_of_int (Z.to_int n).

(** [len(s)] as an integer. *)
Definition len (s : string) : Z := Z.of_nat (String.length s).

(** The first [n] characters. *)
Fixpoint take (n : nat) (s : string) : string :=
  match n, s with
  | S k, String c s' => String c (take k s')
  | _, _ => EmptyString
  end.

(** [s[:n]] for any integer [n]; a negative [n] counts from the end. *)
Definition slice_to (n : Z) (s : string) : string :=
  if (0 <=? n)%Z then take (Z.to_nat n) s
  else take (String.length s - Z.to_nat (- n)) s.

(** [s[n:]] for a non-negative [n]. *)
Fixpoint drop (n : nat) (s : string) : string :=
  match n, s with
  | S k, String _ s' => drop k s'
  | _, _ => s
  end.

(** [s.upper()]. *)
Fixpoint upper (s : string) : string :=
  match s with
  | EmptyString => EmptyString
  | String c s' => String (Py.upper_char c) (upper s')
  end.

(** [s.lstrip()], [s.rstrip()] and [s.strip()]. *)
Fixpoint lstrip (s : string) : string :=
  match s with
  | String c s' => if Py.is_space c then lstrip s' else s
  | EmptyString => EmptyString
  end.

Fixpoint rstrip (s : string) : string :=
  match s with
  | String c s' =>
      match rstrip s' with
      | EmptyString => if Py.is_space c then EmptyString
                       else String c EmptyString
      | r => String c r
      end
  | EmptyString => EmptyString
  end.

Definition strip (s : string) : string := rstrip (lstrip s).

(** [s.endswith(c)] for a one-character suffix. *)
Fixpoint endswith_char (c : ascii) (s : string) : bool :=
  match s with
  | EmptyString => false
  | String d EmptyString => Ascii.eqb d c
  | String _ s' => endswith_char c s'
  end.

(** [sub in s]. *)
Fixpoint is_substring (sub s : string) : bool :=
  String.prefix sub s ||
  match s with
  | EmptyString => false
  | String _ s' => is_substring sub s'
  end.

(** [s.count(sub)] for a non-empty [sub]: occurrences that do not overlap,
    found from the left; [skip] counts the characters of a match still to
    be passed. *)
Fixpoint count_from (skip : nat) (sub s : string) : nat :=
  match s with
  | EmptyString => O
  | String _ s' =>
      match skip with
      | S k => count_from k sub s'
      | O =>
          if String.prefix sub s
          then S (count_from (String.length sub - 1) sub s')
          else count_from 0 sub s'
      end
  end.

(** [s.count(sub)]; the empty string occurs between any two characters and
    at both ends. *)
Definition count (sub s : string) : nat :=
  match sub with
  | EmptyString => S (String.length s)
  | _ => count_from 0 sub s
  end.

(** [s.split(sep)] for a one-character separator; [cur] is the field being
    read. *)
Fixpoint fields (sep : ascii) (s cur : string) : list string :=
  match s with
  | EmptyString => [cur]
  | String c s' =>
      if Ascii.eqb c sep then cur :: fields sep s' EmptyString
      else fields sep s' (cur ++ String c EmptyString)
  end.

Definition split_on (sep : ascii) (s : string) : list string :=
  fields sep s EmptyString.

(** [sep.join(xs)]. *)
Definition join (sep : string) (xs : list string) : string :=
  String.concat sep xs.

(** [s.replace(old, new)] for one-character [old] and [new]. *)
Fixpoint replace_char (old new : ascii) (s : string) : string :=
  match s with
  | EmptyString => EmptyString
  | String c s' =>
      String (if Ascii.eqb c old then new else c) (replace_char old new s')
  end.

(** ** Stable sorting

    [sorted(xs, key=k)] and [xs.sort(key=k, reverse=True)] are stable: the
    keys are computed first, in order, and elements with equal keys keep
    their order.  [goes_before x y] tells that an element of key [x] that
    comes earlier in the input is placed before one of key [y]. *)

Section Sorting.

Context {K A : Type}.
Variable goes_before : K -> K -> bool.

Fixpoint insert_keyed (x : K * A) (sorted : list (K * A)) : list (K * A) :=
  match sorted with
  | [] => [x]
  | y :: rest =>
      if goes_before (fst x) (fst y) then x :: y :: rest
      else y :: insert_keyed x rest
  end.

Definition sort_keyed (keyed : list (K * A)) : list (K * A) :=
  fold_right insert_keyed [] keyed.

(** The keys of the elements, computed from the left; the first key that
    raises ends the call. *)
Fixpoint with_keys (key : A -> Py.result K) (xs : list A)
  : Py.result (list (K * A)) :=
  match xs with
  | [] => Py.ret []
  | x :: rest =>
      k <- key x ;;
      keyed <- with_keys key rest ;;
      Py.ret ((k, x) :: keyed)
  end.

Definition sorted_by (key : A -> Py.result K) (xs : list A)
  : Py.result (list A) :=
  keyed <- with_keys key xs ;;
  Py.ret (map snd (sort_keyed keyed)).

End Sorting.

(** Ascending order of integer keys, and descending order of numbers
    ([reverse=True]). *)
Definition ascending (x y : Z) : bool := (x <=? y)%Z.
Definition descending (x y : Q) : bool := x >=? y.

(** [a % b] and [a // b] on integers. *)
Definition floormod (a b : Z) : Py.result Z :=
  if (b =? 0)%Z then Py.Raise Py.ZeroDivisionError else Py.Ok (a mod b)%Z.

Definition floordiv (a b : Z) : Py.result Z :=
  if (b =? 0)%Z then Py.Raise Py.ZeroDivisionError else Py.Ok (a / b)%Z.

(** [template.format(kw=value)] for a template whose only replacement
    field is [{kw}]; [skip] counts the characters of a field still to be
    dropped. *)
Fixpoint format_kw (skip : nat) (template value : string) : string :=
  match template with
  | EmptyString => EmptyString
  | String c rest =>
      match skip with
      | S k => format_kw k rest value
      | O =>
          if String.prefix "{kw}" template
          then value ++ format_kw 3 rest value
          else String c (format_kw 0 rest value)
      end
  end.

End PyText.

(* ================================================================== *)
(** * aso_scorer.py: recommendations *)
(* ================================================================== *)

Module ASOScorerRecommendations.

Record Recommendation : Type := {
  category : string;
  priority : string;
  action : string;
  details : string;
  expected_impact : string
}.

(** The last two scores are optional and default to 50.0. *)
Definition generate_recommendations
           (metadata_score ratings_score keyword_score conversion_score : Q)
           (technical_score visual_score : option Q)
  : list Recommendation :=
  let technical_score := Py.get technical_score 50.0 in
  let visual_score := Py.get visual_score 50.0 in
  let recommendations := [] in
  let recommendations :=
    if metadata_score <? 60 then
      Py.append recommendations
        {| category := "metadata_quality";
           priority := "high";
           action := "Optimize app title and description";
           details :=
             "Add more keywords to title, expand description to 1500-2000 characters, improve keyword density to 3-5%";
           expected_impact :=
             "Improve discoverability and ranking potential" |}
    else if metadata_score <? 80 then
      Py.append recommendations
        {| category := "metadata_quality";
           priority := "medium";
           action := "Refine metadata for better keyword targeting";
           details :=
             "Test variations of title/subtitle, optimize keyword field for Apple";
           expected_impact :=
             "Incremental ranking improvements" |}
    else recommendations in
  let recommendations :=
    if ratings_score <? 60 then
      Py.append recommendations
        {| category := "ratings_reviews";
           priority := "high";
           action := "Improve rating quality and volume";
           details :=
             "Address top user complaints, implement in-app rating prompts, respond to negative reviews";
           expected_impact :=
             "Better conversion rates and trust signals" |}
    else if ratings_score <? 80 then
      Py.append recommendations
        {| category := "ratings_reviews";
           priority := "medium";
           action := "Increase rating velocity";
           details :=
             "Optimize timing of rating requests, encourage satisfied users to rate";
           expected_impact :=
             "Sustained rating quality" |}
    else recommendations in
  let recommendations :=
    if keyword_score <? 60 then
      Py.append recommendations
        {| category := "keyword_performance";
           priority := "high";
           action := "Improve keyword rankings";
           details :=
             "Target long-tail keywords with lower competition, update metadata with high-potential keywords, build backlinks";
           expected_impact :=
             "Significant improvement in organic visibility" |}
    else if keyword_score <? 80 then
      Py.append recommendations
        {| category := "keyword_performance";
           priority := "medium";
           action := "Expand keyword coverage";
           details :=
             "Target additional related keywords, test seasonal keywords, localize for new markets";
           expected_impact :=
             "Broader reach and more discovery opportunities" |}
    else recommendations in
  let recommendations :=
    if conversion_score <? 60 then
      Py.append recommendations
        {| category := "conversion_metrics";
           priority := "high";
           action := "Optimize store listing for conversions";
           details :=
             "Improve screenshots and icon, strengthen value proposition in description, add video preview";
           expected_impact :=
             "Higher impression-to-install conversion" |}
    else if conversion_score <? 80 then
      Py.append recommendations
        {| category := "conversion_metrics";
           priority := "medium";
           action := "Test visual asset variations";
           details :=
             "A/B test different icon designs and screenshot sequences";
           expected_impact :=
             "Incremental conversion improvements" |}
    else recommendations in
  let recommendations :=
    if technical_score <? 40 then
      Py.append recommendations
        {| category := "technical_performance";
           priority := "high";
           action := "Address critical stability issues";
           details :=
             "Crash rate and/or ANR rate exceed acceptable thresholds. Prioritize crash fixes, reduce ANR by moving heavy work off the main thread, and optimize battery usage. Google Play penalizes apps with poor Android Vitals.";
           expected_impact :=
             "Improved ranking on Google Play, reduced uninstalls, better user retention" |}
    else if technical_score <? 70 then
      Py.append recommendations
        {| category := "technical_performance";
           priority := "medium";
           action := "Improve app stability and performance";
           details :=
             "Technical metrics are acceptable but not optimal. Target crash rate below 1%, ANR rate below 0.5%, and battery impact below 5% to reach top-tier performance.";
           expected_impact :=
             "Better Android Vitals standing, improved store ranking signals" |}
    else if technical_score <? 90 then
      Py.append recommendations
        {| category := "technical_performance";
           priority := "low";
           action := "Fine-tune technical performance";
           details :=
             "Technical metrics are good. Consider further optimizing startup time, reducing memory footprint, and monitoring for regressions in new releases.";
           expected_impact :=
             "Marginal ranking improvement, sustained app quality" |}
    else recommendations in
  let recommendations :=
    if visual_score <? 40 then
      Py.append recommendations
        {| category := "visual_optimization";
           priority := "high";
           action := "Add captions and video to screenshots";
           details :=
             "Screenshots lack captions and no video preview is present. Add descriptive text overlays to screenshots highlighting key features, create an app preview video, and set up Custom Product Pages (Apple) or custom store listings (Google) for targeted campaigns.";
           expected_impact :=
             "Significant improvement in conversion rate (captions can boost CVR 15-30%)" |}
    else if visual_score <? 80 then
      Py.append recommendations
        {| category := "visual_optimization";
           priority := "medium";
           action := "Enhance visual assets for better conversion";
           details :=
             "Some visual elements are missing. Ensure all screenshots have captions, add a video preview if missing, and create at least one Custom Product Page to target specific user segments.";
           expected_impact :=
             "Incremental conversion improvement through better visual storytelling" |}
    else recommendations in
  recommendations.

(** The dict [priority_order] of [_prioritize_actions]. *)
Definition priority_order : list (string * Z) :=
  [("high", 0%Z); ("medium", 1%Z); ("low", 2%Z)].

Definition _prioritize_actions (recommendations : list Recommendation)
  : Py.result (list Recommendation) :=
  (* Sort by priority (high first) and expected impact *)
  sorted_recommendations <-
    PyText.sorted_by PyText.ascending
      (fun x => Py.getitem priority_order x.(priority)) recommendations ;;
  Py.ret (Py.slice_to 3 sorted_recommendations).

End ASOScorerRecommendations.

(* ================================================================== *)
(** * keyword_analyzer.py: comparison, long-tail, extraction, density *)
(* ================================================================== *)

Module KeywordAnalyzerTools.

(** ** compare_keywords *)

(** One dict of [keywords_data]; [keyword] is read by subscript, the other
    keys with [.get]. *)
Module Entry.
Record t : Type := {
  keyword : option string;
  search_volume : option Q;
  competing_apps : option Q;
  relevance_score : option Q
}.
End Entry.

(** The first loop of [compare_keywords]: the analyses so far and the
    analyzer, whose cache every analysis extends. *)
Fixpoint analyze_all (self : KeywordAnalyzer.t)
         (keywords_data : list Entry.t)
         (analyses : list KeywordAnalyzer.KeywordRecord)
  : Py.result (list KeywordAnalyzer.KeywordRecord * KeywordAnalyzer.t) :=
  match keywords_data with
  | [] => Py.ret (analyses, self)
  | kw_data :: rest =>
      keyword <-
        match kw_data.(Entry.keyword) with
        | Some k => Py.ret k
        | None => Py.Raise (Py.KeyError "keyword")
        end ;;
      r <- KeywordAnalyzer.analyze_keyword self keyword
             (Py.get kw_data.(Entry.search_volume) 0)
             (Py.get kw_data.(Entry.competing_apps) 0)
             (Py.get kw_data.(Entry.relevance_score) 0.0) ;;
      analyze_all (snd r) rest (Py.append analyses (fst r))
  end.

Record Comparison : Type := {
  total_keywords_analyzed : nat;
  ranked_keywords : list KeywordAnalyzer.KeywordRecord;
  primary_keywords : list KeywordAnalyzer.KeywordRecord;
  secondary_keywords : list KeywordAnalyzer.KeywordRecord;
  long_tail_keywords : list KeywordAnalyzer.KeywordRecord;
  summary : string
}.

Definition is_primary (kw : KeywordAnalyzer.KeywordRecord) : bool :=
  (kw.(KeywordAnalyzer.potential_score) >=? 70)
  && (kw.(KeywordAnalyzer.relevance_score) >=? 0.8).

Definition is_secondary (kw : KeywordAnalyzer.KeywordRecord) : bool :=
  (50 <=? kw.(KeywordAnalyzer.potential_score))
  && (kw.(KeywordAnalyzer.potential_score) <? 70)
  && (kw.(KeywordAnalyzer.relevance_score) >=? 0.6).

Definition is_long_tail_pick (kw : KeywordAnalyzer.KeywordRecord) : bool :=
  kw.(KeywordAnalyzer.is_long_tail)
  && (kw.(KeywordAnalyzer.relevance_score) >=? 0.7).

Section Formatting.

(** How an f-string prints a score, which Python holds as an [int] or a
    [float]. *)
Variable format_number : Q -> string.

Definition _generate_comparison_summary
           (primary_keywords secondary_keywords long_tail_keywords
            : list KeywordAnalyzer.KeywordRecord) : string :=
  let summary_parts := [] in
  let summary_parts :=
    Py.append summary_parts
      ("Identified "
       ++ PyText.str_of_int (Z.of_nat (List.length primary_keywords))
       ++ " high-priority primary keywords.") in
  let summary_parts :=
    match primary_keywords with
    | top :: _ =>
        let top_keyword := top.(KeywordAnalyzer.keyword) in
        Py.append summary_parts
          ("Top recommendation: '" ++ top_keyword ++ "' (potential score: "
           ++ format_number top.(KeywordAnalyzer.potential_score) ++ ").")
    | [] => summary_parts
    end in
  let summary_parts :=
    Py.append summary_parts
      ("Found "
       ++ PyText.str_of_int (Z.of_nat (List.length secondary_keywords))
       ++ " secondary keywords for description and metadata.") in
  let summary_parts :=
    Py.append summary_parts
      ("Discovered "
       ++ PyText.str_of_int (Z.of_nat (List.length long_tail_keywords))
       ++ " long-tail opportunities with lower competition.") in
  PyText.join " " summary_parts.

(** Returns the report and the analyzer with every analysis cached. *)
Definition compare_keywords (self : KeywordAnalyzer.t)
           (keywords_data : list Entry.t)
  : Py.result (Comparison * KeywordAnalyzer.t) :=
  r <- analyze_all self keywords_data [] ;;
  let '(analyses, self) := r in
  (* Sort by potential score (descending) *)
  ranked_keywords <-
    PyText.sorted_by PyText.descending
      (fun x => Py.ret x.(KeywordAnalyzer.potential_score)) analyses ;;
  (* Categorize keywords *)
  let primary_keywords := filter is_primary ranked_keywords in
  let secondary_keywords := filter is_secondary ranked_keywords in
  let long_tail_keywords := filter is_long_tail_pick ranked_keywords in
  Py.ret ({| total_keywords_analyzed := List.length analyses;
             ranked_keywords := ranked_keywords;
             primary_keywords := Py.slice_to 5 primary_keywords;
             secondary_keywords := Py.slice_to 10 secondary_keywords;
             long_tail_keywords := Py.slice_to 10 long_tail_keywords;
             summary :=
               _generate_comparison_summary
                 primary_keywords secondary_keywords long_tail_keywords |},
          self).

(** The module-level convenience function: a fresh analyzer. *)
Definition analyze_keyword_set (keywords_data : list Entry.t)
  : Py.result Comparison :=
  let analyzer := KeywordAnalyzer.__init__ in
  r <- compare_keywords analyzer keywords_data ;;
  Py.ret (fst r).

End Formatting.

(** ** find_long_tail_opportunities *)

Module LongTail.
Record t : Type := {
  keyword : string;
  pattern : string;
  estimated_competition : string;
  rationale : string
}.
End LongTail.

(** The loop over the modifiers. *)
Fixpoint modifier_loop (base_keyword : string) (modifiers : list string)
         (long_tail_keywords : list LongTail.t) : list LongTail.t :=
  match modifiers with
  | [] => long_tail_keywords
  | modifier :: rest =>
      (* Modifier + base *)
      let variation1 := modifier ++ " " ++ base_keyword in
      let long_tail_keywords :=
        Py.append long_tail_keywords
          {| LongTail.keyword := variation1;
             LongTail.pattern := "modifier_base";
             LongTail.estimated_competition := "low";
             LongTail.rationale :=
               "Less competitive variation of '" ++ base_keyword ++ "'" |} in
      (* Base + modifier *)
      let variation2 := base_keyword ++ " " ++ modifier in
      let long_tail_keywords :=
        Py.append long_tail_keywords
          {| LongTail.keyword := variation2;
             LongTail.pattern := "base_modifier";
             LongTail.estimated_competition := "low";
             LongTail.rationale :=
               "Specific use-case variation of '" ++ base_keyword ++ "'" |} in
      modifier_loop base_keyword rest long_tail_keywords
  end.

(** The loop over the question words. *)
Fixpoint question_loop (base_keyword : string) (question_words : list string)
         (long_tail_keywords : list LongTail.t) : list LongTail.t :=
  match question_words with
  | [] => long_tail_keywords
  | q_word :: rest =>
      let question_keyword := q_word ++ " " ++ base_keyword in
      question_loop base_keyword rest
        (Py.append long_tail_keywords
           {| LongTail.keyword := question_keyword;
              LongTail.pattern := "question_based";
              LongTail.estimated_competition := "very_low";
              LongTail.rationale := "Informational search query" |})
  end.

Definition find_long_tail_opportunities (base_keyword : string)
           (modifiers : list string) : list LongTail.t :=
  let long_tail_keywords := [] in
  (* Generate combinations *)
  let long_tail_keywords :=
    modifier_loop base_keyword modifiers long_tail_keywords in
  (* Add question-based long-tail *)
  let question_words := ["how"; "what"; "best"; "top"] in
  question_loop base_keyword question_words long_tail_keywords.

(** ** extract_keywords_from_text *)

(** [re.sub(r'[^\w\s]', ' ', text)]. *)
Fixpoint blank_punctuation (text : string) : string :=
  match text with
  | EmptyString => EmptyString
  | String c rest =>
      String (if Py.is_word c || Py.is_space c then c else " "%char)
             (blank_punctuation rest)
  end.

Definition stop_words : list string :=
  ["the"; "and"; "for"; "with"; "this"; "that"; "from"; "have";
   "but"; "not"; "you"; "all"; "can"; "are"; "was"; "were"; "been"].

(** [Counter(xs)]: the counts, in the order of first occurrence. *)
Definition count_one (counts : list (string * Z)) (x : string)
  : list (string * Z) :=
  Py.setitem counts x (Py.get (Py.lookup counts x) 0 + 1)%Z.

Definition Counter (xs : list string) : list (string * Z) :=
  fold_left count_one xs [].

(** [[f"{words[i]} {words[i+1]}" for i in range(len(words) - 1)]]. *)
Fixpoint two_word_phrases (words : list string) : list string :=
  match words with
  | w1 :: ((w2 :: _) as rest) => (w1 ++ " " ++ w2) :: two_word_phrases rest
  | _ => []
  end.

Definition extract_keywords_from_text (text : string) (min_word_length : Z)
  : Py.result (list (string * Z)) :=
  (* Clean and normalize text *)
  let text := Py.lower text in
  let text := blank_punctuation text in
  (* Extract words *)
  let words := Py.split text in
  (* Filter by length *)
  let words :=
    filter (fun w => (min_word_length <=? PyText.len w)%Z) words in
  (* Remove common stop words *)
  let words := filter (fun w => negb (Py.contains stop_words w)) words in
  (* Count frequency *)
  let word_counts := Counter words in
  (* Extract 2-word phrases *)
  let phrases := two_word_phrases words in
  let phrase_counts := Counter phrases in
  (* Combine and sort *)
  let all_keywords := (word_counts ++ phrase_counts)%list in
  all_keywords <-
    PyText.sorted_by PyText.descending
      (fun x : string * Z => Py.ret (inject_Z (snd x))) all_keywords ;;
  Py.ret (Py.slice_to 50 all_keywords).

(** ** calculate_keyword_density *)

(** [round(x, 2)]. *)
Definition round2 (x : Q) : Q := Py.round_half_even (x * 100) # 100.

(** The loop over the target keywords. *)
Fixpoint density_loop (text_lower : string) (total_words : nat)
         (target_keywords : list string) (densities : list (string * Q))
  : Py.result (list (string * Q)) :=
  match target_keywords with
  | [] => Py.ret densities
  | keyword :: rest =>
      let keyword_lower := Py.lower keyword in
      let occurrences := PyText.count keyword_lower text_lower in
      density <-
        (if (0 <? total_words)%nat then
           q <- Py.truediv (inject_Z (Z.of_nat occurrences))
                           (inject_Z (Z.of_nat total_words)) ;;
           Py.ret (q * 100)
         else Py.ret 0) ;;
      density_loop text_lower total_words rest
                   (Py.setitem densities keyword (round2 density))
  end.

Definition calculate_keyword_density (text : string)
           (target_keywords : list string) : Py.result (list (string * Q)) :=
  let text_lower := Py.lower text in
  let total_words := List.length (Py.split text_lower) in
  density_loop text_lower total_words target_keywords [].

End KeywordAnalyzerTools.

(* ================================================================== *)
(** * metadata_optimizer.py: titles, keyword field, validation, density *)
(* ================================================================== *)

Module MetadataOptimizerMethods.

(** ** optimize_title *)

(** The loop over the keywords for one separator. *)
Fixpoint try_keywords (app_name sep : string) (keywords : list string)
         (max_length : Z) : option string :=
  match keywords with
  | [] => None
  | kw :: rest =>
      let title := app_name ++ sep ++ kw in
      if (PyText.len title <=? max_length)%Z then Some title
      else try_keywords app_name sep rest max_length
  end.

(** The loop over the separators. *)
Fixpoint try_separators (app_name : string) (separators : list string)
         (keywords : list string) (max_length : Z) : option string :=
  match separators with
  | [] => None
  | sep :: rest =>
      match try_keywords app_name sep keywords max_length with
      | Some title => Some title
      | None => try_separators app_name rest keywords max_length
      end
  end.

Definition _build_title_with_keywords (app_name : string)
           (keywords : list string) (max_length : Z) : option string :=
  let separators := [" - "; ": "; " | "] in
  try_separators app_name separators keywords max_length.

Module TitleOption.
Record t : Type := {
  title : string;
  length : Z;
  remaining_chars : Z;
  keywords_included : list string;
  strategy : string;
  pros : list string;
  cons : list string
}.
End TitleOption.

(** The loop of [_recommend_title_option] that looks for the strategy
    brand_plus_primary. *)
Fixpoint find_brand_plus_primary (options : list TitleOption.t)
  : option TitleOption.t :=
  match options with
  | [] => None
  | option :: rest =>
      if String.eqb option.(TitleOption.strategy) "brand_plus_primary"
      then Some option
      else find_brand_plus_primary rest
  end.

Definition _recommend_title_option (options : list TitleOption.t) : string :=
  match options with
  | [] => "No valid options available"
  | first :: _ =>
      (* Prefer brand_plus_primary for established apps *)
      match find_brand_plus_primary options with
      | Some option =>
          "Recommended: '" ++ option.(TitleOption.title)
          ++ "' (Balance of brand and SEO)"
      | None =>
          (* Fallback to first option *)
          "Recommended: '" ++ first.(TitleOption.title) ++ "' ("
          ++ first.(TitleOption.strategy) ++ ")"
      end
  end.

Module TitleReport.
Record t : Type := {
  platform : string;
  max_length : Z;
  options : list TitleOption.t;
  recommendation : string
}.
End TitleReport.

(** [if option:] for an optional string: present and not empty. *)
Definition truthy (s : option string) : bool :=
  match s with
  | Some (String _ _) => true
  | _ => false
  end.

Definition optimize_title (self : MetadataOptimizer.t) (app_name : string)
           (target_keywords : list string) (include_brand : bool)
  : Py.result TitleReport.t :=
  max_length <- Py.getitem self.(MetadataOptimizer.limits) "title" ;;
  let title_options := [] in
  (* Option 1: Brand name only *)
  let title_options :=
    if include_brand then
      let option1 := PyText.slice_to max_length app_name in
      Py.append title_options
        {| TitleOption.title := option1;
           TitleOption.length := PyText.len option1;
           TitleOption.remaining_chars := (max_length - PyText.len option1)%Z;
           TitleOption.keywords_included := [];
           TitleOption.strategy := "brand_only";
           TitleOption.pros :=
             ["Maximum brand recognition"; "Clean and simple"];
           TitleOption.cons :=
             ["No keyword targeting"; "Lower discoverability"] |}
    else title_options in
  (* Option 2: Brand + Primary Keyword *)
  let title_options :=
    match target_keywords with
    | primary_keyword :: _ =>
        let option2 :=
          _build_title_with_keywords app_name [primary_keyword] max_length in
        if truthy option2 then
          let option2 := Py.get option2 EmptyString in
          Py.append title_options
            {| TitleOption.title := option2;
               TitleOption.length := PyText.len option2;
               TitleOption.remaining_chars :=
                 (max_length - PyText.len option2)%Z;
               TitleOption.keywords_included := [primary_keyword];
               TitleOption.strategy := "brand_plus_primary";
               TitleOption.pros :=
                 ["Targets main keyword"; "Maintains brand identity"];
               TitleOption.cons := ["Limited keyword coverage"] |}
        else title_options
    | [] => title_options
    end in
  (* Option 3: Brand + Multiple Keywords (if space allows) *)
  let title_options :=
    if (1 <? List.length target_keywords)%nat then
      let option3 :=
        _build_title_with_keywords app_name (Py.slice_to 2 target_keywords)
                                   max_length in
      if truthy option3 then
        let option3 := Py.get option3 EmptyString in
        Py.append title_options
          {| TitleOption.title := option3;
             TitleOption.length := PyText.len option3;
             TitleOption.remaining_chars :=
               (max_length - PyText.len option3)%Z;
             TitleOption.keywords_included := Py.slice_to 2 target_keywords;
             TitleOption.strategy := "brand_plus_multiple";
             TitleOption.pros :=
               ["Multiple keyword targets"; "Better discoverability"];
             TitleOption.cons := ["May feel cluttered"; "Less brand focus"] |}
      else title_options
    else title_options in
  (* Option 4: Keyword-first approach (for new apps) *)
  let title_options :=
    match target_keywords with
    | _ :: _ =>
        if negb include_brand then
          let option4 :=
            PyText.slice_to max_length
              (PyText.join " " (Py.slice_to 2 target_keywords)) in
          Py.append title_options
            {| TitleOption.title := option4;
               TitleOption.length := PyText.len option4;
               TitleOption.remaining_chars :=
                 (max_length - PyText.len option4)%Z;
               TitleOption.keywords_included := Py.slice_to 2 target_keywords;
               TitleOption.strategy := "keyword_first";
               TitleOption.pros :=
                 ["Maximum SEO benefit"; "Clear functionality"];
               TitleOption.cons :=
                 ["No brand recognition"; "Generic appearance"] |}
        else title_options
    | [] => title_options
    end in
  Py.ret {| TitleReport.platform := self.(MetadataOptimizer.platform);
            TitleReport.max_length := max_length;
            TitleReport.options := title_options;
            TitleReport.recommendation :=
              _recommend_title_option title_options |}.

(** ** optimize_keyword_field *)

(** The loop of [_remove_plural_duplicates], from the state
    [(deduplicated, singular_set)]. *)
Fixpoint plural_loop (keywords : list string)
         (deduplicated singular_set : list string) : list string :=
  match keywords with
  | [] => deduplicated
  | keyword :: rest =>
      if PyText.endswith_char "s" keyword && (1 <? String.length keyword)%nat
      then
        let singular := PyText.slice_to (-1) keyword in
        if negb (Py.contains singular_set singular)
        then plural_loop rest (Py.append deduplicated singular)
                         (Py.set_add singular_set singular)
        else plural_loop rest deduplicated singular_set
      else
        if negb (Py.contains singular_set keyword)
        then plural_loop rest (Py.append deduplicated keyword)
                         (Py.set_add singular_set keyword)
        else plural_loop rest deduplicated singular_set
  end.

Definition _remove_plural_duplicates (keywords : list string) : list string :=
  plural_loop keywords [] [].

(** The loop of [_build_keyword_field]; it stops at the first keyword that
    does not fit. *)
Fixpoint field_loop (keywords : list string) (keyword_field : string)
         (max_length : Z) : string :=
  match keywords with
  | [] => keyword_field
  | keyword :: rest =>
      let test_field :=
        match keyword_field with
        | EmptyString => keyword
        | _ => keyword_field ++ "," ++ keyword
        end in
      if (PyText.len test_field <=? max_length)%Z
      then field_loop rest test_field max_length
      else keyword_field
  end.

Definition _build_keyword_field (keywords : list string) (max_length : Z)
  : string :=
  field_loop keywords EmptyString max_length.

(** The loop of [_calculate_coverage]. *)
Fixpoint coverage_loop (text_lower : string) (keywords : list string)
         (coverage : list (string * Z)) : list (string * Z) :=
  match keywords with
  | [] => coverage
  | keyword :: rest =>
      coverage_loop text_lower rest
        (Py.setitem coverage keyword
           (Z.of_nat (PyText.count (Py.lower keyword) text_lower)))
  end.

Definition _calculate_coverage (keywords : list string) (text : string)
  : list (string * Z) :=
  let text_lower := Py.lower text in
  coverage_loop text_lower keywords [].

(** The inner loop over the words of one keyword. *)
Fixpoint word_loop (words : list string)
         (title_words processed_keywords : list string) : list string :=
  match words with
  | [] => processed_keywords
  | word :: rest =>
      if negb (Py.contains processed_keywords word)
         && negb (Py.contains title_words word)
      then word_loop rest title_words (Py.append processed_keywords word)
      else word_loop rest title_words processed_keywords
  end.

(** The loop over the target keywords. *)
Fixpoint process_loop (target_keywords : list string)
         (title_words processed_keywords : list string) : list string :=
  match target_keywords with
  | [] => processed_keywords
  | keyword :: rest =>
      let keyword_lower := PyText.strip (Py.lower keyword) in
      (* Skip if already in title *)
      if Py.contains title_words keyword_lower
      then process_loop rest title_words processed_keywords
      else
        (* Remove duplicates and process *)
        let words := Py.split keyword_lower in
        process_loop rest title_words
                     (word_loop words title_words processed_keywords)
  end.

Module KeywordField.
Record t : Type := {
  keyword_field : string;
  length : Z;
  remaining_chars : Z;
  keywords_included : list string;
  keywords_count : nat;
  keywords_excluded : list string;
  description_coverage : list (string * Z);
  optimization_tips : list string
}.
End KeywordField.

(** What [optimize_keyword_field] returns: a dict with the single key
    [error], or the optimized field. *)
Inductive KeywordFieldResult : Type :=
| KeywordFieldError (error : string)
| KeywordFieldOk (result : KeywordField.t).

Definition optimize_keyword_field (self : MetadataOptimizer.t)
           (target_keywords : list string) (app_title app_description : string)
  : Py.result KeywordFieldResult :=
  if negb (String.eqb self.(MetadataOptimizer.platform) "apple") then
    Py.ret (KeywordFieldError
              "Keyword field optimization only applies to Apple App Store")
  else
    max_length <- Py.getitem self.(MetadataOptimizer.limits) "keywords" ;;
    (* Extract words already in title *)
    let title_words :=
      match app_title with
      | EmptyString => []
      | _ => Py.set_of (Py.split (Py.lower app_title))
      end in
    (* Process keywords *)
    let processed_keywords := process_loop target_keywords title_words [] in
    (* Remove plurals if singular exists *)
    let deduplicated := _remove_plural_duplicates processed_keywords in
    (* Build keyword field within 100 character limit *)
    let keyword_field := _build_keyword_field deduplicated max_length in
    (* Calculate keyword density in description *)
    let density := _calculate_coverage target_keywords app_description in
    Py.ret (KeywordFieldOk
      {| KeywordField.keyword_field := keyword_field;
         KeywordField.length := PyText.len keyword_field;
         KeywordField.remaining_chars :=
           (max_length - PyText.len keyword_field)%Z;
         KeywordField.keywords_included := PyText.split_on "," keyword_field;
         KeywordField.keywords_count :=
           List.length (PyText.split_on "," keyword_field);
         KeywordField.keywords_excluded :=
           filter (fun kw => negb (PyText.is_substring (Py.lower kw)
                                                       keyword_field))
                  target_keywords;
         KeywordField.description_coverage := density;
         KeywordField.optimization_tips :=
           ["Keywords in title are auto-indexed - no need to repeat";
            "Use singular forms only (Apple indexes plurals automatically)";
            "No spaces between commas to maximize character usage";
            "Update keyword field with each app update to test variations"] |}).

(** ** validate_character_limits *)

Module FieldStatus.
Record t : Type := {
  value : string;
  length : Z;
  limit : Z;
  remaining : Z;
  is_valid : bool;
  usage_percentage : Q
}.
End FieldStatus.

Module Validation.
Record t : Type := {
  is_valid : bool;
  errors : list string;
  warnings : list string;
  field_status : list (string * FieldStatus.t)
}.
End Validation.

(** The loop over [metadata.items()]. *)
Fixpoint validate_loop (self : MetadataOptimizer.t)
         (metadata : list (string * string))
         (validation_results : Validation.t) : Py.result Validation.t :=
  match metadata with
  | [] => Py.ret validation_results
  | (field_name, value) :: rest =>
      match Py.lookup self.(MetadataOptimizer.limits) field_name with
      | None =>
          validate_loop self rest
            {| Validation.is_valid := validation_results.(Validation.is_valid);
               Validation.errors := validation_results.(Validation.errors);
               Validation.warnings :=
                 Py.append validation_results.(Validation.warnings)
                   ("Unknown field '" ++ field_name ++ "' for "
                    ++ self.(MetadataOptimizer.platform) ++ " platform");
               Validation.field_status :=
                 validation_results.(Validation.field_status) |}
      | Some max_length =>
          let actual_length := PyText.len value in
          let remaining := (max_length - actual_length)%Z in
          q <- Py.truediv (inject_Z actual_length) (inject_Z max_length) ;;
          let field_status :=
            {| FieldStatus.value := value;
               FieldStatus.length := actual_length;
               FieldStatus.limit := max_length;
               FieldStatus.remaining := remaining;
               FieldStatus.is_valid := (actual_length <=? max_length)%Z;
               FieldStatus.usage_percentage := Py.round1 (q * 100) |} in
          let statuses :=
            Py.setitem validation_results.(Validation.field_status)
                       field_name field_status in
          if (max_length <? actual_length)%Z then
            validate_loop self rest
              {| Validation.is_valid := false;
                 Validation.errors :=
                   Py.append validation_results.(Validation.errors)
                     ("'" ++ field_name ++ "' exceeds limit: "
                      ++ PyText.str_of_int actual_length ++ "/"
                      ++ PyText.str_of_int max_length ++ " chars");
                 Validation.warnings :=
                   validation_results.(Validation.warnings);
                 Validation.field_status := statuses |}
          else if inject_Z remaining >? inject_Z max_length * 0.2 then
            (* More than 20% unused *)
            validate_loop self rest
              {| Validation.is_valid :=
                   validation_results.(Validation.is_valid);
                 Validation.errors := validation_results.(Validation.errors);
                 Validation.warnings :=
                   Py.append validation_results.(Validation.warnings)
                     ("'" ++ field_name ++ "' under-utilizes space: "
                      ++ PyText.str_of_int remaining ++ " chars remaining");
                 Validation.field_status := statuses |}
          else
            validate_loop self rest
              {| Validation.is_valid :=
                   validation_results.(Validation.is_valid);
                 Validation.errors := validation_results.(Validation.errors);
                 Validation.warnings :=
                   validation_results.(Validation.warnings);
                 Validation.field_status := statuses |}
      end
  end.

Definition validate_character_limits (self : MetadataOptimizer.t)
           (metadata : list (string * string)) : Py.result Validation.t :=
  validate_loop self metadata
    {| Validation.is_valid := true;
       Validation.errors := [];
       Validation.warnings := [];
       Validation.field_status := [] |}.

End MetadataOptimizerMethods.

(* ================================================================== *)
(** * metadata_optimizer.py: keyword density and descriptions *)
(* ================================================================== *)

Module MetadataOptimizerDescriptions.

(** ** calculate_keyword_density *)

Definition _assess_density (density : Q) : string :=
  if density <? 0.5 then "too_low"
  else if density <=? 2.5 then "optimal"
  else "too_high".

Definition _assess_overall_density (density : Q) : string :=
  if density <? 2
  then "Under-optimized: Consider adding more keyword variations"
  else if density <=? 5
  then "Optimal: Good keyword integration without stuffing"
  else if density <=? 8
  then "High: Approaching keyword stuffing - reduce keyword usage"
  else "Too High: Keyword stuffing detected - rewrite for natural flow".

Module KeywordDensity.
Record t : Type := {
  occurrences : nat;
  density_percentage : Q;
  status : string
}.
End KeywordDensity.

(** The loop of [_generate_density_recommendations]. *)
Fixpoint density_recommendation_loop
         (keyword_densities : list (string * KeywordDensity.t))
         (recommendations : list string) : list string :=
  match keyword_densities with
  | [] => recommendations
  | (keyword, data) :: rest =>
      if String.eqb data.(KeywordDensity.status) "too_low" then
        density_recommendation_loop rest
          (Py.append recommendations
             ("Increase usage of '" ++ keyword ++ "' - currently only "
              ++ PyText.str_of_int
                   (Z.of_nat data.(KeywordDensity.occurrences))
              ++ " times"))
      else if String.eqb data.(KeywordDensity.status) "too_high" then
        density_recommendation_loop rest
          (Py.append recommendations
             ("Reduce usage of '" ++ keyword ++ "' - appears "
              ++ PyText.str_of_int
                   (Z.of_nat data.(KeywordDensity.occurrences))
              ++ " times (keyword stuffing risk)"))
      else density_recommendation_loop rest recommendations
  end.

Definition _generate_density_recommendations
           (keyword_densities : list (string * KeywordDensity.t))
  : list string :=
  match density_recommendation_loop keyword_densities [] with
  | [] => ["Keyword density is well-balanced"]
  | recommendations => recommendations
  end.

(** [(count / total_words * 100) if total_words > 0 else 0]. *)
Definition percentage (count total_words : nat) : Py.result Q :=
  if (0 <? total_words)%nat then
    q <- Py.truediv (inject_Z (Z.of_nat count))
                    (inject_Z (Z.of_nat total_words)) ;;
    Py.ret (q * 100)
  else Py.ret 0.

(** The loop over the target keywords. *)
Fixpoint keyword_density_loop (text_lower : string) (total_words : nat)
         (target_keywords : list string)
         (keyword_densities : list (string * KeywordDensity.t))
  : Py.result (list (string * KeywordDensity.t)) :=
  match target_keywords with
  | [] => Py.ret keyword_densities
  | keyword :: rest =>
      let keyword_lower := Py.lower keyword in
      let count := PyText.count keyword_lower text_lower in
      density <- percentage count total_words ;;
      keyword_density_loop text_lower total_words rest
        (Py.setitem keyword_densities keyword
           {| KeywordDensity.occurrences := count;
              KeywordDensity.density_percentage :=
                KeywordAnalyzerTools.round2 density;
              KeywordDensity.status := _assess_density density |})
  end.

Module DensityReport.
Record t : Type := {
  total_words : nat;
  keyword_densities : list (string * KeywordDensity.t);
  overall_keyword_density : Q;
  assessment : string;
  recommendations : list string
}.
End DensityReport.

(** [sum(kw['occurrences'] for kw in keyword_densities.values())]. *)
Definition total_occurrences
           (keyword_densities : list (string * KeywordDensity.t)) : nat :=
  fold_left Nat.add
    (map (fun e => (snd e).(KeywordDensity.occurrences)) keyword_densities) O.

Definition calculate_keyword_density (text : string)
           (target_keywords : list string) : Py.result DensityReport.t :=
  let text_lower := Py.lower text in
  let total_words := List.length (Py.split text_lower) in
  keyword_densities <-
    keyword_density_loop text_lower total_words target_keywords [] ;;
  (* Overall assessment *)
  let total_keyword_occurrences := total_occurrences keyword_densities in
  overall_density <- percentage total_keyword_occurrences total_words ;;
  Py.ret {| DensityReport.total_words := total_words;
            DensityReport.keyword_densities := keyword_densities;
            DensityReport.overall_keyword_density :=
              KeywordAnalyzerTools.round2 overall_density;
            DensityReport.assessment :=
              _assess_overall_density overall_density;
            DensityReport.recommendations :=
              _generate_density_recommendations keyword_densities |}.

(** ** optimize_description *)

(** The dict [app_info]; [name] is read by subscript, the other keys with
    [.get]. *)
Module AppInfo.
Record t : Type := {
  name : option string;
  key_features : option (list string);
  unique_value : option string;
  target_audience : option string
}.
End AppInfo.

(** [target_keywords[0] if target_keywords else '']. *)
Definition first_or_empty (xs : list string) : string :=
  match xs with
  | x :: _ => x
  | [] => EmptyString
  end.

Module ShortDescription.
Record t : Type := {
  short_description : string;
  length : Z;
  remaining_chars : Z;
  keywords_included : list string;
  strategy : string
}.
End ShortDescription.

Definition _optimize_short_description (self : MetadataOptimizer.t)
           (app_info : AppInfo.t) (target_keywords : list string)
  : Py.result ShortDescription.t :=
  max_length <-
    Py.getitem self.(MetadataOptimizer.limits) "short_description" ;;
  (* Focus on unique value proposition with primary keyword *)
  let unique_value := Py.get app_info.(AppInfo.unique_value) EmptyString in
  let primary_keyword := first_or_empty target_keywords in
  (* Template: [Primary Keyword] - [Unique Value] *)
  let short_desc :=
    PyText.slice_to max_length
      (Py.title primary_keyword ++ " - " ++ unique_value) in
  Py.ret {| ShortDescription.short_description := short_desc;
            ShortDescription.length := PyText.len short_desc;
            ShortDescription.remaining_chars :=
              (max_length - PyText.len short_desc)%Z;
            ShortDescription.keywords_included :=
              if PyText.is_substring primary_keyword (Py.lower short_desc)
              then [primary_keyword] else [];
            ShortDescription.strategy := "keyword_value_proposition" |}.

Module Subtitle.
Record t : Type := {
  subtitle_options : list string;
  max_length : Z;
  recommendation : string
}.
End Subtitle.

(** [if s:] for a string. *)
Definition nonempty (s : string) : bool :=
  match s with
  | EmptyString => false
  | _ => true
  end.

Definition _optimize_subtitle (self : MetadataOptimizer.t)
           (app_info : AppInfo.t) (target_keywords : list string)
  : Py.result Subtitle.t :=
  max_length <- Py.getitem self.(MetadataOptimizer.limits) "subtitle" ;;
  (* Very concise - primary keyword or key feature *)
  let primary_keyword := first_or_empty target_keywords in
  let key_feature :=
    match app_info.(AppInfo.key_features) with
    | Some (feature :: _) => feature
    | _ => EmptyString
    end in
  let options :=
    [ PyText.slice_to max_length primary_keyword;
      PyText.slice_to max_length key_feature;
      PyText.slice_to max_length (primary_keyword ++ " App") ] in
  Py.ret {| Subtitle.subtitle_options := filter nonempty options;
            Subtitle.max_length := max_length;
            Subtitle.recommendation := first_or_empty options |}.

Module Structure.
Record t : Type := {
  has_hook : bool;
  has_features : bool;
  has_benefits : bool;
  has_cta : bool
}.
End Structure.

Module FullDescription.
Record t : Type := {
  full_description : string;
  length : Z;
  remaining_chars : Z;
  keyword_analysis : DensityReport.t;
  structure : Structure.t
}.
End FullDescription.

(** The line feed. *)
Definition nl : string := String "010" EmptyString.

(** What [optimize_description] returns: one of three dicts. *)
Inductive Description : Type :=
| Short (d : ShortDescription.t)
| SubtitleOptions (d : Subtitle.t)
| Full (d : FullDescription.t).

Module Package.
Record t : Type := {
  platform : string;
  title : MetadataOptimizerMethods.TitleReport.t;
  description : Description;
  keyword_field : option MetadataOptimizerMethods.KeywordFieldResult
}.
End Package.

Section Bullet.

(** The character U+2022 that starts a feature line; the 8-bit alphabet of
    [string] has no such character. *)
Variable bullet : ascii.

(** The loop over [enumerate(features[:5], 1)]. *)
Fixpoint feature_loop (i : nat) (features target_keywords : list string)
         (sections : list string) : list string :=
  match features with
  | [] => sections
  | feature :: rest =>
      (* Integrate keywords naturally *)
      let feature_text := String bullet (" " ++ feature) in
      let feature_text :=
        if (i <=? List.length target_keywords)%nat then
          match nth_error target_keywords (i - 1) with
          | Some keyword =>
              if negb (PyText.is_substring (Py.lower keyword)
                                           (Py.lower feature))
              then String bullet (" " ++ feature ++ " with " ++ keyword)
              else feature_text
          | None => feature_text
          end
        else feature_text in
      feature_loop (S i) rest target_keywords
                   (Py.append sections (feature_text ++ nl))
  end.

Definition _optimize_full_description (self : MetadataOptimizer.t)
           (app_info : AppInfo.t) (target_keywords : list string)
  : Py.result FullDescription.t :=
  let max_length :=
    Py.get (Py.lookup self.(MetadataOptimizer.limits) "description")
           (Py.get (Py.lookup self.(MetadataOptimizer.limits)
                              "full_description") 4000%Z) in
  (* Structure: Hook, Features, Benefits, Social Proof, CTA *)
  let sections := [] in
  (* Hook (with primary keyword) *)
  let primary_keyword := first_or_empty target_keywords in
  let unique_value := Py.get app_info.(AppInfo.unique_value) EmptyString in
  let hook :=
    unique_value ++ " " ++ Py.title primary_keyword
    ++ " that helps you achieve more." ++ nl ++ nl in
  let sections := Py.append sections hook in
  (* Features (with keywords naturally integrated) *)
  let features := Py.get app_info.(AppInfo.key_features) [] in
  let sections :=
    match features with
    | _ :: _ =>
        let sections := Py.append sections ("KEY FEATURES:" ++ nl) in
        let sections :=
          feature_loop 1 (Py.slice_to 5 features) target_keywords sections in
        Py.append sections nl
    | [] => sections
    end in
  (* Benefits *)
  let target_audience := Py.get app_info.(AppInfo.target_audience) "users" in
  let sections :=
    Py.append sections ("PERFECT FOR:" ++ nl ++ target_audience ++ nl ++ nl) in
  (* Social proof placeholder *)
  let sections := Py.append sections ("WHY USERS LOVE US:" ++ nl) in
  let sections :=
    Py.append sections
      ("Join thousands of satisfied users who have transformed their workflow."
       ++ nl ++ nl) in
  (* CTA *)
  let sections :=
    Py.append sections
      "Download now and start experiencing the difference!" in
  (* Combine and validate length *)
  let full_description := PyText.join EmptyString sections in
  let full_description :=
    if (max_length <? PyText.len full_description)%Z
    then PyText.slice_to (max_length - 3) full_description ++ "..."
    else full_description in
  (* Calculate keyword density *)
  density <- calculate_keyword_density full_description target_keywords ;;
  Py.ret {| FullDescription.full_description := full_description;
            FullDescription.length := PyText.len full_description;
            FullDescription.remaining_chars :=
              (max_length - PyText.len full_description)%Z;
            FullDescription.keyword_analysis := density;
            FullDescription.structure :=
              {| Structure.has_hook := true;
                 Structure.has_features := (0 <? List.length features)%nat;
                 Structure.has_benefits := true;
                 Structure.has_cta := true |} |}.

Definition optimize_description (self : MetadataOptimizer.t)
           (app_info : AppInfo.t) (target_keywords : list string)
           (description_type : string) : Py.result Description :=
  if String.eqb description_type "short"
     && String.eqb self.(MetadataOptimizer.platform) "google"
  then d <- _optimize_short_description self app_info target_keywords ;;
       Py.ret (Short d)
  else if String.eqb description_type "subtitle"
          && String.eqb self.(MetadataOptimizer.platform) "apple"
  then d <- _optimize_subtitle self app_info target_keywords ;;
       Py.ret (SubtitleOptions d)
  else d <- _optimize_full_description self app_info target_keywords ;;
       Py.ret (Full d).

(** ** optimize_app_metadata *)

(** The module-level convenience function. *)
Definition optimize_app_metadata (platform : string) (app_info : AppInfo.t)
           (target_keywords : list string) : Py.result Package.t :=
  optimizer <- MetadataOptimizer.__init__ platform ;;
  name <-
    match app_info.(AppInfo.name) with
    | Some n => Py.ret n
    | None => Py.Raise (Py.KeyError "name")
    end ;;
  title <-
    MetadataOptimizerMethods.optimize_title optimizer name target_keywords
                                            true ;;
  description <-
    optimize_description optimizer app_info target_keywords "full" ;;
  keyword_field <-
    (if String.eqb platform "apple" then
       r <- MetadataOptimizerMethods.optimize_keyword_field
              optimizer target_keywords EmptyString EmptyString ;;
       Py.ret (Some r)
     else Py.ret None) ;;
  Py.ret {| Package.platform := platform;
            Package.title := title;
            Package.description := description;
            Package.keyword_field := keyword_field |}.

End Bullet.

End MetadataOptimizerDescriptions.

(* ================================================================== *)
(** * metadata_optimizer.py: Custom Product Pages *)
(* ================================================================== *)

Module CustomProductPages.

(** Maximum number of Custom Product Pages allowed by Apple. *)
Definition MAX_CPP_COUNT : Z := 70.

(** ** Title and subtitle variants *)

(** The loop that returns the first candidate within the limit. *)
Fixpoint first_fitting (candidates : list string) (limit : Z)
  : option string :=
  match candidates with
  | [] => None
  | candidate :: rest =>
      if (PyText.len candidate <=? limit)%Z then Some candidate
      else first_fitting rest limit
  end.

Definition _generate_cpp_title (segment primary_kw : string) (limit : Z)
  : string :=
  (* Try keyword-focused title first *)
  let candidates :=
    [ Py.title primary_kw;
      Py.title primary_kw ++ " App";
      "Best " ++ Py.title primary_kw;
      Py.title segment ++ " " ++ Py.title primary_kw ] in
  match first_fitting candidates limit with
  | Some candidate => candidate
  | None =>
      (* Fallback: truncate primary keyword *)
      PyText.slice_to limit (Py.title primary_kw)
  end.

Definition _generate_cpp_title_paid (segment primary_kw : string) (limit : Z)
  : string :=
  let candidates :=
    [ "Try " ++ Py.title primary_kw ++ " Free";
      "Get " ++ Py.title primary_kw ++ " Now";
      Py.title primary_kw ++ " - Free";
      "Start " ++ Py.title primary_kw ] in
  match first_fitting candidates limit with
  | Some candidate => candidate
  | None => PyText.slice_to limit (Py.title primary_kw)
  end.

Definition _generate_cpp_subtitle (segment : string) (keywords : list string)
           (limit : Z) : string :=
  let seg_lower := Py.lower segment in
  let secondary_kw :=
    match keywords with
    | _ :: second :: _ => second
    | _ => EmptyString
    end in
  let candidates :=
    [ "Made for " ++ seg_lower;
      "Perfect for " ++ seg_lower;
      if MetadataOptimizerDescriptions.nonempty secondary_kw
      then Py.title secondary_kw ++ " for " ++ seg_lower
      else EmptyString;
      "Built for " ++ seg_lower ] in
  let candidates :=
    filter MetadataOptimizerDescriptions.nonempty candidates in
  match first_fitting candidates limit with
  | Some candidate => candidate
  | None => PyText.slice_to limit ("For " ++ seg_lower)
  end.

Definition _generate_cpp_subtitle_paid (segment : string)
           (keywords : list string) (limit : Z) : string :=
  let seg_lower := Py.lower segment in
  let candidates :=
    [ "Join millions of " ++ seg_lower;
      "#1 app for " ++ seg_lower;
      "Loved by " ++ seg_lower;
      "Top rated for " ++ seg_lower ] in
  match first_fitting candidates limit with
  | Some candidate => candidate
  | None => PyText.slice_to limit ("For " ++ seg_lower)
  end.

(** ** Screenshot focus *)

Definition segment_screenshot_map : list (string * list string) :=
  [ ("beginner",
     [ "Onboarding simplicity";
       "Getting started flow";
       "Simple UI overview";
       "Quick start guide visual" ]);
    ("power user",
     [ "Advanced features showcase";
       "Customization options";
       "Keyboard shortcuts / power tools";
       "Workflow automation examples" ]);
    ("enterprise",
     [ "Team collaboration features";
       "Admin dashboard / controls";
       "Security and compliance badges";
       "Integration ecosystem" ]);
    ("professional",
     [ "Productivity metrics";
       "Professional templates";
       "Export and sharing options";
       "Cross-device sync" ]);
    ("student",
     [ "Study tools and features";
       "Affordable pricing";
       "Collaboration with classmates";
       "Offline access capability" ]) ].

(** The loop over [segment_screenshot_map.items()]. *)
Fixpoint matching_focus (seg_lower : string)
         (items : list (string * list string)) : option (list string) :=
  match items with
  | [] => None
  | (key, focus) :: rest =>
      if PyText.is_substring key seg_lower then Some focus
      else matching_focus seg_lower rest
  end.

Definition _determine_screenshot_focus (segment : string)
           (keywords : list string) : list string :=
  let seg_lower := Py.lower segment in
  (* Find best matching segment focus *)
  match matching_focus seg_lower segment_screenshot_map with
  | Some focus => focus
  | None =>
      (* Default: generic focus areas incorporating keywords *)
      let focus := ["Key feature highlight"; "User interface overview"] in
      fold_left
        (fun focus kw =>
           Py.append focus ("Showcase " ++ Py.lower kw ++ " capability"))
        (Py.slice_to 2 keywords) focus
  end.

(** ** Keyword clusters *)

(** One cluster dict of [keyword_clusters], as [cluster_by_intent] builds
    them; every key is read with [.get]. *)
Module ClusterDict.
Record t : Type := {
  name : option string;
  intent : option string;
  keywords : option (list string);
  combined_score : option Q
}.
End ClusterDict.

(** One value of [keyword_cluster_map]. *)
Module ClusterInfo.
Record t : Type := {
  cluster_name : string;
  intent : string;
  combined_score : Q
}.
End ClusterInfo.

(** The two loops that build [keyword_cluster_map]. *)
Definition map_cluster (keyword_cluster_map : list (string * ClusterInfo.t))
           (cluster : ClusterDict.t) : list (string * ClusterInfo.t) :=
  fold_left
    (fun m kw =>
       Py.setitem m (Py.lower kw)
         {| ClusterInfo.cluster_name :=
              Py.get cluster.(ClusterDict.name) "General";
            ClusterInfo.intent :=
              Py.get cluster.(ClusterDict.intent) "general";
            ClusterInfo.combined_score :=
              Py.get cluster.(ClusterDict.combined_score) 0 |})
    (Py.get cluster.(ClusterDict.keywords) []) keyword_cluster_map.

Definition build_cluster_map (keyword_clusters : option (list ClusterDict.t))
  : list (string * ClusterInfo.t) :=
  fold_left map_cluster (Py.get keyword_clusters []) [].

(** ** Distribution of the keywords *)

(** [{seg: [] for seg in segments}]. *)
Definition empty_segments (segments : list string)
  : list (string * list string) :=
  fold_left (fun d seg => Py.setitem d seg []) segments [].

(** [segment_keywords[segment].extend(kws)]; [append] is the case of one
    keyword. *)
Definition extend (segment_keywords : list (string * list string))
           (segment : string) (kws : list string)
  : Py.result (list (string * list string)) :=
  old <- Py.getitem segment_keywords segment ;;
  Py.ret (Py.setitem segment_keywords segment (old ++ kws)%list).

(** The loop that groups the keywords by intent, from the state
    [(intent_groups, unclustered)]. *)
Fixpoint group_by_intent (keyword_cluster_map : list (string * ClusterInfo.t))
         (keywords : list string)
         (intent_groups : list (string * list string))
         (unclustered : list string)
  : list (string * list string) * list string :=
  match keywords with
  | [] => (intent_groups, unclustered)
  | kw :: rest =>
      match Py.lookup keyword_cluster_map (Py.lower kw) with
      | Some info =>
          group_by_intent keyword_cluster_map rest
            (KeywordAnalyzer.add_to_cluster intent_groups
                                            info.(ClusterInfo.intent) kw)
            unclustered
      | None =>
          group_by_intent keyword_cluster_map rest intent_groups
                          (Py.append unclustered kw)
      end
  end.

(** The loop over [enumerate(unclustered)] for the segment of index
    [idx]. *)
Fixpoint round_robin_unclustered (n_segments : Z) (idx : Z)
         (segment : string) (j : Z) (unclustered : list string)
         (segment_keywords : list (string * list string))
  : Py.result (list (string * list string)) :=
  match unclustered with
  | [] => Py.ret segment_keywords
  | kw :: rest =>
      m <- PyText.floormod j n_segments ;;
      segment_keywords <-
        (if (m =? idx)%Z then extend segment_keywords segment [kw]
         else Py.ret segment_keywords) ;;
      round_robin_unclustered n_segments idx segment (j + 1)%Z rest
                              segment_keywords
  end.

(** The loop over [enumerate(segments)] when clusters are given;
    [remaining] is the part of [segments] still to visit. *)
Fixpoint assign_groups (n_segments : Z)
         (intent_list : list (string * list string))
         (unclustered : list string) (idx : nat) (remaining : list string)
         (segment_keywords : list (string * list string))
  : Py.result (list (string * list string)) :=
  match remaining with
  | [] => Py.ret segment_keywords
  | segment :: rest =>
      (* Assign primary intent cluster *)
      segment_keywords <-
        match nth_error intent_list idx with
        | Some (_, cluster_kws) => extend segment_keywords segment cluster_kws
        | None => Py.ret segment_keywords
        end ;;
      (* Distribute unclustered keywords round-robin *)
      segment_keywords <-
        round_robin_unclustered n_segments (Z.of_nat idx) segment 0
                                unclustered segment_keywords ;;
      assign_groups n_segments intent_list unclustered (S idx) rest
                    segment_keywords
  end.

(** The loop over [enumerate(keywords)] when no cluster is given.  The
    index [i % len(segments)] is below [len(segments)], so the subscript of
    [segments] cannot fail. *)
Fixpoint round_robin (segments : list string) (i : Z) (keywords : list string)
         (segment_keywords : list (string * list string))
  : Py.result (list (string * list string)) :=
  match keywords with
  | [] => Py.ret segment_keywords
  | kw :: rest =>
      m <- PyText.floormod i (Z.of_nat (List.length segments)) ;;
      let target_segment := nth (Z.to_nat m) segments EmptyString in
      segment_keywords <- extend segment_keywords target_segment [kw] ;;
      round_robin segments (i + 1)%Z rest segment_keywords
  end.

Definition _distribute_keywords_to_segments (segments keywords : list string)
           (keyword_cluster_map : list (string * ClusterInfo.t))
  : Py.result (list (string * list string)) :=
  let segment_keywords := empty_segments segments in
  match keyword_cluster_map with
  | _ :: _ =>
      (* Group keywords by intent *)
      let '(intent_groups, unclustered) :=
        group_by_intent keyword_cluster_map keywords [] [] in
      (* Map intent groups to segments in order *)
      let intent_list := intent_groups in
      assign_groups (Z.of_nat (List.length segments)) intent_list unclustered
                    0 segments segment_keywords
  | [] =>
      (* Simple round-robin distribution *)
      round_robin segments 0 keywords segment_keywords
  end.

(** ** One page *)

Module CPP.
Record t : Type := {
  segment : string;
  cpp_type : string;
  title_variant : string;
  title_char_count : Z;
  title_limit : Z;
  subtitle_variant : string;
  subtitle_char_count : Z;
  subtitle_limit : Z;
  keyword_assignment : list string;
  keyword_count : Z;
  dominant_intent : string;
  screenshot_focus : list string
}.
End CPP.

(** The loop that counts the intents of the assigned keywords. *)
Fixpoint count_intents (keyword_cluster_map : list (string * ClusterInfo.t))
         (assigned_keywords : list string) (intent_counts : list (string * Z))
  : list (string * Z) :=
  match assigned_keywords with
  | [] => intent_counts
  | kw :: rest =>
      match Py.lookup keyword_cluster_map (Py.lower kw) with
      | Some info =>
          let intent := info.(ClusterInfo.intent) in
          count_intents keyword_cluster_map rest
            (Py.setitem intent_counts intent
               (Py.get (Py.lookup intent_counts intent) 0 + 1)%Z)
      | None => count_intents keyword_cluster_map rest intent_counts
      end
  end.

(** [max(intent_counts, key=intent_counts.get)] from the best entry so far:
    the first key of largest count. *)
Fixpoint max_count (best : string * Z) (entries : list (string * Z))
  : string :=
  match entries with
  | [] => fst best
  | e :: rest =>
      if (snd best <? snd e)%Z then max_count e rest
      else max_count best rest
  end.

Definition _build_cpp_for_segment (self : MetadataOptimizer.t)
           (segment : string) (assigned_keywords : list string)
           (cpp_type : string)
           (keyword_cluster_map : list (string * ClusterInfo.t))
  : Py.result CPP.t :=
  title_limit <- Py.getitem self.(MetadataOptimizer.limits) "title" ;;
  subtitle_limit <- Py.getitem self.(MetadataOptimizer.limits) "subtitle" ;;
  (* Determine primary keyword for this segment *)
  let primary_kw :=
    match assigned_keywords with
    | kw :: _ => kw
    | [] => segment
    end in
  (* Generate title variant *)
  let '(title_variant, subtitle_variant) :=
    if String.eqb cpp_type "organic" then
      (_generate_cpp_title segment primary_kw title_limit,
       _generate_cpp_subtitle segment assigned_keywords subtitle_limit)
    else
      (* Paid CPPs use more direct, CTA-oriented language *)
      (_generate_cpp_title_paid segment primary_kw title_limit,
       _generate_cpp_subtitle_paid segment assigned_keywords subtitle_limit)
  in
  (* Determine screenshot focus based on segment *)
  let screenshot_focus :=
    _determine_screenshot_focus segment assigned_keywords in
  (* Determine dominant intent from assigned keywords *)
  let dominant_intent :=
    match keyword_cluster_map, assigned_keywords with
    | _ :: _, _ :: _ =>
        match count_intents keyword_cluster_map assigned_keywords [] with
        | first :: rest => max_count first rest
        | [] => "general"
        end
    | _, _ => "general"
    end in
  Py.ret {| CPP.segment := segment;
            CPP.cpp_type := cpp_type;
            CPP.title_variant := title_variant;
            CPP.title_char_count := PyText.len title_variant;
            CPP.title_limit := title_limit;
            CPP.subtitle_variant := subtitle_variant;
            CPP.subtitle_char_count := PyText.len subtitle_variant;
            CPP.subtitle_limit := subtitle_limit;
            CPP.keyword_assignment := Py.slice_to 10 assigned_keywords;
            CPP.keyword_count :=
              Z.min (Z.of_nat (List.length assigned_keywords)) 10;
            CPP.dominant_intent := dominant_intent;
            CPP.screenshot_focus := screenshot_focus |}.

(** ** Validation *)

Module CppValidation.
Record t : Type := {
  is_valid : bool;
  error_count : nat;
  warning_count : nat;
  errors : list string;
  warnings : list string
}.
End CppValidation.

(** The loop of [_validate_cpp_metadata], from the state
    [(errors, warnings)]. *)
Fixpoint validate_cpp_loop (all_cpps : list CPP.t)
         (errors warnings : list string) : list string * list string :=
  match all_cpps with
  | [] => (errors, warnings)
  | cpp :: rest =>
      let label :=
        PyText.upper cpp.(CPP.cpp_type) ++ " CPP [" ++ cpp.(CPP.segment)
        ++ "]" in
      let errors :=
        if (cpp.(CPP.title_limit) <? cpp.(CPP.title_char_count))%Z then
          Py.append errors
            (label ++ ": Title exceeds "
             ++ PyText.str_of_int cpp.(CPP.title_limit) ++ " chars ("
             ++ PyText.str_of_int cpp.(CPP.title_char_count) ++ " chars): '"
             ++ cpp.(CPP.title_variant) ++ "'")
        else errors in
      let errors :=
        if (cpp.(CPP.subtitle_limit) <? cpp.(CPP.subtitle_char_count))%Z then
          Py.append errors
            (label ++ ": Subtitle exceeds "
             ++ PyText.str_of_int cpp.(CPP.subtitle_limit) ++ " chars ("
             ++ PyText.str_of_int cpp.(CPP.subtitle_char_count)
             ++ " chars): '" ++ cpp.(CPP.subtitle_variant) ++ "'")
        else errors in
      let warnings :=
        if (cpp.(CPP.keyword_count) =? 0)%Z then
          Py.append warnings
            (label
             ++ ": No keywords assigned - CPP may not rank for any queries")
        else warnings in
      validate_cpp_loop rest errors warnings
  end.

Definition _validate_cpp_metadata (all_cpps : list CPP.t) : CppValidation.t :=
  let '(errors, warnings) := validate_cpp_loop all_cpps [] [] in
  {| CppValidation.is_valid := (List.length errors =? 0)%nat;
     CppValidation.error_count := List.length errors;
     CppValidation.warning_count := List.length warnings;
     CppValidation.errors := errors;
     CppValidation.warnings := warnings |}.

(** ** generate_cpp_metadata *)

Module StrategyNotes.
Record t : Type := {
  organic : string;
  paid : string;
  best_practices : list string
}.
End StrategyNotes.

Module CppReport.
Record t : Type := {
  platform : string;
  total_cpps : Z;
  max_allowed : Z;
  remaining_slots : Z;
  organic_cpps : list CPP.t;
  paid_cpps : list CPP.t;
  segment_keyword_distribution : list (string * list string);
  validation : CppValidation.t;
  strategy_notes : StrategyNotes.t
}.
End CppReport.

(** What [generate_cpp_metadata] returns: the dict with the keys [error]
    and [suggestion], or the report. *)
Inductive CppResult : Type :=
| CppError (error suggestion : string)
| CppOk (report : CppReport.t).

(** The loop over the segments, from the state
    [(organic_cpps, paid_cpps)]. *)
Fixpoint build_all (self : MetadataOptimizer.t)
         (segment_keywords : list (string * list string))
         (keyword_cluster_map : list (string * ClusterInfo.t))
         (segments : list string) (organic_cpps paid_cpps : list CPP.t)
  : Py.result (list CPP.t * list CPP.t) :=
  match segments with
  | [] => Py.ret (organic_cpps, paid_cpps)
  | segment :: rest =>
      let seg_kws := Py.get (Py.lookup segment_keywords segment) [] in
      (* Organic CPP *)
      organic_cpp <-
        _build_cpp_for_segment self segment seg_kws "organic"
                               keyword_cluster_map ;;
      (* Paid CPP (Apple Search Ads) *)
      paid_cpp <-
        _build_cpp_for_segment self segment seg_kws "paid"
                               keyword_cluster_map ;;
      build_all self segment_keywords keyword_cluster_map rest
                (Py.append organic_cpps organic_cpp)
                (Py.append paid_cpps paid_cpp)
  end.

Definition generate_cpp_metadata (self : MetadataOptimizer.t)
           (segments keywords : list string)
           (keyword_clusters : option (list ClusterDict.t))
  : Py.result CppResult :=
  if negb (String.eqb self.(MetadataOptimizer.platform) "apple") then
    Py.ret (CppError
              "Custom Product Pages are only available on Apple App Store"
              "Use Google Play Store Listing Experiments for A/B testing on Google")
  else
    (* Organic: 1 per segment, Paid: 1 per segment *)
    let organic_count := Z.of_nat (List.length segments) in
    let paid_count := Z.of_nat (List.length segments) in
    let total_cpps := (organic_count + paid_count)%Z in
    if (MAX_CPP_COUNT <? total_cpps)%Z then
      half <- PyText.floordiv MAX_CPP_COUNT 2 ;;
      Py.Raise
        (Py.ValueError
           ("Total CPP count (" ++ PyText.str_of_int total_cpps
            ++ ") exceeds Apple limit of " ++ PyText.str_of_int MAX_CPP_COUNT
            ++ ". Reduce segments from "
            ++ PyText.str_of_int (Z.of_nat (List.length segments))
            ++ " to at most " ++ PyText.str_of_int half ++ "."))
    else
      (* Build keyword-to-cluster mapping if clusters are provided *)
      let keyword_cluster_map := build_cluster_map keyword_clusters in
      (* Distribute keywords across segments *)
      segment_keywords <-
        _distribute_keywords_to_segments segments keywords
                                         keyword_cluster_map ;;
      (* Generate CPP metadata for each segment *)
      r <- build_all self segment_keywords keyword_cluster_map segments
                     [] [] ;;
      let '(organic_cpps, paid_cpps) := r in
      (* Validation pass *)
      let validation :=
        _validate_cpp_metadata (organic_cpps ++ paid_cpps)%list in
      Py.ret (CppOk
        {| CppReport.platform := "apple";
           CppReport.total_cpps := total_cpps;
           CppReport.max_allowed := MAX_CPP_COUNT;
           CppReport.remaining_slots := (MAX_CPP_COUNT - total_cpps)%Z;
           CppReport.organic_cpps := organic_cpps;
           CppReport.paid_cpps := paid_cpps;
           CppReport.segment_keyword_distribution := segment_keywords;
           CppReport.validation := validation;
           CppReport.strategy_notes :=
             {| StrategyNotes.organic :=
                  "Organic CPPs appear in App Store search results based on keyword relevance. Tailor each page to a specific user intent so Apple can match the right page to the right query.";
                StrategyNotes.paid :=
                  "Paid CPPs are used with Apple Search Ads. Each paid CPP should have messaging aligned to the ad keyword theme. Use strong CTAs and social proof specific to the target segment.";
                StrategyNotes.best_practices :=
                  [ "Create separate CPPs for distinct user segments (beginners vs experts)";
        "Align screenshot order with segment priorities";
        "Use segment-specific language in title and subtitle variants";
        "Test CPP performance monthly and retire underperformers";
        "Organic CPPs should focus on different keyword themes";
        "Paid CPPs should mirror the ad copy messaging";
        "Apple allows up to 70 CPPs - start with 3-5 and expand based on data";
        "Each CPP can have unique screenshots, app previews, and promotional text" ] |} |}).

End CustomProductPages.

(* ================================================================== *)
(** * metadata_optimizer.py: screenshot captions *)
(* ================================================================== *)

Module ScreenshotCaptions.

(** The only exception this method can raise is the [IndexError] of the
    subscript [caption_text[0]]. *)
Inductive outcome (A : Type) : Type :=
| Returned (a : A)
| RaisedIndexError.
Arguments Returned {A} a.
Arguments RaisedIndexError {A}.

(** [CAPTION_CHAR_GUIDANCE]: tier, [max_chars] and [description]. *)
Definition CAPTION_CHAR_GUIDANCE : list (string * (Z * string)) :=
  [ ("short", (40%Z, "Best for small screenshots / compact layouts"));
    ("medium", (70%Z, "Standard caption length for most screenshots"));
    ("long",
     (100%Z, "Use sparingly; only for landscape or large display")) ].

Definition short_max_chars : Z := 40.
Definition medium_max_chars : Z := 70.
Definition long_max_chars : Z := 100.

Definition _CAPTION_TEMPLATES : list string :=
  [ "Easily {kw} in seconds";
    "{kw} made simple";
    "Your personal {kw} assistant";
    "Smart {kw} at your fingertips";
    "Track and {kw} effortlessly";
    "Powerful {kw} tools";
    "Beautiful {kw} experience";
    "All your {kw} in one place";
    "{kw} with confidence";
    "Discover better {kw}";
    "Simplify your {kw}";
    "The smarter way to {kw}";
    "Master your {kw}";
    "{kw} like a pro";
    "Instant {kw} insights" ].

(** The dict [existing_metadata]; every key is read with [.get]. *)
Module ExistingMetadata.
Record t : Type := {
  title : option string;
  subtitle : option string;
  keyword_field : option string
}.
End ExistingMetadata.

(** [used_words.update(tokens)]. *)
Definition update (used_words tokens : list string) : list string :=
  fold_left Py.set_add tokens used_words.

(** Step 1: the words already used in the existing metadata. *)
Definition collect_used_words (existing_metadata : ExistingMetadata.t)
  : list string :=
  let used_words := [] in
  let used_words :=
    match Py.get existing_metadata.(ExistingMetadata.title) EmptyString with
    | EmptyString => used_words
    | value => update used_words (Py.split (Py.lower value))
    end in
  let used_words :=
    match Py.get existing_metadata.(ExistingMetadata.subtitle) EmptyString
    with
    | EmptyString => used_words
    | value => update used_words (Py.split (Py.lower value))
    end in
  match Py.get existing_metadata.(ExistingMetadata.keyword_field) EmptyString
  with
  | EmptyString => used_words
  | value =>
      (* For keyword_field, split on commas *)
      update used_words
             (map (fun w => Py.lower (PyText.strip w))
                  (PyText.split_on "," value))
  end.

(** Step 2: the loop that separates the keywords, from the state
    [(complementary_keywords, already_covered)]. *)
Fixpoint separate (used_words keywords : list string)
         (complementary_keywords already_covered : list string)
  : list string * list string :=
  match keywords with
  | [] => (complementary_keywords, already_covered)
  | kw :: rest =>
      let kw_lower := PyText.strip (Py.lower kw) in
      let kw_words := Py.set_of (Py.split kw_lower) in
      (* Already covered if ALL its words appear in used metadata *)
      if forallb (Py.contains used_words) kw_words
      then separate used_words rest complementary_keywords
                    (Py.append already_covered kw)
      else separate used_words rest (Py.append complementary_keywords kw)
                    already_covered
  end.

Module Caption.
Record t : Type := {
  caption : string;
  keywords_used : list string;
  char_count : Z;
  readability : string;
  readability_note : string
}.
End Caption.

(** [caption_text[0].upper() + caption_text[1:]]. *)
Definition capitalize_first (caption_text : string) : outcome string :=
  match caption_text with
  | String c rest => Returned (String (Py.upper_char c) rest)
  | EmptyString => RaisedIndexError
  end.

(** One caption, from the keyword and the number of the template. *)
Definition make_caption (complementary_keywords : list string)
           (max_caption_length : Z) (kw : string) (templates_used : nat)
  : outcome Caption.t :=
  let template :=
    nth (templates_used mod List.length _CAPTION_TEMPLATES)
        _CAPTION_TEMPLATES EmptyString in
  let caption_text := PyText.format_kw 0 template (Py.lower kw) in
  (* Capitalize first letter *)
  match capitalize_first caption_text with
  | RaisedIndexError => RaisedIndexError
  | Returned caption_text =>
      let char_count := PyText.len caption_text in
      (* Determine readability tier *)
      let '(caption_text, char_count, readability, readability_note) :=
        if (char_count <=? short_max_chars)%Z then
          (caption_text, char_count, "excellent",
           "Short and punchy - great readability on all devices")
        else if (char_count <=? medium_max_chars)%Z then
          (caption_text, char_count, "good",
           "Standard length - readable on most screenshot layouts")
        else if (char_count <=? long_max_chars)%Z then
          (caption_text, char_count, "acceptable",
           "Long - consider only for landscape or hero screenshots")
        else
          (* Truncate to max and re-evaluate *)
          let caption_text :=
            PyText.slice_to max_caption_length caption_text in
          (caption_text, PyText.len caption_text, "truncated",
           "Truncated to " ++ PyText.str_of_int max_caption_length
           ++ " chars for legibility") in
      (* Extract which keywords from our list appear in this caption *)
      let keywords_used :=
        filter (fun k => PyText.is_substring (Py.lower k)
                                             (Py.lower caption_text))
               complementary_keywords in
      Returned {| Caption.caption := caption_text;
                  Caption.keywords_used := keywords_used;
                  Caption.char_count := char_count;
                  Caption.readability := readability;
                  Caption.readability_note := readability_note |}
  end.

(** Step 3: the loop over the complementary keywords; [todo] is the part
    still to visit. *)
Fixpoint caption_loop (complementary_keywords : list string)
         (num_captions max_caption_length : Z) (todo : list string)
         (captions : list Caption.t) (templates_used : nat)
  : outcome (list Caption.t) :=
  match todo with
  | [] => Returned captions
  | kw :: rest =>
      if (num_captions <=? Z.of_nat (List.length captions))%Z
      then Returned captions
      else
        match make_caption complementary_keywords max_caption_length kw
                           templates_used with
        | RaisedIndexError => RaisedIndexError
        | Returned c =>
            caption_loop complementary_keywords num_captions
                         max_caption_length rest (Py.append captions c)
                         (S templates_used)
        end
  end.

Module Coverage.
Record t : Type := {
  total_input_keywords : nat;
  already_in_metadata : nat;
  complementary_available : nat;
  used_in_captions : nat;
  already_covered_keywords : list string;
  complementary_keywords : list string
}.
End Coverage.

Module CaptionReport.
Record t : Type := {
  platform : string;
  captions : list Caption.t;
  caption_count : nat;
  keyword_coverage : Coverage.t;
  character_guidance : list (string * (Z * string));
  best_practices : list string
}.
End CaptionReport.

(** Step 4: the set of the keywords used in the captions, lower-cased. *)
Definition keywords_in_captions (captions : list Caption.t) : list string :=
  fold_left
    (fun all c =>
       fold_left (fun all k => Py.set_add all (Py.lower k))
                 c.(Caption.keywords_used) all)
    captions [].

Definition generate_screenshot_captions (self : MetadataOptimizer.t)
           (keywords : list string)
           (existing_metadata : ExistingMetadata.t)
           (num_captions max_caption_length : Z)
  : outcome CaptionReport.t :=
  (* Clamp num_captions to 5-10 range *)
  let num_captions := Z.max 5 (Z.min 10 num_captions) in
  (* Step 1 *)
  let used_words := collect_used_words existing_metadata in
  (* Step 2 *)
  let '(complementary_keywords, already_covered) :=
    separate used_words keywords [] [] in
  (* Step 3 *)
  match caption_loop complementary_keywords num_captions max_caption_length
                     complementary_keywords [] 0 with
  | RaisedIndexError => RaisedIndexError
  | Returned captions =>
      (* Step 4 *)
      let all_keywords_in_captions := keywords_in_captions captions in
      Returned
        {| CaptionReport.platform := self.(MetadataOptimizer.platform);
           CaptionReport.captions := captions;
           CaptionReport.caption_count := List.length captions;
           CaptionReport.keyword_coverage :=
             {| Coverage.total_input_keywords := List.length keywords;
                Coverage.already_in_metadata := List.length already_covered;
                Coverage.complementary_available :=
                  List.length complementary_keywords;
                Coverage.used_in_captions :=
                  List.length all_keywords_in_captions;
                Coverage.already_covered_keywords := already_covered;
                Coverage.complementary_keywords := complementary_keywords |};
           CaptionReport.character_guidance := CAPTION_CHAR_GUIDANCE;
           CaptionReport.best_practices :=
             [ "Screenshot captions are indexed by Apple for keyword ranking (June 2025)";
        "Use keywords NOT already in title/subtitle/keyword field for maximum coverage";
        "Keep captions natural and readable - avoid keyword stuffing";
        "Shorter captions (under 40 chars) have best readability on small devices";
        "Each screenshot should highlight a different feature or keyword theme";
        "Test caption readability at actual screenshot size before submission";
        "Captions should complement the visual content of each screenshot" ] |}
  end.

End ScreenshotCaptions.

(* ================================================================== *)
(** * Vocabulary of the statements *)
(* ================================================================== *)

(** The call returns normally. *)
Definition returns {A : Type} (r : Py.result A) : Prop :=
  exists a : A, r = Py.Ok a.

(** The call raises. *)
Definition raises {A : Type} (r : Py.result A) : Prop :=
  exists e : Py.exn, r = Py.Raise e.

(** A number with at most one decimal digit. *)
Definition one_decimal (q : Q) : Prop := exists k : Z, q == k # 10.

(** What section 4.1 promises of a dimension scorer: a result between 0
    and 100 with one decimal. *)
Definition valid_score (r : Py.result Q) : Prop :=
  exists v : Q, r = Py.Ok v /\ 0 <= v <= 100 /\ one_decimal v.

(** An optional metric that is not negative when it is given. *)
Definition nonneg (field : option Q) : Prop :=
  match field with
  | Some v => 0 <= v
  | None => True
  end.

(** The bound on the magnitude of a metric under which the statements on
    returning are made: 10^100, far inside the range of a float, so that
    the sums taken over the keywords of a cluster stay inside it too. *)
Definition metric_bound : Q := inject_Z (10 ^ 100).

(** An optional metric whose magnitude, when it is given, is at most
    [metric_bound]. *)
Definition moderate (field : option Q) : Prop :=
  match field with
  | Some v => - metric_bound <= v <= metric_bound
  | None => True
  end.

(** Bundles all of whose numeric metrics are moderate. *)
Definition moderate_metadata (metadata : ASOScorer.Metadata) : Prop :=
  moderate metadata.(ASOScorer.title_keyword_count) /\
  moderate metadata.(ASOScorer.title_length) /\
  moderate metadata.(ASOScorer.description_length) /\
  moderate metadata.(ASOScorer.description_quality) /\
  moderate metadata.(ASOScorer.keyword_density).

Definition moderate_ratings (ratings : ASOScorer.Ratings) : Prop :=
  moderate ratings.(ASOScorer.average_rating) /\
  moderate ratings.(ASOScorer.total_ratings) /\
  moderate ratings.(ASOScorer.recent_ratings_30d).

Definition moderate_keyword_performance
           (keyword_performance : ASOScorer.KeywordPerformance) : Prop :=
  moderate keyword_performance.(ASOScorer.top_10) /\
  moderate keyword_performance.(ASOScorer.top_50) /\
  moderate keyword_performance.(ASOScorer.top_100) /\
  moderate keyword_performance.(ASOScorer.improving_keywords).

Definition moderate_conversion (conversion : ASOScorer.Conversion) : Prop :=
  moderate conversion.(ASOScorer.impression_to_install) /\
  moderate conversion.(ASOScorer.downloads_last_30_days).

Definition moderate_technical (technical_data : ASOScorer.TechnicalData)
  : Prop :=
  moderate technical_data.(ASOScorer.crash_rate) /\
  moderate technical_data.(ASOScorer.anr_rate) /\
  moderate technical_data.(ASOScorer.battery_impact).

Definition moderate_visual (visual_data : ASOScorer.VisualData) : Prop :=
  moderate visual_data.(ASOScorer.cpp_count).

(** The same for an optional bundle. *)
Definition if_given {A : Type} (P : A -> Prop) (bundle : option A) : Prop :=
  match bundle with
  | Some b => P b
  | None => True
  end.

(** The three weight tables a scorer can hold. *)
Definition known_weights (weights : list (string * Z)) : Prop :=
  weights = ASOScorer.WEIGHTS \/ weights = ASOScorer.GOOGLE_WEIGHTS \/
  weights = ASOScorer.APPLE_WEIGHTS.

(** The sum of [score * (weight / 100)] over the dimensions, as section
    4.2 writes the overall score. *)
Definition weighted_sum (weights : list (string * Z)) (scores : list Q) : Q :=
  fold_left Qplus
    (map (fun ws => snd ws * (inject_Z (snd (fst ws)) / 100))
         (combine weights scores))
    0.

(** The six sub-scores of a report, in the order of its breakdown. *)
Definition sub_scores (report : ASOScorer.ScoreReport) : list Q :=
  map (fun entry => ASOScorer.score (snd entry))
      (ASOScorer.report_breakdown report).

(** The least and the greatest of a non-empty list. *)
Definition minimum (x : Q) (xs : list Q) : Q := fold_left Py.min xs x.
Definition maximum (x : Q) (xs : list Q) : Q := fold_left Py.max xs x.

(** The technical and the visual score of [calculate_overall_score]: the
    scorer on the bundle given, the neutral 50 without one. *)
Definition technical_call (technical_data : option ASOScorer.TechnicalData)
  : Py.result Q :=
  match technical_data with
  | Some d => ASOScorer.score_technical_performance d
  | None => Py.ret 50.0
  end.

Definition visual_call (visual_data : option ASOScorer.VisualData)
  : Py.result Q :=
  match visual_data with
  | Some d => ASOScorer.score_visual_optimization d
  | None => Py.ret 50.0
  end.

(** ** Sample inputs *)

Module Samples.

Definition metadata : ASOScorer.Metadata :=
  {| ASOScorer.title_keyword_count := Some 2;
     ASOScorer.title_length := Some 28;
     ASOScorer.description_length := Some 1800;
     ASOScorer.description_quality := Some 0.8;
     ASOScorer.keyword_density := Some 3.5 |}.

Definition ratings : ASOScorer.Ratings :=
  {| ASOScorer.average_rating := Some 4.3;
     ASOScorer.total_ratings := Some 2500;
     ASOScorer.recent_ratings_30d := Some 60 |}.

Definition keyword_performance : ASOScorer.KeywordPerformance :=
  {| ASOScorer.top_10 := Some 3;
     ASOScorer.top_50 := Some 12;
     ASOScorer.top_100 := Some 25;
     ASOScorer.improving_keywords := Some 4 |}.

Definition conversion : ASOScorer.Conversion :=
  {| ASOScorer.impression_to_install := Some 0.05;
     ASOScorer.downloads_last_30_days := Some 4000;
     ASOScorer.downloads_trend := Some "up" |}.

Definition technical_data : ASOScorer.TechnicalData :=
  {| ASOScorer.crash_rate := Some 3.0;
     ASOScorer.anr_rate := Some 2.0;
     ASOScorer.battery_impact := Some 15 |}.

Definition visual_data : ASOScorer.VisualData :=
  {| ASOScorer.has_captions := Some true;
     ASOScorer.cpp_count := Some 2;
     ASOScorer.has_video := None |}.

End Samples.

(** Sample inputs whose sub-scores are 50.0, 49.9, 50.0 and 50.0, with
    the neutral 50.0 for the two optional dimensions: under the default
    weights the weighted sum is 49.98. *)
Module Borderline.

Definition metadata : ASOScorer.Metadata :=
  {| ASOScorer.title_keyword_count := None;
     ASOScorer.title_length := Some 30;
     ASOScorer.description_length := None;
     ASOScorer.description_quality := Some 0.5;
     ASOScorer.keyword_density := Some 3 |}.

Definition ratings : ASOScorer.Ratings :=
  {| ASOScorer.average_rating := Some 4.245;
     ASOScorer.total_ratings := Some 0;
     ASOScorer.recent_ratings_30d := None |}.

Definition keyword_performance : ASOScorer.KeywordPerformance :=
  {| ASOScorer.top_10 := Some 2;
     ASOScorer.top_50 := Some 5;
     ASOScorer.top_100 := Some 30;
     ASOScorer.improving_keywords := None |}.

Definition conversion : ASOScorer.Conversion :=
  {| ASOScorer.impression_to_install := Some 0.02;
     ASOScorer.downloads_last_30_days := None;
     ASOScorer.downloads_trend := Some "up" |}.

End Borderline.

(** An [int] beyond the range of a float: 10^400. *)
Definition huge : Q := inject_Z (10 ^ 400).

(** The technical bundle of a [crash_rate] of 10^400. *)
Definition huge_crash_rate : ASOScorer.TechnicalData :=
  {| ASOScorer.crash_rate := Some huge;
     ASOScorer.anr_rate := None;
     ASOScorer.battery_impact := None |}.

(** The difficulty of a keyword as section 4.4 writes it, before
    rounding. *)
Definition difficulty_formula (search_volume competing_apps : Q) : Q :=
  100 * (0.7 * Qmin (competing_apps / 50000) 1
         + 0.3 * Qmin (search_volume / 1000000) 1).

(** The entry of a keyword with the values [score_cluster] reads for a
    keyword that has none: [search_volume] 0, [competing_apps] 5000 and
    [relevance_score] 0.5. *)
Definition default_data : KeywordAnalyzer.Data.t :=
  {| KeywordAnalyzer.Data.search_volume := Some 0;
     KeywordAnalyzer.Data.competing_apps := Some 5000;
     KeywordAnalyzer.Data.relevance_score := Some 0.5 |}.

(** Keyword data all of whose numbers are moderate. *)
Definition moderate_data (data : KeywordAnalyzer.Data.t) : Prop :=
  moderate data.(KeywordAnalyzer.Data.search_volume) /\
  moderate data.(KeywordAnalyzer.Data.competing_apps) /\
  moderate data.(KeywordAnalyzer.Data.relevance_score).

Definition moderate_keyword_data
           (keyword_data : list (string * KeywordAnalyzer.Data.t)) : Prop :=
  Forall (fun entry => moderate_data (snd entry)) keyword_data.

(** A cluster of two keywords and data for the first of them only. *)
Module MixedCluster.

Definition keywords : list string := ["water intake"; "habit app"].

Definition keyword_data : list (string * KeywordAnalyzer.Data.t) :=
  [ ("water intake",
     {| KeywordAnalyzer.Data.search_volume := Some 20000;
        KeywordAnalyzer.Data.competing_apps := Some 1000;
        KeywordAnalyzer.Data.relevance_score := Some 0.9 |}) ].

End MixedCluster.

(** The number of keywords of a cluster, as a rational. *)
Definition size (keywords : list string) : Q :=
  inject_Z (Z.of_nat (List.length keywords)).






(** The cluster that [cluster_by_intent] builds from one entry of
    [clusters]. *)
Definition built_from (set_order : list string -> list string)
           (e : string * list string) (c : KeywordAnalyzer.Cluster) : Prop :=
  c.(KeywordAnalyzer.intent) = fst e /\
  c.(KeywordAnalyzer.keywords) = snd e /\
  c.(KeywordAnalyzer.name) = Py.title (fst e) ++ " Intent" /\
  c.(KeywordAnalyzer.keyword_count) = List.length (snd e) /\
  c.(KeywordAnalyzer.natural_queries)
  = KeywordAnalyzer.generate_natural_queries set_order (fst e) (snd e) 5.

(** The General cluster of a non-empty unclustered bucket. *)
Definition general_cluster (unclustered : list string)
           (c : KeywordAnalyzer.Cluster) : Prop :=
  unclustered <> [] /\
  c.(KeywordAnalyzer.name) = "General" /\
  c.(KeywordAnalyzer.intent) = "general" /\
  c.(KeywordAnalyzer.keywords) = unclustered /\
  c.(KeywordAnalyzer.keyword_count) = List.length unclustered /\
  c.(KeywordAnalyzer.natural_queries) = [].


(** Sample keywords: the first has no intent word; the second ties
    between the categories manage and share. *)
Module SampleKeywords.


Definition keywords : list string :=
  ["sleep sounds"; "manage team"; "track expenses"].


End SampleKeywords.

(** ** Vocabulary of the further properties *)

(** The six dimensions, in the order of the report. *)
Definition DIMENSIONS : list string :=
  ["metadata_quality"; "ratings_reviews"; "keyword_performance";
   "conversion_metrics"; "technical_performance"; "visual_optimization"].

(** The category and the priority of each recommendation. *)
Definition headlines
           (recs : list ASOScorerRecommendations.Recommendation)
  : list (string * string) :=
  map (fun r => (r.(ASOScorerRecommendations.category),
                 r.(ASOScorerRecommendations.priority))) recs.

(** A ladder of two or three rungs on one score: the first rung the score
    is below gives the priority. *)
Definition ladder (dimension : string) (score : Q)
           (rungs : list (Q * string)) : list (string * string) :=
  match find (fun rung => score <? fst rung) rungs with
  | Some rung => [(dimension, snd rung)]
  | None => []
  end.

(** The recommendations of one priority, in their order. *)
Definition of_priority (p : string)
           (recs : list ASOScorerRecommendations.Recommendation)
  : list ASOScorerRecommendations.Recommendation :=
  filter (fun r => String.eqb r.(ASOScorerRecommendations.priority) p) recs.

(** The keyed elements of one rank. *)
Definition of_rank {A : Type} (n : Z) (l : list (Z * A)) : list (Z * A) :=
  filter (fun e => (fst e =? n)%Z) l.

(** The three priorities the ranking knows, and their ranks. *)
Definition known_priority (r : ASOScorerRecommendations.Recommendation)
  : Prop :=
  In r.(ASOScorerRecommendations.priority) ["high"; "medium"; "low"].

Definition priority_rank (r : ASOScorerRecommendations.Recommendation) : Z :=
  if String.eqb r.(ASOScorerRecommendations.priority) "high" then 0
  else if String.eqb r.(ASOScorerRecommendations.priority) "medium" then 1
  else 2.

(** High first, then medium, then low, each in the order of the input. *)
Definition by_priority (recs : list ASOScorerRecommendations.Recommendation)
  : list ASOScorerRecommendations.Recommendation :=
  (of_priority "high" recs ++ of_priority "medium" recs
   ++ of_priority "low" recs)%list.

(** A recommendation of the given text fields. *)
Definition sample_recommendation (priority : string)
  : ASOScorerRecommendations.Recommendation :=
  {| ASOScorerRecommendations.category := "metadata_quality";
     ASOScorerRecommendations.priority := priority;
     ASOScorerRecommendations.action := "Refine";
     ASOScorerRecommendations.details := "Test variations";
     ASOScorerRecommendations.expected_impact := "Incremental" |}.




(** Sample entries of [keywords_data]. *)
Module SampleEntries.
Definition budget : KeywordAnalyzerTools.Entry.t :=
  {| KeywordAnalyzerTools.Entry.keyword := Some "budget planner app";
     KeywordAnalyzerTools.Entry.search_volume := Some 50000;
     KeywordAnalyzerTools.Entry.competing_apps := Some 2500;
     KeywordAnalyzerTools.Entry.relevance_score := Some 0.9 |}.
Definition tracker : KeywordAnalyzerTools.Entry.t :=
  {| KeywordAnalyzerTools.Entry.keyword := Some "expense tracker";
     KeywordAnalyzerTools.Entry.search_volume := Some 120000;
     KeywordAnalyzerTools.Entry.competing_apps := Some 800;
     KeywordAnalyzerTools.Entry.relevance_score := Some 0.95 |}.
End SampleEntries.

(** The words [extract_keywords_from_text] keeps: those of the lower-cased
    text, punctuation aside, that are long enough and are no stop
    words. *)
Definition kept_words (text : string) (min_word_length : Z) : list string :=
  filter (fun w => negb (Py.contains KeywordAnalyzerTools.stop_words w))
    (filter (fun w => (min_word_length <=? PyText.len w)%Z)
       (Py.split (KeywordAnalyzerTools.blank_punctuation (Py.lower text)))).

(** How often [x] occurs in [xs]. *)
Definition occurrences (xs : list string) (x : string) : Z :=
  Z.of_nat (count_occ string_dec xs x).

(** Listed by count, highest first. *)
Definition by_count (l : list (string * Z)) : Prop :=
  StronglySorted (fun a b => (snd b <= snd a)%Z) l.

(** The density of one keyword in a text: the occurrences of the
    lower-cased keyword in the lower-cased text per hundred words, with
    two decimals. *)
Definition density_of (text keyword : string) : Q :=
  let text_lower := Py.lower text in
  let total_words := List.length (Py.split text_lower) in
  KeywordAnalyzerTools.round2
    (if (0 <? total_words)%nat
     then inject_Z (Z.of_nat (PyText.count (Py.lower keyword) text_lower))
          / inject_Z (Z.of_nat total_words) * 100
     else 0).

(** The occurrences of the lower-cased keyword in the lower-cased text per
    hundred words of the text; 0 for a text without words. *)
Definition percentage (text keyword : string) : Q :=
  let text_lower := Py.lower text in
  let total_words := List.length (Py.split text_lower) in
  if (0 <? total_words)%nat
  then inject_Z (Z.of_nat (PyText.count (Py.lower keyword) text_lower))
       / inject_Z (Z.of_nat total_words) * 100
  else 0.

(** A number with at most two decimal digits. *)
Definition two_decimals (q : Q) : Prop := exists k : Z, q == k # 100.

(** An entry of the density dict: the percentage of its keyword rounded
    to two decimals, that is a number with two decimals, not negative,
    within 1/200 of the percentage. *)
Definition is_density (text : string) (entry : string * Q) : Prop :=
  two_decimals (snd entry) /\ 0 <= snd entry /\
  percentage text (fst entry) - (1 # 200) <= snd entry
  <= percentage text (fst entry) + (1 # 200).

(** The two variations of one modifier, and the question of one question
    word. *)
Definition modifier_pair (base_keyword modifier : string) : list KeywordAnalyzerTools.LongTail.t :=
  [ {| KeywordAnalyzerTools.LongTail.keyword := modifier ++ " " ++ base_keyword;
       KeywordAnalyzerTools.LongTail.pattern := "modifier_base";
       KeywordAnalyzerTools.LongTail.estimated_competition := "low";
       KeywordAnalyzerTools.LongTail.rationale :=
         "Less competitive variation of '" ++ base_keyword ++ "'" |};
    {| KeywordAnalyzerTools.LongTail.keyword := base_keyword ++ " " ++ modifier;
       KeywordAnalyzerTools.LongTail.pattern := "base_modifier";
       KeywordAnalyzerTools.LongTail.estimated_competition := "low";
       KeywordAnalyzerTools.LongTail.rationale :=
         "Specific use-case variation of '" ++ base_keyword ++ "'" |} ].

Definition question (base_keyword q_word : string) : KeywordAnalyzerTools.LongTail.t :=
  {| KeywordAnalyzerTools.LongTail.keyword := q_word ++ " " ++ base_keyword;
     KeywordAnalyzerTools.LongTail.pattern := "question_based";
     KeywordAnalyzerTools.LongTail.estimated_competition := "very_low";
     KeywordAnalyzerTools.LongTail.rationale := "Informational search query" |}.

(** An optimizer as its constructor builds it. *)
Definition constructed (platform : string) (self : MetadataOptimizer.t)
  : Prop :=
  MetadataOptimizer.__init__ platform = Py.Ok self.

(** The title limit of a platform. *)
Definition title_limit (platform : string) : Z :=
  if String.eqb platform "apple" then 30 else 50.

(** The optimizers of the two platforms. *)
Definition apple_optimizer : MetadataOptimizer.t :=
  {| MetadataOptimizer.platform := "apple";
     MetadataOptimizer.limits :=
       [ ("title", 30%Z); ("subtitle", 30%Z); ("promotional_text", 170%Z);
         ("description", 4000%Z); ("keywords", 100%Z);
         ("whats_new", 4000%Z) ] |}.

Definition google_optimizer : MetadataOptimizer.t :=
  {| MetadataOptimizer.platform := "google";
     MetadataOptimizer.limits :=
       [ ("title", 50%Z); ("short_description", 80%Z);
         ("full_description", 4000%Z) ] |}.

(** A title option whose numbers are those of its title, which fits the
    limit. *)
Definition option_fits (max_length : Z)
           (o : MetadataOptimizerMethods.TitleOption.t) : Prop :=
  o.(MetadataOptimizerMethods.TitleOption.length)
  = PyText.len o.(MetadataOptimizerMethods.TitleOption.title) /\
  (o.(MetadataOptimizerMethods.TitleOption.length) <= max_length)%Z /\
  o.(MetadataOptimizerMethods.TitleOption.remaining_chars)
  = (max_length - o.(MetadataOptimizerMethods.TitleOption.length))%Z /\
  (0 <= o.(MetadataOptimizerMethods.TitleOption.remaining_chars))%Z.

(** A title made of the app name, one separator and one keyword. *)
Definition one_keyword_title (app_name : string) (keywords : list string)
           (title : string) : Prop :=
  exists sep kw,
    In sep [" - "; ": "; " | "] /\ In kw keywords /\
    title = app_name ++ sep ++ kw.

(** A keyword of more than one character without its final [s]. *)
Definition singular (keyword : string) : string :=
  if PyText.endswith_char "s" keyword && (1 <? String.length keyword)%nat
  then PyText.slice_to (-1) keyword
  else keyword.

(** An entry of the metadata whose field has a limit on the platform and
    whose value is longer than that limit. *)
Definition over_limit (self : MetadataOptimizer.t)
           (entry : string * string) : bool :=
  match Py.lookup self.(MetadataOptimizer.limits) (fst entry) with
  | Some max_length => (max_length <? PyText.len (snd entry))%Z
  | None => false
  end.

(** What the density report records of a keyword: its occurrences in the
    lower-cased text and one of three statuses. *)
Definition recorded (text : string)
           (e : string * MetadataOptimizerDescriptions.KeywordDensity.t)
  : Prop :=
  (snd e).(MetadataOptimizerDescriptions.KeywordDensity.occurrences)
  = PyText.count (Py.lower (fst e)) (Py.lower text) /\
  In (snd e).(MetadataOptimizerDescriptions.KeywordDensity.status)
     ["too_low"; "optimal"; "too_high"].

Definition not_optimal
           (e : string * MetadataOptimizerDescriptions.KeywordDensity.t)
  : bool :=
  negb (String.eqb
          (snd e).(MetadataOptimizerDescriptions.KeywordDensity.status)
          "optimal").

(** A Custom Product Page whose title and subtitle are counted and fit the
    Apple limits of 30 characters. *)
Definition cpp_fits (cpp : CustomProductPages.CPP.t) : Prop :=
  cpp.(CustomProductPages.CPP.title_limit) = 30%Z /\
  cpp.(CustomProductPages.CPP.subtitle_limit) = 30%Z /\
  cpp.(CustomProductPages.CPP.title_char_count)
  = PyText.len cpp.(CustomProductPages.CPP.title_variant) /\
  cpp.(CustomProductPages.CPP.subtitle_char_count)
  = PyText.len cpp.(CustomProductPages.CPP.subtitle_variant) /\
  (cpp.(CustomProductPages.CPP.title_char_count) <= 30)%Z /\
  (cpp.(CustomProductPages.CPP.subtitle_char_count) <= 30)%Z.

(** The calls of [generate_cpp_metadata] that divide by the number of
    segments when there is none. *)
Definition nothing_to_distribute_to
           (segments keywords : list string)
           (keyword_clusters : option (list CustomProductPages.ClusterDict.t))
  : Prop :=
  segments = [] /\ keywords <> [] /\
  CustomProductPages.build_cluster_map keyword_clusters = [].

(** What a caption reports: its own length, and a readability that
    follows from the length; only a caption of more than 100 characters
    is cut to [max_caption_length]. *)
Definition caption_ok (max_caption_length : Z)
           (c : ScreenshotCaptions.Caption.t) : Prop :=
  let count := c.(ScreenshotCaptions.Caption.char_count) in
  let readability := c.(ScreenshotCaptions.Caption.readability) in
  count = PyText.len c.(ScreenshotCaptions.Caption.caption) /\
  ((readability = "excellent" /\ (count <= 40)%Z) \/
   (readability = "good" /\ (40 < count <= 70)%Z) \/
   (readability = "acceptable" /\ (70 < count <= 100)%Z) \/
   (readability = "truncated" /\
    ((0 <= max_caption_length)%Z -> (count <= max_caption_length)%Z))).

(* ================================================================== *)
(** * Properties of the primitives *)
(* ================================================================== *)

Section Comparisons.

Variables a b : Q.

Lemma geb_true : (a >=? b) = true <-> b <= a.
Proof. unfold Py.geb. apply Qle_bool_iff. Qed.

Lemma geb_false : (a >=? b) = false <-> a < b.
Proof.
  unfold Py.geb. rewrite <- not_true_iff_false, Qle_bool_iff.
  split; intro H; [apply Qnot_le_lt | apply Qlt_not_le]; exact H.
Qed.

Lemma leb_true : (a <=? b) = true <-> a <= b.
Proof. unfold Py.leb. apply Qle_bool_iff. Qed.

Lemma leb_false : (a <=? b) = false <-> b < a.
Proof.
  unfold Py.leb. rewrite <- not_true_iff_false, Qle_bool_iff.
  split; intro H; [apply Qnot_le_lt | apply Qlt_not_le]; exact H.
Qed.

Lemma gtb_true : (a >? b) = true <-> b < a.
Proof. unfold Py.gtb. rewrite negb_true_iff. apply leb_false. Qed.

Lemma gtb_false : (a >? b) = false <-> a <= b.
Proof. unfold Py.gtb. rewrite negb_false_iff. apply leb_true. Qed.

Lemma ltb_true : (a <? b) = true <-> a < b.
Proof. unfold Py.ltb. rewrite negb_true_iff. apply geb_false. Qed.

Lemma ltb_false : (a <? b) = false <-> b <= a.
Proof. unfold Py.ltb. rewrite negb_false_iff. apply geb_true. Qed.

Lemma eqb_true : (a =? b) = true <-> a == b.
Proof. unfold Py.eqb. apply Qeq_bool_iff. Qed.

Lemma eqb_false : (a =? b) = false <-> ~ a == b.
Proof.
  unfold Py.eqb. rewrite <- not_true_iff_false, Qeq_bool_iff. reflexivity.
Qed.

End Comparisons.

(** Case analysis on the first comparison met in the goal, keeping its
    meaning as a hypothesis. *)
Ltac split_cmp :=
  match goal with
  | |- context [Py.geb ?x ?y] =>
      let H := fresh "C" in
      destruct (Py.geb x y) eqn:H;
      [apply geb_true in H | apply geb_false in H]
  | |- context [Py.leb ?x ?y] =>
      let H := fresh "C" in
      destruct (Py.leb x y) eqn:H;
      [apply leb_true in H | apply leb_false in H]
  | |- context [Py.gtb ?x ?y] =>
      let H := fresh "C" in
      destruct (Py.gtb x y) eqn:H;
      [apply gtb_true in H | apply gtb_false in H]
  | |- context [Py.ltb ?x ?y] =>
      let H := fresh "C" in
      destruct (Py.ltb x y) eqn:H;
      [apply ltb_true in H | apply ltb_false in H]
  | |- context [Py.eqb ?x ?y] =>
      let H := fresh "C" in
      destruct (Py.eqb x y) eqn:H;
      [apply eqb_true in H | apply eqb_false in H]
  end.

Lemma min_cases (a b : Q) :
  (b < a /\ Py.min a b = b) \/ (a <= b /\ Py.min a b = a).
Proof. unfold Py.min. split_cmp; [left | right]; split; auto. Qed.

Lemma max_cases (a b : Q) :
  (a < b /\ Py.max a b = b) \/ (b <= a /\ Py.max a b = a).
Proof. unfold Py.max. split_cmp; [left | right]; split; auto. Qed.

Lemma truediv_ok (a b : Q) : ~ b == 0 -> Py.truediv a b = Py.Ok (a / b).
Proof.
  intro H. unfold Py.truediv. apply eqb_false in H. rewrite H. reflexivity.
Qed.

Lemma div_mul (a c : Q) : ~ c == 0 -> (a / c) * c == a.
Proof. intro H. field. exact H. Qed.

(** Replaces every quotient [a / c] by a fresh variable [q] with
    [q * c == a]; the side condition is left to [lra]. *)
Ltac name_quotients :=
  repeat match goal with
  | |- context [?a / ?c] =>
      let q := fresh "q" in
      let Hq := fresh "Hq" in
      assert (Hq : (a / c) * c == a) by (apply div_mul; lra);
      set (q := a / c) in *; clearbody q
  | H : context [?a / ?c] |- _ =>
      let q := fresh "q" in
      let Hq := fresh "Hq" in
      assert (Hq : (a / c) * c == a) by (apply div_mul; lra);
      set (q := a / c) in *; clearbody q
  end.

(** ** Rounding *)

Lemma round_half_even_cases (x : Q) :
  let f := Qfloor x in
  (x - inject_Z f < 1 # 2 /\ Py.round_half_even x = f) \/
  (1 # 2 < x - inject_Z f /\ Py.round_half_even x = (f + 1)%Z) \/
  (x - inject_Z f == 1 # 2 /\
   Py.round_half_even x = if Z.even f then f else (f + 1)%Z).
Proof.
  unfold Py.round_half_even. cbv zeta.
  destruct (Qcompare_spec (x - inject_Z (Qfloor x)) (1 # 2)) as [E | L | G].
  - right; right. split; [exact E | reflexivity].
  - left. split; [exact L | reflexivity].
  - right; left. split; [exact G | reflexivity].
Qed.

Lemma floor_bounds (x : Q) :
  inject_Z (Qfloor x) <= x /\ x < inject_Z (Qfloor x) + 1.
Proof.
  split; [apply Qfloor_le |].
  pose proof (Qlt_floor x) as H. rewrite inject_Z_plus in H. exact H.
Qed.

Lemma round_half_even_near (x : Q) :
  x - (1 # 2) <= inject_Z (Py.round_half_even x) <= x + (1 # 2).
Proof.
  destruct (floor_bounds x) as [Hl Hu].
  destruct (round_half_even_cases x) as [[H E] | [[H E] | [H E]]];
    rewrite E; clear E.
  - lra.
  - rewrite inject_Z_plus. change (inject_Z 1) with 1. lra.
  - destruct (Z.even (Qfloor x)).
    + lra.
    + rewrite inject_Z_plus. change (inject_Z 1) with 1. lra.
Qed.

Lemma round_half_even_mono (x y : Q) :
  x <= y -> (Py.round_half_even x <= Py.round_half_even y)%Z.
Proof.
  intro Hxy.
  pose proof (Qfloor_resp_le _ _ Hxy) as Hf.
  destruct (Z.eq_dec (Qfloor x) (Qfloor y)) as [Heq | Hne].
  - destruct (round_half_even_cases x) as [[Hx Ex] | [[Hx Ex] | [Hx Ex]]];
    destruct (round_half_even_cases y) as [[Hy Ey] | [[Hy Ey] | [Hy Ey]]];
      rewrite Ex, Ey; rewrite <- ?Heq in *;
      try destruct (Z.even (Qfloor x)); try lia; exfalso; lra.
  - assert (Hlt : (Qfloor x + 1 <= Qfloor y)%Z) by lia.
    assert (Hx : (Py.round_half_even x <= Qfloor x + 1)%Z).
    { destruct (round_half_even_cases x) as [[_ E] | [[_ E] | [_ E]]];
        rewrite E; try destruct (Z.even (Qfloor x)); lia. }
    assert (Hy : (Qfloor y <= Py.round_half_even y)%Z).
    { destruct (round_half_even_cases y) as [[_ E] | [[_ E] | [_ E]]];
        rewrite E; try destruct (Z.even (Qfloor y)); lia. }
    lia.
Qed.

Lemma round_half_even_comp (x y : Q) :
  x == y -> Py.round_half_even x = Py.round_half_even y.
Proof.
  intro H. unfold Py.round_half_even. cbv zeta.
  rewrite (Qfloor_comp _ _ H).
  assert (E : x - inject_Z (Qfloor y) == y - inject_Z (Qfloor y))
    by (rewrite H; reflexivity).
  rewrite (Qcompare_comp _ _ E _ _ (Qeq_refl (1 # 2))). reflexivity.
Qed.

Lemma round_half_even_Z (z : Z) : Py.round_half_even (inject_Z z) = z.
Proof.
  unfold Py.round_half_even. cbv zeta. rewrite Qfloor_Z.
  destruct (Qcompare_spec (inject_Z z - inject_Z z) (1 # 2)) as [E | L | G];
    [exfalso; lra | reflexivity | exfalso; lra].
Qed.

Lemma tenths_le (j k : Z) : (j <= k)%Z <-> j # 10 <= k # 10.
Proof. unfold Qle. simpl. lia. Qed.

Lemma tenths_times_10 (k : Z) : (k # 10) * 10 == inject_Z k.
Proof. unfold Qeq, inject_Z. simpl. lia. Qed.

Lemma round1_comp (x y : Q) : x == y -> Py.round1 x = Py.round1 y.
Proof.
  intro H. unfold Py.round1. f_equal. apply round_half_even_comp.
  rewrite H. reflexivity.
Qed.

Lemma round1_one_decimal (x : Q) : one_decimal (Py.round1 x).
Proof. exists (Py.round_half_even (x * 10)). reflexivity. Qed.

Lemma round1_mono (x y : Q) : x <= y -> Py.round1 x <= Py.round1 y.
Proof.
  intro H. unfold Py.round1. apply -> tenths_le.
  apply round_half_even_mono. lra.
Qed.

Lemma round1_fixes (q : Q) : one_decimal q -> Py.round1 q == q.
Proof.
  intros [k Hk]. rewrite (round1_comp _ _ Hk), Hk. unfold Py.round1.
  rewrite (round_half_even_comp _ _ (tenths_times_10 k)), round_half_even_Z.
  reflexivity.
Qed.

(** Rounding stays between bounds that have one decimal. *)
Lemma round1_between (lo hi x : Q) :
  one_decimal lo -> one_decimal hi -> lo <= x <= hi ->
  lo <= Py.round1 x <= hi.
Proof.
  intros Hlo Hhi [H1 H2]. split.
  - rewrite <- (round1_fixes lo Hlo). apply round1_mono, H1.
  - rewrite <- (round1_fixes hi Hhi). apply round1_mono, H2.
Qed.

Lemma round1_le (hi x : Q) : one_decimal hi -> x <= hi -> Py.round1 x <= hi.
Proof.
  intros Hhi H. rewrite <- (round1_fixes hi Hhi). apply round1_mono, H.
Qed.

Lemma round1_ge (lo x : Q) : one_decimal lo -> lo <= x -> lo <= Py.round1 x.
Proof.
  intros Hlo H. rewrite <- (round1_fixes lo Hlo). apply round1_mono, H.
Qed.

Lemma one_decimal_Z (z : Z) : one_decimal (inject_Z z).
Proof. exists (z * 10)%Z. unfold Qeq, inject_Z. simpl. lia. Qed.

Lemma round1_near (x : Q) :
  x - (1 # 20) <= Py.round1 x <= x + (1 # 20).
Proof.
  pose proof (round_half_even_near (x * 10)) as [H1 H2].
  assert (E : Py.round1 x * 10 == inject_Z (Py.round_half_even (x * 10)))
    by apply tenths_times_10.
  lra.
Qed.

(** ** The range of a float *)

Lemma metric_bound_large : 1000000 <= metric_bound.
Proof. unfold metric_bound, Qle. vm_compute. discriminate. Qed.

Lemma metric_bound_ge_1 : 1 <= metric_bound.
Proof. pose proof metric_bound_large. lra. Qed.

Lemma metric_bound_in_range : 1000000 * metric_bound < Py.float_overflow.
Proof. unfold metric_bound, Py.float_overflow, Qlt. vm_compute. reflexivity. Qed.

Lemma float_overflow_large : 1000000 < Py.float_overflow.
Proof.
  pose proof metric_bound_ge_1. pose proof metric_bound_in_range. lra.
Qed.

Lemma overflows_false (x : Q) :
  - Py.float_overflow < x < Py.float_overflow -> Py.overflows x = false.
Proof.
  intros [L U]. unfold Py.overflows.
  apply geb_false in U. apply leb_false in L. rewrite U, L. reflexivity.
Qed.

Lemma overflows_true (x : Q) :
  Py.float_overflow <= x \/ x <= - Py.float_overflow ->
  Py.overflows x = true.
Proof.
  intros [U | L]; unfold Py.overflows.
  - apply geb_true in U. rewrite U. reflexivity.
  - apply leb_true in L. rewrite L. apply orb_true_r.
Qed.

Lemma truediv_by_int_ok (a b : Q) :
  ~ b == 0 -> - Py.float_overflow < a / b < Py.float_overflow ->
  Py.truediv_by_int a b = Py.Ok (a / b).
Proof.
  intros H R. unfold Py.truediv_by_int. apply eqb_false in H.
  rewrite H, (overflows_false _ R). reflexivity.
Qed.

Lemma as_float_ok (a : Q) :
  - Py.float_overflow < a < Py.float_overflow -> Py.as_float a = Py.Ok a.
Proof.
  intro R. unfold Py.as_float. rewrite (overflows_false _ R). reflexivity.
Qed.

Lemma sub_float_ok (a b : Q) :
  - Py.float_overflow < a < Py.float_overflow ->
  Py.sub_float a b = Py.Ok (a - b).
Proof. intro R. unfold Py.sub_float. rewrite (as_float_ok _ R). reflexivity. Qed.

Lemma truediv_by_float_ok (a b : Q) :
  ~ b == 0 -> - Py.float_overflow < a < Py.float_overflow ->
  Py.truediv_by_float a b = Py.Ok (a / b).
Proof.
  intros H R. unfold Py.truediv_by_float. rewrite (as_float_ok _ R).
  cbn [Py.bind]. apply truediv_ok, H.
Qed.

Lemma moderate_get (field : option Q) (default : Q) :
  moderate field -> - 1000 <= default <= 1000 ->
  - Py.float_overflow < Py.get field default < Py.float_overflow.
Proof.
  pose proof metric_bound_ge_1. pose proof metric_bound_in_range.
  destruct field; simpl; intros; lra.
Qed.

(* ================================================================== *)
(** * The dimension scorers *)
(* ================================================================== *)

Module ScorerFacts.
Import ASOScorer.

Create HintDb bench.
#[export] Hint Unfold
  BENCHMARKS.title_keyword_usage_min BENCHMARKS.title_keyword_usage_target
  BENCHMARKS.description_length_min BENCHMARKS.description_length_target
  BENCHMARKS.keyword_density_min BENCHMARKS.keyword_density_optimal
  BENCHMARKS.average_rating_min BENCHMARKS.average_rating_target
  BENCHMARKS.ratings_count_min BENCHMARKS.ratings_count_target
  BENCHMARKS.keywords_top_10_min BENCHMARKS.keywords_top_10_target
  BENCHMARKS.keywords_top_50_min BENCHMARKS.keywords_top_50_target
  BENCHMARKS.conversion_rate_min BENCHMARKS.conversion_rate_target
  TECHNICAL_BENCHMARKS.crash_rate_good
  TECHNICAL_BENCHMARKS.crash_rate_acceptable
  TECHNICAL_BENCHMARKS.anr_rate_good TECHNICAL_BENCHMARKS.anr_rate_acceptable
  TECHNICAL_BENCHMARKS.battery_impact_good
  TECHNICAL_BENCHMARKS.battery_impact_acceptable : bench.

(** Closes the side conditions of a division or a conversion: a non-zero
    divisor, or a value within the range of a float. *)
Ltac in_range :=
  first [lra | split; name_quotients; lra].

(** Runs one block: splits on its comparisons, performs its divisions and
    conversions and leaves the arithmetic of each branch to [lra]. *)
Ltac run_block :=
  pose proof float_overflow_large;
  autounfold with bench; repeat split_cmp; cbn [andb Py.bind Py.ret];
  repeat (progress
            (rewrite ?truediv_ok by lra;
             rewrite ?truediv_by_int_ok by in_range;
             rewrite ?truediv_by_float_ok by in_range;
             rewrite ?sub_float_ok by in_range;
             cbn [Py.bind Py.ret]));
  eexists; (split; [reflexivity |]).

Ltac close_block :=
  repeat match goal with
  | |- context [Py.max ?a ?b] =>
      let H := fresh in
      destruct (max_cases a b) as [[? H] | [? H]]; rewrite H in *; clear H
  | |- context [Py.min ?a ?b] =>
      let H := fresh in
      destruct (min_cases a b) as [[? H] | [? H]]; rewrite H in *; clear H
  end;
  name_quotients; repeat split; intros; lra.

Lemma title_score_range (k l : Q) : 5 <= title_score k l <= 35.
Proof.
  unfold title_score. autounfold with bench. repeat split_cmp; lra.
Qed.

Lemma desc_score_floor (l q : Q) : 0 <= q -> 5 <= desc_score l q.
Proof.
  intro H. unfold desc_score. autounfold with bench. repeat split_cmp; lra.
Qed.

Lemma density_score_range (d : Q) :
  - Py.float_overflow < d ->
  exists v, density_score d = Py.Ok v /\ v <= 30 /\ (0 <= d -> 0 <= v).
Proof. intro R. unfold density_score. run_block; close_block. Qed.

Lemma rating_quality_score_range (r : Q) :
  exists v, rating_quality_score r = Py.Ok v /\ 10 <= v <= 50.
Proof. unfold rating_quality_score. run_block; close_block. Qed.


Lemma rating_volume_score_range (n : Q) :
  exists v, rating_volume_score n = Py.Ok v /\ v <= 30 /\ (0 <= n -> 0 <= v).
Proof. unfold rating_volume_score. run_block; close_block. Qed.

Lemma rating_velocity_score_range (n : Q) :
  5 <= rating_velocity_score n <= 20.
Proof. unfold rating_velocity_score. repeat split_cmp; lra. Qed.

Lemma top_10_score_range (n : Q) :
  - Py.float_overflow < n ->
  exists v, top_10_score n = Py.Ok v /\ v <= 50 /\ (0 <= n -> 0 <= v).
Proof. intro R. unfold top_10_score. run_block; close_block. Qed.

Lemma top_50_score_range (n : Q) :
  - Py.float_overflow < n ->
  exists v, top_50_score n = Py.Ok v /\ v <= 30 /\ (0 <= n -> 0 <= v).
Proof. intro R. unfold top_50_score. run_block; close_block. Qed.

Lemma coverage_score_range (n : Q) :
  - Py.float_overflow < n < Py.float_overflow ->
  exists v, coverage_score n = Py.Ok v /\ v <= 10 /\ (0 <= n -> 0 <= v).
Proof. intros [L U]. unfold coverage_score. run_block; close_block. Qed.

Lemma keyword_trend_score_range (n : Q) : 0 <= keyword_trend_score n <= 10.
Proof. unfold keyword_trend_score. repeat split_cmp; lra. Qed.

Lemma conversion_score_range (r : Q) :
  - Py.float_overflow < r ->
  exists v, conversion_score r = Py.Ok v /\ v <= 70 /\ (0 <= r -> 0 <= v).
Proof. intro R. unfold conversion_score. run_block; close_block. Qed.

Lemma download_velocity_score_range (n : Q) :
  5 <= download_velocity_score n <= 20.
Proof. unfold download_velocity_score. repeat split_cmp; lra. Qed.

Lemma download_trend_score_range (t : string) :
  0 <= download_trend_score t <= 10.
Proof.
  unfold download_trend_score.
  destruct (String.eqb t "up"); [lra |].
  destruct (String.eqb t "stable"); lra.
Qed.

Lemma crash_score_range (r : Q) :
  r < Py.float_overflow ->
  exists v, crash_score r = Py.Ok v /\ 0 <= v <= 40.
Proof. intro R. unfold crash_score. run_block; close_block. Qed.

Lemma anr_score_range (r : Q) :
  r < Py.float_overflow ->
  exists v, anr_score r = Py.Ok v /\ 0 <= v <= 35.
Proof. intro R. unfold anr_score. run_block; close_block. Qed.

Lemma battery_score_range (r : Q) :
  r < Py.float_overflow ->
  exists v, battery_score r = Py.Ok v /\ 0 <= v <= 25.
Proof. intro R. unfold battery_score. run_block; close_block. Qed.

Lemma visual_points_range (c : bool) (n : Q) (v : bool) :
  0 <= visual_points c n v <= 5.
Proof.
  unfold visual_points. destruct c, v; split_cmp; lra.
Qed.

(** Beyond the range of a float the blocks that divide or convert their
    metric raise. *)

Lemma coverage_score_overflow (n : Q) :
  30 * Py.float_overflow <= n -> coverage_score n = Py.Raise Py.OverflowError.
Proof.
  intro H. pose proof float_overflow_large.
  unfold coverage_score, Py.truediv_by_int.
  assert (Z : (30 =? 0) = false) by (apply eqb_false; lra).
  rewrite Z, overflows_true; [reflexivity |].
  left. name_quotients. lra.
Qed.

Lemma crash_score_overflow (r : Q) :
  Py.float_overflow <= r -> crash_score r = Py.Raise Py.OverflowError.
Proof.
  intro H. pose proof float_overflow_large.
  unfold crash_score. autounfold with bench. repeat split_cmp; try lra.
  unfold Py.sub_float, Py.as_float.
  rewrite overflows_true by (left; exact H). reflexivity.
Qed.

Lemma one_decimal_0 : one_decimal 0.
Proof. exact (one_decimal_Z 0). Qed.

Lemma one_decimal_100 : one_decimal 100.
Proof. exact (one_decimal_Z 100). Qed.

Lemma nonneg_get (field : option Q) (default : Q) :
  nonneg field -> 0 <= default -> 0 <= Py.get field default.
Proof. destruct field; simpl; intros H D; lra. Qed.

Lemma nonneg_above (field : option Q) (default : Q) :
  nonneg field -> 0 <= default -> - Py.float_overflow < Py.get field default.
Proof.
  intros H D. pose proof (nonneg_get field default H D).
  pose proof float_overflow_large. lra.
Qed.

(** Turns the assumption [nonneg field] into a bound on the value read
    with default [d]. *)
Ltac read_nonneg H d :=
  apply (fun f => nonneg_get f d) in H; [| lra].

(** Uses the range lemma of a block at its call in the goal. *)
Ltac use_block L :=
  let v := fresh "v" in
  let E := fresh "E" in
  let B := fresh "B" in
  destruct L as (v & E & B); rewrite E; cbn [Py.bind Py.ret].

(** Closes the bounds of a total score from the ranges of its parts. *)
Ltac bound_total :=
  repeat match goal with
  | |- context [Py.min ?a ?b] =>
      let H := fresh in
      destruct (min_cases a b) as [[? H] | [? H]]; rewrite H in *; clear H
  end; lra.

(** What a scorer guarantees once its divisions and conversions stay
    within the range of a float: a result with one decimal that is at most
    100; and the assumption under which the result is not negative. *)

Lemma score_metadata_quality_spec (metadata : Metadata) :
  - Py.float_overflow < Py.get metadata.(keyword_density) 0.0 ->
  exists v, score_metadata_quality metadata = Py.Ok v /\ one_decimal v /\
    v <= 100 /\
    (nonneg metadata.(description_quality) ->
     nonneg metadata.(keyword_density) -> 0 <= v).
Proof.
  intro R. unfold score_metadata_quality.
  use_block (density_score_range (Py.get metadata.(keyword_density) 0.0) R).
  pose proof (title_score_range (Py.get metadata.(title_keyword_count) 0)
                                (Py.get metadata.(title_length) 0)) as T.
  eexists; split; [reflexivity |].
  split; [apply round1_one_decimal |].
  unfold Py.sum, Py.append; cbn [app fold_left].
  split.
  - apply round1_le; [apply one_decimal_100 | bound_total].
  - intros Hq Hd. read_nonneg Hq 0.0. read_nonneg Hd 0.0.
    pose proof (desc_score_floor (Py.get metadata.(description_length) 0)
                                 _ Hq) as D.
    destruct B as [_ B]. specialize (B Hd).
    apply round1_ge; [apply one_decimal_0 | bound_total].
Qed.

Lemma score_ratings_reviews_spec (ratings : Ratings) :
  exists v, score_ratings_reviews ratings = Py.Ok v /\ one_decimal v /\
    v <= 100 /\ (nonneg ratings.(total_ratings) -> 0 <= v).
Proof.
  unfold score_ratings_reviews.
  use_block (rating_quality_score_range (Py.get ratings.(average_rating) 0.0)).
  use_block (rating_volume_score_range (Py.get ratings.(total_ratings) 0)).
  pose proof (rating_velocity_score_range
                (Py.get ratings.(recent_ratings_30d) 0)) as V.
  eexists; split; [reflexivity |].
  split; [apply round1_one_decimal |].
  split.
  - apply round1_le; [apply one_decimal_100 | bound_total].
  - intros Hn. read_nonneg Hn 0. destruct B0 as [_ B0].
    specialize (B0 Hn).
    apply round1_ge; [apply one_decimal_0 | bound_total].
Qed.

Lemma score_keyword_performance_spec (kp : KeywordPerformance) :
  - Py.float_overflow < Py.get kp.(top_10) 0 ->
  - Py.float_overflow < Py.get kp.(top_50) 0 ->
  - Py.float_overflow < Py.get kp.(top_100) 0 < Py.float_overflow ->
  exists v, score_keyword_performance kp = Py.Ok v /\ one_decimal v /\
    v <= 100 /\
    (nonneg kp.(top_10) -> nonneg kp.(top_50) -> nonneg kp.(top_100) ->
     0 <= v).
Proof.
  intros R10 R50 R100. unfold score_keyword_performance.
  use_block (top_10_score_range (Py.get kp.(top_10) 0) R10).
  use_block (top_50_score_range (Py.get kp.(top_50) 0) R50).
  use_block (coverage_score_range (Py.get kp.(top_100) 0) R100).
  pose proof (keyword_trend_score_range
                (Py.get kp.(improving_keywords) 0)) as T.
  eexists; split; [reflexivity |].
  split; [apply round1_one_decimal |].
  split.
  - apply round1_le; [apply one_decimal_100 | bound_total].
  - intros H1 H2 H3. read_nonneg H1 0. read_nonneg H2 0. read_nonneg H3 0.
    destruct B as [_ B], B0 as [_ B0], B1 as [_ B1].
    specialize (B H1). specialize (B0 H2). specialize (B1 H3).
    apply round1_ge; [apply one_decimal_0 | bound_total].
Qed.

Lemma score_conversion_metrics_spec (conversion : Conversion) :
  - Py.float_overflow < Py.get conversion.(impression_to_install) 0.0 ->
  exists v, score_conversion_metrics conversion = Py.Ok v /\ one_decimal v /\
    v <= 100 /\ (nonneg conversion.(impression_to_install) -> 0 <= v).
Proof.
  intro R. unfold score_conversion_metrics.
  use_block (conversion_score_range
               (Py.get conversion.(impression_to_install) 0.0) R).
  pose proof (download_velocity_score_range
                (Py.get conversion.(downloads_last_30_days) 0)) as V.
  pose proof (download_trend_score_range
                (Py.get conversion.(downloads_trend) "stable")) as T.
  eexists; split; [reflexivity |].
  split; [apply round1_one_decimal |].
  split.
  - apply round1_le; [apply one_decimal_100 | bound_total].
  - intros Hn. read_nonneg Hn 0.0. destruct B as [_ B]. specialize (B Hn).
    apply round1_ge; [apply one_decimal_0 | bound_total].
Qed.

Lemma score_technical_performance_spec (technical_data : TechnicalData) :
  Py.get technical_data.(crash_rate) 0.0 < Py.float_overflow ->
  Py.get technical_data.(anr_rate) 0.0 < Py.float_overflow ->
  Py.get technical_data.(battery_impact) 0.0 < Py.float_overflow ->
  valid_score (score_technical_performance technical_data).
Proof.
  intros Rc Ra Rb. unfold valid_score, score_technical_performance.
  use_block (crash_score_range (Py.get technical_data.(crash_rate) 0.0) Rc).
  use_block (anr_score_range (Py.get technical_data.(anr_rate) 0.0) Ra).
  use_block (battery_score_range
               (Py.get technical_data.(battery_impact) 0.0) Rb).
  eexists; split; [reflexivity |].
  split; [| apply round1_one_decimal].
  apply round1_between;
    [apply one_decimal_0 | apply one_decimal_100 | split; bound_total].
Qed.

Lemma score_visual_optimization_spec (visual_data : VisualData) :
  valid_score (score_visual_optimization visual_data).
Proof.
  unfold valid_score, score_visual_optimization.
  pose proof (visual_points_range (Py.get visual_data.(has_captions) false)
                                  (Py.get visual_data.(cpp_count) 0)
                                  (Py.get visual_data.(has_video) false)) as P.
  rewrite truediv_ok by lra. cbn [Py.bind Py.ret].
  eexists; split; [reflexivity |].
  split; [| apply round1_one_decimal].
  apply round1_between;
    [apply one_decimal_0 | apply one_decimal_100 | name_quotients; lra].
Qed.

(** Whatever a scorer returns has one decimal. *)

Ltac returned_rounded :=
  repeat match goal with
  | |- Py.bind ?m _ = _ -> _ =>
      destruct m; cbn [Py.bind Py.ret]; [| discriminate]
  end;
  let H := fresh in
  intro H; injection H as <-; apply round1_one_decimal.

Lemma score_metadata_quality_decimal (metadata : Metadata) (v : Q) :
  score_metadata_quality metadata = Py.Ok v -> one_decimal v.
Proof. unfold score_metadata_quality. cbv zeta. returned_rounded. Qed.

Lemma score_ratings_reviews_decimal (ratings : Ratings) (v : Q) :
  score_ratings_reviews ratings = Py.Ok v -> one_decimal v.
Proof. unfold score_ratings_reviews. cbv zeta. returned_rounded. Qed.

Lemma score_keyword_performance_decimal (kp : KeywordPerformance) (v : Q) :
  score_keyword_performance kp = Py.Ok v -> one_decimal v.
Proof. unfold score_keyword_performance. cbv zeta. returned_rounded. Qed.

Lemma score_conversion_metrics_decimal (conversion : Conversion) (v : Q) :
  score_conversion_metrics conversion = Py.Ok v -> one_decimal v.
Proof. unfold score_conversion_metrics. cbv zeta. returned_rounded. Qed.

Lemma score_technical_performance_decimal (technical_data : TechnicalData)
      (v : Q) :
  score_technical_performance technical_data = Py.Ok v -> one_decimal v.
Proof. unfold score_technical_performance. cbv zeta. returned_rounded. Qed.

Lemma score_visual_optimization_decimal (visual_data : VisualData) (v : Q) :
  score_visual_optimization visual_data = Py.Ok v -> one_decimal v.
Proof. unfold score_visual_optimization. cbv zeta. returned_rounded. Qed.

End ScorerFacts.

(* ================================================================== *)
(** * The aggregator *)
(* ================================================================== *)

Module AggregatorFacts.
Import ASOScorer ScorerFacts.


Section Extremes.

Lemma minimum_step (x a : Q) (xs : list Q) :
  minimum x (a :: xs) = minimum (Py.min x a) xs.
Proof. reflexivity. Qed.

Lemma maximum_step (x a : Q) (xs : list Q) :
  maximum x (a :: xs) = maximum (Py.max x a) xs.
Proof. reflexivity. Qed.

Lemma minimum_le (xs : list Q) :
  forall x y, In y (x :: xs) -> minimum x xs <= y.
Proof.
  induction xs as [| a xs IH]; intros x y Hy.
  - destruct Hy as [<- | []]. unfold minimum. simpl. lra.
  - rewrite minimum_step.
    destruct (min_cases x a) as [[Hlt E] | [Hle E]].
    + destruct Hy as [<- | Hy].
      * specialize (IH (Py.min x a) _ (or_introl Logic.eq_refl)).
        rewrite E in IH at 2. lra.
      * apply IH. rewrite E. exact Hy.
    + destruct Hy as [<- | [<- | Hy]].
      * apply IH. left. exact E.
      * specialize (IH (Py.min x a) _ (or_introl Logic.eq_refl)).
        rewrite E in IH at 2. lra.
      * apply IH. right. exact Hy.
Qed.

Lemma maximum_ge (xs : list Q) :
  forall x y, In y (x :: xs) -> y <= maximum x xs.
Proof.
  induction xs as [| a xs IH]; intros x y Hy.
  - destruct Hy as [<- | []]. unfold maximum. simpl. lra.
  - rewrite maximum_step.
    destruct (max_cases x a) as [[Hlt E] | [Hle E]].
    + destruct Hy as [<- | Hy].
      * specialize (IH (Py.max x a) _ (or_introl Logic.eq_refl)).
        rewrite E in IH at 1. lra.
      * apply IH. rewrite E. exact Hy.
    + destruct Hy as [<- | [<- | Hy]].
      * apply IH. left. exact E.
      * specialize (IH (Py.max x a) _ (or_introl Logic.eq_refl)).
        rewrite E in IH at 1. lra.
      * apply IH. right. exact Hy.
Qed.

Lemma minimum_in (xs : list Q) : forall x, In (minimum x xs) (x :: xs).
Proof.
  induction xs as [| a xs IH]; intro x.
  - left. reflexivity.
  - rewrite minimum_step. destruct (IH (Py.min x a)) as [E | H].
    + rewrite <- E.
      destruct (min_cases x a) as [[_ ->] | [_ ->]];
        [right; left | left]; reflexivity.
    + right; right. exact H.
Qed.

Lemma maximum_in (xs : list Q) : forall x, In (maximum x xs) (x :: xs).
Proof.
  induction xs as [| a xs IH]; intro x.
  - left. reflexivity.
  - rewrite maximum_step. destruct (IH (Py.max x a)) as [E | H].
    + rewrite <- E.
      destruct (max_cases x a) as [[_ ->] | [_ ->]];
        [right; left | left]; reflexivity.
    + right; right. exact H.
Qed.

End Extremes.

Lemma weighted_eq (weights : list (string * Z)) (name : string) (w : Z)
      (s : Q) :
  Py.getitem weights name = Py.Ok w ->
  weighted weights name s = Py.Ok (s * (inject_Z w / 100)).
Proof.
  intro H. unfold weighted. rewrite H. cbn [Py.bind].
  rewrite truediv_ok by lra. reflexivity.
Qed.

Lemma breakdown_entry_eq (weights : list (string * Z)) (name : string)
      (w : Z) (s : Q) (provided : option bool) :
  Py.getitem weights name = Py.Ok w ->
  breakdown_entry weights name s provided =
  Py.Ok (name, {| score := s; weight := w;
                  weighted_contribution :=
                    Py.round1 (s * (inject_Z w / 100));
                  data_provided := provided |}).
Proof.
  intro H. unfold breakdown_entry. rewrite (weighted_eq _ _ _ _ H), H.
  reflexivity.
Qed.

Lemma resolve_weights_known (p : option string) :
  known_weights (_resolve_weights p).
Proof.
  unfold known_weights, _resolve_weights. destruct p as [p |]; [| auto].
  destruct (String.eqb p "google"); [auto |].
  destruct (String.eqb p "apple"); auto.
Qed.

Lemma init_weights_known (p : option string) :
  known_weights (_active_weights (__init__ p)).
Proof. unfold __init__. cbn [_active_weights]. apply resolve_weights_known. Qed.

(** Replaces each weight fraction by its value. *)
Ltac eval_fractions :=
  repeat match goal with
  | |- context [inject_Z ?w / 100] =>
      let r := eval vm_compute in (inject_Z w / 100) in
      change (inject_Z w / 100) with r
  end.

(** A convex combination lies between the extremes. *)
Lemma weighted_sum_between (weights : list (string * Z))
      (s1 s2 s3 s4 s5 s6 : Q) :
  known_weights weights ->
  minimum s1 [s2; s3; s4; s5; s6]
  <= weighted_sum weights [s1; s2; s3; s4; s5; s6]
  <= maximum s1 [s2; s3; s4; s5; s6].
Proof.
  intro K.
  pose proof (minimum_le [s2; s3; s4; s5; s6] s1) as Lo.
  pose proof (maximum_ge [s2; s3; s4; s5; s6] s1) as Hi.
  set (lo := minimum s1 [s2; s3; s4; s5; s6]) in *.
  set (hi := maximum s1 [s2; s3; s4; s5; s6]) in *.
  clearbody lo hi.
  assert (B : forall y, In y [s1; s2; s3; s4; s5; s6] -> lo <= y <= hi)
    by (intros y Hy; split; [apply Lo | apply Hi]; exact Hy).
  pose proof (B s1 ltac:(simpl; tauto)).
  pose proof (B s2 ltac:(simpl; tauto)).
  pose proof (B s3 ltac:(simpl; tauto)).
  pose proof (B s4 ltac:(simpl; tauto)).
  pose proof (B s5 ltac:(simpl; tauto)).
  pose proof (B s6 ltac:(simpl; tauto)).
  clear Lo Hi B.
  destruct K as [-> | [-> | ->]];
    unfold weighted_sum, WEIGHTS, GOOGLE_WEIGHTS, APPLE_WEIGHTS;
    cbn [combine map fold_left fst snd]; eval_fractions; lra.
Qed.

Lemma sum_values_known (weights : list (string * Z)) :
  known_weights weights -> sum_values weights = 100%Z.
Proof. intros [-> | [-> | ->]]; reflexivity. Qed.

(** Rewrites the six terms and the six breakdown entries of a concrete
    weight table. *)
Ltac read_weights :=
  repeat match goal with
  | |- context [weighted ?ws ?n ?s] =>
      let r := eval vm_compute in (Py.getitem ws n) in
      match r with
      | Py.Ok ?w =>
          rewrite (weighted_eq ws n w s) by reflexivity;
          cbn [Py.bind Py.ret]
      end
  | |- context [breakdown_entry ?ws ?n ?s ?p] =>
      let r := eval vm_compute in (Py.getitem ws n) in
      match r with
      | Py.Ok ?w =>
          rewrite (breakdown_entry_eq ws n w s p) by reflexivity;
          cbn [Py.bind Py.ret]
      end
  end.

Lemma assess_health_status_comp (x y : Q) :
  x == y -> _assess_health_status x = _assess_health_status y.
Proof.
  intro H. unfold _assess_health_status.
  repeat split_cmp; try reflexivity; exfalso; lra.
Qed.

Lemma technical_call_decimal (technical_data : option TechnicalData)
      (v : Q) :
  technical_call technical_data = Py.Ok v -> one_decimal v.
Proof.
  destruct technical_data as [d |]; simpl.
  - apply score_technical_performance_decimal.
  - intro H. injection H as <-. exists 500%Z. reflexivity.
Qed.

Lemma visual_call_decimal (visual_data : option VisualData) (v : Q) :
  visual_call visual_data = Py.Ok v -> one_decimal v.
Proof.
  destruct visual_data as [d |]; simpl.
  - apply score_visual_optimization_decimal.
  - intro H. injection H as <-. exists 500%Z. reflexivity.
Qed.

(** The report of [calculate_overall_score] in terms of the six
    sub-scores, once the six scorers have returned. *)
Lemma calculate_overall_score_eq (self : t)
      (metadata : Metadata) (ratings : Ratings)
      (keyword_performance : KeywordPerformance) (conversion : Conversion)
      (technical_data : option TechnicalData)
      (visual_data : option VisualData) (s1 s2 s3 s4 s5 s6 : Q) :
  known_weights self.(_active_weights) ->
  score_metadata_quality metadata = Py.Ok s1 ->
  score_ratings_reviews ratings = Py.Ok s2 ->
  score_keyword_performance keyword_performance = Py.Ok s3 ->
  score_conversion_metrics conversion = Py.Ok s4 ->
  technical_call technical_data = Py.Ok s5 ->
  visual_call visual_data = Py.Ok s6 ->
  exists report self',
    calculate_overall_score self metadata ratings keyword_performance
                            conversion technical_data visual_data
    = Py.Ok (report, self') /\
    sub_scores report = [s1; s2; s3; s4; s5; s6] /\
    report.(weights_used) = self.(_active_weights) /\
    report.(overall_score)
    = Py.round1 (weighted_sum self.(_active_weights)
                              [s1; s2; s3; s4; s5; s6]) /\
    report.(health_status)
    = _assess_health_status (weighted_sum self.(_active_weights)
                                          [s1; s2; s3; s4; s5; s6]).
Proof.
  intros K E1 E2 E3 E4 E5 E6. unfold calculate_overall_score.
  unfold technical_call in E5. unfold visual_call in E6.
  rewrite E1, E2, E3, E4, E5, E6. cbn [Py.bind Py.ret].
  destruct K as [K | [K | K]]; rewrite K; read_weights;
    (do 2 eexists; split; [reflexivity |];
     split; [reflexivity |];
     split; [reflexivity |];
     cbn [overall_score health_status];
     split; [apply round1_comp | apply assess_health_status_comp];
     unfold weighted_sum, WEIGHTS, GOOGLE_WEIGHTS, APPLE_WEIGHTS;
     cbn [combine map fold_left fst snd]; eval_fractions; lra).
Qed.

(** Every report that [calculate_overall_score] returns is of that
    form. *)
Lemma calculate_overall_score_inv (self : t)
      (metadata : Metadata) (ratings : Ratings)
      (keyword_performance : KeywordPerformance) (conversion : Conversion)
      (technical_data : option TechnicalData)
      (visual_data : option VisualData)
      (report : ScoreReport) (self' : t) :
  known_weights self.(_active_weights) ->
  calculate_overall_score self metadata ratings keyword_performance
                          conversion technical_data visual_data
  = Py.Ok (report, self') ->
  exists s1 s2 s3 s4 s5 s6,
    sub_scores report = [s1; s2; s3; s4; s5; s6] /\
    Forall one_decimal [s1; s2; s3; s4; s5; s6] /\
    report.(weights_used) = self.(_active_weights) /\
    report.(overall_score)
    = Py.round1 (weighted_sum self.(_active_weights)
                              [s1; s2; s3; s4; s5; s6]) /\
    report.(health_status)
    = _assess_health_status (weighted_sum self.(_active_weights)
                                          [s1; s2; s3; s4; s5; s6]).
Proof.
  intros K E.
  destruct (score_metadata_quality metadata) as [s1 | e] eqn:E1;
    [| unfold calculate_overall_score in E; rewrite E1 in E; discriminate].
  destruct (score_ratings_reviews ratings) as [s2 | e] eqn:E2;
    [| unfold calculate_overall_score in E; rewrite E1, E2 in E;
       discriminate].
  destruct (score_keyword_performance keyword_performance) as [s3 | e] eqn:E3;
    [| unfold calculate_overall_score in E; rewrite E1, E2, E3 in E;
       discriminate].
  destruct (score_conversion_metrics conversion) as [s4 | e] eqn:E4;
    [| unfold calculate_overall_score in E; rewrite E1, E2, E3, E4 in E;
       discriminate].
  destruct (technical_call technical_data) as [s5 | e] eqn:E5;
    [| unfold calculate_overall_score in E; unfold technical_call in E5;
       rewrite E1, E2, E3, E4, E5 in E; discriminate].
  destruct (visual_call visual_data) as [s6 | e] eqn:E6;
    [| unfold calculate_overall_score in E; unfold technical_call in E5;
       unfold visual_call in E6;
       rewrite E1, E2, E3, E4, E5, E6 in E; discriminate].
  destruct (calculate_overall_score_eq
              self metadata ratings keyword_performance conversion
              technical_data visual_data s1 s2 s3 s4 s5 s6 K E1 E2 E3 E4 E5 E6)
    as (report0 & self0 & E0 & Hsub & Hw & Ho & Hh).
  rewrite E0 in E. injection E as <- <-.
  exists s1, s2, s3, s4, s5, s6.
  split; [exact Hsub |].
  split; [| auto].
  repeat (apply Forall_cons; [|]); try apply Forall_nil.
  - apply (score_metadata_quality_decimal _ _ E1).
  - apply (score_ratings_reviews_decimal _ _ E2).
  - apply (score_keyword_performance_decimal _ _ E3).
  - apply (score_conversion_metrics_decimal _ _ E4).
  - apply (technical_call_decimal _ _ E5).
  - apply (visual_call_decimal _ _ E6).
Qed.

(** The six scorers return on moderate metrics. *)

Lemma score_metadata_quality_returns (metadata : Metadata) :
  moderate_metadata metadata -> returns (score_metadata_quality metadata).
Proof.
  intros (_ & _ & _ & _ & M).
  destruct (score_metadata_quality_spec metadata) as (v & E & _).
  - apply (moderate_get _ 0.0 M). lra.
  - exists v. exact E.
Qed.

Lemma score_ratings_reviews_returns (ratings : Ratings) :
  returns (score_ratings_reviews ratings).
Proof.
  destruct (score_ratings_reviews_spec ratings) as (v & E & _).
  exists v. exact E.
Qed.

Lemma score_keyword_performance_returns (kp : KeywordPerformance) :
  moderate_keyword_performance kp -> returns (score_keyword_performance kp).
Proof.
  intros (M10 & M50 & M100 & _).
  destruct (score_keyword_performance_spec kp) as (v & E & _).
  - apply (moderate_get _ 0 M10). lra.
  - apply (moderate_get _ 0 M50). lra.
  - apply (moderate_get _ 0 M100). lra.
  - exists v. exact E.
Qed.

Lemma score_conversion_metrics_returns (conversion : Conversion) :
  moderate_conversion conversion ->
  returns (score_conversion_metrics conversion).
Proof.
  intros (M & _).
  destruct (score_conversion_metrics_spec conversion) as (v & E & _).
  - apply (moderate_get _ 0.0 M). lra.
  - exists v. exact E.
Qed.

Lemma score_technical_performance_valid (technical_data : TechnicalData) :
  moderate_technical technical_data ->
  valid_score (score_technical_performance technical_data).
Proof.
  intros (Mc & Ma & Mb).
  apply score_technical_performance_spec.
  - apply (moderate_get _ 0.0 Mc). lra.
  - apply (moderate_get _ 0.0 Ma). lra.
  - apply (moderate_get _ 0.0 Mb). lra.
Qed.

Lemma valid_score_returns (r : Py.result Q) : valid_score r -> returns r.
Proof. intros (v & E & _). exists v. exact E. Qed.

Lemma calculate_overall_score_returns (self : t)
      (metadata : Metadata) (ratings : Ratings)
      (keyword_performance : KeywordPerformance) (conversion : Conversion)
      (technical_data : option TechnicalData)
      (visual_data : option VisualData) :
  known_weights self.(_active_weights) ->
  moderate_metadata metadata ->
  moderate_keyword_performance keyword_performance ->
  moderate_conversion conversion ->
  if_given moderate_technical technical_data ->
  returns (calculate_overall_score self metadata ratings keyword_performance
                                   conversion technical_data visual_data).
Proof.
  intros K Mm Mk Mc Mt.
  destruct (score_metadata_quality_returns metadata Mm) as (s1 & E1).
  destruct (score_ratings_reviews_returns ratings) as (s2 & E2).
  destruct (score_keyword_performance_returns keyword_performance Mk)
    as (s3 & E3).
  destruct (score_conversion_metrics_returns conversion Mc) as (s4 & E4).
  assert (T : returns (technical_call technical_data)).
  { destruct technical_data as [d |]; simpl.
    - apply valid_score_returns, score_technical_performance_valid, Mt.
    - eexists. reflexivity. }
  assert (V : returns (visual_call visual_data)).
  { destruct visual_data as [d |]; simpl.
    - apply valid_score_returns, score_visual_optimization_spec.
    - eexists. reflexivity. }
  destruct T as (s5 & E5). destruct V as (s6 & E6).
  destruct (calculate_overall_score_eq
              self metadata ratings keyword_performance conversion
              technical_data visual_data s1 s2 s3 s4 s5 s6 K E1 E2 E3 E4 E5 E6)
    as (report & self' & E & _).
  exists (report, self'). exact E.
Qed.

(** The label of a report and its rounded score: rounding does not cross
    a threshold, which has no decimals. *)
Lemma label_of_rounded (x : Q) :
  (80 < Py.round1 x ->
   _assess_health_status x = "Excellent - Top-tier ASO performance") /\
  (65 < Py.round1 x < 80 ->
   _assess_health_status x
   = "Good - Competitive ASO with room for improvement") /\
  (50 < Py.round1 x < 65 ->
   _assess_health_status x = "Fair - Needs strategic improvements") /\
  (Py.round1 x < 50 ->
   _assess_health_status x = "Poor - Requires immediate ASO overhaul") /\
  (Py.round1 x == 80 ->
   _assess_health_status x = "Excellent - Top-tier ASO performance" \/
   _assess_health_status x
   = "Good - Competitive ASO with room for improvement") /\
  (Py.round1 x == 65 ->
   _assess_health_status x
   = "Good - Competitive ASO with room for improvement" \/
   _assess_health_status x = "Fair - Needs strategic improvements") /\
  (Py.round1 x == 50 ->
   _assess_health_status x = "Fair - Needs strategic improvements" \/
   _assess_health_status x = "Poor - Requires immediate ASO overhaul").
Proof.
  assert (Lo : forall z : Z, x < inject_Z z -> Py.round1 x <= inject_Z z).
  { intros z H. apply round1_le; [apply one_decimal_Z | lra]. }
  assert (Hi : forall z : Z, inject_Z z <= x -> inject_Z z <= Py.round1 x).
  { intros z H. apply round1_ge; [apply one_decimal_Z | lra]. }
  pose proof (Lo 80%Z) as L80. pose proof (Lo 65%Z) as L65.
  pose proof (Lo 50%Z) as L50. pose proof (Hi 80%Z) as H80.
  pose proof (Hi 65%Z) as H65. pose proof (Hi 50%Z) as H50.
  change (inject_Z 80) with 80 in *. change (inject_Z 65) with 65 in *.
  change (inject_Z 50) with 50 in *. clear Lo Hi.
  unfold _assess_health_status.
  repeat match goal with |- _ /\ _ => split end; intro H;
    repeat split_cmp; try reflexivity; try (left; reflexivity);
    try (right; reflexivity); exfalso;
    repeat match goal with
    | C : _ <= x |- _ =>
        first [apply H80 in C | apply H65 in C | apply H50 in C]
    | C : x < _ |- _ =>
        first [apply L80 in C | apply L65 in C | apply L50 in C]
    end; lra.
Qed.

End AggregatorFacts.

(* ================================================================== *)
(** * The keyword evaluator *)
(* ================================================================== *)

Module EvaluatorFacts.
Import KeywordAnalyzer.

Lemma min_is_Qmin (a b : Q) : Py.min a b == Qmin a b.
Proof.
  destruct (min_cases a b) as [[H ->] | [H ->]].
  - symmetry. apply Q.min_r. lra.
  - symmetry. apply Q.min_l. exact H.
Qed.

(** The value of [_calculate_keyword_difficulty] in its two branches. *)
Lemma difficulty_value (search_volume competing_apps : Q) :
  exists v,
    _calculate_keyword_difficulty search_volume competing_apps = Py.Ok v /\
    (competing_apps == 0 -> v = 0.0) /\
    (~ competing_apps == 0 ->
     v = Py.round1 (difficulty_formula search_volume competing_apps)).
Proof.
  unfold _calculate_keyword_difficulty. split_cmp.
  - exists 0.0. split; [reflexivity |]. split; [reflexivity |].
    intro N. contradiction.
  - rewrite !truediv_ok by lra. cbn [Py.bind Py.ret].
    eexists. split; [reflexivity |]. split; [intro Z; contradiction |].
    intros _. apply round1_comp. unfold difficulty_formula.
    rewrite <- !min_is_Qmin.
    destruct (min_cases (competing_apps / 50000) 1) as [[? ->] | [? ->]];
      destruct (min_cases (competing_apps / 50000) 1.0) as [[? ->] | [? ->]];
      destruct (min_cases (search_volume / 1000000) 1) as [[? ->] | [? ->]];
      destruct (min_cases (search_volume / 1000000) 1.0) as [[? ->] | [? ->]];
      name_quotients; lra.
Qed.


Lemma potential_returns (search_volume competing_apps relevance_score : Q) :
  exists x,
    _calculate_potential_score search_volume competing_apps relevance_score
    = Py.Ok (Py.round1 x) /\ x <= 100.
Proof.
  unfold _calculate_potential_score.
  rewrite truediv_ok by lra. cbn [Py.bind Py.ret].
  split_cmp; rewrite ?truediv_ok by lra; cbn [Py.bind Py.ret];
    (eexists; split; [reflexivity |]);
    match goal with
    | |- Py.min ?a ?b <= _ =>
        destruct (min_cases a b) as [[? ->] | [? ->]]; lra
    end.
Qed.


Lemma analyze_keyword_returns (self : t) (kw : string)
      (search_volume competing_apps relevance_score : Q) :
  exists analysis self',
    analyze_keyword self kw search_volume competing_apps relevance_score
    = Py.Ok (analysis, self') /\
    _calculate_keyword_difficulty search_volume competing_apps
    = Py.Ok analysis.(difficulty_score) /\
    _calculate_potential_score search_volume competing_apps relevance_score
    = Py.Ok analysis.(potential_score) /\
    analysis.(KeywordAnalyzer.relevance_score) = relevance_score /\
    analysis.(recommendation)
    = _generate_recommendation analysis.(potential_score)
                               analysis.(difficulty_score) relevance_score /\
    Py.lookup self'.(analyzed_keywords) kw = Some analysis.
Proof.
  unfold analyze_keyword.
  destruct (difficulty_value search_volume competing_apps) as (d & Ed & _).
  destruct (potential_returns search_volume competing_apps relevance_score)
    as (x & Ep & _).
  rewrite Ed, Ep. cbn [Py.bind Py.ret].
  do 2 eexists. split; [reflexivity |].
  cbn [difficulty_score potential_score recommendation analyzed_keywords
       KeywordAnalyzer.relevance_score].
  repeat (split; [reflexivity |]).
  generalize (analyzed_keywords self). intro cache.
  induction cache as [| [k w] cache IH]; cbn [Py.setitem Py.lookup].
  - rewrite String.eqb_refl. reflexivity.
  - destruct (String.eqb k kw) eqn:K; cbn [Py.lookup]; rewrite K.
    + reflexivity.
    + exact IH.
Qed.

End EvaluatorFacts.

(* ================================================================== *)
(** * Cluster scoring *)
(* ================================================================== *)

Module ClusterScoreFacts.
Import KeywordAnalyzer.

Lemma one_decimal_comp (x y : Q) : x == y -> one_decimal x -> one_decimal y.
Proof. intros E [k Hk]. exists k. rewrite <- E. exact Hk. Qed.

Lemma size_cons (k : string) (ks : list string) :
  size (k :: ks) == size ks + 1.
Proof.
  unfold size. cbn [List.length]. rewrite Nat2Z.inj_succ.
  unfold Z.succ. rewrite inject_Z_plus. reflexivity.
Qed.

Lemma size_nil : size [] = 0.
Proof. reflexivity. Qed.

Lemma size_nonneg (ks : list string) : 0 <= size ks.
Proof.
  unfold size. change 0 with (inject_Z 0). rewrite <- Zle_Qle. lia.
Qed.

(** One iteration never raises and counts its keyword. *)
Lemma step_returns (keyword_data : list (string * Data.t)) (acc : Totals)
      (kw : string) :
  exists acc',
    score_cluster_step keyword_data acc kw = Py.Ok acc' /\
    acc'.(count) = acc.(count) + 1.
Proof.
  unfold score_cluster_step. split_cmp.
  - rewrite truediv_ok by lra. cbn [Py.bind Py.ret].
    eexists. split; reflexivity.
  - cbn [Py.bind Py.ret]. eexists. split; reflexivity.
Qed.

(** A keyword without an entry in the data contributes the defaults. *)
Lemma step_missing (keyword_data : list (string * Data.t)) (acc : Totals)
      (kw : string) :
  Py.lookup keyword_data kw = None ->
  score_cluster_step keyword_data acc kw
  = Py.Ok {| total_volume := acc.(total_volume) + 0;
             total_relevance := acc.(total_relevance) + 0.5;
             total_opportunity := acc.(total_opportunity) + 0 / 5000 * 0.5;
             count := acc.(count) + 1 |}.
Proof.
  intro H. unfold score_cluster_step. rewrite H.
  cbn [Py.get Data.empty Data.search_volume Data.competing_apps
       Data.relevance_score].
  split_cmp; [| exfalso; lra].
  rewrite truediv_ok by lra. reflexivity.
Qed.

Lemma loop_returns (keyword_data : list (string * Data.t))
      (ks : list string) :
  forall acc, exists totals,
    score_cluster_loop keyword_data acc ks = Py.Ok totals /\
    totals.(count) == acc.(count) + size ks.
Proof.
  induction ks as [| k ks IH]; intro acc; cbn [score_cluster_loop].
  - exists acc. split; [reflexivity |]. rewrite size_nil. lra.
  - destruct (step_returns keyword_data acc k) as (acc' & E & C).
    rewrite E. cbn [Py.bind].
    destruct (IH acc') as (totals & El & Cl).
    exists totals. split; [exact El |].
    rewrite Cl, C, size_cons. lra.
Qed.

Lemma loop_missing (keyword_data : list (string * Data.t))
      (ks : list string) :
  (forall k, In k ks -> Py.lookup keyword_data k = None) ->
  forall acc, exists totals,
    score_cluster_loop keyword_data acc ks = Py.Ok totals /\
    totals.(total_volume) == acc.(total_volume) /\
    totals.(total_relevance) == acc.(total_relevance) + size ks * 0.5 /\
    totals.(total_opportunity) == acc.(total_opportunity) /\
    totals.(count) == acc.(count) + size ks.
Proof.
  induction ks as [| k ks IH]; intros M acc; cbn [score_cluster_loop].
  - exists acc. rewrite size_nil. repeat split; try reflexivity; lra.
  - rewrite (step_missing keyword_data acc k) by (apply M; left; reflexivity).
    cbn [Py.bind].
    destruct (IH (fun k' H => M k' (or_intror H)) 
                 {| total_volume := acc.(total_volume) + 0;
                    total_relevance := acc.(total_relevance) + 0.5;
                    total_opportunity :=
                      acc.(total_opportunity) + 0 / 5000 * 0.5;
                    count := acc.(count) + 1 |})
      as (totals & E & Hv & Hr & Ho & Hc).
    cbn [total_volume total_relevance total_opportunity count] in *.
    exists totals. split; [exact E |].
    rewrite Hv, Hr, Ho, Hc, size_cons. clear. repeat split;
      name_quotients; lra.
Qed.

Lemma score_cluster_returns (ks : list string)
      (keyword_data : option (list (string * Data.t))) :
  returns (score_cluster ks keyword_data).
Proof.
  unfold returns, score_cluster. destruct ks as [| k ks]; [eexists; reflexivity |].
  destruct (no_data keyword_data); [eexists; reflexivity |].
  destruct (loop_returns (Py.get keyword_data [])  (k :: ks)
              {| total_volume := 0; total_relevance := 0.0;
                 total_opportunity := 0.0; count := 0 |})
    as (totals & E & _).
  rewrite E. cbn [Py.bind]. split_cmp; [eexists; reflexivity |].
  rewrite !truediv_ok by (assumption || lra). cbn [Py.bind Py.ret].
  eexists; reflexivity.
Qed.

(** The count-only proxy, used when there is no data. *)
Lemma score_cluster_no_data (ks : list string)
      (keyword_data : option (list (string * Data.t))) :
  ks <> [] -> no_data keyword_data = true ->
  score_cluster ks keyword_data = Py.Ok (Py.min (size ks * 10.0) 50.0).
Proof.
  intros N D. unfold score_cluster. destruct ks; [contradiction |].
  rewrite D. reflexivity.
Qed.

(** A cluster whose keywords are all missing from a non-empty data dict. *)
Lemma score_cluster_all_missing (ks : list string)
      (keyword_data : list (string * Data.t)) :
  ks <> [] -> keyword_data <> [] ->
  (forall k, In k ks -> Py.lookup keyword_data k = None) ->
  exists v, score_cluster ks (Some keyword_data) = Py.Ok v /\
            v == 15 + Py.min (size ks * 2) 10.
Proof.
  intros N D M.
  assert (P : 1 <= size ks).
  { destruct ks as [| k0 ks0]; [contradiction |].
    rewrite size_cons. pose proof (size_nonneg ks0). lra. }
  assert (ND : no_data (Some keyword_data) = false)
    by (destruct keyword_data; [contradiction | reflexivity]).
  assert (U : score_cluster ks (Some keyword_data)
              = (totals <-
                   score_cluster_loop keyword_data
                     {| total_volume := 0; total_relevance := 0.0;
                        total_opportunity := 0.0; count := 0 |} ks ;;
                 if totals.(count) =? 0 then Py.ret 0.0
                 else
                   q <- Py.truediv totals.(total_volume) 10000 ;;
                   let volume_score := Py.min q 30.0 in
                   q <- Py.truediv totals.(total_relevance) totals.(count) ;;
                   let relevance_score := q * 30.0 in
                   let opportunity_score :=
                     Py.min (totals.(total_opportunity) * 10) 30.0 in
                   let diversity_score := Py.min (totals.(count) * 2.0) 10.0 in
                   Py.ret (Py.round1 (volume_score + relevance_score
                                      + opportunity_score + diversity_score)))).
  { unfold score_cluster. destruct ks; [contradiction |].
    rewrite ND. reflexivity. }
  rewrite U. clear U.
  destruct (loop_missing keyword_data ks M
              {| total_volume := 0; total_relevance := 0.0;
                 total_opportunity := 0.0; count := 0 |})
    as (totals & E & Hv & Hr & Ho & Hc).
  cbn [total_volume total_relevance total_opportunity count] in *.
  rewrite E. cbn [Py.bind].
  split_cmp; [exfalso; lra |].
  rewrite !truediv_ok by (assumption || lra). cbn [Py.bind Py.ret].
  eexists. split; [reflexivity |].
  assert (Hq : total_relevance totals / count totals == 0.5).
  { rewrite Hr, Hc. field. lra. }
  assert (Y : one_decimal (15 + Py.min (size ks * 2) 10)).
  { destruct (min_cases (size ks * 2) 10) as [[_ ->] | [_ ->]].
    - exact (one_decimal_Z 25).
    - apply (one_decimal_comp
               (inject_Z (15 + Z.of_nat (List.length ks) * 2))).
      + rewrite inject_Z_plus, inject_Z_mult. reflexivity.
      + apply one_decimal_Z. }
  rewrite <- (round1_fixes _ Y).
  match goal with
  | |- Py.round1 ?x == Py.round1 ?y =>
      assert (X : x == y); [| rewrite (round1_comp _ _ X); reflexivity]
  end.
  set (q := total_relevance totals / count totals) in *. clearbody q.
  destruct (min_cases (total_volume totals / 10000) 30.0) as [[? ->] | [? ->]];
    destruct (min_cases (total_opportunity totals * 10) 30.0)
      as [[? ->] | [? ->]];
    destruct (min_cases (count totals * 2.0) 10.0) as [[? ->] | [? ->]];
    destruct (min_cases (size ks * 2) 10) as [[? ->] | [? ->]];
    name_quotients; lra.
Qed.

End ClusterScoreFacts.

(* ================================================================== *)
(** * Intent clustering *)
(* ================================================================== *)

Module ClusteringFacts.
Import KeywordAnalyzer.

(** ** The choice of the intent *)

Section MatchIntent.

Variable words : list string.



End MatchIntent.







(** ** The buckets *)

Section Dicts.

Context {A : Type}.

Lemma lookup_setitem_same (d : list (string * A)) (k : string) (v : A) :
  Py.lookup (Py.setitem d k v) k = Some v.
Proof.
  induction d as [| [j w] d IH]; cbn [Py.setitem Py.lookup].
  - rewrite String.eqb_refl. reflexivity.
  - destruct (String.eqb j k) eqn:E; cbn [Py.lookup]; rewrite E;
      [reflexivity | exact IH].
Qed.

Lemma lookup_setitem_other (d : list (string * A)) (k j : string) (v : A) :
  k <> j -> Py.lookup (Py.setitem d k v) j = Py.lookup d j.
Proof.
  intro N. induction d as [| [i w] d IH]; cbn [Py.setitem Py.lookup].
  - apply String.eqb_neq in N. rewrite N. reflexivity.
  - destruct (String.eqb i k) eqn:E; cbn [Py.lookup].
    + apply String.eqb_eq in E. subst i.
      apply String.eqb_neq in N. rewrite N. reflexivity.
    + rewrite IH. reflexivity.
Qed.

Lemma lookup_In (d : list (string * A)) (k : string) (v : A) :
  Py.lookup d k = Some v -> In (k, v) d.
Proof.
  induction d as [| [j w] d IH]; cbn [Py.lookup]; [discriminate |].
  destruct (String.eqb j k) eqn:E.
  - apply String.eqb_eq in E. subst j. intro H. injection H as ->.
    left. reflexivity.
  - intro H. right. apply IH, H.
Qed.


End Dicts.






(** ** Natural-language queries *)

Lemma contains_In (xs : list string) (x : string) :
  Py.contains xs x = true <-> In x xs.
Proof.
  unfold Py.contains. rewrite existsb_exists. split.
  - intros (y & H & E). apply String.eqb_eq in E. subst y. exact H.
  - intro H. exists x. split; [exact H | apply String.eqb_refl].
Qed.

Lemma contains_not_In (xs : list string) (x : string) :
  Py.contains xs x = false <-> ~ In x xs.
Proof. rewrite <- contains_In, not_true_iff_false. reflexivity. Qed.

Lemma NoDup_append (xs : list string) (x : string) :
  NoDup xs -> ~ In x xs -> NoDup (Py.append xs x).
Proof.
  intros D N. unfold Py.append. induction D as [| y ys Ny D IH].
  - constructor; [intros [] | constructor].
  - cbn [app]. constructor.
    + intro H. apply in_app_or in H. destruct H as [H | [-> | []]].
      * exact (Ny H).
      * apply N. left. reflexivity.
    + apply IH. intro H. apply N. right. exact H.
Qed.


Section Queries.

Variable max_queries : Z.
Variable intent_templates : list string.






End Queries.

Section WithSetOrder.

Variable set_order : list string -> list string.


(** ** The clusters *)

Lemma build_clusters_spec
      (keyword_data : option (list (string * Data.t)))
      (clusters : list (string * list string)) :
  exists result,
    build_clusters set_order keyword_data clusters = Py.Ok result /\
    Forall2 (built_from set_order) clusters result.
Proof.
  induction clusters as [| [i kws] clusters IH]; cbn [build_clusters].
  - exists []. split; [reflexivity | constructor].
  - destruct (ClusterScoreFacts.score_cluster_returns kws keyword_data)
      as [s E].
    destruct IH as (result & R & F).
    rewrite E, R. cbn [Py.bind Py.ret].
    eexists. split; [reflexivity |].
    constructor; [| exact F]. repeat split.
Qed.

Lemma insert_cluster_In (c x : Cluster) (sorted : list Cluster) :
  In x (insert_cluster c sorted) <-> x = c \/ In x sorted.
Proof.
  induction sorted as [| d rest IH]; cbn [insert_cluster].
  - cbn. intuition congruence.
  - destruct (c.(combined_score) >=? d.(combined_score)).
    + cbn. intuition congruence.
    + cbn [In]. rewrite IH. intuition congruence.
Qed.

Lemma sort_clusters_In (x : Cluster) (result : list Cluster) :
  In x (sort_clusters result) <-> In x result.
Proof.
  unfold sort_clusters. induction result as [| c result IH]; cbn [fold_right].
  - reflexivity.
  - rewrite insert_cluster_In, IH. cbn. intuition congruence.
Qed.

(** [cluster_by_intent] returns the clusters built from the buckets and,
    when the unclustered bucket is not empty, the General cluster. *)
Lemma cluster_by_intent_spec (ks : list string)
      (keyword_data : option (list (string * Data.t))) :
  exists result built,
    cluster_by_intent set_order ks keyword_data = Py.Ok result /\
    Forall2 (built_from set_order) (fst (bucket ks [] [])) built /\
    (forall c, In c result ->
               In c built \/ general_cluster (snd (bucket ks [] [])) c) /\
    (forall c, In c built -> In c result) /\
    (snd (bucket ks [] []) <> [] ->
     exists c, In c result /\ general_cluster (snd (bucket ks [] [])) c).
Proof.
  unfold cluster_by_intent.
  destruct (bucket ks [] []) as [clusters unclustered]. cbn [fst snd].
  destruct (build_clusters_spec keyword_data clusters) as (built & B & F).
  rewrite B. cbn [Py.bind].
  destruct unclustered as [| u us].
  - cbn [Py.bind Py.ret]. exists (sort_clusters built), built.
    split; [reflexivity |]. split; [exact F |].
    split; [| split].
    + intros c H. left. apply -> sort_clusters_In in H. exact H.
    + intros c H. apply <- sort_clusters_In. exact H.
    + intro N. contradiction.
  - destruct (ClusterScoreFacts.score_cluster_returns (u :: us) keyword_data)
      as [s E].
    rewrite E. cbn [Py.bind Py.ret].
    eexists. exists built. split; [reflexivity |]. split; [exact F |].
    split; [| split].
    + intros c H. apply -> sort_clusters_In in H. unfold Py.append in H.
      apply in_app_or in H. destruct H as [H | [<- | []]]; [left; exact H |].
      right. repeat split. discriminate.
    + intros c H. apply <- sort_clusters_In. unfold Py.append.
      apply in_or_app. left. exact H.
    + intros _. eexists. split.
      * apply <- sort_clusters_In. unfold Py.append. apply in_or_app.
        right. left. reflexivity.
      * repeat split. discriminate.
Qed.

End WithSetOrder.

(** ** Where a keyword ends up *)

Lemma setitem_fst {A : Type} (d : list (string * A)) (k : string) (v : A) :
  map fst (Py.setitem d k v)
  = if Py.contains (map fst d) k then map fst d
    else (map fst d ++ [k])%list.
Proof.
  induction d as [| [j w] d IH]; cbn [Py.setitem map fst]; [reflexivity |].
  unfold Py.contains in *. cbn [existsb].
  rewrite (String.eqb_sym k j).
  destruct (String.eqb j k); cbn [orb map fst]; [reflexivity |].
  rewrite IH. destruct (existsb (String.eqb k) (map fst d)); reflexivity.
Qed.

Lemma setitem_NoDup {A : Type} (d : list (string * A)) (k : string) (v : A) :
  NoDup (map fst d) -> NoDup (map fst (Py.setitem d k v)).
Proof.
  intro D. rewrite setitem_fst.
  destruct (Py.contains (map fst d) k) eqn:C; [exact D |].
  apply contains_not_In in C. exact (NoDup_append _ _ D C).
Qed.

Lemma In_lookup {A : Type} (d : list (string * A)) (k : string) (v : A) :
  NoDup (map fst d) -> In (k, v) d -> Py.lookup d k = Some v.
Proof.
  induction d as [| [j w] d IH]; intros D H; [destruct H |].
  cbn [map fst] in D. inversion D as [| ? ? N D']; subst.
  cbn [Py.lookup]. destruct H as [E | H].
  - injection E as -> ->. rewrite String.eqb_refl. reflexivity.
  - destruct (String.eqb_spec j k) as [-> | _].
    + exfalso. apply N. apply (in_map fst) in H. exact H.
    + apply IH; assumption.
Qed.










Section Placement.

Variable set_order : list string -> list string.


End Placement.

End ClusteringFacts.

(* ================================================================== *)
(** * Keywords without data *)
(* ================================================================== *)

Module MissingKeywordFacts.
Import KeywordAnalyzer.

(** A keyword without an entry is read as one with the default entry. *)
Lemma step_default_entry (keyword_data : list (string * Data.t))
      (k : string) (acc : Totals) (kw : string) :
  Py.lookup keyword_data k = None ->
  score_cluster_step (Py.setitem keyword_data k default_data) acc kw
  = score_cluster_step keyword_data acc kw.
Proof.
  intro M. unfold score_cluster_step.
  destruct (String.eqb_spec k kw) as [<- | N].
  - rewrite ClusteringFacts.lookup_setitem_same, M. reflexivity.
  - rewrite ClusteringFacts.lookup_setitem_other by exact N. reflexivity.
Qed.

Lemma loop_default_entry (keyword_data : list (string * Data.t))
      (k : string) (ks : list string) :
  Py.lookup keyword_data k = None ->
  forall acc,
    score_cluster_loop (Py.setitem keyword_data k default_data) acc ks
    = score_cluster_loop keyword_data acc ks.
Proof.
  intro M. induction ks as [| kw ks IH]; intro acc; cbn [score_cluster_loop].
  - reflexivity.
  - rewrite (step_default_entry keyword_data k acc kw M).
    destruct (score_cluster_step keyword_data acc kw) as [acc' | e];
      cbn [Py.bind]; [apply IH | reflexivity].
Qed.

Lemma score_cluster_default_entry (ks : list string)
      (keyword_data : list (string * Data.t)) (k : string) :
  keyword_data <> [] -> Py.lookup keyword_data k = None ->
  score_cluster ks (Some (Py.setitem keyword_data k default_data))
  = score_cluster ks (Some keyword_data).
Proof.
  intros D M. unfold score_cluster. destruct ks as [| k0 ks]; [reflexivity |].
  assert (N1 : no_data (Some keyword_data) = false)
    by (destruct keyword_data; [contradiction | reflexivity]).
  assert (N2 : no_data (Some (Py.setitem keyword_data k default_data))
               = false).
  { destruct keyword_data as [| [j w] d]; cbn [Py.setitem no_data];
      [reflexivity |]. destruct (String.eqb j k); reflexivity. }
  rewrite N1, N2. cbn [Py.get].
  rewrite (loop_default_entry keyword_data k (k0 :: ks) M). reflexivity.
Qed.

End MissingKeywordFacts.

(* ================================================================== *)
(** * Claims of the specification *)
(* ================================================================== *)

Import ScorerFacts AggregatorFacts.

(** C1. For every input and every platform selection, the [overall_score]
    of the report that [calculate_overall_score] returns lies between the
    least and the greatest of the six sub-scores of the report.  It is the
    sum of the sub-scores weighted by [weight / 100] rounded to one
    decimal: a number with one decimal that, for sub-scores between 0 and
    100, is within 1/20 of that sum; and the weights sum to exactly 100 in
    each of the three weight tables.  The call returns a report whenever
    the metrics are moderate. *)
Theorem overall_score_between_extremes
        (platform : option string)
        (metadata : ASOScorer.Metadata) (ratings : ASOScorer.Ratings)
        (keyword_performance : ASOScorer.KeywordPerformance)
        (conversion : ASOScorer.Conversion)
        (technical_data : option ASOScorer.TechnicalData)
        (visual_data : option ASOScorer.VisualData) :
  (forall report self',
      ASOScorer.calculate_overall_score
        (ASOScorer.__init__ platform) metadata ratings keyword_performance
        conversion technical_data visual_data
      = Py.Ok (report, self') ->
      exists s rest,
        sub_scores report = s :: rest /\ List.length rest = 5%nat /\
        minimum s rest <= report.(ASOScorer.overall_score)
                       <= maximum s rest /\
        one_decimal report.(ASOScorer.overall_score) /\
        (Forall (fun sub_score => 0 <= sub_score <= 100) (s :: rest) ->
         weighted_sum report.(ASOScorer.weights_used) (s :: rest) - (1 # 20)
         <= report.(ASOScorer.overall_score)
         <= weighted_sum report.(ASOScorer.weights_used) (s :: rest)
            + (1 # 20)) /\
        ASOScorer.sum_values report.(ASOScorer.weights_used) = 100%Z) /\
  (moderate_metadata metadata ->
   moderate_ratings ratings ->
   moderate_keyword_performance keyword_performance ->
   moderate_conversion conversion ->
   if_given moderate_technical technical_data ->
   if_given moderate_visual visual_data ->
   returns (ASOScorer.calculate_overall_score
              (ASOScorer.__init__ platform) metadata ratings
              keyword_performance conversion technical_data visual_data)) /\
  ASOScorer.sum_values ASOScorer.WEIGHTS = 100%Z /\
  ASOScorer.sum_values ASOScorer.GOOGLE_WEIGHTS = 100%Z /\
  ASOScorer.sum_values ASOScorer.APPLE_WEIGHTS = 100%Z.
Proof.
  pose proof (init_weights_known platform) as K.
  split; [| split; [| repeat split; reflexivity]].
  - intros report self' E.
    destruct (calculate_overall_score_inv _ _ _ _ _ _ _ _ _ K E)
      as (s1 & s2 & s3 & s4 & s5 & s6 & Hsub & Hdec & Hw & Ho & _).
    exists s1, [s2; s3; s4; s5; s6].
    rewrite Hw, Ho.
    split; [exact Hsub |]. split; [reflexivity |].
    assert (D : forall y, In y [s1; s2; s3; s4; s5; s6] -> one_decimal y)
      by (apply Forall_forall; exact Hdec).
    split; [| split; [apply round1_one_decimal |
                      split; [intros _; apply round1_near |
                              apply sum_values_known, K]]].
    apply round1_between.
    + apply D, minimum_in.
    + apply D, maximum_in.
    + apply weighted_sum_between, K.
  - intros Mm _ Mk Mc Mt _.
    apply calculate_overall_score_returns; assumption.
Qed.

(** C1 on the sample bundles, under the weights of Google Play. *)
Lemma overall_score_between_extremes_witness :
  exists report self' s rest,
    ASOScorer.calculate_overall_score
      (ASOScorer.__init__ (Some "google")) Samples.metadata Samples.ratings
      Samples.keyword_performance Samples.conversion
      (Some Samples.technical_data) (Some Samples.visual_data)
    = Py.Ok (report, self') /\
    sub_scores report = s :: rest /\
    minimum s rest <= report.(ASOScorer.overall_score) <= maximum s rest.
Proof.
  destruct (ASOScorer.calculate_overall_score
              (ASOScorer.__init__ (Some "google")) Samples.metadata
              Samples.ratings Samples.keyword_performance Samples.conversion
              (Some Samples.technical_data) (Some Samples.visual_data))
    as [[report self'] | e] eqn:E; [| vm_compute in E; discriminate].
  destruct (proj1 (overall_score_between_extremes
                     (Some "google") Samples.metadata Samples.ratings
                     Samples.keyword_performance Samples.conversion
                     (Some Samples.technical_data)
                     (Some Samples.visual_data)) report self' E)
    as (s & rest & Hsub & _ & B & _).
  exists report, self', s, rest.
  split; [reflexivity |]. split; [exact Hsub | exact B].
Defined.

(** C2, as stated, fails: a negative [description_quality] makes
    [score_metadata_quality] return -90.0, and a negative [total_ratings]
    makes [score_ratings_reviews] return -135.0; neither lies in
    [0, 100].  And a [top_100] of 10^400, an [int] beyond the range of a
    float, makes [score_keyword_performance] raise [OverflowError]. *)
Lemma scorers_negative_on_negative_metrics :
  ASOScorer.score_metadata_quality
    {| ASOScorer.title_keyword_count := None;
       ASOScorer.title_length := None;
       ASOScorer.description_length := None;
       ASOScorer.description_quality := Some (-10);
       ASOScorer.keyword_density := None |} = Py.Ok (-90.0) /\
  ASOScorer.score_ratings_reviews
    {| ASOScorer.average_rating := None;
       ASOScorer.total_ratings := Some (-1000);
       ASOScorer.recent_ratings_30d := None |} = Py.Ok (-135.0) /\
  ~ valid_score
      (ASOScorer.score_metadata_quality
         {| ASOScorer.title_keyword_count := None;
            ASOScorer.title_length := None;
            ASOScorer.description_length := None;
            ASOScorer.description_quality := Some (-10);
            ASOScorer.keyword_density := None |}) /\
  ~ valid_score
      (ASOScorer.score_ratings_reviews
         {| ASOScorer.average_rating := None;
            ASOScorer.total_ratings := Some (-1000);
            ASOScorer.recent_ratings_30d := None |}) /\
  ASOScorer.score_keyword_performance
    {| ASOScorer.top_10 := None;
       ASOScorer.top_50 := None;
       ASOScorer.top_100 := Some huge;
       ASOScorer.improving_keywords := None |}
  = Py.Raise Py.OverflowError /\
  ~ valid_score
      (ASOScorer.score_keyword_performance
         {| ASOScorer.top_10 := None;
            ASOScorer.top_50 := None;
            ASOScorer.top_100 := Some huge;
            ASOScorer.improving_keywords := None |}).
Proof.
  assert (E1 : ASOScorer.score_metadata_quality
                 {| ASOScorer.title_keyword_count := None;
                    ASOScorer.title_length := None;
                    ASOScorer.description_length := None;
                    ASOScorer.description_quality := Some (-10);
                    ASOScorer.keyword_density := None |} = Py.Ok (-90.0))
    by (vm_compute; reflexivity).
  assert (E2 : ASOScorer.score_ratings_reviews
                 {| ASOScorer.average_rating := None;
                    ASOScorer.total_ratings := Some (-1000);
                    ASOScorer.recent_ratings_30d := None |}
               = Py.Ok (-135.0))
    by (vm_compute; reflexivity).
  assert (E3 : ASOScorer.score_keyword_performance
                 {| ASOScorer.top_10 := None;
                    ASOScorer.top_50 := None;
                    ASOScorer.top_100 := Some huge;
                    ASOScorer.improving_keywords := None |}
               = Py.Raise Py.OverflowError)
    by (vm_compute; reflexivity).
  split; [exact E1 |]. split; [exact E2 |].
  rewrite E1, E2, E3.
  split; [| split; [| split; [reflexivity |]]].
  - intros (v & E & [H _] & _). injection E as <-. lra.
  - intros (v & E & [H _] & _). injection E as <-. lra.
  - intros (v & E & _). discriminate.
Qed.

(** C2, amended.  Each of the six dimension scorers returns, without
    raising, a number between 0 and 100 with one decimal, on every bundle
    whose metrics [description_quality], [keyword_density],
    [total_ratings], [top_10], [top_50], [top_100] and
    [impression_to_install] are not negative where given and whose metrics
    [top_100], [crash_rate], [anr_rate] and [battery_impact] are moderate
    where given. *)
Theorem scorers_valid_on_nonnegative_metrics
        (metadata : ASOScorer.Metadata) (ratings : ASOScorer.Ratings)
        (keyword_performance : ASOScorer.KeywordPerformance)
        (conversion : ASOScorer.Conversion)
        (technical_data : ASOScorer.TechnicalData)
        (visual_data : ASOScorer.VisualData) :
  nonneg metadata.(ASOScorer.description_quality) ->
  nonneg metadata.(ASOScorer.keyword_density) ->
  nonneg ratings.(ASOScorer.total_ratings) ->
  nonneg keyword_performance.(ASOScorer.top_10) ->
  nonneg keyword_performance.(ASOScorer.top_50) ->
  nonneg keyword_performance.(ASOScorer.top_100) ->
  nonneg conversion.(ASOScorer.impression_to_install) ->
  moderate keyword_performance.(ASOScorer.top_100) ->
  moderate technical_data.(ASOScorer.crash_rate) ->
  moderate technical_data.(ASOScorer.anr_rate) ->
  moderate technical_data.(ASOScorer.battery_impact) ->
  valid_score (ASOScorer.score_metadata_quality metadata) /\
  valid_score (ASOScorer.score_ratings_reviews ratings) /\
  valid_score (ASOScorer.score_keyword_performance keyword_performance) /\
  valid_score (ASOScorer.score_conversion_metrics conversion) /\
  valid_score (ASOScorer.score_technical_performance technical_data) /\
  valid_score (ASOScorer.score_visual_optimization visual_data).
Proof.
  intros Hq Hd Hn H10 H50 H100 Hc M100 Mc Ma Mb. unfold valid_score.
  repeat match goal with |- _ /\ _ => split end.
  - destruct (score_metadata_quality_spec metadata) as (v & E & D & U & L);
      [apply nonneg_above; [exact Hd | lra] |].
    exists v. auto.
  - destruct (score_ratings_reviews_spec ratings) as (v & E & D & U & L).
    exists v. auto.
  - destruct (score_keyword_performance_spec keyword_performance)
      as (v & E & D & U & L);
      [apply nonneg_above; [exact H10 | lra]
      | apply nonneg_above; [exact H50 | lra]
      | apply (moderate_get _ 0 M100); lra |].
    exists v. auto.
  - destruct (score_conversion_metrics_spec conversion)
      as (v & E & D & U & L);
      [apply nonneg_above; [exact Hc | lra] |].
    exists v. auto.
  - apply score_technical_performance_valid.
    repeat split; assumption.
  - apply score_visual_optimization_spec.
Qed.

(** C2, amended, on the sample bundles. *)
Lemma scorers_valid_on_nonnegative_metrics_witness :
  nonneg (Some 0.8) /\ nonneg (Some 3.5) /\ nonneg (Some 2500) /\
  nonneg (Some 3) /\ nonneg (Some 12) /\ nonneg (Some 25) /\
  nonneg (Some 0.05) /\
  moderate (Some 25) /\ moderate (Some 3.0) /\ moderate (Some 2.0) /\
  moderate (Some 15) /\
  valid_score (ASOScorer.score_metadata_quality Samples.metadata) /\
  valid_score (ASOScorer.score_ratings_reviews Samples.ratings) /\
  valid_score
    (ASOScorer.score_keyword_performance Samples.keyword_performance) /\
  valid_score (ASOScorer.score_conversion_metrics Samples.conversion) /\
  valid_score
    (ASOScorer.score_technical_performance Samples.technical_data) /\
  valid_score (ASOScorer.score_visual_optimization Samples.visual_data).
Proof.
  assert (M : forall v : Q, -1000 <= v <= 1000 -> moderate (Some v))
    by (intros v H; pose proof metric_bound_large; unfold moderate; lra).
  repeat (split; [unfold nonneg; lra |]).
  repeat (split; [apply M; lra |]).
  apply (scorers_valid_on_nonnegative_metrics
           Samples.metadata Samples.ratings Samples.keyword_performance
           Samples.conversion Samples.technical_data Samples.visual_data);
    first [apply M; lra | unfold nonneg; simpl; lra].
Defined.



(** C8, as stated, fails: on the borderline sample bundles the report of
    [calculate_overall_score] has the overall score 50.0, which is at
    least 50 and below 65, with the Poor tier as its label, not the Fair
    tier.  The label is taken from the weighted sum before rounding,
    49.98. *)
Lemma rounded_score_50_is_labelled_poor :
  exists report self',
    ASOScorer.calculate_overall_score
      (ASOScorer.__init__ None) Borderline.metadata Borderline.ratings
      Borderline.keyword_performance Borderline.conversion None None
    = Py.Ok (report, self') /\
    sub_scores report = [50.0; 49.9; 50.0; 50.0; 50.0; 50.0] /\
    weighted_sum report.(ASOScorer.weights_used) (sub_scores report)
    == 49.98 /\
    report.(ASOScorer.overall_score) = 50.0 /\
    50 <= report.(ASOScorer.overall_score) < 65 /\
    report.(ASOScorer.health_status)
    = "Poor - Requires immediate ASO overhaul" /\
    report.(ASOScorer.health_status)
    <> "Fair - Needs strategic improvements".
Proof.
  destruct (ASOScorer.calculate_overall_score
              (ASOScorer.__init__ None) Borderline.metadata
              Borderline.ratings Borderline.keyword_performance
              Borderline.conversion None None)
    as [[report self'] | e] eqn:E; [| vm_compute in E; discriminate].
  exists report, self'. split; [reflexivity |].
  vm_compute in E. injection E as <- _.
  repeat match goal with |- _ /\ _ => split end;
    try reflexivity; try (vm_compute; congruence).
Qed.

(** C8, amended.  [_assess_health_status] gives the value it is passed the
    Excellent tier when the value is at least 80, the Good tier when it is
    at least 65 and below 80, the Fair tier when it is at least 50 and
    below 65, and the Poor tier otherwise: the thresholds are inclusive
    lower bounds, evaluated top-down.  [calculate_overall_score] passes
    the weighted sum before rounding, and the [overall_score] of its
    report is that sum rounded to one decimal; so in every report it
    returns, an [overall_score] above 80 has the Excellent tier, one
    between 65 and 80 the Good tier, one between 50 and 65 the Fair tier
    and one below 50 the Poor tier, while an [overall_score] of exactly
    80, 65 or 50 has the tier of that threshold or the tier below it. *)
Theorem health_status_tiers :
  (forall overall_score : Q,
      (80 <= overall_score ->
       ASOScorer._assess_health_status overall_score
       = "Excellent - Top-tier ASO performance") /\
      (65 <= overall_score < 80 ->
       ASOScorer._assess_health_status overall_score
       = "Good - Competitive ASO with room for improvement") /\
      (50 <= overall_score < 65 ->
       ASOScorer._assess_health_status overall_score
       = "Fair - Needs strategic improvements") /\
      (overall_score < 50 ->
       ASOScorer._assess_health_status overall_score
       = "Poor - Requires immediate ASO overhaul")) /\
  (forall platform metadata ratings keyword_performance conversion
          technical_data visual_data report self',
      ASOScorer.calculate_overall_score
        (ASOScorer.__init__ platform) metadata ratings keyword_performance
        conversion technical_data visual_data
      = Py.Ok (report, self') ->
      (80 < report.(ASOScorer.overall_score) ->
       report.(ASOScorer.health_status)
       = "Excellent - Top-tier ASO performance") /\
      (65 < report.(ASOScorer.overall_score) < 80 ->
       report.(ASOScorer.health_status)
       = "Good - Competitive ASO with room for improvement") /\
      (50 < report.(ASOScorer.overall_score) < 65 ->
       report.(ASOScorer.health_status)
       = "Fair - Needs strategic improvements") /\
      (report.(ASOScorer.overall_score) < 50 ->
       report.(ASOScorer.health_status)
       = "Poor - Requires immediate ASO overhaul") /\
      (report.(ASOScorer.overall_score) == 80 ->
       report.(ASOScorer.health_status)
       = "Excellent - Top-tier ASO performance" \/
       report.(ASOScorer.health_status)
       = "Good - Competitive ASO with room for improvement") /\
      (report.(ASOScorer.overall_score) == 65 ->
       report.(ASOScorer.health_status)
       = "Good - Competitive ASO with room for improvement" \/
       report.(ASOScorer.health_status)
       = "Fair - Needs strategic improvements") /\
      (report.(ASOScorer.overall_score) == 50 ->
       report.(ASOScorer.health_status)
       = "Fair - Needs strategic improvements" \/
       report.(ASOScorer.health_status)
       = "Poor - Requires immediate ASO overhaul")).
Proof.
  split.
  - intro overall_score. unfold ASOScorer._assess_health_status.
    repeat split; intro H; repeat split_cmp; try reflexivity; exfalso; lra.
  - intros platform metadata ratings keyword_performance conversion
           technical_data visual_data report self' E.
    destruct (calculate_overall_score_inv
                _ _ _ _ _ _ _ _ _ (init_weights_known platform) E)
      as (s1 & s2 & s3 & s4 & s5 & s6 & _ & _ & _ & Ho & Hh).
    rewrite Ho, Hh. apply label_of_rounded.
Qed.

(** C8, amended, at the value 80 and just below it, and on the sample
    bundles, whose report has the overall score 71.6. *)
Lemma health_status_tiers_witness :
  (80 <= 80 /\
   ASOScorer._assess_health_status 80
   = "Excellent - Top-tier ASO performance") /\
  (65 <= 79.9 < 80 /\
   ASOScorer._assess_health_status 79.9
   = "Good - Competitive ASO with room for improvement") /\
  (exists report self',
      ASOScorer.calculate_overall_score
        (ASOScorer.__init__ None) Samples.metadata Samples.ratings
        Samples.keyword_performance Samples.conversion None None
      = Py.Ok (report, self') /\
      65 < report.(ASOScorer.overall_score) < 80 /\
      report.(ASOScorer.health_status)
      = "Good - Competitive ASO with room for improvement").
Proof.
  split; [| split].
  - split; [lra |]. apply (proj1 (proj1 health_status_tiers 80)). lra.
  - split; [lra |].
    apply (proj1 (proj2 (proj1 health_status_tiers 79.9))). lra.
  - destruct (ASOScorer.calculate_overall_score
                (ASOScorer.__init__ None) Samples.metadata Samples.ratings
                Samples.keyword_performance Samples.conversion None None)
      as [[report self'] | e] eqn:E; [| vm_compute in E; discriminate].
    exists report, self'. split; [reflexivity |].
    assert (B : 65 < report.(ASOScorer.overall_score) < 80)
      by (vm_compute in E; injection E as <- _; vm_compute;
          split; reflexivity).
    split; [exact B |].
    apply (proj1 (proj2
             (proj2 health_status_tiers None Samples.metadata
                    Samples.ratings Samples.keyword_performance
                    Samples.conversion None None report self' E))).
    exact B.
Defined.

Import EvaluatorFacts ClusterScoreFacts.





(** C10. With a non-empty [keyword_data], a keyword of the cluster that has
    no entry in it still contributes, with the defaults search_volume 0,
    competing_apps 5000 and relevance_score 0.5: the score of the cluster,
    whatever data its other keywords have, is the score it has when the
    keyword is given the entry with these values, and the iteration of the
    loop for the keyword adds them to the totals.  So a cluster whose
    keywords are all missing scores 15 relevance points plus
    min(count * 2, 10) diversity points.  The count-only proxy
    min(count * 10, 50) is the score when [keyword_data] is absent or
    empty. *)
Theorem score_cluster_defaults_for_missing_keywords
        (keywords : list string)
        (keyword_data : list (string * KeywordAnalyzer.Data.t)) :
  keywords <> [] -> keyword_data <> [] ->
  (forall k,
      Py.lookup keyword_data k = None ->
      KeywordAnalyzer.score_cluster keywords (Some keyword_data)
      = KeywordAnalyzer.score_cluster
          keywords (Some (Py.setitem keyword_data k default_data)) /\
      forall acc,
        KeywordAnalyzer.score_cluster_step keyword_data acc k
        = Py.Ok
            {| KeywordAnalyzer.total_volume :=
                 acc.(KeywordAnalyzer.total_volume) + 0;
               KeywordAnalyzer.total_relevance :=
                 acc.(KeywordAnalyzer.total_relevance) + 0.5;
               KeywordAnalyzer.total_opportunity :=
                 acc.(KeywordAnalyzer.total_opportunity) + 0 / 5000 * 0.5;
               KeywordAnalyzer.count := acc.(KeywordAnalyzer.count) + 1 |}) /\
  ((forall k, In k keywords -> Py.lookup keyword_data k = None) ->
   exists v,
     KeywordAnalyzer.score_cluster keywords (Some keyword_data) = Py.Ok v /\
     v == 0.5 * 30 + Py.min (size keywords * 2) 10) /\
  KeywordAnalyzer.score_cluster keywords None
  = Py.Ok (Py.min (size keywords * 10.0) 50.0) /\
  KeywordAnalyzer.score_cluster keywords (Some [])
  = Py.Ok (Py.min (size keywords * 10.0) 50.0).
Proof.
  intros N D. split; [| split; [| split]].
  - intros k M. split.
    + symmetry.
      apply MissingKeywordFacts.score_cluster_default_entry; assumption.
    + intro acc. apply step_missing, M.
  - intro M.
    destruct (score_cluster_all_missing keywords keyword_data N D M)
      as (v & E & V).
    exists v. split; [exact E |]. rewrite V. lra.
  - apply score_cluster_no_data; [exact N | reflexivity].
  - apply score_cluster_no_data; [exact N | reflexivity].
Qed.

(** C10 on a cluster of two keywords of which the data dict mentions the
    first only: the second counts as if it had the default entry, and the
    score, 57.0, is not the score 61.0 of the cluster of the first keyword
    alone. *)
Lemma score_cluster_defaults_for_missing_keywords_witness :
  MixedCluster.keywords <> [] /\ MixedCluster.keyword_data <> [] /\
  Py.lookup MixedCluster.keyword_data "water intake" <> None /\
  Py.lookup MixedCluster.keyword_data "habit app" = None /\
  KeywordAnalyzer.score_cluster
    MixedCluster.keywords (Some MixedCluster.keyword_data)
  = KeywordAnalyzer.score_cluster
      MixedCluster.keywords
      (Some (Py.setitem MixedCluster.keyword_data "habit app"
                        default_data)) /\
  KeywordAnalyzer.score_cluster
    MixedCluster.keywords (Some MixedCluster.keyword_data)
  = Py.Ok 57.0 /\
  KeywordAnalyzer.score_cluster
    ["water intake"] (Some MixedCluster.keyword_data)
  = Py.Ok 61.0.
Proof.
  split; [discriminate |]. split; [discriminate |].
  split; [discriminate |]. split; [reflexivity |].
  split; [| split; vm_compute; reflexivity].
  apply (proj1 (score_cluster_defaults_for_missing_keywords
                    MixedCluster.keywords MixedCluster.keyword_data
                    ltac:(discriminate) ltac:(discriminate)) "habit app").
  reflexivity.
Defined.

Import ClusteringFacts.






(** C9, as stated, fails: the scoring core raises on a numeric metric.  A
    [crash_rate] of 10^400 is an [int]; it is above the acceptable crash
    rate, and subtracting the float 2.0 from it raises [OverflowError],
    in [score_technical_performance] and so in [calculate_aso_score]. *)
Lemma scoring_core_raises_on_huge_metric :
  ASOScorer.score_technical_performance huge_crash_rate
  = Py.Raise Py.OverflowError /\
  ASOScorer.calculate_aso_score
    Samples.metadata Samples.ratings Samples.keyword_performance
    Samples.conversion (Some huge_crash_rate) None None
  = Py.Raise Py.OverflowError /\
  raises (ASOScorer.score_technical_performance huge_crash_rate) /\
  raises (ASOScorer.calculate_aso_score
            Samples.metadata Samples.ratings Samples.keyword_performance
            Samples.conversion (Some huge_crash_rate) None None) /\
  ~ returns (ASOScorer.score_technical_performance huge_crash_rate).
Proof.
  assert (E1 : ASOScorer.score_technical_performance huge_crash_rate
               = Py.Raise Py.OverflowError) by (vm_compute; reflexivity).
  assert (E2 : ASOScorer.calculate_aso_score
                 Samples.metadata Samples.ratings Samples.keyword_performance
                 Samples.conversion (Some huge_crash_rate) None None
               = Py.Raise Py.OverflowError) by (vm_compute; reflexivity).
  rewrite E1, E2.
  repeat match goal with |- _ /\ _ => split end;
    try reflexivity; try (eexists; reflexivity).
  intros [v H]. discriminate.
Qed.

(** C9, amended.  Constructing a [MetadataOptimizer] raises exactly when
    the platform is neither "apple" nor "google", and what it raises is
    the validation error.  The scoring and clustering core returns,
    without raising, on every bundle of the documented metrics whose
    numbers are moderate: the six dimension scorers, the aggregation, the
    keyword evaluation, the cluster score and the clustering. *)
Theorem only_metadata_platform_is_validated :
  (forall platform,
      raises (MetadataOptimizer.__init__ platform) <->
      platform <> "apple" /\ platform <> "google") /\
  (forall platform,
      raises (MetadataOptimizer.__init__ platform) ->
      MetadataOptimizer.__init__ platform
      = Py.Raise (Py.ValueError "Platform must be 'apple' or 'google'")) /\
  (forall metadata,
      moderate_metadata metadata ->
      returns (ASOScorer.score_metadata_quality metadata)) /\
  (forall ratings,
      moderate_ratings ratings ->
      returns (ASOScorer.score_ratings_reviews ratings)) /\
  (forall keyword_performance,
      moderate_keyword_performance keyword_performance ->
      returns (ASOScorer.score_keyword_performance keyword_performance)) /\
  (forall conversion,
      moderate_conversion conversion ->
      returns (ASOScorer.score_conversion_metrics conversion)) /\
  (forall technical_data,
      moderate_technical technical_data ->
      returns (ASOScorer.score_technical_performance technical_data)) /\
  (forall visual_data,
      moderate_visual visual_data ->
      returns (ASOScorer.score_visual_optimization visual_data)) /\
  (forall metadata ratings keyword_performance conversion technical_data
          visual_data platform,
      moderate_metadata metadata ->
      moderate_ratings ratings ->
      moderate_keyword_performance keyword_performance ->
      moderate_conversion conversion ->
      if_given moderate_technical technical_data ->
      if_given moderate_visual visual_data ->
      returns (ASOScorer.calculate_aso_score
                 metadata ratings keyword_performance conversion
                 technical_data visual_data platform)) /\
  (forall search_volume competing_apps,
      moderate (Some search_volume) -> moderate (Some competing_apps) ->
      returns (KeywordAnalyzer._calculate_keyword_difficulty
                 search_volume competing_apps)) /\
  (forall search_volume competing_apps relevance_score,
      moderate (Some search_volume) -> moderate (Some competing_apps) ->
      moderate (Some relevance_score) ->
      returns (KeywordAnalyzer._calculate_potential_score
                 search_volume competing_apps relevance_score)) /\
  (forall self keyword search_volume competing_apps relevance_score,
      moderate (Some search_volume) -> moderate (Some competing_apps) ->
      moderate (Some relevance_score) ->
      returns (KeywordAnalyzer.analyze_keyword
                 self keyword search_volume competing_apps
                 relevance_score)) /\
  (forall keywords keyword_data,
      if_given moderate_keyword_data keyword_data ->
      returns (KeywordAnalyzer.score_cluster keywords keyword_data)) /\
  (forall set_order keywords keyword_data,
      if_given moderate_keyword_data keyword_data ->
      returns (KeywordAnalyzer.cluster_by_intent
                 set_order keywords keyword_data)).
Proof.
  assert (Init : forall platform,
             (platform <> "apple" /\ platform <> "google" /\
              MetadataOptimizer.__init__ platform
              = Py.Raise
                  (Py.ValueError "Platform must be 'apple' or 'google'")) \/
             ((platform = "apple" \/ platform = "google") /\
              returns (MetadataOptimizer.__init__ platform))).
  { intro platform. unfold MetadataOptimizer.__init__, Py.contains.
    cbn [existsb].
    destruct (String.eqb_spec platform "apple") as [-> | Na].
    - right. split; [left; reflexivity | eexists; reflexivity].
    - destruct (String.eqb_spec platform "google") as [-> | Ng].
      + right. split; [right; reflexivity | eexists; reflexivity].
      + left. repeat split; assumption. }
  split; [| split].
  - intro platform. destruct (Init platform) as [(Na & Ng & E) | [V [t R]]].
    + split; [intros _; split; assumption |].
      intros _. eexists. exact E.
    + split.
      * intros [e X]. rewrite R in X. discriminate.
      * intros [Na Ng]. destruct V; contradiction.
  - intros platform [e X].
    destruct (Init platform) as [(_ & _ & E) | [_ [t R]]]; [exact E |].
    rewrite R in X. discriminate.
  - repeat match goal with |- _ /\ _ => split end.
    + apply score_metadata_quality_returns.
    + intros b _. apply score_ratings_reviews_returns.
    + apply score_keyword_performance_returns.
    + apply score_conversion_metrics_returns.
    + intros b M.
      apply valid_score_returns, score_technical_performance_valid, M.
    + intros b _.
      apply valid_score_returns, score_visual_optimization_spec.
    + intros md rt kp cv td vd platform Mm _ Mk Mc Mt _.
      unfold ASOScorer.calculate_aso_score.
      destruct (calculate_overall_score_returns
                  (ASOScorer.__init__ platform) md rt kp cv td vd
                  (init_weights_known platform) Mm Mk Mc Mt)
        as ([report self'] & E).
      rewrite E. eexists. reflexivity.
    + intros sv ca _ _. destruct (difficulty_value sv ca) as (v & E & _).
      exists v. exact E.
    + intros sv ca rel _ _ _.
      destruct (potential_returns sv ca rel) as (x & E & _).
      eexists. exact E.
    + intros self kw sv ca rel _ _ _.
      destruct (analyze_keyword_returns self kw sv ca rel)
        as (a & s & E & _).
      eexists. exact E.
    + intros ks kd _. apply score_cluster_returns.
    + intros so ks kd _.
      destruct (cluster_by_intent_spec so ks kd) as (result & _ & E & _).
      exists result. exact E.
Qed.

(** C9, amended, on the platform Apple, which differs from apple by case,
    and on the sample technical bundle. *)
Lemma only_metadata_platform_is_validated_witness :
  ("Apple" <> "apple" /\ "Apple" <> "google") /\
  raises (MetadataOptimizer.__init__ "Apple") /\
  returns (MetadataOptimizer.__init__ "apple") /\
  moderate_technical Samples.technical_data /\
  returns (ASOScorer.score_technical_performance Samples.technical_data).
Proof.
  assert (N : "Apple" <> "apple" /\ "Apple" <> "google")
    by (split; discriminate).
  assert (M : moderate_technical Samples.technical_data).
  { pose proof metric_bound_large.
    unfold moderate_technical, moderate, Samples.technical_data.
    cbn [ASOScorer.crash_rate ASOScorer.anr_rate ASOScorer.battery_impact].
    repeat split; lra. }
  split; [exact N |]. split; [| split; [| split; [exact M |]]].
  - apply (proj1 only_metadata_platform_is_validated "Apple"). exact N.
  - eexists. reflexivity.
  - exact (proj1 (proj2 (proj2 (proj2 (proj2 (proj2 (proj2
             only_metadata_platform_is_validated))))))
                 Samples.technical_data M).
Defined.

(* ================================================================== *)
(** * Further properties: text and sorting *)
(* ================================================================== *)

Module TextFacts.

Lemma length_app (a b : string) :
  String.length (a ++ b) = (String.length a + String.length b)%nat.
Proof. induction a as [| c a IH]; cbn; [reflexivity | rewrite IH; reflexivity]. Qed.

Lemma len_app (a b : string) :
  PyText.len (a ++ b) = (PyText.len a + PyText.len b)%Z.
Proof. unfold PyText.len. rewrite length_app. lia. Qed.

Lemma len_nonneg (s : string) : (0 <= PyText.len s)%Z.
Proof. unfold PyText.len. lia. Qed.

Lemma length_take (n : nat) (s : string) :
  String.length (PyText.take n s) = Nat.min n (String.length s).
Proof.
  revert s. induction n as [| n IH]; intros [| c s]; cbn; try reflexivity.
  rewrite IH. reflexivity.
Qed.

Lemma take_all (n : nat) (s : string) :
  (String.length s <= n)%nat -> PyText.take n s = s.
Proof.
  revert s. induction n as [| n IH]; intros [| c s] H; cbn in *;
    try reflexivity; [lia |].
  rewrite IH by lia. reflexivity.
Qed.

(** A slice [s[:n]] with [n >= 0] has at most [n] characters. *)
Lemma len_slice_to (n : Z) (s : string) :
  (0 <= n)%Z -> (PyText.len (PyText.slice_to n s) <= n)%Z.
Proof.
  intro H. unfold PyText.slice_to, PyText.len.
  destruct (Z.leb_spec 0 n) as [_ | N]; [| lia].
  rewrite length_take. lia.
Qed.

Lemma len_slice_to_le (n : Z) (s : string) :
  (PyText.len (PyText.slice_to n s) <= PyText.len s)%Z.
Proof.
  unfold PyText.slice_to, PyText.len.
  destruct (0 <=? n)%Z; rewrite length_take; lia.
Qed.

(** A slice that cuts nothing. *)
Lemma slice_to_all (n : Z) (s : string) :
  (PyText.len s <= n)%Z -> PyText.slice_to n s = s.
Proof.
  unfold PyText.slice_to, PyText.len. intro H.
  destruct (Z.leb_spec 0 n) as [_ | N]; [| lia].
  apply take_all. lia.
Qed.

Lemma length_lower (s : string) : String.length (Py.lower s) = String.length s.
Proof. induction s as [| c s IH]; cbn; [| rewrite IH]; reflexivity. Qed.

Lemma length_title_from (b : bool) (s : string) :
  String.length (Py.title_from b s) = String.length s.
Proof.
  revert b. induction s as [| c s IH]; intro b; cbn; [| rewrite IH];
    reflexivity.
Qed.

Lemma len_title (s : string) : PyText.len (Py.title s) = PyText.len s.
Proof. unfold PyText.len, Py.title. rewrite length_title_from. reflexivity. Qed.

Lemma len_lower (s : string) : PyText.len (Py.lower s) = PyText.len s.
Proof. unfold PyText.len. rewrite length_lower. reflexivity. Qed.

(** ** Stable sorting *)

Section SortFacts.

Context {K A : Type}.
Variable goes_before : K -> K -> bool.

Lemma insert_keyed_perm (x : K * A) (sorted : list (K * A)) :
  Permutation (PyText.insert_keyed goes_before x sorted) (x :: sorted).
Proof.
  induction sorted as [| y rest IH]; cbn [PyText.insert_keyed].
  - reflexivity.
  - destruct (goes_before (fst x) (fst y)); [reflexivity |].
    rewrite IH. apply perm_swap.
Qed.

Lemma sort_keyed_perm (keyed : list (K * A)) :
  Permutation (PyText.sort_keyed goes_before keyed) keyed.
Proof.
  unfold PyText.sort_keyed.
  induction keyed as [| x keyed IH]; cbn [fold_right]; [reflexivity |].
  rewrite insert_keyed_perm, IH. reflexivity.
Qed.

(** The order [goes_before] is total and transitive. *)
Hypothesis total : forall a b, goes_before a b = false -> goes_before b a = true.
Hypothesis trans :
  forall a b c, goes_before a b = true -> goes_before b c = true ->
                goes_before a c = true.

Let ordered (x y : K * A) : Prop := goes_before (fst x) (fst y) = true.

Lemma insert_keyed_sorted (x : K * A) (sorted : list (K * A)) :
  StronglySorted ordered sorted ->
  StronglySorted ordered (PyText.insert_keyed goes_before x sorted).
Proof.
  induction 1 as [| y rest S IH F]; cbn [PyText.insert_keyed].
  - constructor; [constructor | constructor].
  - destruct (goes_before (fst x) (fst y)) eqn:G.
    + constructor; [constructor; assumption |].
      constructor; [exact G |].
      rewrite Forall_forall in *. intros z Hz. unfold ordered.
      apply (trans _ _ _ G), F, Hz.
    + constructor; [exact IH |].
      rewrite Forall_forall in *. intros z Hz.
      apply (Permutation_in _ (insert_keyed_perm x rest)) in Hz.
      destruct Hz as [<- | Hz]; [apply total, G | apply F, Hz].
Qed.

Lemma sort_keyed_sorted (keyed : list (K * A)) :
  StronglySorted ordered (PyText.sort_keyed goes_before keyed).
Proof.
  unfold PyText.sort_keyed.
  induction keyed as [| x keyed IH]; cbn [fold_right]; [constructor |].
  apply insert_keyed_sorted, IH.
Qed.

End SortFacts.

(** Sorting with keys that do not raise. *)
Lemma with_keys_total {K A : Type} (key : A -> K) (xs : list A) :
  PyText.with_keys (fun x => Py.ret (key x)) xs
  = Py.Ok (map (fun x => (key x, x)) xs).
Proof.
  induction xs as [| x xs IH]; cbn [PyText.with_keys map]; [reflexivity |].
  cbn [Py.bind Py.ret]. rewrite IH. reflexivity.
Qed.

Lemma sorted_by_total {K A : Type} (goes_before : K -> K -> bool)
      (key : A -> K) (xs : list A) :
  PyText.sorted_by goes_before (fun x => Py.ret (key x)) xs
  = Py.Ok (map snd (PyText.sort_keyed goes_before
                      (map (fun x => (key x, x)) xs))).
Proof. unfold PyText.sorted_by. rewrite with_keys_total. reflexivity. Qed.

Lemma sort_keyed_keys {K A : Type} (goes_before : K -> K -> bool)
      (key : A -> K) (xs : list A) :
  Forall (fun e => fst e = key (snd e))
         (PyText.sort_keyed goes_before (map (fun x => (key x, x)) xs)).
Proof.
  rewrite Forall_forall. intros e H.
  apply (Permutation_in _ (sort_keyed_perm goes_before _)) in H.
  apply in_map_iff in H. destruct H as (x & <- & _). reflexivity.
Qed.

(** The result of a sort by a total key: a permutation of the input, in
    the order of the keys. *)
Lemma sorted_by_spec {K A : Type} (goes_before : K -> K -> bool)
      (key : A -> K) (xs : list A) :
  (forall a b, goes_before a b = false -> goes_before b a = true) ->
  (forall a b c, goes_before a b = true -> goes_before b c = true ->
                 goes_before a c = true) ->
  exists sorted,
    PyText.sorted_by goes_before (fun x => Py.ret (key x)) xs = Py.Ok sorted /\
    Permutation sorted xs /\
    StronglySorted (fun x y => goes_before (key x) (key y) = true) sorted.
Proof.
  intros total trans. rewrite sorted_by_total. eexists. split; [reflexivity |].
  pose proof (sort_keyed_perm goes_before (map (fun x => (key x, x)) xs)) as P.
  pose proof (sort_keyed_sorted goes_before total trans
                                (map (fun x => (key x, x)) xs)) as S.
  pose proof (sort_keyed_keys goes_before key xs) as Kf.
  set (l := PyText.sort_keyed goes_before _) in *. clearbody l.
  split.
  - apply (Permutation_map snd) in P. rewrite map_map in P. cbn [snd] in P.
    rewrite map_id in P. exact P.
  - clear P. induction S as [| e l S IH F]; cbn [map]; [constructor |].
    inversion Kf as [| ? ? Ke Kl]; subst.
    constructor; [apply IH, Kl |].
    rewrite Forall_forall in *. intros y Hy.
    apply in_map_iff in Hy. destruct Hy as (e' & <- & He').
    specialize (F e' He'). specialize (Kl e' He'). cbn beta in Kl.
    rewrite <- Ke, <- Kl. exact F.
Qed.

Lemma descending_total (a b : Q) :
  PyText.descending a b = false -> PyText.descending b a = true.
Proof.
  unfold PyText.descending. rewrite geb_false, geb_true. intro H. lra.
Qed.

Lemma descending_trans (a b c : Q) :
  PyText.descending a b = true -> PyText.descending b c = true ->
  PyText.descending a c = true.
Proof. unfold PyText.descending. rewrite !geb_true. intros. lra. Qed.

End TextFacts.

(* ================================================================== *)
(** * Further properties: recommendations *)
(* ================================================================== *)

Module RecommendationFacts.
Import ASOScorerRecommendations.

Lemma headlines_append recs r :
  headlines (Py.append recs r)
  = (headlines recs ++ [(r.(category), r.(priority))])%list.
Proof. unfold headlines, Py.append. rewrite map_app. reflexivity. Qed.

(** One rung of the ladder appends its recommendation or nothing. *)
Ltac climb name :=
  match goal with
  | |- headlines (let x := ?A in @?B x) = ?R =>
      change (let x := A in headlines (B x) = R); intro name; cbv beta
  end.

(** The recommendations are six independent ladders, in the order of the
    dimensions. *)
Lemma recommendation_ladders (m r k c : Q) (t v : option Q) :
  headlines (generate_recommendations m r k c t v)
  = (ladder "metadata_quality" m [(60, "high"); (80, "medium")]
     ++ ladder "ratings_reviews" r [(60, "high"); (80, "medium")]
     ++ ladder "keyword_performance" k [(60, "high"); (80, "medium")]
     ++ ladder "conversion_metrics" c [(60, "high"); (80, "medium")]
     ++ ladder "technical_performance" (Py.get t 50.0)
               [(40, "high"); (70, "medium"); (90, "low")]
     ++ ladder "visual_optimization" (Py.get v 50.0)
               [(40, "high"); (80, "medium")])%list.
Proof.
  cbv beta delta [generate_recommendations].
  climb technical_score. climb visual_score. climb recommendations.
  climb recommendations0. climb recommendations1. climb recommendations2.
  climb recommendations3. climb recommendations4. climb recommendations5.
  assert (H1 : headlines recommendations0
               = ladder "metadata_quality" m [(60, "high"); (80, "medium")]).
  { subst recommendations0 recommendations. unfold ladder. cbn [find fst snd].
    destruct (m <? 60); [| destruct (m <? 80)]; reflexivity. }
  clearbody recommendations0.
  assert (H2 : headlines recommendations1
               = (headlines recommendations0
                  ++ ladder "ratings_reviews" r [(60, "high"); (80, "medium")])%list).
  { subst recommendations1. unfold ladder. cbn [find fst snd].
    destruct (r <? 60); [| destruct (r <? 80)];
      rewrite ?headlines_append, ?app_nil_r; reflexivity. }
  clearbody recommendations1.
  assert (H3 : headlines recommendations2
               = (headlines recommendations1
                  ++ ladder "keyword_performance" k [(60, "high"); (80, "medium")])%list).
  { subst recommendations2. unfold ladder. cbn [find fst snd].
    destruct (k <? 60); [| destruct (k <? 80)];
      rewrite ?headlines_append, ?app_nil_r; reflexivity. }
  clearbody recommendations2.
  assert (H4 : headlines recommendations3
               = (headlines recommendations2
                  ++ ladder "conversion_metrics" c [(60, "high"); (80, "medium")])%list).
  { subst recommendations3. unfold ladder. cbn [find fst snd].
    destruct (c <? 60); [| destruct (c <? 80)];
      rewrite ?headlines_append, ?app_nil_r; reflexivity. }
  clearbody recommendations3.
  assert (H5 : headlines recommendations4
               = (headlines recommendations3
                  ++ ladder "technical_performance" technical_score
                       [(40, "high"); (70, "medium"); (90, "low")])%list).
  { subst recommendations4. unfold ladder. cbn [find fst snd].
    destruct (technical_score <? 40);
      [| destruct (technical_score <? 70);
         [| destruct (technical_score <? 90)]];
      rewrite ?headlines_append, ?app_nil_r; reflexivity. }
  clearbody recommendations4.
  assert (H6 : headlines recommendations5
               = (headlines recommendations4
                  ++ ladder "visual_optimization" visual_score
                       [(40, "high"); (80, "medium")])%list).
  { subst recommendations5. unfold ladder. cbn [find fst snd].
    destruct (visual_score <? 40); [| destruct (visual_score <? 80)];
      rewrite ?headlines_append, ?app_nil_r; reflexivity. }
  rewrite H6, H5, H4, H3, H2, H1. subst technical_score visual_score.
  rewrite <- !app_assoc. reflexivity.
Qed.

End RecommendationFacts.

Module PrioritizeFacts.
Import ASOScorerRecommendations.

(** Where an insertion lands: after the elements it does not go before,
    in front of the first one it goes before. *)
Lemma insert_keyed_lands {K A : Type} (goes_before : K -> K -> bool)
      (x : K * A) (l1 l2 : list (K * A)) :
  Forall (fun y => goes_before (fst x) (fst y) = false) l1 ->
  match l2 with
  | [] => True
  | y :: _ => goes_before (fst x) (fst y) = true
  end ->
  PyText.insert_keyed goes_before x (l1 ++ l2) = (l1 ++ x :: l2)%list.
Proof.
  intros F H. induction F as [| y l1 Hy F IH]; cbn [app PyText.insert_keyed].
  - destruct l2 as [| y l2]; cbn [PyText.insert_keyed]; [reflexivity |].
    rewrite H. reflexivity.
  - rewrite Hy, IH. reflexivity.
Qed.

Lemma of_rank_key {A : Type} (n : Z) (l : list (Z * A)) :
  Forall (fun e => fst e = n) (of_rank n l).
Proof.
  apply Forall_forall. intros e H. apply filter_In in H.
  destruct H as [_ H]. apply Z.eqb_eq, H.
Qed.

Lemma head_key {A : Type} (P : Z -> Prop) (k : Z) (l : list (Z * A)) :
  Forall (fun e => P (fst e)) l ->
  (forall z, P z -> (k <=? z)%Z = true) ->
  match l with
  | [] => True
  | y :: _ => PyText.ascending k (fst y) = true
  end.
Proof.
  intros F H. destruct F as [| y l Hy _]; [exact I |].
  apply H, Hy.
Qed.

(** A stable sort on three ranks lists the first rank, then the second,
    then the third, each in the order of the input. *)
Lemma sort_three_ranks {A : Type} (l : list (Z * A)) :
  Forall (fun e => fst e = 0 \/ fst e = 1 \/ fst e = 2)%Z l ->
  PyText.sort_keyed PyText.ascending l
  = (of_rank 0 l ++ of_rank 1 l ++ of_rank 2 l)%list.
Proof.
  unfold PyText.sort_keyed.
  induction 1 as [| [k a] l Hk F IH]; cbn [fold_right]; [reflexivity |].
  rewrite IH. clear IH.
  assert (R : forall n, Forall (fun e : Z * A => fst e = n) (of_rank n l))
    by (intro n; apply of_rank_key).
  pose proof (R 0%Z) as R0. pose proof (R 1%Z) as R1. pose proof (R 2%Z) as R2.
  unfold of_rank at 4 5 6. cbn [filter fst]. fold (of_rank 0 l) (of_rank 1 l) (of_rank 2 l).
  cbn [fst] in Hk. destruct Hk as [-> | [-> | ->]]; cbn [Z.eqb Pos.eqb].
  - apply (insert_keyed_lands PyText.ascending (0%Z, a) []); [constructor |].
    apply (head_key (fun z => z = 0 \/ z = 1 \/ z = 2)%Z).
    + rewrite !Forall_app. repeat split;
        [eapply Forall_impl; [| exact R0] | eapply Forall_impl; [| exact R1]
         | eapply Forall_impl; [| exact R2]]; cbn beta; intros; lia.
    + intros z Hz. cbn beta in Hz. apply Z.leb_le. cbn [fst]. lia.
  - apply (insert_keyed_lands PyText.ascending (1%Z, a)).
    + eapply Forall_impl; [| exact R0]. cbn beta. intros e ->. reflexivity.
    + apply (head_key (fun z => z = 1 \/ z = 2)%Z).
      * rewrite !Forall_app. split;
          [eapply Forall_impl; [| exact R1] | eapply Forall_impl; [| exact R2]];
          cbn beta; intros; lia.
      * intros z Hz. cbn beta in Hz. apply Z.leb_le. cbn [fst]. lia.
  - rewrite app_assoc.
    rewrite (insert_keyed_lands PyText.ascending (2%Z, a)).
    + rewrite <- app_assoc. reflexivity.
    + rewrite Forall_app. split;
        [eapply Forall_impl; [| exact R0] | eapply Forall_impl; [| exact R1]];
        cbn beta; intros e ->; reflexivity.
    + apply (head_key (fun z => z = 2)%Z); [exact R2 |].
      intros z ->. reflexivity.
Qed.

Lemma known_rank (r : Recommendation) :
  known_priority r -> Py.getitem priority_order r.(priority) = Py.Ok (priority_rank r).
Proof.
  unfold known_priority, priority_rank. cbn [In].
  intros [<- | [<- | [<- | []]]]; reflexivity.
Qed.

Lemma unknown_raises (r : Recommendation) :
  ~ known_priority r ->
  Py.getitem priority_order r.(priority) = Py.Raise (Py.KeyError r.(priority)).
Proof.
  unfold known_priority. cbn [In Py.getitem priority_order]. intro H.
  destruct (String.eqb_spec "high" (priority r)) as [E | _]; [tauto |].
  destruct (String.eqb_spec "medium" (priority r)) as [E | _]; [tauto |].
  destruct (String.eqb_spec "low" (priority r)) as [E | _]; [tauto |].
  reflexivity.
Qed.

Lemma with_keys_known (recs : list Recommendation) :
  Forall known_priority recs ->
  PyText.with_keys (fun x => Py.getitem priority_order x.(priority)) recs
  = Py.Ok (map (fun r => (priority_rank r, r)) recs).
Proof.
  induction 1 as [| r recs Hr F IH]; cbn [PyText.with_keys map]; [reflexivity |].
  rewrite (known_rank r Hr), IH. reflexivity.
Qed.

Lemma with_keys_unknown (before : list Recommendation) (r : Recommendation)
      (rest : list Recommendation) :
  Forall known_priority before -> ~ known_priority r ->
  PyText.with_keys (fun x => Py.getitem priority_order x.(priority))
                   (before ++ r :: rest)
  = Py.Raise (Py.KeyError r.(priority)).
Proof.
  intros F U. induction F as [| b before Hb F IH]; cbn [app PyText.with_keys].
  - rewrite (unknown_raises r U). reflexivity.
  - rewrite (known_rank b Hb). cbn [Py.bind]. rewrite IH. reflexivity.
Qed.

Lemma of_rank_priority (n : Z) (p : string) (recs : list Recommendation) :
  Forall known_priority recs ->
  (forall r, known_priority r -> (priority_rank r =? n)%Z = String.eqb r.(priority) p) ->
  map snd (of_rank n (map (fun r => (priority_rank r, r)) recs)) = of_priority p recs.
Proof.
  intros F H. unfold of_rank, of_priority.
  induction F as [| r recs Hr F IH]; cbn [map filter fst]; [reflexivity |].
  rewrite (H r Hr). destruct (String.eqb (priority r) p); cbn [map snd];
    rewrite IH; reflexivity.
Qed.

Lemma prioritize_known (recs : list Recommendation) :
  Forall known_priority recs ->
  _prioritize_actions recs
  = Py.Ok (firstn 3 (by_priority recs)).
Proof.
  intro F. unfold _prioritize_actions, PyText.sorted_by, by_priority.
  rewrite (with_keys_known recs F). cbn [Py.bind Py.ret].
  rewrite sort_three_ranks.
  - rewrite !map_app.
    rewrite (of_rank_priority 0 "high"), (of_rank_priority 1 "medium"),
      (of_rank_priority 2 "low"); try assumption;
      try (intros r; unfold known_priority, priority_rank; cbn [In];
           intros [<- | [<- | [<- | []]]]; reflexivity).
    reflexivity.
  - apply Forall_forall. intros e He. apply in_map_iff in He.
    destruct He as (r & <- & _). cbn [fst]. unfold priority_rank.
    destruct (String.eqb _ _); [lia |]. destruct (String.eqb _ _); lia.
Qed.

Lemma ladder_known (d : string) (s : Q) (rungs : list (Q * string)) :
  Forall (fun rung => In (snd rung) ["high"; "medium"; "low"]) rungs ->
  Forall (fun h => In (snd h) ["high"; "medium"; "low"]) (ladder d s rungs).
Proof.
  intro F. unfold ladder.
  destruct (find _ rungs) as [rung |] eqn:E; [| constructor].
  apply find_some in E. destruct E as [E _].
  constructor; [| constructor]. rewrite Forall_forall in F. apply F, E.
Qed.

Lemma generated_known (m r k c : Q) (t v : option Q) :
  Forall known_priority (generate_recommendations m r k c t v).
Proof.
  pose proof (RecommendationFacts.recommendation_ladders m r k c t v) as L.
  assert (F : Forall (fun h => In (snd h) ["high"; "medium"; "low"])
                     (headlines (generate_recommendations m r k c t v))).
  { rewrite L. rewrite !Forall_app.
    repeat match goal with |- _ /\ _ => split end;
      apply ladder_known; repeat (apply Forall_cons; [cbn; tauto |]);
      apply Forall_nil. }
  unfold headlines in F. rewrite Forall_map in F. exact F.
Qed.

End PrioritizeFacts.
Module LadderFacts.
Import ASOScorerRecommendations.

Lemma In_ladder2 (d p d' : string) (s a b : Q) :
  In (d, p) (ladder d' s [(a, "high"); (b, "medium")])
  <-> d = d' /\ ((p = "high" /\ s < a) \/ (p = "medium" /\ a <= s /\ s < b)).
Proof.
  unfold ladder. cbn [find fst snd]. repeat split_cmp; cbn [In];
    (split; [intros [E | []]; inversion E; subst; split; auto
            | intros [-> [[-> H] | [-> H]]]; try (left; reflexivity); lra])
    || (split; [intros [] | intros [_ [[_ H] | [_ H]]]; lra]).
Qed.

Lemma In_ladder3 (d p d' : string) (s a b c : Q) :
  a <= b ->
  In (d, p) (ladder d' s [(a, "high"); (b, "medium"); (c, "low")])
  <-> d = d' /\ ((p = "high" /\ s < a) \/ (p = "medium" /\ a <= s /\ s < b)
                 \/ (p = "low" /\ b <= s /\ s < c)).
Proof.
  intro AB. unfold ladder. cbn [find fst snd]. repeat split_cmp; cbn [In];
    (split; [intros [E | []]; inversion E; subst; split; auto 6
            | intros [-> [[-> H] | [[-> H] | [-> H]]]];
              try (left; reflexivity); lra])
    || (split; [intros [] | intros [_ [[_ H] | [[_ H] | [_ H]]]]; lra]).
Qed.

Lemma ladder_nil2 (d : string) (s a b : Q) :
  a <= b -> ladder d s [(a, "high"); (b, "medium")] = [] <-> b <= s.
Proof.
  intro AB. unfold ladder. cbn [find fst snd]. repeat split_cmp;
    split; intro H; try discriminate; try reflexivity; lra.
Qed.

Lemma ladder_nil3 (d : string) (s a b c : Q) :
  a <= b -> b <= c ->
  ladder d s [(a, "high"); (b, "medium"); (c, "low")] = [] <-> c <= s.
Proof.
  intros AB BC. unfold ladder. cbn [find fst snd]. repeat split_cmp;
    split; intro H; try discriminate; try reflexivity; lra.
Qed.

Lemma ladder_dimension (d : string) (s : Q) (rungs : list (Q * string)) :
  exists b : bool, map fst (ladder d s rungs) = if b then [d] else [].
Proof.
  unfold ladder. destruct (find _ rungs); [exists true | exists false];
    reflexivity.
Qed.

Lemma app_nil_iff {A : Type} (l1 l2 : list A) :
  (l1 ++ l2)%list = [] <-> l1 = [] /\ l2 = [].
Proof.
  split; [apply app_eq_nil | intros [-> ->]; reflexivity].
Qed.

Lemma headlines_nil (recs : list Recommendation) :
  headlines recs = [] <-> recs = [].
Proof.
  unfold headlines. split; [apply map_eq_nil | intros ->; reflexivity].
Qed.

Lemma headlines_categories (recs : list Recommendation) :
  map fst (headlines recs) = map category recs.
Proof. unfold headlines. rewrite map_map. reflexivity. Qed.

End LadderFacts.

(* ================================================================== *)
(** * Further properties of the recommendations (aso_scorer.py) *)
(* ================================================================== *)

(** X1. [generate_recommendations] gives at most one recommendation per
    dimension, in the order of the six dimensions, and every priority is
    one of high, medium and low. *)
Theorem recommendations_one_per_dimension (m r k c : Q) (t v : option Q) :
  let recs := ASOScorerRecommendations.generate_recommendations m r k c t v in
  let categories := map ASOScorerRecommendations.category recs in
  categories = filter (Py.contains categories) DIMENSIONS /\
  Forall known_priority recs.
Proof.
  cbv zeta. split; [| apply PrioritizeFacts.generated_known].
  rewrite <- LadderFacts.headlines_categories,
    RecommendationFacts.recommendation_ladders, !map_app.
  repeat match goal with
  | |- context [map fst (ladder ?d ?s ?rungs)] =>
      let b := fresh "b" in
      let E := fresh "E" in
      destruct (LadderFacts.ladder_dimension d s rungs) as [b E];
      rewrite E; clear E
  end.
  destruct b, b0, b1, b2, b3, b4; reflexivity.
Qed.

(** X2. No recommendation is made exactly when the four required scores
    are at least 80, a technical score is given and is at least 90, and a
    visual score is given and is at least 80: a call that leaves out an
    optional score always gets a recommendation for it. *)
Theorem no_recommendations_iff_all_clear (m r k c : Q) (t v : option Q) :
  ASOScorerRecommendations.generate_recommendations m r k c t v = []
  <-> 80 <= m /\ 80 <= r /\ 80 <= k /\ 80 <= c /\
      (exists t', t = Some t' /\ 90 <= t') /\
      (exists v', v = Some v' /\ 80 <= v').
Proof.
  rewrite <- LadderFacts.headlines_nil,
    RecommendationFacts.recommendation_ladders.
  rewrite !LadderFacts.app_nil_iff.
  rewrite !LadderFacts.ladder_nil2, LadderFacts.ladder_nil3 by lra.
  destruct t as [t' |], v as [v' |]; cbn [Py.get];
    (split;
     [ intros (M & R & K & C & T & V);
       repeat match goal with |- _ /\ _ => split end; try assumption;
       try (eexists; split; [reflexivity | assumption]); lra
     | intros (M & R & K & C & (t0 & T & T') & (v0 & V & V'));
       try discriminate; inversion T; inversion V; subst; tauto ]).
Qed.

(** X3. The priority of a dimension's recommendation is read off its score
    alone: high below 60 and medium from 60 to below 80 for the four
    required scores; high below 40, medium below 70 and low below 90 for
    the technical score; high below 40 and medium below 80 for the visual
    score; a score that is left out counts as 50. *)
Theorem recommendation_priority_bands (m r k c : Q) (t v : option Q)
        (d p : string) :
  In (d, p) (headlines
               (ASOScorerRecommendations.generate_recommendations m r k c t v))
  <-> (exists s,
         In (d, s) [("metadata_quality", m); ("ratings_reviews", r);
                    ("keyword_performance", k); ("conversion_metrics", c)] /\
         ((p = "high" /\ s < 60) \/ (p = "medium" /\ 60 <= s /\ s < 80)))
      \/ (d = "technical_performance" /\
          ((p = "high" /\ Py.get t 50.0 < 40)
           \/ (p = "medium" /\ 40 <= Py.get t 50.0 /\ Py.get t 50.0 < 70)
           \/ (p = "low" /\ 70 <= Py.get t 50.0 /\ Py.get t 50.0 < 90)))
      \/ (d = "visual_optimization" /\
          ((p = "high" /\ Py.get v 50.0 < 40)
           \/ (p = "medium" /\ 40 <= Py.get v 50.0 /\ Py.get v 50.0 < 80))).
Proof.
  rewrite RecommendationFacts.recommendation_ladders.
  repeat rewrite in_app_iff.
  rewrite !LadderFacts.In_ladder2, LadderFacts.In_ladder3 by lra.
  cbn [In]. split.
  - intros [[-> H] | [[-> H] | [[-> H] | [[-> H] | [[-> H] | [-> H]]]]]].
    + left. exists m. split; [auto |]. exact H.
    + left. exists r. split; [auto |]. exact H.
    + left. exists k. split; [auto 6 |]. exact H.
    + left. exists c. split; [auto 6 |]. exact H.
    + right. left. split; [reflexivity | exact H].
    + right. right. split; [reflexivity | exact H].
  - intros [(s & [E | [E | [E | [E | []]]]] & H) | [[-> H] | [-> H]]];
      try (inversion E; subst; clear E); auto 10.
Qed.

(** X4. On recommendations whose priorities are all known,
    [_prioritize_actions] returns the first three of: the high ones, then
    the medium ones, then the low ones, each group in the order of the
    input. *)
Theorem prioritize_actions_by_priority
        (recs : list ASOScorerRecommendations.Recommendation) :
  Forall known_priority recs ->
  ASOScorerRecommendations._prioritize_actions recs
  = Py.Ok (firstn 3 (by_priority recs)).
Proof. apply PrioritizeFacts.prioritize_known. Qed.

Lemma prioritize_actions_by_priority_witness :
  let recs := [sample_recommendation "low"; sample_recommendation "high";
               sample_recommendation "medium"; sample_recommendation "high"] in
  Forall known_priority recs /\
  ASOScorerRecommendations._prioritize_actions recs
  = Py.Ok [sample_recommendation "high"; sample_recommendation "high";
           sample_recommendation "medium"].
Proof.
  cbv zeta.
  assert (F : Forall known_priority
                [sample_recommendation "low"; sample_recommendation "high";
                 sample_recommendation "medium"; sample_recommendation "high"])
    by (repeat (apply Forall_cons; [unfold known_priority; cbn; tauto |]);
        apply Forall_nil).
  split; [exact F |].
  rewrite (prioritize_actions_by_priority _ F). reflexivity.
Defined.

(** X5. A recommendation whose priority is not high, medium or low makes
    [_prioritize_actions] raise KeyError with the first such priority. *)
Theorem prioritize_actions_unknown_priority
        (before rest : list ASOScorerRecommendations.Recommendation)
        (r : ASOScorerRecommendations.Recommendation) :
  Forall known_priority before -> ~ known_priority r ->
  ASOScorerRecommendations._prioritize_actions (before ++ r :: rest)
  = Py.Raise (Py.KeyError r.(ASOScorerRecommendations.priority)).
Proof.
  intros F U. unfold ASOScorerRecommendations._prioritize_actions,
    PyText.sorted_by.
  rewrite (PrioritizeFacts.with_keys_unknown before r rest F U). reflexivity.
Qed.

Lemma prioritize_actions_unknown_priority_witness :
  Forall known_priority [sample_recommendation "high"] /\
  ~ known_priority (sample_recommendation "urgent") /\
  ASOScorerRecommendations._prioritize_actions
    [sample_recommendation "high"; sample_recommendation "urgent";
     sample_recommendation "low"]
  = Py.Raise (Py.KeyError "urgent").
Proof.
  assert (F : Forall known_priority [sample_recommendation "high"])
    by (apply Forall_cons; [unfold known_priority; cbn; tauto | apply Forall_nil]).
  assert (U : ~ known_priority (sample_recommendation "urgent"))
    by (unfold known_priority; cbn; intros [E | [E | [E | []]]]; discriminate).
  split; [exact F |]. split; [exact U |].
  exact (prioritize_actions_unknown_priority
           [sample_recommendation "high"] [sample_recommendation "low"]
           (sample_recommendation "urgent") F U).
Defined.

(** X6. Ranking the generated recommendations never raises: whatever the
    scores, the result is the first three of the generated recommendations
    taken high first, then medium, then low. *)
Theorem generated_recommendations_are_ranked (m r k c : Q) (t v : option Q) :
  let recs := ASOScorerRecommendations.generate_recommendations m r k c t v in
  exists top,
    ASOScorerRecommendations._prioritize_actions recs = Py.Ok top /\
    top = firstn 3 (by_priority recs) /\
    (length top <= 3)%nat.
Proof.
  cbv zeta. eexists. split; [| split; [reflexivity |]].
  - apply PrioritizeFacts.prioritize_known, PrioritizeFacts.generated_known.
  - apply firstn_le_length.
Qed.

(* ================================================================== *)
(** * Further properties of the keyword evaluator (keyword_analyzer.py) *)
(* ================================================================== *)

Module PotentialFacts.
Import KeywordAnalyzer.


End PotentialFacts.





Module CompareFacts.
Import KeywordAnalyzer KeywordAnalyzerTools.




Lemma length_slice_to {A : Type} (n : Z) (xs : list A) :
  (0 <= n)%Z -> (length (Py.slice_to n xs) <= Z.to_nat n)%nat.
Proof.
  intro H. unfold Py.slice_to.
  destruct (Z.leb_spec 0 n) as [_ | N]; [| lia]. apply firstn_le_length.
Qed.

Lemma In_firstn {A : Type} (n : nat) (xs : list A) (x : A) :
  In x (firstn n xs) -> In x xs.
Proof.
  revert xs. induction n as [| n IH]; intros [| y xs]; cbn [firstn In];
    try tauto.
  intros [E | H]; [left; exact E | right; apply IH, H].
Qed.

Lemma In_slice_to {A : Type} (n : Z) (xs : list A) (x : A) :
  In x (Py.slice_to n xs) -> In x xs.
Proof. unfold Py.slice_to. destruct (0 <=? n)%Z; apply In_firstn. Qed.

End CompareFacts.



(** X11. In a report of [compare_keywords], the primary keywords are at
    most five ranked keywords of potential 70 or more and relevance 0.8
    or more; the secondary ones at most ten of potential from 50 to
    below 70 and relevance 0.6 or more; the long-tail ones at most ten
    keywords flagged as long-tail and of relevance 0.7 or more.  No
    keyword is both primary and secondary. *)
Theorem compare_keywords_tiers
        (format_number : Q -> string) (self self' : KeywordAnalyzer.t)
        (entries : list KeywordAnalyzerTools.Entry.t)
        (report : KeywordAnalyzerTools.Comparison) :
  KeywordAnalyzerTools.compare_keywords format_number self entries
  = Py.Ok (report, self') ->
  let ranked := report.(KeywordAnalyzerTools.ranked_keywords) in
  let primary := report.(KeywordAnalyzerTools.primary_keywords) in
  let secondary := report.(KeywordAnalyzerTools.secondary_keywords) in
  let long_tail := report.(KeywordAnalyzerTools.long_tail_keywords) in
  (length primary <= 5)%nat /\ (length secondary <= 10)%nat /\
  (length long_tail <= 10)%nat /\
  Forall (fun a => In a ranked /\
                   70 <= a.(KeywordAnalyzer.potential_score) /\
                   0.8 <= a.(KeywordAnalyzer.relevance_score)) primary /\
  Forall (fun a => In a ranked /\
                   50 <= a.(KeywordAnalyzer.potential_score) /\
                   a.(KeywordAnalyzer.potential_score) < 70 /\
                   0.6 <= a.(KeywordAnalyzer.relevance_score)) secondary /\
  Forall (fun a => In a ranked /\
                   a.(KeywordAnalyzer.is_long_tail) = true /\
                   0.7 <= a.(KeywordAnalyzer.relevance_score)) long_tail /\
  (forall a, In a primary -> ~ In a secondary).
Proof.
  unfold KeywordAnalyzerTools.compare_keywords.
  destruct (KeywordAnalyzerTools.analyze_all self entries [])
    as [[analyses s] | e] eqn:E; cbn [Py.bind]; [| discriminate].
  destruct (PyText.sorted_by _ _ analyses) as [ranked | e] eqn:S;
    cbn [Py.bind Py.ret]; [| discriminate].
  intro H. injection H as <- <-.
  cbn [KeywordAnalyzerTools.ranked_keywords
       KeywordAnalyzerTools.primary_keywords
       KeywordAnalyzerTools.secondary_keywords
       KeywordAnalyzerTools.long_tail_keywords]. cbv zeta.
  assert (M : forall (f : KeywordAnalyzer.KeywordRecord -> bool) n a,
             In a (Py.slice_to n (filter f ranked)) ->
             In a ranked /\ f a = true).
  { intros f n a H. apply CompareFacts.In_slice_to, filter_In in H. exact H. }
  split; [apply (CompareFacts.length_slice_to 5); lia |].
  split; [apply (CompareFacts.length_slice_to 10); lia |].
  split; [apply (CompareFacts.length_slice_to 10); lia |].
  split.
  { apply Forall_forall. intros a H. apply M in H. destruct H as [R H].
    unfold KeywordAnalyzerTools.is_primary in H.
    apply andb_true_iff in H. destruct H as [H1 H2].
    apply geb_true in H1, H2. auto. }
  split.
  { apply Forall_forall. intros a H. apply M in H. destruct H as [R H].
    unfold KeywordAnalyzerTools.is_secondary in H.
    apply andb_true_iff in H. destruct H as [H H3].
    apply andb_true_iff in H. destruct H as [H1 H2].
    apply leb_true in H1. apply ltb_true in H2. apply geb_true in H3. auto. }
  split.
  { apply Forall_forall. intros a H. apply M in H. destruct H as [R H].
    unfold KeywordAnalyzerTools.is_long_tail_pick in H.
    apply andb_true_iff in H. destruct H as [H1 H2].
    apply geb_true in H2. auto. }
  intros a P S'. apply M in P. apply M in S'.
  destruct P as [_ P]. destruct S' as [_ S'].
  unfold KeywordAnalyzerTools.is_primary in P.
  unfold KeywordAnalyzerTools.is_secondary in S'.
  apply andb_true_iff in P. destruct P as [P _].
  apply andb_true_iff in S'. destruct S' as [S' _].
  apply andb_true_iff in S'. destruct S' as [_ S'].
  apply geb_true in P. apply ltb_true in S'. lra.
Qed.

Lemma compare_keywords_tiers_witness :
  exists report self',
    KeywordAnalyzerTools.compare_keywords (fun _ => "85.0")
      KeywordAnalyzer.__init__ [SampleEntries.budget; SampleEntries.tracker]
    = Py.Ok (report, self') /\
    (length report.(KeywordAnalyzerTools.primary_keywords) <= 5)%nat /\
    (forall a, In a report.(KeywordAnalyzerTools.primary_keywords) ->
               ~ In a report.(KeywordAnalyzerTools.secondary_keywords)).
Proof.
  do 2 eexists. split; [vm_compute; reflexivity |].
  match goal with
  | |- (length (KeywordAnalyzerTools.primary_keywords ?r) <= 5)%nat /\ _ =>
      pose proof (compare_keywords_tiers (fun _ => "85.0")
                    KeywordAnalyzer.__init__ _
                    [SampleEntries.budget; SampleEntries.tracker] r
                    eq_refl) as T
  end.
  cbv zeta in T. split; [apply T | apply T].
Defined.



Module LongTailFacts.
Import KeywordAnalyzerTools.

Lemma modifier_loop_spec (base : string) (modifiers : list string)
      (acc : list LongTail.t) :
  modifier_loop base modifiers acc
  = (acc ++ flat_map (modifier_pair base) modifiers)%list.
Proof.
  revert acc. induction modifiers as [| m ms IH]; intro acc;
    cbn [modifier_loop flat_map].
  - rewrite app_nil_r. reflexivity.
  - rewrite IH. unfold Py.append, modifier_pair.
    rewrite <- !app_assoc. reflexivity.
Qed.

Lemma question_loop_spec (base : string) (qs : list string)
      (acc : list LongTail.t) :
  question_loop base qs acc = (acc ++ map (question base) qs)%list.
Proof.
  revert acc. induction qs as [| q qs IH]; intro acc;
    cbn [question_loop map].
  - rewrite app_nil_r. reflexivity.
  - rewrite IH. unfold Py.append, question.
    rewrite <- !app_assoc. reflexivity.
Qed.

End LongTailFacts.

(** X13. [find_long_tail_opportunities] lists, for each modifier in turn,
    the modifier before and after the base keyword, and then the four
    questions: two entries per modifier and four more, every one made of
    the base keyword and one more word, with a competition estimate that
    is a constant of its pattern. *)
Theorem long_tail_opportunities_listed (base : string)
        (modifiers : list string) :
  let found := KeywordAnalyzerTools.find_long_tail_opportunities
                 base modifiers in
  found = (flat_map (modifier_pair base) modifiers
           ++ map (question base) ["how"; "what"; "best"; "top"])%list /\
  length found = (2 * length modifiers + 4)%nat /\
  Forall (fun s =>
            exists w,
              (s.(KeywordAnalyzerTools.LongTail.keyword) = w ++ " " ++ base \/
               s.(KeywordAnalyzerTools.LongTail.keyword) = base ++ " " ++ w) /\
              In w (modifiers ++ ["how"; "what"; "best"; "top"]))
         found.
Proof.
  cbv zeta. unfold KeywordAnalyzerTools.find_long_tail_opportunities.
  rewrite LongTailFacts.question_loop_spec, LongTailFacts.modifier_loop_spec.
  cbn [app]. split; [reflexivity |]. split.
  - rewrite length_app, length_map. cbn [length].
    induction modifiers as [| m ms IH]; cbn [flat_map length app];
      [reflexivity |].
    unfold modifier_pair at 1. cbn [app length]. lia.
  - rewrite Forall_app. split.
    + apply Forall_forall. intros s H. apply in_flat_map in H.
      destruct H as (m & Hm & [<- | [<- | []]]);
        exists m; cbn [KeywordAnalyzerTools.LongTail.keyword];
        (split; [auto | apply in_or_app; left; exact Hm]).
    + apply Forall_forall. intros s H. apply in_map_iff in H.
      destruct H as (q & <- & Hq). exists q.
      cbn [question KeywordAnalyzerTools.LongTail.keyword].
      split; [auto | apply in_or_app; right; exact Hq].
Qed.

Module CounterFacts.
Import KeywordAnalyzerTools.

Lemma occurrences_cons_same (xs : list string) (k : string) :
  occurrences (k :: xs) k = (1 + occurrences xs k)%Z.
Proof. unfold occurrences. rewrite count_occ_cons_eq by reflexivity. lia. Qed.

Lemma occurrences_cons_other (xs : list string) (x k : string) :
  x <> k -> occurrences (x :: xs) k = occurrences xs k.
Proof.
  intro N. unfold occurrences. rewrite count_occ_cons_neq by exact N.
  reflexivity.
Qed.

Lemma occurrences_nonneg (xs : list string) (k : string) :
  (0 <= occurrences xs k)%Z.
Proof. unfold occurrences. lia. Qed.

Lemma occurrences_In (xs : list string) (k : string) :
  (1 <= occurrences xs k)%Z -> In k xs.
Proof.
  unfold occurrences. intro H. apply (count_occ_In string_dec). lia.
Qed.

(** The counts after more elements have been counted. *)
Lemma Counter_fold (xs : list string) (counts : list (string * Z))
      (k : string) :
  Py.lookup (fold_left count_one xs counts) k
  = match Py.lookup counts k with
    | Some n => Some (n + occurrences xs k)%Z
    | None => if (occurrences xs k =? 0)%Z then None
              else Some (occurrences xs k)
    end.
Proof.
  revert counts. induction xs as [| x xs IH]; intro counts; cbn [fold_left].
  - unfold occurrences. cbn. destruct (Py.lookup counts k);
      [f_equal; lia | reflexivity].
  - rewrite IH. unfold count_one.
    destruct (string_dec x k) as [-> | N].
    + rewrite ClusteringFacts.lookup_setitem_same, occurrences_cons_same.
      pose proof (occurrences_nonneg xs k).
      destruct (Py.lookup counts k) as [n |]; cbn [Py.get].
      * f_equal; lia.
      * destruct (Z.eqb_spec (1 + occurrences xs k) 0); [lia |].
        f_equal; lia.
    + rewrite ClusteringFacts.lookup_setitem_other by exact N.
      rewrite (occurrences_cons_other xs x k N). reflexivity.
Qed.

Lemma Counter_lookup (xs : list string) (k : string) :
  Py.lookup (Counter xs) k
  = if (occurrences xs k =? 0)%Z then None else Some (occurrences xs k).
Proof. unfold Counter. rewrite Counter_fold. reflexivity. Qed.

Lemma Counter_NoDup (xs : list string) : NoDup (map fst (Counter xs)).
Proof.
  unfold Counter.
  assert (G : forall counts, NoDup (map fst counts) ->
                NoDup (map fst (fold_left count_one xs counts))).
  { induction xs as [| x xs IH]; intros counts D; cbn [fold_left];
      [exact D |].
    apply IH. unfold count_one. apply ClusteringFacts.setitem_NoDup, D. }
  apply G. constructor.
Qed.

(** Every entry of a counter is an element with its number of
    occurrences. *)
Lemma Counter_entry (xs : list string) (k : string) (n : Z) :
  In (k, n) (Counter xs) ->
  In k xs /\ n = occurrences xs k /\ (1 <= n)%Z.
Proof.
  intro H. apply (ClusteringFacts.In_lookup _ _ _ (Counter_NoDup xs)) in H.
  rewrite Counter_lookup in H.
  pose proof (occurrences_nonneg xs k).
  destruct (Z.eqb_spec (occurrences xs k) 0); [discriminate |].
  injection H as <-.
  split; [apply occurrences_In; lia |]. split; [reflexivity | lia].
Qed.

Lemma StronglySorted_firstn {A : Type} (R : A -> A -> Prop) (n : nat)
      (l : list A) :
  StronglySorted R l -> StronglySorted R (firstn n l).
Proof.
  intro S. revert n. induction S as [| a l S IH F]; intros [| n];
    cbn [firstn]; try constructor.
  - apply IH.
  - apply Forall_forall. intros x H. rewrite Forall_forall in F.
    apply F. apply (CompareFacts.In_firstn _ _ _ H).
Qed.

Lemma StronglySorted_slice_to {A : Type} (R : A -> A -> Prop) (n : Z)
      (l : list A) :
  StronglySorted R l -> StronglySorted R (Py.slice_to n l).
Proof.
  unfold Py.slice_to. destruct (0 <=? n)%Z; apply StronglySorted_firstn.
Qed.

End CounterFacts.

(** X14. [extract_keywords_from_text] returns, with no exception, at most
    fifty entries listed by count, highest first.  Every entry is a kept
    word, or two kept words joined by a space that follow each other
    among the kept words, with the number of times it occurs; a stop word
    or a word shorter than the minimum is never counted on its own. *)
Theorem extract_keywords_spec (text : string) (min_word_length : Z) :
  let words := kept_words text min_word_length in
  let phrases := KeywordAnalyzerTools.two_word_phrases words in
  exists result,
    KeywordAnalyzerTools.extract_keywords_from_text text min_word_length
    = Py.Ok result /\
    (length result <= 50)%nat /\
    by_count result /\
    Forall (fun e =>
              (1 <= snd e)%Z /\
              ((In (fst e) words /\ snd e = occurrences words (fst e)) \/
               (In (fst e) phrases /\ snd e = occurrences phrases (fst e))))
           result /\
    Forall (fun w => ~ In w KeywordAnalyzerTools.stop_words /\
                     (min_word_length <= PyText.len w)%Z) words.
Proof.
  cbv zeta. unfold KeywordAnalyzerTools.extract_keywords_from_text.
  fold (kept_words text min_word_length).
  set (words := kept_words text min_word_length).
  set (phrases := KeywordAnalyzerTools.two_word_phrases words).
  destruct (TextFacts.sorted_by_spec PyText.descending
              (fun x : string * Z => inject_Z (snd x))
              (KeywordAnalyzerTools.Counter words
               ++ KeywordAnalyzerTools.Counter phrases)%list
              TextFacts.descending_total TextFacts.descending_trans)
    as (sorted & S & P & O).
  rewrite S. cbn [Py.bind Py.ret]. eexists. split; [reflexivity |].
  split; [apply (CompareFacts.length_slice_to 50); lia |].
  split.
  { apply CounterFacts.StronglySorted_slice_to. unfold by_count.
    clear - O. induction O as [| a l O IH Fa]; constructor; [exact IH |].
    eapply Forall_impl; [| exact Fa]. cbn beta. intros b H.
    apply geb_true in H. rewrite <- Zle_Qle in H. exact H. }
  split.
  { apply Forall_forall. intros [k n] H. cbn [fst snd].
    apply CompareFacts.In_slice_to in H.
    apply (Permutation_in _ P) in H. apply in_app_or in H.
    destruct H as [H | H]; apply CounterFacts.Counter_entry in H;
      destruct H as (I & E & G); (split; [exact G |]);
      [left | right]; split; assumption. }
  apply Forall_forall. intros w H. unfold words, kept_words in H.
  apply filter_In in H. destruct H as [H N].
  apply filter_In in H. destruct H as [_ L].
  apply negb_true_iff, ClusteringFacts.contains_not_In in N.
  apply Z.leb_le in L. split; assumption.
Qed.

Module DensityFacts.
Import KeywordAnalyzerTools.

Lemma round2_nonneg (x : Q) : 0 <= x -> 0 <= round2 x.
Proof.
  intro H. unfold round2.
  assert (M : (Py.round_half_even 0 <= Py.round_half_even (x * 100))%Z)
    by (apply round_half_even_mono; lra).
  change (Py.round_half_even 0) with 0%Z in M.
  unfold Qle. cbn [Qnum Qden]. lia.
Qed.

Lemma quotient_nonneg (a b : nat) :
  0 <= inject_Z (Z.of_nat a) / inject_Z (Z.of_nat b) * 100.
Proof.
  apply Qmult_le_0_compat; [| lra].
  unfold Qdiv. apply Qmult_le_0_compat.
  - rewrite <- (Zle_Qle 0). lia.
  - apply Qinv_le_0_compat. rewrite <- (Zle_Qle 0). lia.
Qed.

Lemma density_of_nonneg (text keyword : string) : 0 <= density_of text keyword.
Proof.
  unfold density_of. cbv zeta. apply round2_nonneg.
  destruct (0 <? _)%nat; [apply quotient_nonneg | lra].
Qed.

Lemma density_step (text keyword : string) :
  let text_lower := Py.lower text in
  let total_words := List.length (Py.split text_lower) in
  exists density,
    (if (0 <? total_words)%nat then
       q <- Py.truediv
              (inject_Z (Z.of_nat (PyText.count (Py.lower keyword) text_lower)))
              (inject_Z (Z.of_nat total_words)) ;;
       Py.ret (q * 100)
     else Py.ret 0) = Py.Ok density /\
    round2 density = density_of text keyword.
Proof.
  cbv zeta. unfold density_of. cbv zeta.
  destruct (Nat.ltb_spec 0 (List.length (Py.split (Py.lower text))))
    as [L | L].
  - rewrite truediv_ok.
    + cbn [Py.bind Py.ret]. eexists. split; reflexivity.
    + intro E. unfold Qeq in E. cbn [Qnum Qden inject_Z] in E. lia.
  - eexists. split; reflexivity.
Qed.

Lemma round2_near (x : Q) :
  x - (1 # 200) <= round2 x <= x + (1 # 200).
Proof.
  pose proof (round_half_even_near (x * 100)) as [H1 H2].
  assert (E : round2 x * 100 == inject_Z (Py.round_half_even (x * 100))).
  { unfold round2, Qeq, inject_Z. simpl. lia. }
  lra.
Qed.

Lemma density_of_is_density (text keyword : string) :
  is_density text (keyword, density_of text keyword).
Proof.
  unfold is_density. cbn [fst snd].
  split; [| split; [apply density_of_nonneg |]].
  - unfold density_of, round2. cbv zeta. eexists. reflexivity.
  - unfold density_of, percentage. cbv zeta. apply round2_near.
Qed.

(** The loop sets, for each keyword in turn, its density. *)
Lemma density_loop_spec (text : string) (targets : list string)
      (densities : list (string * Q)) :
  density_loop (Py.lower text) (List.length (Py.split (Py.lower text)))
               targets densities
  = Py.Ok (fold_left (fun acc k => Py.setitem acc k (density_of text k))
                     targets densities).
Proof.
  revert densities. induction targets as [| k ks IH]; intro densities;
    cbn [density_loop fold_left]; [reflexivity |].
  destruct (density_step text k) as (density & E & R). cbv zeta in E.
  rewrite E. cbn [Py.bind]. rewrite R. apply IH.
Qed.

Section Assignments.

Context {A : Type}.
Variable f : string -> A.

Let assign (acc : list (string * A)) (k : string) := Py.setitem acc k (f k).

Lemma assign_keys (ks : list string) (acc : list (string * A)) :
  map fst (fold_left assign ks acc) = fold_left Py.set_add ks (map fst acc).
Proof.
  revert acc. induction ks as [| k ks IH]; intro acc; cbn [fold_left];
    [reflexivity |].
  rewrite IH. unfold assign. rewrite ClusteringFacts.setitem_fst.
  reflexivity.
Qed.

Lemma setitem_Forall (P : string * A -> Prop) (d : list (string * A))
      (k : string) (v : A) :
  Forall P d -> P (k, v) -> Forall P (Py.setitem d k v).
Proof.
  intros F H. induction F as [| [j w] d Hj F IH]; cbn [Py.setitem].
  - constructor; [exact H | constructor].
  - destruct (String.eqb_spec j k) as [-> | N].
    + constructor; [exact H | exact F].
    + constructor; [exact Hj | exact IH].
Qed.

Lemma assign_values (ks : list string) (acc : list (string * A)) :
  Forall (fun e => snd e = f (fst e)) acc ->
  Forall (fun e => snd e = f (fst e)) (fold_left assign ks acc).
Proof.
  revert acc. induction ks as [| k ks IH]; intros acc F; cbn [fold_left];
    [exact F |].
  apply IH. unfold assign. apply setitem_Forall; [exact F | reflexivity].
Qed.

Lemma assign_lookup (ks : list string) (acc : list (string * A))
      (k : string) :
  In k ks -> Py.lookup (fold_left assign ks acc) k = Some (f k).
Proof.
  revert acc. induction ks as [| j ks IH]; intros acc H; [destruct H |].
  cbn [fold_left].
  destruct (in_dec string_dec k ks) as [I | N]; [apply IH, I |].
  destruct H as [-> | H]; [| contradiction].
  clear IH. unfold assign at 2.
  assert (G : forall acc, Py.lookup acc k = Some (f k) ->
                Py.lookup (fold_left assign ks acc) k = Some (f k)).
  { clear acc. induction ks as [| j ks IH]; intros acc E; cbn [fold_left];
      [exact E |].
    apply IH.
    - intro I. apply N. right. exact I.
    - unfold assign. rewrite ClusteringFacts.lookup_setitem_other; [exact E |].
      intros ->. apply N. left. reflexivity. }
  apply G, ClusteringFacts.lookup_setitem_same.
Qed.

End Assignments.

End DensityFacts.

(** X15. [calculate_keyword_density] of the keyword analyzer never raises,
    whatever the text: it returns one entry per distinct target keyword,
    in the order of first occurrence, each with the density of that
    keyword: the occurrences per hundred words rounded to two decimals,
    that is a number with two decimals, not negative, within 1/200 of the
    percentage; it is 0 for a text without words. *)
Theorem keyword_density_spec (text : string) (target_keywords : list string) :
  exists densities,
    KeywordAnalyzerTools.calculate_keyword_density text target_keywords
    = Py.Ok densities /\
    map fst densities = Py.set_of target_keywords /\
    (forall k, In k target_keywords ->
       exists v, Py.lookup densities k = Some v /\ is_density text (k, v)) /\
    Forall (is_density text) densities /\
    (Py.split (Py.lower text) = [] ->
     Forall (fun e => snd e == 0) densities).
Proof.
  unfold KeywordAnalyzerTools.calculate_keyword_density. cbv zeta.
  rewrite DensityFacts.density_loop_spec.
  eexists. split; [reflexivity |].
  split; [apply (DensityFacts.assign_keys (density_of text)) |].
  split.
  { intros k H. exists (density_of text k).
    split; [apply (DensityFacts.assign_lookup (density_of text)), H |].
    apply DensityFacts.density_of_is_density. }
  pose proof (DensityFacts.assign_values (density_of text) target_keywords []
                (Forall_nil _)) as V.
  split.
  - eapply Forall_impl; [| exact V]. cbn beta. intros [k v] E.
    cbn [fst snd] in E. rewrite E.
    apply DensityFacts.density_of_is_density.
  - intro W. eapply Forall_impl; [| exact V]. cbn beta. intros e E.
    rewrite E. unfold density_of. cbv zeta. rewrite W. reflexivity.
Qed.

(* ================================================================== *)
(** * Further properties of the metadata optimizer (metadata_optimizer.py) *)
(* ================================================================== *)

Module TitleFacts.
Import MetadataOptimizerMethods.

(** The constructor builds one of two optimizers. *)
Lemma constructed_cases (platform : string) (self : MetadataOptimizer.t) :
  constructed platform self ->
  (platform = "apple" /\ self = apple_optimizer) \/
  (platform = "google" /\ self = google_optimizer).
Proof.
  unfold constructed, MetadataOptimizer.__init__, Py.contains.
  cbn [existsb].
  destruct (String.eqb_spec platform "apple") as [-> | _].
  - cbn. intro H. injection H as <-. left. split; reflexivity.
  - destruct (String.eqb_spec platform "google") as [-> | _].
    + cbn. intro H. injection H as <-. right. split; reflexivity.
    + cbn. discriminate.
Qed.

Lemma try_keywords_some (app_name sep : string) (keywords : list string)
      (max_length : Z) (title : string) :
  try_keywords app_name sep keywords max_length = Some title ->
  exists kw, In kw keywords /\ title = app_name ++ sep ++ kw /\
             (PyText.len title <= max_length)%Z.
Proof.
  induction keywords as [| kw rest IH]; cbn [try_keywords]; [discriminate |].
  destruct (Z.leb_spec (PyText.len (app_name ++ sep ++ kw)) max_length)
    as [L | _].
  - intro H. injection H as <-. exists kw. split; [left; reflexivity |].
    split; [reflexivity | exact L].
  - intro H. destruct (IH H) as (k & I & E & L). exists k.
    split; [right; exact I |]. split; assumption.
Qed.

Lemma try_separators_some (app_name : string) (separators keywords : list string)
      (max_length : Z) (title : string) :
  try_separators app_name separators keywords max_length = Some title ->
  exists sep kw, In sep separators /\ In kw keywords /\
                 title = app_name ++ sep ++ kw /\
                 (PyText.len title <= max_length)%Z.
Proof.
  induction separators as [| sep rest IH]; cbn [try_separators];
    [discriminate |].
  destruct (try_keywords app_name sep keywords max_length) as [t |] eqn:E.
  - intro H. injection H as <-.
    destruct (try_keywords_some _ _ _ _ _ E) as (kw & I & T & L).
    exists sep, kw. split; [left; reflexivity |]. auto.
  - intro H. destruct (IH H) as (s & kw & Is & Ik & T & L).
    exists s, kw. split; [right; exact Is |]. auto.
Qed.

Lemma build_title_some (app_name : string) (keywords : list string)
      (max_length : Z) (title : string) :
  _build_title_with_keywords app_name keywords max_length = Some title ->
  exists sep kw, In sep [" - "; ": "; " | "] /\ In kw keywords /\
                 title = app_name ++ sep ++ kw /\
                 (PyText.len title <= max_length)%Z.
Proof. apply try_separators_some. Qed.

Lemma sliced_option_fits (max_length : Z) (text : string)
      (kws : list string) (strategy : string) (pros cons : list string) :
  (0 <= max_length)%Z ->
  option_fits max_length
    {| TitleOption.title := PyText.slice_to max_length text;
       TitleOption.length := PyText.len (PyText.slice_to max_length text);
       TitleOption.remaining_chars :=
         (max_length - PyText.len (PyText.slice_to max_length text))%Z;
       TitleOption.keywords_included := kws;
       TitleOption.strategy := strategy;
       TitleOption.pros := pros;
       TitleOption.cons := cons |}.
Proof.
  intro H. pose proof (TextFacts.len_slice_to max_length text H).
  unfold option_fits. cbn. repeat split; lia.
Qed.

Lemma built_option_fits (max_length : Z) (app_name : string)
      (keywords kws : list string) (title : string)
      (strategy : string) (pros cons : list string) :
  _build_title_with_keywords app_name keywords max_length = Some title ->
  option_fits max_length
    {| TitleOption.title := title;
       TitleOption.length := PyText.len title;
       TitleOption.remaining_chars := (max_length - PyText.len title)%Z;
       TitleOption.keywords_included := kws;
       TitleOption.strategy := strategy;
       TitleOption.pros := pros;
       TitleOption.cons := cons |}.
Proof.
  intro H. destruct (build_title_some _ _ _ _ H) as (sep & kw & _ & _ & _ & L).
  unfold option_fits. cbn. repeat split; lia.
Qed.

(** The options of [optimize_title], whatever the limit of the title. *)
Lemma optimize_title_options (self : MetadataOptimizer.t) (app_name : string)
      (target_keywords : list string) (include_brand : bool)
      (max_length : Z) :
  Py.getitem self.(MetadataOptimizer.limits) "title" = Py.Ok max_length ->
  (0 <= max_length)%Z ->
  exists report,
    optimize_title self app_name target_keywords include_brand
    = Py.Ok report /\
    report.(TitleReport.max_length) = max_length /\
    (length report.(TitleReport.options) <= 3)%nat /\
    Forall (option_fits max_length) report.(TitleReport.options) /\
    Forall (fun o =>
              o.(TitleOption.strategy) = "brand_plus_multiple" ->
              one_keyword_title app_name (firstn 2 target_keywords)
                                o.(TitleOption.title) /\
              o.(TitleOption.keywords_included) = firstn 2 target_keywords /\
              length o.(TitleOption.keywords_included) = 2%nat)
           report.(TitleReport.options).
Proof.
  intros G M. unfold optimize_title. rewrite G. cbn [Py.bind Py.ret].
  eexists. split; [reflexivity |].
  cbn [TitleReport.max_length TitleReport.options].
  split; [reflexivity |].
  assert (S2 : forall xs : list string, Py.slice_to 2 xs = firstn 2 xs)
    by reflexivity.
  destruct target_keywords as [| k1 [| k2 rest]];
    cbn [List.length Nat.ltb Nat.leb];
    rewrite ?S2;
    repeat match goal with
    | |- context [_build_title_with_keywords ?a ?k ?m] =>
        let E := fresh "E" in
        let t := fresh "t" in
        destruct (_build_title_with_keywords a k m) as [[| ? t] |] eqn:E
    end;
    destruct include_brand; cbn [truthy negb Py.get Py.append app length];
    (split; [lia |]);
    (split;
     [ repeat (apply Forall_cons;
               [first [ apply sliced_option_fits; exact M
                      | eapply built_option_fits; eassumption ] |]);
       apply Forall_nil
     | repeat (apply Forall_cons;
               [cbn [TitleOption.strategy TitleOption.title
                     TitleOption.keywords_included];
                intro S; try discriminate S |]);
       try apply Forall_nil ]).
  all: match goal with
       | E : _build_title_with_keywords _ (firstn 2 _) _ = Some _ |- _ =>
           destruct (build_title_some _ _ _ _ E) as (sep & kw & Is & Ik & T & _)
       end.
  all: (split; [exists sep, kw; auto | split; reflexivity]).
Qed.

End TitleFacts.
(** X16. For an optimizer of either platform, [optimize_title] returns at
    most three options; the title of every option fits the title limit of
    the platform (30 characters for Apple, 50 for Google), and its length
    and remaining characters are those of the title. *)
Theorem title_options_within_limit
        (platform : string) (self : MetadataOptimizer.t) (app_name : string)
        (target_keywords : list string) (include_brand : bool) :
  constructed platform self ->
  exists report,
    MetadataOptimizerMethods.optimize_title self app_name target_keywords
                                            include_brand
    = Py.Ok report /\
    report.(MetadataOptimizerMethods.TitleReport.max_length)
    = title_limit platform /\
    (length report.(MetadataOptimizerMethods.TitleReport.options) <= 3)%nat /\
    Forall (option_fits (title_limit platform))
           report.(MetadataOptimizerMethods.TitleReport.options).
Proof.
  intro C.
  destruct (TitleFacts.constructed_cases platform self C)
    as [[-> ->] | [-> ->]];
    match goal with
    | |- context [MetadataOptimizerMethods.optimize_title ?s _ _ _] =>
        match goal with
        | |- context [title_limit ?p] =>
            destruct (TitleFacts.optimize_title_options
                        s app_name target_keywords include_brand
                        (title_limit p) eq_refl ltac:(cbn; lia))
              as (report & E & M & L & F & _)
        end
    end;
    exists report; auto.
Qed.

Lemma title_options_within_limit_witness :
  constructed "apple" apple_optimizer /\
  exists report,
    MetadataOptimizerMethods.optimize_title
      apple_optimizer "A Very Long Brand Name For A Budgeting App"
      ["budget"; "expense tracker"] true
    = Py.Ok report /\
    report.(MetadataOptimizerMethods.TitleReport.max_length)
    = title_limit "apple" /\
    (length report.(MetadataOptimizerMethods.TitleReport.options) <= 3)%nat /\
    Forall (option_fits (title_limit "apple"))
           report.(MetadataOptimizerMethods.TitleReport.options).
Proof.
  assert (C : constructed "apple" apple_optimizer) by reflexivity.
  split; [exact C |].
  exact (title_options_within_limit "apple" apple_optimizer
           "A Very Long Brand Name For A Budgeting App"
           ["budget"; "expense tracker"] true C).
Defined.

(** X17. The option brand_plus_multiple of [optimize_title] never holds
    several keywords: its title is the app name, one separator and one of
    the first two target keywords, while its [keywords_included] lists
    both of them. *)
Theorem multiple_keyword_title_has_one_keyword
        (platform : string) (self : MetadataOptimizer.t) (app_name : string)
        (target_keywords : list string) (include_brand : bool)
        (report : MetadataOptimizerMethods.TitleReport.t) :
  constructed platform self ->
  MetadataOptimizerMethods.optimize_title self app_name target_keywords
                                          include_brand
  = Py.Ok report ->
  Forall (fun o =>
            o.(MetadataOptimizerMethods.TitleOption.strategy)
            = "brand_plus_multiple" ->
            one_keyword_title app_name (firstn 2 target_keywords)
              o.(MetadataOptimizerMethods.TitleOption.title) /\
            o.(MetadataOptimizerMethods.TitleOption.keywords_included)
            = firstn 2 target_keywords /\
            length o.(MetadataOptimizerMethods.TitleOption.keywords_included)
            = 2%nat)
         report.(MetadataOptimizerMethods.TitleReport.options).
Proof.
  intros C R.
  destruct (TitleFacts.constructed_cases platform self C)
    as [[-> ->] | [-> ->]];
    match goal with
    | R : MetadataOptimizerMethods.optimize_title ?s _ _ _ = _ |- _ =>
        destruct (TitleFacts.optimize_title_options
                    s app_name target_keywords include_brand
                    _ eq_refl ltac:(cbn; lia))
          as (report' & E & _ & _ & _ & F)
    end;
    rewrite E in R; injection R as <-; exact F.
Qed.

Lemma multiple_keyword_title_has_one_keyword_witness :
  exists report,
    constructed "google" google_optimizer /\
    MetadataOptimizerMethods.optimize_title
      google_optimizer "Pennywise" ["budget"; "expense tracker"] true
    = Py.Ok report /\
    In "brand_plus_multiple"
       (map MetadataOptimizerMethods.TitleOption.strategy
            report.(MetadataOptimizerMethods.TitleReport.options)) /\
    Forall (fun o =>
              o.(MetadataOptimizerMethods.TitleOption.strategy)
              = "brand_plus_multiple" ->
              one_keyword_title "Pennywise"
                (firstn 2 ["budget"; "expense tracker"])
                o.(MetadataOptimizerMethods.TitleOption.title) /\
              o.(MetadataOptimizerMethods.TitleOption.keywords_included)
              = firstn 2 ["budget"; "expense tracker"] /\
              length
                o.(MetadataOptimizerMethods.TitleOption.keywords_included)
              = 2%nat)
           report.(MetadataOptimizerMethods.TitleReport.options).
Proof.
  eexists.
  assert (C : constructed "google" google_optimizer) by reflexivity.
  split; [exact C |].
  split; [vm_compute; reflexivity |].
  split; [cbn; tauto |].
  exact (multiple_keyword_title_has_one_keyword "google" google_optimizer
           "Pennywise" ["budget"; "expense tracker"] true _ C eq_refl).
Defined.

Module KeywordFieldFacts.
Import MetadataOptimizerMethods.

Lemma set_add_new (s : list string) (x : string) :
  Py.contains s x = false -> Py.set_add s x = Py.append s x.
Proof. unfold Py.set_add. intros ->. reflexivity. Qed.

Lemma set_add_old (s : list string) (x : string) :
  Py.contains s x = true -> Py.set_add s x = s.
Proof. unfold Py.set_add. intros ->. reflexivity. Qed.

(** With the set of singulars equal to the list built so far, the loop
    adds each singular that is new. *)
Lemma plural_loop_spec (keywords : list string) (seen : list string) :
  plural_loop keywords seen seen
  = fold_left Py.set_add (map singular keywords) seen.
Proof.
  revert seen. induction keywords as [| k ks IH]; intro seen;
    cbn [plural_loop map fold_left]; [reflexivity |].
  assert (step : forall x,
             (if negb (Py.contains seen x)
              then plural_loop ks (Py.append seen x) (Py.set_add seen x)
              else plural_loop ks seen seen)
             = fold_left Py.set_add (map singular ks) (Py.set_add seen x)).
  { intro x. destruct (Py.contains seen x) eqn:C; cbn [negb].
    - rewrite (set_add_old _ _ C). apply IH.
    - rewrite (set_add_new _ _ C). apply IH. }
  unfold singular at 2.
  destruct (PyText.endswith_char "s" k && (1 <? String.length k)%nat);
    apply step.
Qed.

Lemma field_loop_fits (keywords : list string) (keyword_field : string)
      (max_length : Z) :
  (PyText.len keyword_field <= max_length)%Z ->
  (PyText.len (field_loop keywords keyword_field max_length)
   <= max_length)%Z.
Proof.
  revert keyword_field. induction keywords as [| k ks IH];
    intros field H; cbn [field_loop]; [exact H |].
  match goal with
  | |- context [(PyText.len ?t <=? max_length)%Z] =>
      destruct (Z.leb_spec (PyText.len t) max_length) as [L | _]
  end; [apply IH, L | exact H].
Qed.

Lemma append_assoc (a b c : string) : (a ++ b) ++ c = a ++ (b ++ c).
Proof. induction a as [| x a IH]; cbn; [| rewrite IH]; reflexivity. Qed.

Lemma concat_cons (sep x : string) (xs : list string) :
  xs <> [] -> String.concat sep (x :: xs) = x ++ sep ++ String.concat sep xs.
Proof. destruct xs; [contradiction | reflexivity]. Qed.

Lemma concat_snoc (sep : string) (pre : list string) (x : string) :
  pre <> [] ->
  String.concat sep (pre ++ [x]) = String.concat sep pre ++ sep ++ x.
Proof.
  induction pre as [| p pre IH]; [contradiction |]. intros _.
  destruct pre as [| q pre].
  - reflexivity.
  - change ((p :: q :: pre) ++ [x])%list with (p :: ((q :: pre) ++ [x]))%list.
    rewrite concat_cons by (cbn; discriminate).
    rewrite IH by discriminate.
    rewrite (concat_cons sep p (q :: pre)) by discriminate.
    rewrite !append_assoc. reflexivity.
Qed.

Lemma concat_nonempty (sep : string) (pre : list string) :
  pre <> [] -> Forall (fun k => k <> EmptyString) pre ->
  String.concat sep pre <> EmptyString.
Proof.
  intros N F. destruct F as [| p pre Hp F]; [contradiction |].
  destruct p as [| c p]; [contradiction |].
  destruct pre; cbn; discriminate.
Qed.

(** The field is the longest prefix of the keywords that fits, joined by
    commas. *)
Lemma field_loop_prefix (keywords pre : list string) (max_length : Z) :
  Forall (fun k => k <> EmptyString) pre ->
  Forall (fun k => k <> EmptyString) keywords ->
  exists n,
    (n <= length keywords)%nat /\
    field_loop keywords (String.concat "," pre) max_length
    = String.concat "," (pre ++ firstn n keywords) /\
    ((n < length keywords)%nat ->
     (max_length
      < PyText.len (String.concat "," (pre ++ firstn (S n) keywords)))%Z).
Proof.
  intros P K. revert pre P. induction K as [| k ks Hk K IH]; intros pre P.
  - exists 0%nat. cbn [field_loop firstn length]. rewrite app_nil_r.
    split; [lia |]. split; [reflexivity | lia].
  - cbn [field_loop].
    assert (T : match String.concat "," pre with
                | EmptyString => k
                | String _ _ => String.concat "," pre ++ "," ++ k
                end = String.concat "," (pre ++ [k])).
    { destruct pre as [| p pre]; [reflexivity |].
      rewrite concat_snoc by discriminate.
      pose proof (concat_nonempty "," (p :: pre) ltac:(discriminate) P) as N.
      destruct (String.concat "," (p :: pre)); [contradiction | reflexivity]. }
    rewrite T.
    destruct (Z.leb_spec (PyText.len (String.concat "," (pre ++ [k])))
                         max_length) as [L | G].
    + destruct (IH (pre ++ [k])%list) as (n & Hn & E & Next).
      { apply Forall_app. split; [exact P |].
        constructor; [exact Hk | constructor]. }
      exists (S n). cbn [length firstn]. split; [lia |].
      rewrite <- app_assoc in E. cbn [app] in E. split; [exact E |].
      intro H. rewrite <- app_assoc in Next. cbn [app] in Next.
      apply Next. lia.
    + exists 0%nat. cbn [firstn length]. rewrite app_nil_r.
      split; [lia |]. split; [reflexivity |]. intros _. exact G.
Qed.

Lemma fields_nonempty (sep : ascii) (s cur : string) :
  (1 <= length (PyText.fields sep s cur))%nat.
Proof.
  revert cur. induction s as [| c s IH]; intro cur; cbn [PyText.fields];
    [cbn; lia |].
  destruct (Ascii.eqb c sep); [cbn [length]; lia | apply IH].
Qed.

End KeywordFieldFacts.
(** X18. [_remove_plural_duplicates] takes the final s off every keyword
    of more than one character, whether or not the shorter form is among
    the keywords, and keeps the first occurrence of each result. *)
Theorem plural_removal_strips_every_final_s (keywords : list string) :
  MetadataOptimizerMethods._remove_plural_duplicates keywords
  = Py.set_of (map singular keywords).
Proof.
  unfold MetadataOptimizerMethods._remove_plural_duplicates, Py.set_of.
  apply KeywordFieldFacts.plural_loop_spec.
Qed.

(** X19. For keywords none of which is empty, [_build_keyword_field] joins
    with commas the longest run of leading keywords that fits: it stops at
    the first keyword that would pass the limit, and no later keyword is
    tried. *)
Theorem keyword_field_is_longest_fitting_prefix
        (keywords : list string) (max_length : Z) :
  Forall (fun k => k <> EmptyString) keywords ->
  exists n,
    (n <= length keywords)%nat /\
    MetadataOptimizerMethods._build_keyword_field keywords max_length
    = PyText.join "," (firstn n keywords) /\
    ((0 <= max_length)%Z ->
     (PyText.len (MetadataOptimizerMethods._build_keyword_field
                    keywords max_length) <= max_length)%Z) /\
    ((n < length keywords)%nat ->
     (max_length < PyText.len (PyText.join "," (firstn (S n) keywords)))%Z).
Proof.
  intro K.
  destruct (KeywordFieldFacts.field_loop_prefix keywords [] max_length
              (Forall_nil _) K) as (n & Hn & E & Next).
  exists n. split; [exact Hn |]. split; [exact E |].
  split; [| exact Next].
  intro M. apply KeywordFieldFacts.field_loop_fits. exact M.
Qed.

Lemma keyword_field_is_longest_fitting_prefix_witness :
  Forall (fun k => k <> EmptyString) ["budget"; "planner"; "a"] /\
  exists n,
    (n <= 3)%nat /\
    MetadataOptimizerMethods._build_keyword_field
      ["budget"; "planner"; "a"] 8
    = PyText.join "," (firstn n ["budget"; "planner"; "a"]) /\
    ((0 <= 8)%Z ->
     (PyText.len (MetadataOptimizerMethods._build_keyword_field
                    ["budget"; "planner"; "a"] 8) <= 8)%Z) /\
    ((n < 3)%nat ->
     (8 < PyText.len (PyText.join ","
                        (firstn (S n) ["budget"; "planner"; "a"])))%Z).
Proof.
  assert (K : Forall (fun k => k <> EmptyString) ["budget"; "planner"; "a"])
    by (repeat (apply Forall_cons; [discriminate |]); apply Forall_nil).
  split; [exact K |].
  exact (keyword_field_is_longest_fitting_prefix
           ["budget"; "planner"; "a"] 8 K).
Defined.

(** X20. On a Google optimizer [optimize_keyword_field] returns the error
    dict and raises nothing.  On an Apple optimizer it returns a field of
    at most 100 characters, with its length and remaining characters; the
    count of included keywords is never 0: an empty field is reported as
    one included keyword, the empty string. *)
Theorem keyword_field_report
        (platform : string) (self : MetadataOptimizer.t)
        (target_keywords : list string) (app_title app_description : string) :
  constructed platform self ->
  (platform = "google" ->
   MetadataOptimizerMethods.optimize_keyword_field
     self target_keywords app_title app_description
   = Py.Ok (MetadataOptimizerMethods.KeywordFieldError
              "Keyword field optimization only applies to Apple App Store")) /\
  (platform = "apple" ->
   exists r,
     MetadataOptimizerMethods.optimize_keyword_field
       self target_keywords app_title app_description
     = Py.Ok (MetadataOptimizerMethods.KeywordFieldOk r) /\
     (PyText.len r.(MetadataOptimizerMethods.KeywordField.keyword_field)
      <= 100)%Z /\
     r.(MetadataOptimizerMethods.KeywordField.length)
     = PyText.len r.(MetadataOptimizerMethods.KeywordField.keyword_field) /\
     r.(MetadataOptimizerMethods.KeywordField.remaining_chars)
     = (100 - r.(MetadataOptimizerMethods.KeywordField.length))%Z /\
     (1 <= r.(MetadataOptimizerMethods.KeywordField.keywords_count))%nat /\
     (r.(MetadataOptimizerMethods.KeywordField.keyword_field) = EmptyString ->
      r.(MetadataOptimizerMethods.KeywordField.keywords_included)
      = [EmptyString] /\
      r.(MetadataOptimizerMethods.KeywordField.keywords_count) = 1%nat)).
Proof.
  intro C.
  destruct (TitleFacts.constructed_cases platform self C)
    as [[-> ->] | [-> ->]]; (split; [intro P | intro P]);
    try discriminate P; [| reflexivity].
  unfold MetadataOptimizerMethods.optimize_keyword_field.
  cbn [MetadataOptimizer.platform String.eqb Ascii.eqb Bool.eqb negb
       MetadataOptimizer.limits apple_optimizer].
  change (Py.getitem _ "keywords") with (Py.Ok 100%Z).
  cbn [Py.bind Py.ret]. eexists. split; [reflexivity |].
  cbn [MetadataOptimizerMethods.KeywordField.keyword_field
       MetadataOptimizerMethods.KeywordField.length
       MetadataOptimizerMethods.KeywordField.remaining_chars
       MetadataOptimizerMethods.KeywordField.keywords_count
       MetadataOptimizerMethods.KeywordField.keywords_included].
  split.
  { apply KeywordFieldFacts.field_loop_fits. cbn. lia. }
  split; [reflexivity |]. split; [reflexivity |].
  split; [apply KeywordFieldFacts.fields_nonempty |].
  intros ->. split; reflexivity.
Qed.

Lemma keyword_field_report_witness :
  constructed "apple" apple_optimizer /\
  exists r,
    MetadataOptimizerMethods.optimize_keyword_field
      apple_optimizer ["Budget Planner"; "expenses"] "Budget Buddy"
      "Plan your budget"
    = Py.Ok (MetadataOptimizerMethods.KeywordFieldOk r) /\
    (PyText.len r.(MetadataOptimizerMethods.KeywordField.keyword_field)
     <= 100)%Z /\
    (1 <= r.(MetadataOptimizerMethods.KeywordField.keywords_count))%nat.
Proof.
  assert (C : constructed "apple" apple_optimizer) by reflexivity.
  split; [exact C |].
  destruct (proj2 (keyword_field_report "apple" apple_optimizer
                     ["Budget Planner"; "expenses"] "Budget Buddy"
                     "Plan your budget" C) eq_refl)
    as (r & E & L & _ & _ & N & _).
  exists r. split; [exact E |]. split; [exact L | exact N].
Defined.

Module ValidationFacts.
Import MetadataOptimizerMethods.

Lemma limits_positive (platform : string) (self : MetadataOptimizer.t) :
  constructed platform self ->
  Forall (fun e => (0 < snd e)%Z) self.(MetadataOptimizer.limits).
Proof.
  intro C.
  destruct (TitleFacts.constructed_cases platform self C)
    as [[-> ->] | [-> ->]]; cbn [MetadataOptimizer.limits apple_optimizer
                                   google_optimizer];
    repeat (apply Forall_cons; [cbn; lia |]); apply Forall_nil.
Qed.

Lemma validate_loop_spec (self : MetadataOptimizer.t)
      (metadata : list (string * string)) (acc : Validation.t) :
  Forall (fun e => (0 < snd e)%Z) self.(MetadataOptimizer.limits) ->
  exists v,
    validate_loop self metadata acc = Py.Ok v /\
    v.(Validation.is_valid)
    = acc.(Validation.is_valid) && negb (existsb (over_limit self) metadata) /\
    length v.(Validation.errors)
    = (length acc.(Validation.errors)
       + length (filter (over_limit self) metadata))%nat.
Proof.
  intro P. revert acc.
  induction metadata as [| [field value] rest IH]; intro acc.
  - exists acc. cbn. rewrite andb_true_r. split; [reflexivity |].
    split; [reflexivity | lia].
  - cbn [validate_loop existsb filter]. unfold over_limit at 1 3.
    cbn [fst snd].
    destruct (Py.lookup (MetadataOptimizer.limits self) field)
      as [max_length |] eqn:L.
    + assert (M : (0 < max_length)%Z).
      { apply ClusteringFacts.lookup_In in L. rewrite Forall_forall in P.
        apply (P _ L). }
      rewrite truediv_ok
        by (intro E; unfold Qeq in E; cbn [Qnum Qden inject_Z] in E; lia).
      cbn [Py.bind].
      destruct (max_length <? PyText.len value)%Z.
      * match goal with
        | |- context [validate_loop self rest ?a] =>
            destruct (IH a) as (v & E & V & N)
        end.
        exists v. split; [exact E |].
        cbn [Validation.is_valid Validation.errors] in V, N.
        rewrite V. cbn [orb negb andb]. rewrite andb_false_r.
        split; [reflexivity |]. rewrite N. unfold Py.append.
        rewrite length_app. cbn [length]. lia.
      * destruct (inject_Z (max_length - PyText.len value)
                  >? inject_Z max_length * 0.2);
          match goal with
          | |- context [validate_loop self rest ?a] =>
              destruct (IH a) as (v & E & V & N)
          end;
          exists v; (split; [exact E |]);
          cbn [Validation.is_valid Validation.errors] in V, N;
          rewrite V, N; cbn [orb]; split; reflexivity.
    + match goal with
      | |- context [validate_loop self rest ?a] =>
          destruct (IH a) as (v & E & V & N)
      end.
      exists v. split; [exact E |].
      cbn [Validation.is_valid Validation.errors] in V, N.
      rewrite V, N. cbn [orb]. split; reflexivity.
Qed.

End ValidationFacts.

(** X21. For an optimizer of either platform, [validate_character_limits]
    returns; the metadata is valid exactly when no field that has a limit
    on the platform is longer than its limit, there is one error per such
    field, and a field the platform has no limit for never makes the
    metadata invalid. *)
Theorem validation_counts_over_limit_fields
        (platform : string) (self : MetadataOptimizer.t)
        (metadata : list (string * string)) :
  constructed platform self ->
  exists v,
    MetadataOptimizerMethods.validate_character_limits self metadata
    = Py.Ok v /\
    v.(MetadataOptimizerMethods.Validation.is_valid)
    = negb (existsb (over_limit self) metadata) /\
    length v.(MetadataOptimizerMethods.Validation.errors)
    = length (filter (over_limit self) metadata) /\
    (v.(MetadataOptimizerMethods.Validation.is_valid) = true <->
     v.(MetadataOptimizerMethods.Validation.errors) = []) /\
    (v.(MetadataOptimizerMethods.Validation.is_valid) = true <->
     forall field value max_length,
       In (field, value) metadata ->
       Py.lookup self.(MetadataOptimizer.limits) field = Some max_length ->
       (PyText.len value <= max_length)%Z).
Proof.
  intro C. unfold MetadataOptimizerMethods.validate_character_limits.
  destruct (ValidationFacts.validate_loop_spec self metadata
              {| MetadataOptimizerMethods.Validation.is_valid := true;
                 MetadataOptimizerMethods.Validation.errors := [];
                 MetadataOptimizerMethods.Validation.warnings := [];
                 MetadataOptimizerMethods.Validation.field_status := [] |}
              (ValidationFacts.limits_positive platform self C))
    as (v & E & V & N).
  cbn [MetadataOptimizerMethods.Validation.is_valid
       MetadataOptimizerMethods.Validation.errors andb length Nat.add] in V, N.
  exists v. split; [exact E |]. split; [exact V |]. split; [exact N |].
  assert (X : existsb (over_limit self) metadata = false <->
              filter (over_limit self) metadata = []).
  { clear. induction metadata as [| e rest IH]; cbn [existsb filter];
      [tauto |].
    destruct (over_limit self e); cbn [orb]; [| exact IH].
    split; discriminate. }
  split.
  - rewrite V, negb_true_iff, X. split.
    + intro F. rewrite F in N. cbn in N.
      destruct (MetadataOptimizerMethods.Validation.errors v);
        [reflexivity | discriminate].
    + intro F. rewrite F in N. cbn in N.
      destruct (filter (over_limit self) metadata);
        [reflexivity | discriminate].
  - rewrite V, negb_true_iff. split.
    + intros F field value max_length I L.
      destruct (Z.leb_spec (PyText.len value) max_length) as [G | G];
        [exact G | exfalso].
      assert (T : existsb (over_limit self) metadata = true).
      { apply existsb_exists. exists (field, value). split; [exact I |].
        unfold over_limit. cbn [fst snd]. rewrite L. apply Z.ltb_lt, G. }
      congruence.
    + intro F. apply not_true_iff_false. intro T.
      apply existsb_exists in T. destruct T as ([field value] & I & O).
      unfold over_limit in O. cbn [fst snd] in O.
      destruct (Py.lookup (MetadataOptimizer.limits self) field)
        as [max_length |] eqn:L; [| discriminate].
      apply Z.ltb_lt in O. specialize (F field value max_length I L). lia.
Qed.

Lemma validation_counts_over_limit_fields_witness :
  let metadata := [("title", "A title of more than fifty characters, "
                             ++ "which Google does not allow");
                   ("description", "short")] in
  constructed "google" google_optimizer /\
  exists v,
    MetadataOptimizerMethods.validate_character_limits
      google_optimizer metadata = Py.Ok v /\
    v.(MetadataOptimizerMethods.Validation.is_valid) = false /\
    length v.(MetadataOptimizerMethods.Validation.errors) = 1%nat.
Proof.
  cbv zeta.
  assert (C : constructed "google" google_optimizer) by reflexivity.
  split; [exact C |].
  destruct (validation_counts_over_limit_fields "google" google_optimizer
              [("title", "A title of more than fifty characters, "
                         ++ "which Google does not allow");
               ("description", "short")] C)
    as (v & E & V & N & _).
  exists v. split; [exact E |]. split; [exact V | exact N].
Defined.

Module DensityReportFacts.
Import MetadataOptimizerDescriptions.

Lemma percentage_returns (count total_words : nat) :
  exists p, percentage count total_words = Py.Ok p.
Proof.
  unfold percentage. destruct (Nat.ltb_spec 0 total_words) as [L | L].
  - rewrite truediv_ok
      by (intro E; unfold Qeq in E; cbn [Qnum Qden inject_Z] in E; lia).
    eexists. reflexivity.
  - eexists. reflexivity.
Qed.

Lemma assess_density_cases (density : Q) :
  In (_assess_density density) ["too_low"; "optimal"; "too_high"].
Proof.
  unfold _assess_density.
  destruct (density <? 0.5); [cbn; tauto |].
  destruct (density <=? 2.5); cbn; tauto.
Qed.

Lemma keyword_density_loop_spec (text : string) (total_words : nat)
      (targets : list string) (acc : list (string * KeywordDensity.t)) :
  Forall (recorded text) acc ->
  exists kd,
    keyword_density_loop (Py.lower text) total_words targets acc = Py.Ok kd /\
    map fst kd = fold_left Py.set_add targets (map fst acc) /\
    Forall (recorded text) kd.
Proof.
  revert acc. induction targets as [| k ks IH]; intros acc F;
    cbn [keyword_density_loop fold_left].
  - exists acc. split; [reflexivity |]. split; [reflexivity | exact F].
  - destruct (percentage_returns
                (PyText.count (Py.lower k) (Py.lower text)) total_words)
      as (p & E).
    rewrite E. cbn [Py.bind].
    match goal with
    | |- context [keyword_density_loop _ _ ks ?a] =>
        destruct (IH a) as (kd & L & Keys & R)
    end.
    { apply DensityFacts.setitem_Forall; [exact F |].
      split; [reflexivity | apply assess_density_cases]. }
    exists kd. split; [exact L |]. split; [| exact R].
    rewrite Keys, ClusteringFacts.setitem_fst. reflexivity.
Qed.

Lemma density_recommendation_loop_length
      (text : string) (kd : list (string * KeywordDensity.t))
      (acc : list string) :
  Forall (recorded text) kd ->
  length (density_recommendation_loop kd acc)
  = (length acc + length (filter not_optimal kd))%nat.
Proof.
  intro F. revert acc. induction F as [| [k d] kd [_ S] F IH]; intro acc;
    cbn [density_recommendation_loop filter]; [cbn; lia |].
  unfold not_optimal at 1. cbn [snd] in *.
  destruct S as [<- | [<- | [<- | []]]];
    cbn [String.eqb Ascii.eqb Bool.eqb negb andb]; rewrite IH;
    unfold Py.append; rewrite ?length_app; cbn [length]; lia.
Qed.

End DensityReportFacts.

(** X22. [calculate_keyword_density] of the metadata optimizer never
    raises, also on a text without words.  It reports one entry per
    distinct keyword, with the occurrences of the lower-cased keyword in
    the lower-cased text and one of three statuses, and one
    recommendation per keyword that is not optimal; when every keyword is
    optimal it reports the single recommendation that the density is
    well-balanced, so that the recommendations are never empty. *)
Theorem density_report_spec (text : string) (target_keywords : list string) :
  exists report,
    MetadataOptimizerDescriptions.calculate_keyword_density
      text target_keywords = Py.Ok report /\
    report.(MetadataOptimizerDescriptions.DensityReport.total_words)
    = length (Py.split (Py.lower text)) /\
    map fst
        report.(MetadataOptimizerDescriptions.DensityReport.keyword_densities)
    = Py.set_of target_keywords /\
    Forall (recorded text)
      report.(MetadataOptimizerDescriptions.DensityReport.keyword_densities) /\
    length
      report.(MetadataOptimizerDescriptions.DensityReport.recommendations)
    = Nat.max 1
        (length
           (filter not_optimal
              report.(MetadataOptimizerDescriptions.DensityReport.keyword_densities))) /\
    (filter not_optimal
       report.(MetadataOptimizerDescriptions.DensityReport.keyword_densities)
     = [] ->
     report.(MetadataOptimizerDescriptions.DensityReport.recommendations)
     = ["Keyword density is well-balanced"]).
Proof.
  unfold MetadataOptimizerDescriptions.calculate_keyword_density. cbv zeta.
  destruct (DensityReportFacts.keyword_density_loop_spec
              text (length (Py.split (Py.lower text))) target_keywords []
              (Forall_nil _)) as (kd & L & Keys & R).
  rewrite L. cbn [Py.bind].
  destruct (DensityReportFacts.percentage_returns
              (MetadataOptimizerDescriptions.total_occurrences kd)
              (length (Py.split (Py.lower text)))) as (p & E).
  rewrite E. cbn [Py.bind Py.ret]. eexists. split; [reflexivity |].
  cbn [MetadataOptimizerDescriptions.DensityReport.total_words
       MetadataOptimizerDescriptions.DensityReport.keyword_densities
       MetadataOptimizerDescriptions.DensityReport.recommendations].
  split; [reflexivity |]. split; [exact Keys |]. split; [exact R |].
  unfold MetadataOptimizerDescriptions._generate_density_recommendations.
  pose proof (DensityReportFacts.density_recommendation_loop_length
                text kd [] R) as N.
  cbn [length Nat.add] in N.
  destruct (MetadataOptimizerDescriptions.density_recommendation_loop kd [])
    as [| r rs]; cbn [length] in N |- *.
  - rewrite <- N. split; [reflexivity |]. intros _. reflexivity.
  - rewrite <- N. split; [lia |]. intro F. rewrite F in N. discriminate N.
Qed.

Module DescriptionFacts.
Import MetadataOptimizerDescriptions.

Lemma density_report_returns (text : string)
      (target_keywords : list string) :
  exists report,
    calculate_keyword_density text target_keywords = Py.Ok report.
Proof.
  unfold calculate_keyword_density. cbv zeta.
  destruct (DensityReportFacts.keyword_density_loop_spec
              text (length (Py.split (Py.lower text))) target_keywords []
              (Forall_nil _)) as (kd & L & _).
  rewrite L. cbn [Py.bind].
  destruct (DensityReportFacts.percentage_returns
              (total_occurrences kd)
              (length (Py.split (Py.lower text)))) as (p & E).
  rewrite E. eexists. reflexivity.
Qed.

Lemma full_description_spec (bullet : ascii) (platform : string)
      (self : MetadataOptimizer.t) (app_info : AppInfo.t)
      (target_keywords : list string) :
  constructed platform self ->
  exists d,
    _optimize_full_description bullet self app_info target_keywords
    = Py.Ok d /\
    (PyText.len d.(FullDescription.full_description) <= 4000)%Z /\
    d.(FullDescription.length)
    = PyText.len d.(FullDescription.full_description) /\
    d.(FullDescription.remaining_chars)
    = (4000 - d.(FullDescription.length))%Z.
Proof.
  intro C. unfold _optimize_full_description.
  assert (M : Py.get (Py.lookup (MetadataOptimizer.limits self) "description")
                (Py.get (Py.lookup (MetadataOptimizer.limits self)
                                   "full_description") 4000%Z) = 4000%Z).
  { destruct (TitleFacts.constructed_cases platform self C)
      as [[-> ->] | [-> ->]]; reflexivity. }
  rewrite M. cbv zeta.
  match goal with
  | |- context [calculate_keyword_density ?t target_keywords] =>
      set (full := t);
      destruct (density_report_returns full target_keywords) as (r & E)
  end.
  rewrite E. cbn [Py.bind Py.ret]. eexists. split; [reflexivity |].
  cbn [FullDescription.full_description FullDescription.length
       FullDescription.remaining_chars].
  split; [| split; reflexivity].
  subst full.
  match goal with
  | |- context [(4000 <? PyText.len ?s)%Z] =>
      destruct (Z.ltb_spec 4000 (PyText.len s)) as [L | L]; [| exact L]
  end.
  rewrite TextFacts.len_app.
  match goal with
  | |- context [PyText.slice_to ?n ?s] =>
      pose proof (TextFacts.len_slice_to n s ltac:(lia))
  end.
  change (PyText.len "...") with 3%Z. lia.
Qed.

End DescriptionFacts.

(** X23. For an optimizer of either platform, [optimize_description]
    returns.  It gives the short description, of at most 80 characters,
    only when asked for short on Google, and the subtitle options, each of
    at most 30 characters, only when asked for subtitle on Apple; any
    other request, also one it does not know, gets the full description,
    which has at most 4000 characters. *)
Theorem description_within_limit
        (bullet : ascii) (platform : string) (self : MetadataOptimizer.t)
        (app_info : MetadataOptimizerDescriptions.AppInfo.t)
        (target_keywords : list string) (description_type : string) :
  constructed platform self ->
  exists d,
    MetadataOptimizerDescriptions.optimize_description
      bullet self app_info target_keywords description_type = Py.Ok d /\
    match d with
    | MetadataOptimizerDescriptions.Short s =>
        description_type = "short" /\ platform = "google" /\
        (PyText.len
           s.(MetadataOptimizerDescriptions.ShortDescription.short_description)
         <= 80)%Z
    | MetadataOptimizerDescriptions.SubtitleOptions s =>
        description_type = "subtitle" /\ platform = "apple" /\
        Forall (fun o => (PyText.len o <= 30)%Z /\ o <> EmptyString)
          s.(MetadataOptimizerDescriptions.Subtitle.subtitle_options)
    | MetadataOptimizerDescriptions.Full f =>
        ~ (description_type = "short" /\ platform = "google") /\
        ~ (description_type = "subtitle" /\ platform = "apple") /\
        (PyText.len
           f.(MetadataOptimizerDescriptions.FullDescription.full_description)
         <= 4000)%Z
    end.
Proof.
  intro C. unfold MetadataOptimizerDescriptions.optimize_description.
  destruct (DescriptionFacts.full_description_spec
              bullet platform self app_info target_keywords C)
    as (f & Ef & Lf & _).
  destruct (TitleFacts.constructed_cases platform self C)
    as [[-> ->] | [-> ->]];
    cbn [MetadataOptimizer.platform apple_optimizer google_optimizer];
    destruct (String.eqb_spec description_type "short") as [S | S];
    destruct (String.eqb_spec description_type "subtitle") as [T | T];
    cbn [andb String.eqb Ascii.eqb Bool.eqb];
    try (exfalso; congruence);
    try (rewrite Ef; cbn [Py.bind Py.ret]; exists
           (MetadataOptimizerDescriptions.Full f);
         split; [reflexivity |];
         split; [intros [? ?]; congruence |];
         split; [intros [? ?]; congruence | exact Lf]).
  - (* subtitle on Apple *)
    unfold MetadataOptimizerDescriptions._optimize_subtitle.
    cbn [MetadataOptimizer.limits apple_optimizer].
    change (Py.getitem _ "subtitle") with (Py.Ok 30%Z).
    cbn [Py.bind Py.ret]. eexists. split; [reflexivity |].
    split; [exact T |]. split; [reflexivity |].
    cbn [MetadataOptimizerDescriptions.Subtitle.subtitle_options].
    apply Forall_forall. intros o H. apply filter_In in H.
    destruct H as [H N]. split.
    + cbn [In] in H. destruct H as [<- | [<- | [<- | []]]];
        apply TextFacts.len_slice_to; lia.
    + intros ->. discriminate N.
  - (* short on Google *)
    unfold MetadataOptimizerDescriptions._optimize_short_description.
    cbn [MetadataOptimizer.limits google_optimizer].
    change (Py.getitem _ "short_description") with (Py.Ok 80%Z).
    cbn [Py.bind Py.ret]. eexists. split; [reflexivity |].
    split; [exact S |]. split; [reflexivity |].
    cbn [MetadataOptimizerDescriptions.ShortDescription.short_description].
    apply TextFacts.len_slice_to. lia.
Qed.

Lemma description_within_limit_witness :
  constructed "google" google_optimizer /\
  exists d,
    MetadataOptimizerDescriptions.optimize_description
      "*" google_optimizer
      {| MetadataOptimizerDescriptions.AppInfo.name := Some "Pennywise";
         MetadataOptimizerDescriptions.AppInfo.key_features :=
           Some ["Budgets"; "Reports"];
         MetadataOptimizerDescriptions.AppInfo.unique_value :=
           Some "Know where every penny goes";
         MetadataOptimizerDescriptions.AppInfo.target_audience := None |}
      ["budget planner"] "short" = Py.Ok d /\
    match d with
    | MetadataOptimizerDescriptions.Short s =>
        (PyText.len
           s.(MetadataOptimizerDescriptions.ShortDescription.short_description)
         <= 80)%Z
    | _ => False
    end.
Proof.
  assert (C : constructed "google" google_optimizer) by reflexivity.
  split; [exact C |].
  destruct (description_within_limit "*" "google" google_optimizer
              {| MetadataOptimizerDescriptions.AppInfo.name := Some "Pennywise";
                 MetadataOptimizerDescriptions.AppInfo.key_features :=
                   Some ["Budgets"; "Reports"];
                 MetadataOptimizerDescriptions.AppInfo.unique_value :=
                   Some "Know where every penny goes";
                 MetadataOptimizerDescriptions.AppInfo.target_audience :=
                   None |}
              ["budget planner"] "short" C) as (d & E & P).
  exists d. split; [exact E |].
  destruct d as [s | s | f]; [apply P | |].
  - destruct P as [P _]. discriminate P.
  - destruct P as [P _]. apply P. split; reflexivity.
Defined.

(** X24. [optimize_app_metadata] checks the platform first and the app
    name second: an unknown platform raises ValueError whatever else is
    given, and a known platform without the key [name] raises KeyError.
    Otherwise it returns a package with the full description; the
    package has an optimized keyword field on Apple and none on Google. *)
Theorem app_metadata_package
        (bullet : ascii) (platform : string)
        (app_info : MetadataOptimizerDescriptions.AppInfo.t)
        (target_keywords : list string) :
  (platform <> "apple" /\ platform <> "google" ->
   MetadataOptimizerDescriptions.optimize_app_metadata
     bullet platform app_info target_keywords
   = Py.Raise (Py.ValueError "Platform must be 'apple' or 'google'")) /\
  (platform = "apple" \/ platform = "google" ->
   app_info.(MetadataOptimizerDescriptions.AppInfo.name) = None ->
   MetadataOptimizerDescriptions.optimize_app_metadata
     bullet platform app_info target_keywords
   = Py.Raise (Py.KeyError "name")) /\
  (platform = "apple" \/ platform = "google" ->
   app_info.(MetadataOptimizerDescriptions.AppInfo.name) <> None ->
   exists package,
     MetadataOptimizerDescriptions.optimize_app_metadata
       bullet platform app_info target_keywords = Py.Ok package /\
     package.(MetadataOptimizerDescriptions.Package.platform) = platform /\
     (exists f,
        package.(MetadataOptimizerDescriptions.Package.description)
        = MetadataOptimizerDescriptions.Full f) /\
     match package.(MetadataOptimizerDescriptions.Package.keyword_field) with
     | Some (MetadataOptimizerMethods.KeywordFieldOk _) => platform = "apple"
     | Some (MetadataOptimizerMethods.KeywordFieldError _) => False
     | None => platform = "google"
     end).
Proof.
  unfold MetadataOptimizerDescriptions.optimize_app_metadata.
  split; [| split].
  - intros [A G]. unfold MetadataOptimizer.__init__, Py.contains.
    cbn [existsb].
    apply String.eqb_neq in A, G. rewrite A, G. reflexivity.
  - intros [-> | ->] N; rewrite N; reflexivity.
  - intros P N.
    destruct (MetadataOptimizerDescriptions.AppInfo.name app_info)
      as [name |] eqn:En; [clear N | contradiction].
    assert (C : exists self, constructed platform self /\
                  MetadataOptimizer.platform self = platform).
    { destruct P as [-> | ->];
        [exists apple_optimizer | exists google_optimizer];
        split; reflexivity. }
    destruct C as (self & C & Ps). unfold constructed in C. rewrite C.
    cbn [Py.bind Py.ret].
    destruct (TitleFacts.constructed_cases platform self C) as [[E ->] | [E ->]];
      subst platform.
    + destruct (TitleFacts.optimize_title_options
                  apple_optimizer name target_keywords true 30 eq_refl
                  ltac:(lia)) as (title & Et & _).
      rewrite Et. cbn [Py.bind].
      destruct (DescriptionFacts.full_description_spec
                  bullet "apple" apple_optimizer app_info target_keywords C)
        as (f & Ef & _).
      unfold MetadataOptimizerDescriptions.optimize_description.
      cbn [String.eqb Ascii.eqb Bool.eqb andb
           MetadataOptimizer.platform apple_optimizer].
      rewrite Ef. cbn [Py.bind Py.ret].
      eexists. split; [reflexivity |].
      cbn [MetadataOptimizerDescriptions.Package.platform
           MetadataOptimizerDescriptions.Package.description
           MetadataOptimizerDescriptions.Package.keyword_field].
      split; [reflexivity |]. split; [exists f; reflexivity | reflexivity].
    + destruct (TitleFacts.optimize_title_options
                  google_optimizer name target_keywords true 50 eq_refl
                  ltac:(lia)) as (title & Et & _).
      rewrite Et. cbn [Py.bind].
      destruct (DescriptionFacts.full_description_spec
                  bullet "google" google_optimizer app_info target_keywords C)
        as (f & Ef & _).
      unfold MetadataOptimizerDescriptions.optimize_description.
      cbn [String.eqb Ascii.eqb Bool.eqb andb
           MetadataOptimizer.platform google_optimizer].
      rewrite Ef. cbn [Py.bind Py.ret].
      eexists. split; [reflexivity |].
      cbn [MetadataOptimizerDescriptions.Package.platform
           MetadataOptimizerDescriptions.Package.description
           MetadataOptimizerDescriptions.Package.keyword_field].
      split; [reflexivity |]. split; [exists f; reflexivity | reflexivity].
Qed.

(* ================================================================== *)
(** * Further properties of the Custom Product Pages *)
(* ================================================================== *)

Module CppFacts.
Import CustomProductPages.

Lemma first_fitting_fits (candidates : list string) (limit : Z)
      (candidate : string) :
  first_fitting candidates limit = Some candidate ->
  In candidate candidates /\ (PyText.len candidate <= limit)%Z.
Proof.
  induction candidates as [| c rest IH]; cbn [first_fitting];
    [discriminate |].
  destruct (Z.leb_spec (PyText.len c) limit) as [L | _].
  - intro H. injection H as <-. split; [left; reflexivity | exact L].
  - intro H. destruct (IH H) as [I L]. split; [right; exact I | exact L].
Qed.

Lemma first_fitting_none (candidates : list string) (limit : Z) :
  Forall (fun c => (limit < PyText.len c)%Z) candidates ->
  first_fitting candidates limit = None.
Proof.
  induction 1 as [| c rest H F IH]; cbn [first_fitting]; [reflexivity |].
  destruct (Z.leb_spec (PyText.len c) limit); [lia | exact IH].
Qed.

(** A variant is a candidate that fits or a slice of the fallback. *)
Lemma variant_fits (candidates : list string) (fallback : string)
      (limit : Z) :
  (0 <= limit)%Z ->
  (PyText.len match first_fitting candidates limit with
              | Some candidate => candidate
              | None => PyText.slice_to limit fallback
              end <= limit)%Z.
Proof.
  intro H. destruct (first_fitting candidates limit) as [c |] eqn:E.
  - apply (first_fitting_fits _ _ _ E).
  - apply TextFacts.len_slice_to, H.
Qed.

Lemma cpp_title_value (segment primary_kw : string) (limit : Z) :
  _generate_cpp_title segment primary_kw limit
  = PyText.slice_to limit (Py.title primary_kw).
Proof.
  unfold _generate_cpp_title. cbv zeta.
  destruct (Z.leb_spec (PyText.len (Py.title primary_kw)) limit) as [L | G].
  - cbn [first_fitting]. apply Z.leb_le in L. rewrite L.
    symmetry. apply TextFacts.slice_to_all. apply Z.leb_le, L.
  - rewrite first_fitting_none; [reflexivity |].
    pose proof (TextFacts.len_nonneg (Py.title segment)).
    repeat (apply Forall_cons;
            [rewrite ?TextFacts.len_app;
             change (PyText.len " App") with 4%Z;
             change (PyText.len "Best ") with 5%Z;
             change (PyText.len " ") with 1%Z; lia |]).
    apply Forall_nil.
Qed.

End CppFacts.

(** X25. The organic title of a Custom Product Page is the title-cased
    primary keyword, cut to the limit: the candidates with App, with Best
    and with the segment are never chosen, and the segment has no part in
    the title. *)
Theorem organic_cpp_title_is_the_keyword
        (segment primary_kw : string) (limit : Z) :
  CustomProductPages._generate_cpp_title segment primary_kw limit
  = PyText.slice_to limit (Py.title primary_kw).
Proof. apply CppFacts.cpp_title_value. Qed.

(** X26. For a limit that is not negative, the four variants of a Custom
    Product Page, the organic and the paid title and subtitle, have at
    most as many characters as the limit. *)
Theorem cpp_variants_within_limit
        (segment primary_kw : string) (keywords : list string) (limit : Z) :
  (0 <= limit)%Z ->
  (PyText.len (CustomProductPages._generate_cpp_title
                 segment primary_kw limit) <= limit)%Z /\
  (PyText.len (CustomProductPages._generate_cpp_title_paid
                 segment primary_kw limit) <= limit)%Z /\
  (PyText.len (CustomProductPages._generate_cpp_subtitle
                 segment keywords limit) <= limit)%Z /\
  (PyText.len (CustomProductPages._generate_cpp_subtitle_paid
                 segment keywords limit) <= limit)%Z.
Proof.
  intro H.
  repeat match goal with |- _ /\ _ => split end;
    apply CppFacts.variant_fits, H.
Qed.

Lemma cpp_variants_within_limit_witness :
  (0 <= 30)%Z /\
  (PyText.len (CustomProductPages._generate_cpp_title_paid
                 "power users" "expense tracker with budgets" 30) <= 30)%Z /\
  (PyText.len (CustomProductPages._generate_cpp_subtitle
                 "power users" ["expense tracker"; "budget planner"] 30)
   <= 30)%Z.
Proof.
  assert (H : (0 <= 30)%Z) by lia.
  split; [exact H |].
  pose proof (cpp_variants_within_limit
                "power users" "expense tracker with budgets"
                ["expense tracker"; "budget planner"] 30 H) as V.
  pose proof (cpp_variants_within_limit
                "power users" "expense tracker"
                ["expense tracker"; "budget planner"] 30 H) as W.
  split; [apply V | apply W].
Defined.

Module DistributionFacts.
Import CustomProductPages.

Lemma getitem_key {A : Type} (d : list (string * A)) (k : string) :
  In k (map fst d) -> exists v, Py.getitem d k = Py.Ok v.
Proof.
  induction d as [| [j w] d IH]; cbn [map fst In Py.getitem]; [tauto |].
  destruct (String.eqb_spec j k) as [-> | N].
  - intros _. exists w. reflexivity.
  - intros [E | H]; [contradiction | apply IH, H].
Qed.

Lemma setitem_same_keys {A : Type} (d : list (string * A)) (k : string)
      (v : A) :
  In k (map fst d) -> map fst (Py.setitem d k v) = map fst d.
Proof.
  intro H. rewrite ClusteringFacts.setitem_fst.
  apply ClusteringFacts.contains_In in H. rewrite H. reflexivity.
Qed.

Lemma extend_returns (d : list (string * list string)) (segment : string)
      (kws : list string) :
  In segment (map fst d) ->
  exists d', extend d segment kws = Py.Ok d' /\ map fst d' = map fst d.
Proof.
  intro H. unfold extend. destruct (getitem_key d segment H) as (old & E).
  rewrite E. cbn [Py.bind Py.ret]. eexists. split; [reflexivity |].
  apply setitem_same_keys, H.
Qed.

Lemma set_add_In (s : list string) (x y : string) :
  In y (Py.set_add s x) <-> In y s \/ y = x.
Proof.
  unfold Py.set_add, Py.append.
  destruct (Py.contains s x) eqn:C.
  - apply ClusteringFacts.contains_In in C. split; [tauto |].
    intros [H | ->]; assumption.
  - rewrite in_app_iff. cbn [In]. split; intros [H | H]; auto.
    + destruct H as [<- | []]. right. reflexivity.
Qed.

Lemma empty_segments_keys (segments : list string) (s : string) :
  In s segments -> In s (map fst (empty_segments segments)).
Proof.
  unfold empty_segments.
  assert (G : forall d : list (string * list string),
             In s (map fst d) \/ In s segments ->
             In s (map fst (fold_left (fun d seg => Py.setitem d seg [])
                                      segments d))).
  { induction segments as [| x xs IH]; intros d H; cbn [fold_left].
    - destruct H as [H | []]. exact H.
    - apply IH. rewrite ClusteringFacts.setitem_fst.
      fold (Py.append (map fst d) x). fold (Py.set_add (map fst d) x).
      rewrite set_add_In. destruct H as [H | [-> | H]]; auto. }
  intro H. apply G. right. exact H.
Qed.

Lemma floormod_returns (a b : Z) :
  b <> 0%Z -> PyText.floormod a b = Py.Ok (a mod b)%Z.
Proof.
  intro H. unfold PyText.floormod. apply Z.eqb_neq in H. rewrite H.
  reflexivity.
Qed.

Lemma round_robin_unclustered_returns
      (n idx : Z) (segment : string) (unclustered : list string) (j : Z)
      (d : list (string * list string)) :
  n <> 0%Z -> In segment (map fst d) ->
  exists d',
    round_robin_unclustered n idx segment j unclustered d = Py.Ok d' /\
    map fst d' = map fst d.
Proof.
  intros N. revert j d. induction unclustered as [| kw rest IH];
    intros j d H; cbn [round_robin_unclustered].
  - exists d. split; reflexivity.
  - rewrite (floormod_returns j n N). cbn [Py.bind].
    destruct (j mod n =? idx)%Z.
    + destruct (extend_returns d segment [kw] H) as (d1 & E & K).
      rewrite E. cbn [Py.bind].
      destruct (IH (j + 1)%Z d1) as (d' & E' & K');
        [rewrite K; exact H |].
      exists d'. split; [exact E' | congruence].
    + cbn [Py.bind Py.ret]. apply IH, H.
Qed.

Lemma assign_groups_returns
      (n : Z) (intent_list : list (string * list string))
      (unclustered : list string) (remaining : list string) (idx : nat)
      (d : list (string * list string)) :
  (remaining = [] \/ n <> 0%Z) ->
  Forall (fun s => In s (map fst d)) remaining ->
  exists d',
    assign_groups n intent_list unclustered idx remaining d = Py.Ok d'.
Proof.
  revert idx d. induction remaining as [| segment rest IH];
    intros idx d N F; cbn [assign_groups].
  - exists d. reflexivity.
  - destruct N as [N | N]; [discriminate |].
    inversion F as [| ? ? Hs Fr]; subst.
    assert (S1 : exists d1,
               match nth_error intent_list idx with
               | Some (_, cluster_kws) => extend d segment cluster_kws
               | None => Py.ret d
               end = Py.Ok d1 /\ map fst d1 = map fst d).
    { destruct (nth_error intent_list idx) as [[i kws] |].
      - apply extend_returns, Hs.
      - exists d. split; reflexivity. }
    destruct S1 as (d1 & E1 & K1). rewrite E1. cbn [Py.bind].
    destruct (round_robin_unclustered_returns
                n (Z.of_nat idx) segment unclustered 0 d1 N)
      as (d2 & E2 & K2); [rewrite K1; exact Hs |].
    rewrite E2. cbn [Py.bind].
    apply IH; [right; exact N |].
    eapply Forall_impl; [| exact Fr]. cbn beta. intros s H.
    rewrite K2, K1. exact H.
Qed.

Lemma round_robin_returns (segments : list string) (keywords : list string)
      (i : Z) (d : list (string * list string)) :
  segments <> [] -> (0 <= i)%Z ->
  Forall (fun s => In s (map fst d)) segments ->
  exists d', round_robin segments i keywords d = Py.Ok d'.
Proof.
  intros N. revert i d. induction keywords as [| kw rest IH];
    intros i d I F; cbn [round_robin].
  - exists d. reflexivity.
  - assert (L : (0 < Z.of_nat (length segments))%Z)
      by (destruct segments; [contradiction | cbn [length]; lia]).
    rewrite floormod_returns by lia. cbn [Py.bind].
    pose proof (Z.mod_pos_bound i (Z.of_nat (length segments)) L) as B.
    assert (K : In (nth (Z.to_nat (i mod Z.of_nat (length segments)))
                        segments EmptyString) (map fst d)).
    { rewrite Forall_forall in F. apply F, nth_In. lia. }
    destruct (extend_returns d _ [kw] K) as (d1 & E & K1).
    rewrite E. cbn [Py.bind]. apply IH; [lia |].
    eapply Forall_impl; [| exact F]. cbn beta. intros s H.
    rewrite K1. exact H.
Qed.

Lemma distribute_returns (segments keywords : list string)
      (keyword_cluster_map : list (string * ClusterInfo.t)) :
  segments <> [] \/ keywords = [] \/ keyword_cluster_map <> [] ->
  exists d,
    _distribute_keywords_to_segments segments keywords keyword_cluster_map
    = Py.Ok d.
Proof.
  intro H. unfold _distribute_keywords_to_segments. cbv zeta.
  assert (F : Forall (fun s => In s (map fst (empty_segments segments)))
                     segments)
    by (apply Forall_forall; intros s Hs; apply empty_segments_keys, Hs).
  destruct keyword_cluster_map as [| e m].
  - destruct H as [H | [-> | H]]; [| | contradiction].
    + apply round_robin_returns; [exact H | lia | exact F].
    + eexists. reflexivity.
  - destruct (group_by_intent (e :: m) keywords [] []) as [groups unclustered].
    apply assign_groups_returns; [| exact F].
    destruct segments; [left; reflexivity | right; cbn [length]; lia].
Qed.

Lemma distribute_raises (k : string) (keywords : list string) :
  _distribute_keywords_to_segments [] (k :: keywords) []
  = Py.Raise Py.ZeroDivisionError.
Proof. reflexivity. Qed.

End DistributionFacts.
Module CppReportFacts.
Import CustomProductPages.

Lemma build_cpp_apple (segment : string) (kws : list string)
      (cpp_type : string) (m : list (string * ClusterInfo.t)) :
  exists cpp,
    _build_cpp_for_segment apple_optimizer segment kws cpp_type m
    = Py.Ok cpp /\
    cpp_fits cpp /\ cpp.(CPP.segment) = segment /\
    cpp.(CPP.cpp_type) = cpp_type.
Proof.
  unfold _build_cpp_for_segment.
  cbn [MetadataOptimizer.limits apple_optimizer].
  change (Py.getitem _ "title") with (Py.Ok 30%Z).
  change (Py.getitem _ "subtitle") with (Py.Ok 30%Z).
  cbn [Py.bind Py.ret].
  destruct (String.eqb cpp_type "organic");
    (eexists; split; [reflexivity |]);
    unfold cpp_fits;
    cbn [CPP.title_limit CPP.subtitle_limit CPP.title_char_count
         CPP.subtitle_char_count CPP.title_variant CPP.subtitle_variant
         CPP.segment CPP.cpp_type];
    repeat match goal with |- _ /\ _ => split end; try reflexivity;
    apply CppFacts.variant_fits; lia.
Qed.

Lemma build_all_apple (d : list (string * list string))
      (m : list (string * ClusterInfo.t)) (segments : list string)
      (organic paid : list CPP.t) :
  Forall cpp_fits organic -> Forall cpp_fits paid ->
  exists organic' paid',
    build_all apple_optimizer d m segments organic paid
    = Py.Ok (organic', paid') /\
    Forall cpp_fits organic' /\ Forall cpp_fits paid' /\
    length organic' = (length organic + length segments)%nat /\
    length paid' = (length paid + length segments)%nat.
Proof.
  revert organic paid. induction segments as [| s rest IH];
    intros organic paid Fo Fp; cbn [build_all].
  - exists organic, paid. split; [reflexivity |].
    cbn [length]. repeat split; try assumption; lia.
  - destruct (build_cpp_apple s (Py.get (Py.lookup d s) []) "organic" m)
      as (o & Eo & Ho & _).
    destruct (build_cpp_apple s (Py.get (Py.lookup d s) []) "paid" m)
      as (p & Ep & Hp & _).
    rewrite Eo. cbn [Py.bind]. rewrite Ep. cbn [Py.bind].
    destruct (IH (Py.append organic o) (Py.append paid p))
      as (organic' & paid' & E & Fo' & Fp' & Lo & Lp).
    + apply Forall_app. split; [exact Fo | constructor; [exact Ho | constructor]].
    + apply Forall_app. split; [exact Fp | constructor; [exact Hp | constructor]].
    + exists organic', paid'. split; [exact E |].
      unfold Py.append in Lo, Lp. rewrite length_app in Lo, Lp.
      cbn [length] in *. repeat split; try assumption; lia.
Qed.

Lemma validate_cpp_loop_errors (cpps : list CPP.t)
      (errors warnings : list string) :
  Forall cpp_fits cpps ->
  fst (validate_cpp_loop cpps errors warnings) = errors.
Proof.
  intro F. revert errors warnings.
  induction F as [| cpp cpps (Tl & Sl & _ & _ & Tc & Sc) F IH];
    intros errors warnings; cbn [validate_cpp_loop]; [reflexivity |].
  cbv zeta. rewrite Tl, Sl.
  destruct (Z.ltb_spec 30 (CPP.title_char_count cpp)); [lia |].
  destruct (Z.ltb_spec 30 (CPP.subtitle_char_count cpp)); [lia |].
  apply IH.
Qed.

Lemma validate_cpp_valid (cpps : list CPP.t) :
  Forall cpp_fits cpps ->
  let v := _validate_cpp_metadata cpps in
  v.(CppValidation.is_valid) = true /\
  v.(CppValidation.error_count) = 0%nat /\
  v.(CppValidation.errors) = [].
Proof.
  intro F. cbv zeta. unfold _validate_cpp_metadata.
  pose proof (validate_cpp_loop_errors cpps [] [] F) as E.
  destruct (validate_cpp_loop cpps [] []) as [errors warnings].
  cbn [fst] in E. subst errors. repeat split.
Qed.

End CppReportFacts.
(** X27. On an Apple optimizer, for at most 35 segments and whenever there
    is a segment to distribute the keywords to, [generate_cpp_metadata]
    returns a report with one organic and one paid page per segment; every
    title and subtitle fits its limit of 30 characters, so the validation
    pass of the report can never fail: it is valid, with no error. *)
Theorem cpp_report_is_always_valid
        (self : MetadataOptimizer.t) (segments keywords : list string)
        (keyword_clusters : option (list CustomProductPages.ClusterDict.t)) :
  constructed "apple" self ->
  (length segments <= 35)%nat ->
  ~ nothing_to_distribute_to segments keywords keyword_clusters ->
  exists report,
    CustomProductPages.generate_cpp_metadata
      self segments keywords keyword_clusters
    = Py.Ok (CustomProductPages.CppOk report) /\
    report.(CustomProductPages.CppReport.total_cpps)
    = (2 * Z.of_nat (length segments))%Z /\
    report.(CustomProductPages.CppReport.remaining_slots)
    = (70 - report.(CustomProductPages.CppReport.total_cpps))%Z /\
    (0 <= report.(CustomProductPages.CppReport.remaining_slots))%Z /\
    length report.(CustomProductPages.CppReport.organic_cpps)
    = length segments /\
    length report.(CustomProductPages.CppReport.paid_cpps)
    = length segments /\
    Forall cpp_fits (report.(CustomProductPages.CppReport.organic_cpps)
                     ++ report.(CustomProductPages.CppReport.paid_cpps)) /\
    let v := report.(CustomProductPages.CppReport.validation) in
    v.(CustomProductPages.CppValidation.is_valid) = true /\
    v.(CustomProductPages.CppValidation.error_count) = 0%nat /\
    v.(CustomProductPages.CppValidation.errors) = [].
Proof.
  intros C L N.
  destruct (TitleFacts.constructed_cases "apple" self C)
    as [[_ ->] | [E _]]; [| discriminate E].
  unfold CustomProductPages.generate_cpp_metadata.
  cbn [MetadataOptimizer.platform apple_optimizer String.eqb Ascii.eqb
       Bool.eqb negb].
  cbv zeta. unfold CustomProductPages.MAX_CPP_COUNT.
  destruct (Z.ltb_spec 70 (Z.of_nat (length segments)
                           + Z.of_nat (length segments))) as [G | _];
    [lia |].
  destruct (DistributionFacts.distribute_returns segments keywords
              (CustomProductPages.build_cluster_map keyword_clusters))
    as (d & Ed).
  { unfold nothing_to_distribute_to in N.
    destruct segments as [| s segments]; [| left; discriminate].
    destruct keywords as [| k keywords]; [right; left; reflexivity |].
    right. right. intro M. apply N.
    split; [reflexivity |]. split; [discriminate | exact M]. }
  rewrite Ed. cbn [Py.bind].
  destruct (CppReportFacts.build_all_apple
              d (CustomProductPages.build_cluster_map keyword_clusters)
              segments [] [] (Forall_nil _) (Forall_nil _))
    as (organic & paid & Eb & Fo & Fp & Lo & Lp).
  rewrite Eb. cbn [Py.bind Py.ret]. eexists. split; [reflexivity |].
  cbn [CustomProductPages.CppReport.total_cpps
       CustomProductPages.CppReport.remaining_slots
       CustomProductPages.CppReport.organic_cpps
       CustomProductPages.CppReport.paid_cpps
       CustomProductPages.CppReport.validation].
  assert (F : Forall cpp_fits (organic ++ paid))
    by (apply Forall_app; split; assumption).
  cbn [length Nat.add] in Lo, Lp.
  repeat match goal with |- _ /\ _ => split end;
    try lia; try assumption;
    apply (CppReportFacts.validate_cpp_valid _ F).
Qed.

Lemma cpp_report_is_always_valid_witness :
  constructed "apple" apple_optimizer /\
  (length ["beginners"; "power users"] <= 35)%nat /\
  ~ nothing_to_distribute_to ["beginners"; "power users"]
      ["budget planner"; "expense tracker"; "savings goals"] None /\
  exists report,
    CustomProductPages.generate_cpp_metadata
      apple_optimizer ["beginners"; "power users"]
      ["budget planner"; "expense tracker"; "savings goals"] None
    = Py.Ok (CustomProductPages.CppOk report) /\
    report.(CustomProductPages.CppReport.total_cpps) = 4%Z /\
    (report.(CustomProductPages.CppReport.validation)).(CustomProductPages.CppValidation.is_valid)
    = true.
Proof.
  assert (C : constructed "apple" apple_optimizer) by reflexivity.
  assert (L : (length ["beginners"; "power users"] <= 35)%nat)
    by (cbn; lia).
  assert (N : ~ nothing_to_distribute_to ["beginners"; "power users"]
                  ["budget planner"; "expense tracker"; "savings goals"] None)
    by (intros [E _]; discriminate E).
  split; [exact C |]. split; [exact L |]. split; [exact N |].
  destruct (cpp_report_is_always_valid apple_optimizer
              ["beginners"; "power users"]
              ["budget planner"; "expense tracker"; "savings goals"] None
              C L N) as (report & E & T & _ & _ & _ & _ & _ & V & _).
  exists report. split; [exact E |]. split; [exact T | exact V].
Defined.

(** X28. What [generate_cpp_metadata] does instead of a report: on a
    Google optimizer it returns the error dict, whatever the segments; on
    an Apple optimizer more than 35 segments raise ValueError, before any
    keyword is looked at; and with no segment, some keyword and no
    clustered keyword it raises ZeroDivisionError, which the docstring
    does not announce. *)
Theorem cpp_generation_errors
        (platform : string) (self : MetadataOptimizer.t)
        (segments keywords : list string)
        (keyword_clusters : option (list CustomProductPages.ClusterDict.t)) :
  constructed platform self ->
  (platform = "google" ->
   CustomProductPages.generate_cpp_metadata
     self segments keywords keyword_clusters
   = Py.Ok (CustomProductPages.CppError
              "Custom Product Pages are only available on Apple App Store"
              "Use Google Play Store Listing Experiments for A/B testing on Google")) /\
  (platform = "apple" -> (35 < length segments)%nat ->
   exists msg,
     CustomProductPages.generate_cpp_metadata
       self segments keywords keyword_clusters
     = Py.Raise (Py.ValueError msg)) /\
  (platform = "apple" ->
   nothing_to_distribute_to segments keywords keyword_clusters ->
   CustomProductPages.generate_cpp_metadata
     self segments keywords keyword_clusters
   = Py.Raise Py.ZeroDivisionError).
Proof.
  intro C.
  destruct (TitleFacts.constructed_cases platform self C)
    as [[-> ->] | [-> ->]];
    (split; [intro P; try discriminate P; reflexivity |]);
    (split; [intros P; try discriminate P | intros P; try discriminate P]).
  - intro L. unfold CustomProductPages.generate_cpp_metadata.
    cbn [MetadataOptimizer.platform apple_optimizer String.eqb Ascii.eqb
         Bool.eqb negb].
    cbv zeta. unfold CustomProductPages.MAX_CPP_COUNT.
    destruct (Z.ltb_spec 70 (Z.of_nat (length segments)
                             + Z.of_nat (length segments))) as [_ | G];
      [| lia].
    eexists. reflexivity.
  - intros (-> & K & M).
    unfold CustomProductPages.generate_cpp_metadata.
    cbn [MetadataOptimizer.platform apple_optimizer String.eqb Ascii.eqb
         Bool.eqb negb length Z.of_nat Z.add Z.ltb Z.compare].
    cbv zeta. rewrite M.
    destruct keywords as [| k keywords]; [contradiction |].
    reflexivity.
Qed.

Lemma cpp_generation_errors_witness :
  constructed "apple" apple_optimizer /\
  nothing_to_distribute_to [] ["budget planner"] None /\
  CustomProductPages.generate_cpp_metadata
    apple_optimizer [] ["budget planner"] None
  = Py.Raise Py.ZeroDivisionError.
Proof.
  assert (C : constructed "apple" apple_optimizer) by reflexivity.
  assert (N : nothing_to_distribute_to [] ["budget planner"] None)
    by (split; [reflexivity | split; [discriminate | reflexivity]]).
  split; [exact C |]. split; [exact N |].
  exact (proj2 (proj2 (cpp_generation_errors "apple" apple_optimizer
                         [] ["budget planner"] None C)) eq_refl N).
Defined.

(* ================================================================== *)
(** * Further properties of the screenshot captions *)
(* ================================================================== *)

Module CaptionFacts.
Import ScreenshotCaptions.

(** No template gives an empty caption. *)
Lemma caption_text_nonempty (templates_used : nat) (kw : string) :
  PyText.format_kw 0
    (nth (templates_used mod List.length _CAPTION_TEMPLATES)
         _CAPTION_TEMPLATES EmptyString) kw
  <> EmptyString.
Proof.
  pose proof (Nat.mod_upper_bound templates_used
                (List.length _CAPTION_TEMPLATES) ltac:(cbn; lia)) as B.
  remember (templates_used mod List.length _CAPTION_TEMPLATES)%nat as m.
  clear Heqm. cbn [_CAPTION_TEMPLATES List.length] in B.
  do 15 (destruct m as [| m];
         [cbn; try discriminate; destruct kw; cbn; discriminate |]).
  lia.
Qed.

Lemma make_caption_returns (complementary : list string)
      (max_caption_length : Z) (kw : string) (templates_used : nat) :
  exists c,
    make_caption complementary max_caption_length kw templates_used
    = Returned c /\
    caption_ok max_caption_length c.
Proof.
  unfold make_caption. cbv zeta.
  pose proof (caption_text_nonempty templates_used (Py.lower kw)) as N.
  destruct (PyText.format_kw 0 _ (Py.lower kw)) as [| c text];
    [contradiction |].
  cbn [capitalize_first].
  unfold short_max_chars, medium_max_chars, long_max_chars.
  set (caption := String (Py.upper_char c) text).
  destruct (Z.leb_spec (PyText.len caption) 40) as [L1 | L1];
    [| destruct (Z.leb_spec (PyText.len caption) 70) as [L2 | L2];
       [| destruct (Z.leb_spec (PyText.len caption) 100) as [L3 | L3]]];
    (eexists; split; [reflexivity |]);
    unfold caption_ok;
    cbn [Caption.char_count Caption.readability Caption.caption];
    cbv zeta; (split; [reflexivity |]).
  - left. auto.
  - right. left. split; [reflexivity | lia].
  - right. right. left. split; [reflexivity | lia].
  - right. right. right. split; [reflexivity |].
    apply TextFacts.len_slice_to.
Qed.

Lemma caption_loop_returns (complementary : list string)
      (num_captions max_caption_length : Z) (todo : list string)
      (captions : list Caption.t) (templates_used : nat) :
  Forall (caption_ok max_caption_length) captions ->
  exists captions',
    caption_loop complementary num_captions max_caption_length todo
                 captions templates_used = Returned captions' /\
    Forall (caption_ok max_caption_length) captions' /\
    (length captions <= length captions'
     <= length captions + length todo)%nat /\
    (Z.of_nat (length captions')
     <= Z.max num_captions (Z.of_nat (length captions)))%Z.
Proof.
  revert captions templates_used.
  induction todo as [| kw rest IH]; intros captions templates_used F;
    cbn [caption_loop].
  - exists captions. split; [reflexivity |]. split; [exact F |].
    cbn [length]. lia.
  - destruct (Z.leb_spec num_captions (Z.of_nat (length captions)))
      as [L | L].
    + exists captions. split; [reflexivity |]. split; [exact F |].
      cbn [length]. lia.
    + destruct (make_caption_returns complementary max_caption_length kw
                                     templates_used) as (c & E & Hc).
      rewrite E.
      destruct (IH (Py.append captions c) (S templates_used))
        as (captions' & E' & F' & Len & Max).
      { apply Forall_app. split; [exact F |].
        constructor; [exact Hc | constructor]. }
      exists captions'. split; [exact E' |]. split; [exact F' |].
      unfold Py.append in Len, Max. rewrite length_app in Len, Max.
      cbn [length] in *. lia.
Qed.

Lemma separate_lengths (used_words keywords : list string)
      (complementary covered : list string) :
  let r := separate used_words keywords complementary covered in
  (length (fst r) + length (snd r)
   = length complementary + length covered + length keywords)%nat.
Proof.
  cbv zeta. revert complementary covered.
  induction keywords as [| kw rest IH]; intros complementary covered;
    cbn [separate fst snd length]; [lia |].
  cbv zeta. destruct (forallb _ _); rewrite IH; unfold Py.append;
    rewrite length_app; cbn [length]; lia.
Qed.

End CaptionFacts.

(** X29. [generate_screenshot_captions] always returns: no template gives
    an empty caption, so the subscript that capitalizes the first letter
    cannot raise IndexError.  It gives at most ten captions and at most
    one per complementary keyword; every input keyword is counted either
    as already in the metadata or as complementary; and each caption has
    the readability of its length, being cut to [max_caption_length] only
    when it has more than 100 characters. *)
Theorem screenshot_captions_report
        (self : MetadataOptimizer.t) (keywords : list string)
        (existing_metadata : ScreenshotCaptions.ExistingMetadata.t)
        (num_captions max_caption_length : Z) :
  exists report,
    ScreenshotCaptions.generate_screenshot_captions
      self keywords existing_metadata num_captions max_caption_length
    = ScreenshotCaptions.Returned report /\
    let coverage := report.(ScreenshotCaptions.CaptionReport.keyword_coverage) in
    report.(ScreenshotCaptions.CaptionReport.caption_count)
    = length report.(ScreenshotCaptions.CaptionReport.captions) /\
    (report.(ScreenshotCaptions.CaptionReport.caption_count) <= 10)%nat /\
    (report.(ScreenshotCaptions.CaptionReport.caption_count)
     <= coverage.(ScreenshotCaptions.Coverage.complementary_available))%nat /\
    coverage.(ScreenshotCaptions.Coverage.total_input_keywords)
    = (coverage.(ScreenshotCaptions.Coverage.already_in_metadata)
       + coverage.(ScreenshotCaptions.Coverage.complementary_available))%nat /\
    Forall (caption_ok max_caption_length)
           report.(ScreenshotCaptions.CaptionReport.captions).
Proof.
  unfold ScreenshotCaptions.generate_screenshot_captions. cbv zeta.
  pose proof (CaptionFacts.separate_lengths
                (ScreenshotCaptions.collect_used_words existing_metadata)
                keywords [] []) as S.
  cbv zeta in S.
  destruct (ScreenshotCaptions.separate _ keywords [] [])
    as [complementary covered].
  cbn [fst snd length Nat.add] in S.
  destruct (CaptionFacts.caption_loop_returns
              complementary (Z.max 5 (Z.min 10 num_captions))
              max_caption_length complementary [] 0 (Forall_nil _))
    as (captions & E & F & Len & Max).
  rewrite E. eexists. split; [reflexivity |].
  cbn [ScreenshotCaptions.CaptionReport.keyword_coverage
       ScreenshotCaptions.CaptionReport.caption_count
       ScreenshotCaptions.CaptionReport.captions
       ScreenshotCaptions.Coverage.complementary_available
       ScreenshotCaptions.Coverage.total_input_keywords
       ScreenshotCaptions.Coverage.already_in_metadata].
  cbn [length Nat.add] in Len, Max.
  repeat match goal with |- _ /\ _ => split end;
    try reflexivity; try assumption; lia.
Qed.

Module RoundRobinFacts.
Import CustomProductPages.

Lemma getitem_lookup {A : Type} (d : list (string * A)) (k : string) (v : A) :
  Py.getitem d k = Py.Ok v <-> Py.lookup d k = Some v.
Proof.
  induction d as [| [j w] d IH]; cbn [Py.getitem Py.lookup].
  - split; discriminate.
  - destruct (String.eqb j k); [| exact IH].
    split; intro H; injection H as <-; reflexivity.
Qed.

Lemma setitem_concat (d : list (string * list string)) (k : string)
      (old kws : list string) :
  Py.lookup d k = Some old ->
  Permutation (concat (map snd (Py.setitem d k (old ++ kws)%list)))
              (concat (map snd d) ++ kws)%list.
Proof.
  induction d as [| [j w] d IH]; cbn [Py.lookup Py.setitem];
    [discriminate |].
  destruct (String.eqb j k).
  - intro H. injection H as ->. cbn [map snd concat].
    rewrite <- !app_assoc. apply Permutation_app_head.
    apply Permutation_app_comm.
  - intro H. cbn [map snd concat]. rewrite <- app_assoc.
    apply Permutation_app_head, IH, H.
Qed.

(** What one [append] to the list of a segment does. *)
Lemma extend_spec (d : list (string * list string)) (segment : string)
      (kws : list string) :
  In segment (map fst d) ->
  exists old d',
    Py.lookup d segment = Some old /\
    extend d segment kws = Py.Ok d' /\
    map fst d' = map fst d /\
    Permutation (concat (map snd d')) (concat (map snd d) ++ kws)%list /\
    Py.lookup d' segment = Some (old ++ kws)%list /\
    (forall s, s <> segment -> Py.lookup d' s = Py.lookup d s).
Proof.
  intro H. destruct (DistributionFacts.getitem_key d segment H) as (old & E).
  exists old. unfold extend. rewrite E. cbn [Py.bind Py.ret].
  apply getitem_lookup in E. eexists. split; [exact E |].
  split; [reflexivity |].
  split; [apply DistributionFacts.setitem_same_keys, H |].
  split; [apply setitem_concat, E |].
  split; [apply ClusteringFacts.lookup_setitem_same |].
  intros s N. apply ClusteringFacts.lookup_setitem_other.
  intro Q. apply N. symmetry. exact Q.
Qed.

Lemma round_robin_spec (segments : list string) (keywords : list string)
      (i : Z) (d : list (string * list string)) :
  segments <> [] -> (0 <= i)%Z ->
  Forall (fun s => In s (map fst d)) segments ->
  exists d',
    round_robin segments i keywords d = Py.Ok d' /\
    map fst d' = map fst d /\
    Permutation (concat (map snd d')) (concat (map snd d) ++ keywords)%list /\
    (forall s old, Py.lookup d s = Some old ->
       exists new, Py.lookup d' s = Some new /\ incl old new) /\
    (forall j kw, nth_error keywords j = Some kw ->
       exists assigned,
         Py.lookup d' (nth (Z.to_nat ((i + Z.of_nat j)
                                      mod Z.of_nat (length segments)))
                           segments EmptyString) = Some assigned /\
         In kw assigned).
Proof.
  intros N. revert i d. induction keywords as [| kw rest IH];
    intros i d I F; cbn [round_robin].
  - exists d. split; [reflexivity |]. split; [reflexivity |].
    split; [rewrite app_nil_r; reflexivity |].
    split.
    + intros s old H. exists old. split; [exact H | apply incl_refl].
    + intros [| j] kw H; discriminate H.
  - assert (L : (0 < Z.of_nat (length segments))%Z)
      by (destruct segments; [contradiction | cbn [length]; lia]).
    rewrite DistributionFacts.floormod_returns by lia. cbn [Py.bind].
    pose proof (Z.mod_pos_bound i (Z.of_nat (length segments)) L) as B.
    set (target := nth (Z.to_nat (i mod Z.of_nat (length segments)))
                       segments EmptyString).
    assert (K : In target (map fst d)).
    { rewrite Forall_forall in F. apply F, nth_In. lia. }
    destruct (extend_spec d target [kw] K)
      as (old & d1 & Eo & E & K1 & P1 & T1 & O1).
    rewrite E. cbn [Py.bind].
    destruct (IH (i + 1)%Z d1) as (d' & E' & K' & P' & M' & A'); [lia | |].
    { eapply Forall_impl; [| exact F]. cbn beta. intros s H.
      rewrite K1. exact H. }
    exists d'. split; [exact E' |]. split; [congruence |].
    split.
    { rewrite P', P1, <- app_assoc. reflexivity. }
    split.
    + intros s prev H.
      destruct (string_dec s target) as [-> | D].
      * rewrite Eo in H. injection H as <-.
        destruct (M' target (old ++ [kw])%list T1) as (new & En & In').
        exists new. split; [exact En |].
        intros x Hx. apply In', in_or_app. left. exact Hx.
      * apply M'. rewrite (O1 s D). exact H.
    + intros [| j] k H.
      * cbn [nth_error] in H. injection H as <-.
        rewrite Z.add_0_r. fold target.
        destruct (M' target (old ++ [kw])%list T1) as (new & En & In').
        exists new. split; [exact En |].
        apply In', in_or_app. right. left. reflexivity.
      * cbn [nth_error] in H. destruct (A' j k H) as (assigned & Ea & Ia).
        exists assigned. split; [| exact Ia].
        replace (i + Z.of_nat (S j))%Z with (i + 1 + Z.of_nat j)%Z by lia.
        exact Ea.
Qed.

Lemma empty_segments_values (segments : list string) :
  Forall (fun e => snd e = []) (empty_segments segments).
Proof.
  unfold empty_segments.
  apply (DensityFacts.assign_values (fun _ : string => @nil string)).
  constructor.
Qed.

Lemma concat_empty (d : list (string * list string)) :
  Forall (fun e => snd e = []) d -> concat (map snd d) = [].
Proof.
  induction 1 as [| [k v] d H F IH]; cbn [map snd concat]; [reflexivity |].
  cbn [snd] in H. subst v. exact IH.
Qed.

End RoundRobinFacts.

(** X30. Without clustered keywords and with at least one segment,
    [_distribute_keywords_to_segments] deals the keywords out in turn:
    the keyword of index i goes to the segment of index i modulo the
    number of segments, every keyword is assigned exactly once, and the
    result has one entry per distinct segment. *)
Theorem keywords_dealt_round_robin (segments keywords : list string) :
  segments <> [] ->
  exists distribution,
    CustomProductPages._distribute_keywords_to_segments segments keywords []
    = Py.Ok distribution /\
    map fst distribution = Py.set_of segments /\
    Permutation (concat (map snd distribution)) keywords /\
    (forall i kw, nth_error keywords i = Some kw ->
       exists assigned,
         Py.lookup distribution
           (nth (i mod length segments) segments EmptyString)
         = Some assigned /\
         In kw assigned).
Proof.
  intro N. unfold CustomProductPages._distribute_keywords_to_segments.
  cbv zeta.
  destruct (RoundRobinFacts.round_robin_spec
              segments keywords 0
              (CustomProductPages.empty_segments segments) N ltac:(lia))
    as (d & E & K & P & _ & A).
  { apply Forall_forall. intros s Hs.
    apply DistributionFacts.empty_segments_keys, Hs. }
  exists d. split; [exact E |]. split.
  { rewrite K. unfold CustomProductPages.empty_segments.
    apply (DensityFacts.assign_keys (fun _ : string => @nil string)). }
  split.
  { rewrite P, (RoundRobinFacts.concat_empty _
                  (RoundRobinFacts.empty_segments_values segments)).
    reflexivity. }
  intros i kw H. destruct (A i kw H) as (assigned & Ea & Ia).
  exists assigned. split; [| exact Ia].
  rewrite Z.add_0_l in Ea.
  assert (L : length segments <> 0%nat)
    by (destruct segments; [contradiction | discriminate]).
  replace (i mod length segments)%nat
    with (Z.to_nat (Z.of_nat i mod Z.of_nat (length segments)));
    [exact Ea |].
  rewrite <- Nat2Z.inj_mod. apply Nat2Z.id.
Qed.

Lemma keywords_dealt_round_robin_witness :
  ["beginners"; "power users"] <> [] /\
  exists distribution,
    CustomProductPages._distribute_keywords_to_segments
      ["beginners"; "power users"]
      ["budget planner"; "expense tracker"; "savings goals"] []
    = Py.Ok distribution /\
    map fst distribution = ["beginners"; "power users"] /\
    Permutation (concat (map snd distribution))
                ["budget planner"; "expense tracker"; "savings goals"].
Proof.
  assert (N : ["beginners"; "power users"] <> []) by discriminate.
  split; [exact N |].
  destruct (keywords_dealt_round_robin
              ["beginners"; "power users"]
              ["budget planner"; "expense tracker"; "savings goals"] N)
    as (d & E & K & P & _).
  exists d. split; [exact E |]. split; [exact K | exact P].
Defined.
